(* ===== verification/_CoqProject ===== *)
-Q . S2P
Prelude.v
Calendar.v
Libc.v
Exception.v
Datetime.v
Zone.v
Dst.v
Column.v
Result.v
Statement.v
Fetch.v
Convert.v
Ieee.v
Overload.v
Cursor.v
Query.v
Echo.v
Connection.v
Lifecycle.v
