(* ===== verification/Prelude.v ===== *)
(** * mysqlpp: a verification development for [src/mysqlpp.hpp]

    [mysqlpp] is a header-only C++ binding over the prepared statements
    of the MySQL C client.  The header, the one file of the sources, has
    five parts:

    - [mysqlpp::exception] (lines 25-45): a [std::runtime_error] whose
      [what()] is ["file:line what"];
    - [mysqlpp::datetime] (lines 47-117): a [MYSQL_TIME] with a
      constructor from the clock ([time], then [localtime]), a
      constructor from text ([sscanf], then [mktime]), [set_time], [c_tm]
      and [str] ([strftime]);
    - [mysqlpp::st_mysql_column] (lines 119-134): one column of a result,
      its buffer and its flags;
    - [mysqlpp::result] (lines 136-210) and [mysqlpp::statement] (lines
      212-249): the fetch engine and the bind engine.  The header holds
      their state, the two [get<T>] templates and the signatures of the
      other members; the bodies of these are in a translation unit that is
      not part of the sources;
    - [mysqlpp::connection] (lines 251-286): the session, with the two
      fields that a pool manager reads and writes.

    A caller prepares a statement on a connection, binds its parameters
    from left to right, and calls [execute] or [query]; [query] gives a
    [result], which is bound to the metadata once and then fetched row by
    row, each column read through [get<T>].  A [datetime] is a parameter
    or a fetched value.

    ** Files

    - [Prelude] (this file): the [int] and [unsigned int] of C++ as [Z]
      ([cast_int], [cast_uint], [checked_int]), the three outcomes of a
      call ([outcome]: a value, a thrown exception, undefined behaviour)
      with the notations of [outcome_scope], C strings, the decimal text
      of a number and its scan, machines with outputs and their
      simulation ([run_machine], section [Simulation]), the tactics
      [by_eval] and [digit_cases], and the rewrite database [outcome].
    - [Calendar]: [struct tm] and the count of days of a date
      ([days_from_civil], [civil_from_days]).
    - [Libc]: the C library as the header calls it: [sscanf] (line 65) and
      [strftime] (line 113) for the directives of the two formats, and
      [mktime] (line 75) and [localtime] (line 52), which read the time
      zone of the process, as the class [CLib] of what the constructors
      rely on, with the instance [utc_clib] for [TZ=UTC]; the rewrite
      database [scan].
    - [Exception]: [mysqlpp::exception].
    - [Datetime]: [mysqlpp::datetime]: [datetime_of_string], [datetime_now],
      [set_time], [c_tm], [str], in a section over any [CLib].
    - [Zone]: the instance [offset_clib] of [CLib] for every time zone at
      a fixed offset from UTC, and the constructor of [datetime] in such
      a zone.
    - [Dst]: the instance [zone_clib] of [CLib] for every time zone that
      is given by the table of its changes of offset ([zone],
      [period_at]), daylight saving time included: [localtime_zone],
      [mktime_zone] with the instants of a local time ([instants]) and
      the choice of glibc for a local time that the zone skips
      ([gap_instant]).
    - [Column]: [st_mysql_column] and its constructor.
    - [Result]: the state of [result] and the templates [get] and
      [get_by_name], over the classes [Lookup] (the two overloads of
      [get_column]) and [Fetchable] (the overloads of [fetch_column]);
      [spec_lookup] is the lookup of the specification.  The class
      [Engine]: the signatures of [bind], [num_rows] and [fetch], which
      the header declares; the class [EnginePrivate]: those of the two
      private members behind [fetch].
    - [Statement]: the state of [statement], the class [Members] of the
      signatures of [param], [execute] and [query], and the members of
      the specification: [param], [get_bind], [execute], and sequences
      of calls ([step], [run]).
    - [Fetch]: [result_bind], [fetch] with its two phases
      ([probe_column], [refetch_column]), [num_rows]; they are the
      instance [server_engine] of [Engine].
    - [Convert]: the conversions [fetch_column_int] and
      [fetch_column_string]; a date and time column holds a [MYSQL_TIME]
      ([datetime_of_buffer]) that [Datetime.str] renders.
    - [Ieee]: the overloads of [fetch_column] for [float] and [double]
      ([fetch_column_float]): the values of IEEE 754 as the [spec_float]
      of the Standard Library, the bits of a FLOAT or DOUBLE column
      ([float_of_bits]), the casts from an integer and between the two
      formats ([float_of_Z], [widen], [narrow]).
    - [Overload]: the overload sets of [param] (lines 218-232) and of
      [fetch_column] (lines 176-190), the ranks of the conversions of an
      argument to their parameters ([const_ref_rank], [ref_rank]) and
      the overload resolution of a call as ISO C++ gives it
      ([resolve]).
    - [Cursor]: the result of the specification as an abstract machine
      ([cursor], [next]), what a caller relies on of an engine as the
      laws [EngineLaws], the abstraction [abs] from an engine with these
      laws, the loop of a caller ([fetch_all]), and the instance
      [server_laws]: the engine of [Fetch] has the laws.
    - [Query]: [query], which joins [Statement] and [Fetch]; the
      instance [spec_members] of [Members].
    - [Echo]: a parameter on the wire ([wire_cell]) and what a caller
      reads back ([reads]), across [Statement], [Query], [Fetch],
      [Result], [Convert] and [Ieee].
    - [Connection]: the state of [connection], its four accessors, the
      arguments of its constructor and their defaults, [connection_new],
      the class [Connector] of the signatures of [ping] and [prepare],
      and the two as the specification describes them.
    - [Lifecycle]: the state machine of section 4.4 of the specification
      ([phase], [event], [transition], with its step as a function,
      [phase_step]), the program of a caller that calls any members of
      the three classes in any order ([client_step], [client_run]), what
      a caller relies on of the members as the laws [MemberLaws], and
      the instance [spec_member_laws]: the members of the specification
      have the laws.

    ** How the model corresponds to the code

    A member function is one definition with the name of the source; the
    object is an argument and, when the function changes it, part of the
    result.  A C++ [int] is a [Z] in [int_min..int_max]: a signed
    operation that leaves the range is [Undefined], a conversion to
    [unsigned int] is modulo [2^32].  [throw] is [Throw].  Storage that
    the code reads before it writes it is an argument of the definition:
    [stack] is the local [std::tm] of lines 64 and 95, [raw] the object
    under construction with the members of [MYSQL_TIME] that the header
    never assigns.  What the server or the client library answers is an
    argument of the operation that receives it, and so is the clock that
    [std::time] reads.  The time zone of the process is the instance of
    [CLib]: a theorem over any [CLib] holds in every zone.

    The definitions of [Exception], [Datetime], [Column], of the two
    templates of [Result], of the accessors of [Connection] and of the
    arguments of its constructor are translations of the header.  The
    members that the header only declares are interfaces: the classes
    [Lookup], [Fetchable], [Engine], [Members] and [Connector] hold their
    signatures, and [EngineLaws] and [MemberLaws] what sections 4.2 to
    4.4 of the specification promise of them.  The theorems of [Cursor]
    and [Lifecycle] are proved against the laws, for any translation
    unit that keeps them; the definitions of [Statement], [Fetch],
    [Query] and [Connection], which follow the specification, are
    instances, and their theorems discharge the laws.

    What is neither the header nor the translation unit behind it is the
    environment, and the development states it as assumptions, which are
    not translations of any line: the C library ([Calendar], [Libc],
    [Zone], [Dst]: [sscanf] and [strftime] after ISO C 7.21.6.2 and
    7.27.3.5, [mktime] and [localtime] as the class [CLib]); the overload
    resolution of ISO C++ and the types of LP64 ([resolve] and the ranks
    in [Overload]); the client library and the server (the record
    [server] of [Fetch], the bytes of integers, of IEEE 754 numbers and
    of [MYSQL_TIME] in [Fetch], [Convert], [Ieee] and [Echo]).  Where ISO
    C leaves a behaviour open the model says which it takes: a number
    that no [int] holds is stored by [%d] as glibc stores it (the value
    of [strtol], cut to 32 bits), and a field outside its range makes
    the characters of [strftime] unspecified ([None]), though a library
    may print some (glibc prints the month 0 as [00]).

    Three definitions are not what a reader of the header may expect.
    [FILE] stands for the expansion of [__FILE__], which is the path
    that the compiler was given: its value is used to evaluate the
    definitions on concrete inputs, and no theorem depends on it.  The
    index of [get] is a [Z] where the header has an [unsigned int]: the
    template hands it to [get_column], which the header only declares.
    [client_step] is the program of a caller, not a member: it calls the
    member that an operation names and records the events of section 4.4
    that the call stands for; it is defined as long as no call is
    undefined or outside the life cycle, and the theorems on it hold of
    the sequences of calls on which it is defined.

    ** What the theorems show

    - [Datetime]: every branch of the constructor from text: the strings
      refused at lines 61, 68 and 77, the inputs on which lines 71-72
      overflow, the value built from an accepted string; the invariant of
      construction (an existing date and time of day); the two round
      trips between [str] and the constructor; [c_tm] and [set_time] are
      inverse and keep the types of the members; [c_tm] is undefined
      exactly on two ranges; the buffer of 32 bytes is enough; the text
      of what the default constructor builds is read back by the
      constructor from text, in every zone; on every value on which
      [c_tm] is defined [str] returns the text of the six fields or, for
      a field outside the ranges of ISO C, unspecified characters.
      Under UTC: every date-time of the years 0 to 9999 is accepted but
      one; days and months out of range are carried, not refused; a
      date-only string leaves the time of day to the storage.  In every
      zone, characters after a date are not looked at, a date whose
      numbers come after white space or without padding is accepted, a
      string with a NUL is measured with the bytes after the NUL and
      read without them, and a year that no [int] holds is read modulo
      [2^32].
    - [Zone]: in every zone at a fixed offset the constructor accepts
      every date-time of the years 0 to 9999 but one, which depends on the
      zone; with no offset the instance is that of UTC.
    - [Dst]: [instants] lists exactly the instants of a local time, so
      that [skipped_zoneb] decides whether a zone skips it; the laws of
      [CLib] hold in every zone whose table is in order; in such a zone
      the constructor accepts the text of a local time that occurs, but
      for the one whose instant is [-1], and for a local time that the
      zone skips it builds another date-time than the text names: at the
      start of daylight saving time, the one that is later by the width
      of the gap.  With an empty table the zone is that of [Zone].
    - [Calendar], [Libc]: the two day counts are inverse bijections; the
      day count grows by one with each day; [utc_clib] satisfies the laws
      of [CLib]; [mktime] under UTC fails in two cases only; [sscanf]
      stores [int]s and returns their count.
    - [Exception]: the text of [what()], and where a NUL cuts it.
    - [Result], [Fetch]: typed access throws exactly on NULL; access by
      name and by ordinal agree, the first column of a name wins, an
      unknown name is an error; [bind()] makes the columns of the
      metadata; a fetch leaves every column holding its whole value;
      [fetch()] is true once per row and false from then on; the
      invariant of the engine.
    - [Convert]: the integer conversions give back what the server sent;
      a date and time is fetched as the text that the constructor of
      [datetime] reads back.
    - [Ieee]: a value of the format comes back from a column of its
      type as it was sent; an integer of at most 24 or 53 bits is cast
      exactly; every [float] is a [double], and the cast back gives the
      [float].
    - [Overload]: a call of [param] selects the overload of the type of
      its argument,
      or [param(const int&)] after a promotion, never an overload that
      could change the value, and is ambiguous for [long] and [unsigned
      long]; [get<T>] is instantiated for the ten types of [fetch_column]
      only; the parameters and conversions of the model are the overloads
      of the header, with their widths and signedness.
    - [Cursor]: refinement, for every engine with the laws and so for
      that of [Fetch]: the calls of [fetch()] are the steps of the cursor
      of the specification, and the columns are its current row; the
      loop of a caller terminates and reads the rows of the server in
      order, after [bind()]; the two private members behind [fetch()]
      differ in nothing that a caller reads.
    - [Statement], [Query]: the invariant of the bind cursor under any
      sequence of calls; [execute] and [query] succeed with all the
      parameters bound, and throw with too few, with one too many, and
      on a second execution without binding again.
    - [Echo]: end to end: a parameter that the server sends back in a
      field of its wire type is read back by [get<T>] at its type as the
      value that was bound.
    - [Connection]: the accessors are independent fields; the defaults of
      the constructor.
    - [Lifecycle]: of the machine, by induction on its runs: an
      execution is sent only after a complete bind cycle, a row arrives
      only between the result set and its end, and nothing follows
      Closed.  Refinement, for any members with the laws: the events of
      a sequence of calls on which [client_run] is defined are a run of
      the machine; [query()] with every parameter bound gives a result
      from which the loop of a caller reads every row.

    ** Bounds and fuel

    [show_digits] recurses on a fuel of [S (log2 n)], which is more than
    the number of decimal digits of [n]: [show_digits_terminates] shows
    that every larger fuel gives the same text.  [fetch_all], the loop of
    a caller, takes a fuel: [fetch_all_rows] shows that one more than the
    number of rows is enough and that less is not.  [scan_digits],
    [skip_space], the scan loop, [fetch_n], [client_run] and the walks
    over the table of a zone are structural.  The theorems on the text
    of a date-time are for the years 0 to 9999, the years whose text
    fits the 19 bytes of line 59 with four digits; [str_fits],
    [str_printable] and [str_datetime_of_string] hold up to [INT_MAX].  [time_t] is 64 bits wide and [long] is 64 bits wide, as
    glibc has them on LP64; the [MYSQL_TIME] of a buffer has the layout
    of LP64, 40 bytes.  The offset of a zone in [Zone] and the offsets of
    the table of a zone in [Dst] are less than a day; the table is in the
    order of its instants ([valid_zone]).  [float] is binary32 and
    [double] is binary64.  The integer types have the widths of LP64,
    [char] is signed, and [int64_t] is [long].

    ** Not modelled

    - [mktime] on a structure whose [tm_isdst] is not negative: the
      header sets it to [-1] before each call (lines 73 and 103), and
      [mktime_zone] is the call with that value.  For a local time that
      occurs twice ISO C leaves the instant to the library; [instant_of]
      takes the earlier one, and the six fields, which are all that the
      header keeps, do not depend on the choice.  Leap seconds and
      locales other than C.
    - The client library and the server: handles are integers, and a
      result set is the list of its rows.  The translation unit that
      defines the declared members is not part of the sources: what is
      proved of it is proved of every definition with the laws.  The
      interfaces hold the members that a caller calls, and the two
      private members behind [fetch].  The constructors of [result] and
      [statement] (lines 139 and 215) are called by [query] and
      [prepare] only, and the private [get_bind] (line 240) by [param]:
      they have definitions after the specification ([result_new],
      [statement_new], [get_bind]) and no law of their own.  The
      destructors (lines 140, 216 and 255) free memory, which the model
      does not have.
    - The text of a floating-point column, and an integer from a column
      that is not an integer: the specification names a decimal
      formatting without the number of digits, and does not name the
      second; what the engine does there is the section variable
      [uncovered], as is the text of a date and time that [str] leaves
      unspecified.  The casts to [float] and [double] round to nearest,
      ties to even, the rounding of the IEEE formats by default; the
      accuracy of a cast that rounds is not stated.
    - A failure of the protocol during a fetch, the FetchError of the
      specification: [bool fetch(bool)] of the model returns a row or the
      end, and the second fetch of a truncated column always delivers
      the bytes.
    - A result set that is streamed: the header does not say whether the
      client library holds the rows, and [num_rows] of [Fetch] counts
      the rows of a result set that it holds; the laws of [Cursor] say
      nothing of [num_rows].
    - An index from names to ordinals: the specification gives [result]
      one, the header has no member for it (lines 202-209), and the
      lookup by name of the model is a scan.
    - Statements that share a connection: the client library decides
      what a call on one does to the results of another, and the header
      holds nothing of it.
    - The use of an object after its destructor: the header has no member
      that records that an object is closed, and [client_step] is
      undefined there.
    - Concurrency: the classes are used by one thread at a time. *)

From Stdlib Require Import ZArith Lia List String Ascii Bool.
Import ListNotations.

#[local] Open Scope string_scope.
#[local] Open Scope Z_scope.

(** ** 32-bit integers *)

Definition int_min : Z := - 2 ^ 31.
Definition int_max : Z := 2 ^ 31 - 1.
Definition uint_max : Z := 2 ^ 32 - 1.

Definition in_int (z : Z) : Prop := int_min <= z <= int_max.
Definition in_uint (z : Z) : Prop := 0 <= z <= uint_max.

Definition in_intb (z : Z) : bool := (int_min <=? z) && (z <=? int_max).

(** [static_cast<unsigned int>(z)]: reduction modulo [2^32]. *)
Definition cast_uint (z : Z) : Z := z mod 2 ^ 32.

(** [static_cast<int>(z)]: the two's-complement reading of the low 32 bits. *)
Definition cast_int (z : Z) : Z := (z + 2 ^ 31) mod 2 ^ 32 - 2 ^ 31.

Lemma in_intb_true z : in_intb z = true <-> in_int z.
Proof. unfold in_intb, in_int. lia. Qed.

Lemma in_intb_false z : in_intb z = false <-> ~ in_int z.
Proof. unfold in_intb, in_int. lia. Qed.

Lemma cast_uint_range z : in_uint (cast_uint z).
Proof. unfold in_uint, cast_uint, uint_max. pose proof (Z.mod_pos_bound z (2 ^ 32)). lia. Qed.

Lemma cast_int_range z : in_int (cast_int z).
Proof.
  unfold in_int, cast_int, int_min, int_max.
  pose proof (Z.mod_pos_bound (z + 2 ^ 31) (2 ^ 32)). lia.
Qed.

Lemma cast_uint_id z : in_uint z -> cast_uint z = z.
Proof. unfold in_uint, cast_uint, uint_max. intros. apply Z.mod_small. lia. Qed.

Lemma cast_int_id z : in_int z -> cast_int z = z.
Proof.
  unfold in_int, cast_int, int_min, int_max. intros.
  rewrite Z.mod_small; lia.
Qed.

Lemma cast_int_uint z : cast_int (cast_uint z) = cast_int z.
Proof.
  unfold cast_int, cast_uint.
  rewrite Zplus_mod_idemp_l. reflexivity.
Qed.

Lemma cast_uint_int z : cast_uint (cast_int z) = cast_uint z.
Proof.
  unfold cast_int, cast_uint.
  rewrite Zminus_mod_idemp_l.
  f_equal. lia.
Qed.

Lemma cast_uint_add_l a b : cast_uint (cast_uint a + b) = cast_uint (a + b).
Proof. unfold cast_uint. apply Zplus_mod_idemp_l. Qed.

(** ** The outcome of a C++ call

    A call returns a value, throws, or has undefined behaviour.  [E] is
    the type of the thrown object. *)

Inductive outcome (E A : Type) : Type :=
| Value (a : A)
| Throw (e : E)
| Undefined.

Arguments Value {E A} a.
Arguments Throw {E A} e.
Arguments Undefined {E A}.

Definition bind {E A B : Type} (c : outcome E A) (k : A -> outcome E B) : outcome E B :=
  match c with
  | Value a => k a
  | Throw e => Throw e
  | Undefined => Undefined
  end.

Declare Scope outcome_scope.
Delimit Scope outcome_scope with outcome.

Notation "x <- c ;; k" := (bind c (fun x => k))
  (at level 62, c at next level, right associativity) : outcome_scope.
Notation "c ;;; k" := (bind c (fun _ => k))
  (at level 62, right associativity) : outcome_scope.

(** [if (cond) throw e;] *)
Definition throw_if {E : Type} (cond : bool) (e : E) : outcome E unit :=
  if cond then Throw e else Value tt.

(** Signed [int] arithmetic: a result outside [int] is undefined. *)
Definition checked_int {E : Type} (z : Z) : outcome E Z :=
  if in_intb z then Value z else Undefined.

Definition int_sub {E : Type} (a b : Z) : outcome E Z := checked_int (a - b).

Definition is_throw {E A : Type} (c : outcome E A) : bool :=
  match c with Throw _ => true | _ => false end.

Lemma bind_value {E A B} (a : A) (k : A -> outcome E B) : bind (Value a) k = k a.
Proof. reflexivity. Qed.

Lemma bind_ret {E A} (c : outcome E A) : bind c Value = c.
Proof. destruct c; reflexivity. Qed.

Lemma bind_assoc {E A B C} (c : outcome E A) (k : A -> outcome E B) (h : B -> outcome E C) :
  bind (bind c k) h = bind c (fun a => bind (k a) h).
Proof. destruct c; reflexivity. Qed.

Lemma bind_value_inv {E A B} (c : outcome E A) (k : A -> outcome E B) b :
  bind c k = Value b -> exists a, c = Value a /\ k a = Value b.
Proof. destruct c; simpl; intros H; try discriminate. eauto. Qed.

Lemma checked_int_value {E} z : in_int z -> @checked_int E z = Value z.
Proof. intros H. unfold checked_int. apply in_intb_true in H. rewrite H. reflexivity. Qed.

Lemma checked_int_undefined {E} z : ~ in_int z -> @checked_int E z = Undefined.
Proof. intros H. unfold checked_int. apply in_intb_false in H. rewrite H. reflexivity. Qed.

Lemma int_sub_value {E} a b : in_int (a - b) -> @int_sub E a b = Value (a - b).
Proof. apply checked_int_value. Qed.

Lemma throw_if_false {E} (e : E) : throw_if false e = Value tt.
Proof. reflexivity. Qed.

Lemma throw_if_true {E} (e : E) : throw_if true e = Throw e.
Proof. reflexivity. Qed.

Create Rewrite HintDb outcome.
#[export] Hint Rewrite @bind_value @bind_ret @throw_if_false @throw_if_true : outcome.
#[export] Hint Rewrite @checked_int_value @int_sub_value using (unfold in_int, int_min, int_max; lia) : outcome.

(** ** Strings *)

Lemma length_append (s t : string) :
  String.length (s ++ t) = (String.length s + String.length t)%nat.
Proof. induction s as [|c s IH]; simpl; [reflexivity | now rewrite IH]. Qed.

Lemma append_assoc (s t u : string) : (s ++ t) ++ u = s ++ (t ++ u).
Proof. induction s as [|c s IH]; simpl; [reflexivity | now rewrite IH]. Qed.

Lemma append_nil_r (s : string) : s ++ "" = s.
Proof. induction s as [|c s IH]; simpl; [reflexivity | now rewrite IH]. Qed.

(** [std::string::c_str()] as a C function reads it: up to the first NUL. *)
Fixpoint c_str (s : string) : string :=
  match s with
  | EmptyString => EmptyString
  | String c rest => if Ascii.eqb c zero then EmptyString else String c (c_str rest)
  end.

(** A string without a NUL character. *)
Fixpoint no_nul (s : string) : bool :=
  match s with
  | EmptyString => true
  | String c rest => negb (Ascii.eqb c zero) && no_nul rest
  end.

Lemma c_str_no_nul s : no_nul s = true -> c_str s = s.
Proof.
  induction s as [|c s IH]; simpl; [reflexivity |].
  destruct (Ascii.eqb c zero); simpl; [discriminate |].
  intros H. now rewrite IH.
Qed.

Lemma no_nul_append s t : no_nul (s ++ t) = no_nul s && no_nul t.
Proof.
  induction s as [|c s IH]; simpl; [reflexivity |].
  now rewrite IH, andb_assoc.
Qed.

Lemma c_str_append s t : no_nul s = true -> c_str (s ++ t) = s ++ c_str t.
Proof.
  induction s as [|c s IH]; simpl; [reflexivity |].
  destruct (Ascii.eqb c zero); simpl; [discriminate |].
  intros H. now rewrite IH.
Qed.

Lemma length_c_str s : (String.length (c_str s) <= String.length s)%nat.
Proof.
  induction s as [|c s IH]; simpl; [lia |].
  destruct (Ascii.eqb c zero); simpl; lia.
Qed.

(** ** Character classes of the C locale *)

Definition code (c : ascii) : Z := Z.of_N (N_of_ascii c).

(** [isdigit] *)
Definition is_digit (c : ascii) : bool := (48 <=? code c) && (code c <=? 57).

(** [isspace]: space, [\t], [\n], [\v], [\f], [\r]. *)
Definition is_space (c : ascii) : bool :=
  (code c =? 32) || ((9 <=? code c) && (code c <=? 13)).

Definition digit_val (c : ascii) : Z := code c - 48.

Definition digit_char (d : Z) : ascii := ascii_of_N (Z.to_N (48 + d)).

Lemma code_digit_char d : 0 <= d <= 9 -> code (digit_char d) = 48 + d.
Proof.
  intros H. unfold code, digit_char.
  rewrite N_ascii_embedding; lia.
Qed.

Lemma is_digit_digit_char d : 0 <= d <= 9 -> is_digit (digit_char d) = true.
Proof. intros H. unfold is_digit. rewrite code_digit_char by lia. lia. Qed.

Lemma digit_val_digit_char d : 0 <= d <= 9 -> digit_val (digit_char d) = d.
Proof. intros H. unfold digit_val. rewrite code_digit_char by lia. lia. Qed.

Lemma is_space_digit_char d : 0 <= d <= 9 -> is_space (digit_char d) = false.
Proof. intros H. unfold is_space. rewrite code_digit_char by lia. lia. Qed.

(** ** Decimal rendering and scanning

    [show_nat n] is the decimal numeral of [n >= 0] without leading zeros;
    [show_Z] adds the sign.  [scan_digits acc s] consumes the longest
    prefix of digits of [s], accumulating its value onto [acc], the way
    [strtol] does. *)

Fixpoint show_digits (fuel : nat) (n : Z) : string :=
  match fuel with
  | O => ""
  | S fuel' =>
      (if n <? 10 then "" else show_digits fuel' (n / 10))
      ++ String (digit_char (n mod 10)) ""
  end.

Definition show_nat (n : Z) : string := show_digits (S (Z.to_nat (Z.log2 n))) n.

Definition show_Z (z : Z) : string :=
  if z <? 0 then String "-" (show_nat (- z)) else show_nat z.

Fixpoint scan_digits (acc : Z) (s : string) : Z * string :=
  match s with
  | String c s' =>
      if is_digit c then scan_digits (acc * 10 + digit_val c) s' else (acc, s)
  | EmptyString => (acc, s)
  end.

Definition starts_with_digit (s : string) : bool :=
  match s with String c _ => is_digit c | EmptyString => false end.

Fixpoint skip_space (s : string) : string :=
  match s with
  | String c s' => if is_space c then skip_space s' else s
  | EmptyString => s
  end.

(** Fuel: any positive fuel above [log2 n] gives the same numeral. *)
Lemma show_digits_fuel f1 : forall f2 n,
  f1 <> O -> f2 <> O ->
  0 <= n < 2 ^ Z.of_nat f1 -> 0 <= n < 2 ^ Z.of_nat f2 ->
  show_digits f1 n = show_digits f2 n.
Proof.
  induction f1 as [|f1 IH]; intros [|f2] n N1 N2 H1 H2; try congruence.
  simpl. destruct (Z.ltb_spec n 10); [reflexivity |]. f_equal.
  rewrite Nat2Z.inj_succ, Z.pow_succ_r in H1, H2 by lia.
  assert (Hq : 1 <= n / 10) by (apply Z.div_le_lower_bound; lia).
  assert (Hb : forall k, n < 2 * 2 ^ Z.of_nat k -> k <> O /\ n / 10 < 2 ^ Z.of_nat k).
  { intros k Hk. split; [intros -> ; simpl in Hk; lia |].
    apply Z.div_lt_upper_bound; lia. }
  destruct (Hb f1) as [? ?]; [lia |]. destruct (Hb f2) as [? ?]; [lia |].
  apply IH; auto; lia.
Qed.

Lemma log2_fuel n : 0 <= n -> 0 <= n < 2 ^ Z.of_nat (S (Z.to_nat (Z.log2 n))).
Proof.
  intros H. split; [assumption |].
  rewrite Nat2Z.inj_succ, Z2Nat.id by apply Z.log2_nonneg.
  destruct (Z.eq_dec n 0) as [-> | Hn]; [reflexivity |].
  apply Z.log2_spec. lia.
Qed.

Lemma show_nat_eq n : 0 <= n ->
  show_nat n = (if n <? 10 then "" else show_nat (n / 10))
               ++ String (digit_char (n mod 10)) "".
Proof.
  intros H. unfold show_nat at 1. simpl.
  destruct (Z.ltb_spec n 10); [reflexivity |]. f_equal.
  pose proof (log2_fuel n H) as Hf.
  rewrite Nat2Z.inj_succ, Z.pow_succ_r in Hf by lia.
  assert (1 <= n / 10) by (apply Z.div_le_lower_bound; lia).
  apply show_digits_fuel; [| lia | | apply log2_fuel; lia].
  - intros E. rewrite E in Hf. simpl in Hf. lia.
  - split; [lia | apply Z.div_lt_upper_bound; lia].
Qed.

Lemma show_nat_small n : 0 <= n < 10 -> show_nat n = String (digit_char n) "".
Proof.
  intros H. rewrite show_nat_eq by lia.
  destruct (Z.ltb_spec n 10); [| lia]. now rewrite Z.mod_small by lia.
Qed.

(** Induction on a numeral: the last digit, then the rest. *)
Lemma decimal_ind (P : Z -> Prop) :
  (forall n, 0 <= n < 10 -> P n) ->
  (forall n, 10 <= n -> P (n / 10) -> P n) ->
  forall n, 0 <= n -> P n.
Proof.
  intros Hsmall Hstep n Hn.
  apply (Z_lt_induction (fun m => 0 <= m -> P m)); [| exact Hn | exact Hn].
  intros m IH Hm. destruct (Z_lt_le_dec m 10) as [Hlt | Hge].
  - apply Hsmall; lia.
  - assert (0 <= m / 10 < m) by (split; [apply Z.div_pos | apply Z.div_lt]; lia).
    apply Hstep; [assumption |]. apply IH; lia.
Qed.

Lemma scan_digits_stop acc s : starts_with_digit s = false -> scan_digits acc s = (acc, s).
Proof. destruct s as [|c s]; simpl; [reflexivity | now intros ->]. Qed.

Lemma scan_digits_digit acc d s : 0 <= d <= 9 ->
  scan_digits acc (String (digit_char d) s) = scan_digits (acc * 10 + d) s.
Proof.
  intros H. simpl. now rewrite is_digit_digit_char, digit_val_digit_char.
Qed.

(** A numeral starts with a digit. *)
Lemma show_nat_head n : 0 <= n ->
  exists d s, 0 <= d <= 9 /\ show_nat n = String (digit_char d) s.
Proof.
  revert n. apply decimal_ind.
  - intros n H. exists n, "". split; [lia | now apply show_nat_small].
  - intros n H (d & s & Hd & E). exists d, (s ++ String (digit_char (n mod 10)) "").
    split; [assumption |]. rewrite show_nat_eq by lia.
    destruct (Z.ltb_spec n 10); [lia |]. now rewrite E.
Qed.

(** Scanning a numeral followed by [rest] accumulates its value. *)
Lemma scan_show_nat n : 0 <= n -> forall acc rest,
  scan_digits acc (show_nat n ++ rest)
  = scan_digits (acc * 10 ^ Z.of_nat (String.length (show_nat n)) + n) rest.
Proof.
  intros Hn. pattern n. apply decimal_ind; [| | exact Hn]; clear n Hn.
  - intros n H acc rest. rewrite show_nat_small by assumption. simpl String.length.
    cbn [append]. rewrite scan_digits_digit by lia. f_equal; lia.
  - intros n H IH acc rest. rewrite show_nat_eq by lia.
    destruct (Z.ltb_spec n 10); [lia |].
    rewrite append_assoc, IH, length_append. cbn [append String.length].
    pose proof (Z.mod_pos_bound n 10 ltac:(lia)).
    rewrite scan_digits_digit by lia. f_equal.
    rewrite Nat.add_1_r, Nat2Z.inj_succ, Z.pow_succ_r by lia.
    pose proof (Z.div_mod n 10 ltac:(lia)). lia.
Qed.

(** The round trip: a numeral followed by a non-digit scans to its value. *)
Lemma scan_show_nat_stop n rest : 0 <= n -> starts_with_digit rest = false ->
  scan_digits 0 (show_nat n ++ rest) = (n, rest).
Proof.
  intros Hn Hr. rewrite scan_show_nat by assumption.
  rewrite scan_digits_stop by assumption. f_equal.
Qed.

(** A numeral below [10^k] has at most [k] digits. *)
Lemma length_show_nat n : 0 <= n -> forall k, (1 <= k)%nat ->
  n < 10 ^ Z.of_nat k -> (String.length (show_nat n) <= k)%nat.
Proof.
  intros Hn. pattern n. apply decimal_ind; [| | exact Hn]; clear n Hn.
  - intros n H k Hk _. rewrite show_nat_small by assumption. simpl. lia.
  - intros n H IH k Hk Hlt. rewrite show_nat_eq by lia.
    destruct (Z.ltb_spec n 10); [lia |]. rewrite length_append. simpl.
    destruct k as [|[|k]]; [lia | simpl in Hlt; lia |].
    rewrite Nat2Z.inj_succ, Z.pow_succ_r in Hlt by lia.
    specialize (IH (S k) ltac:(lia)).
    assert (n / 10 < 10 ^ Z.of_nat (S k)) by (apply Z.div_lt_upper_bound; lia).
    lia.
Qed.

(** Case analysis on a decimal digit. *)
Ltac digit_cases d :=
  let C := fresh "C" in
  assert (C : d = 0 \/ d = 1 \/ d = 2 \/ d = 3 \/ d = 4 \/ d = 5 \/ d = 6 \/
              d = 7 \/ d = 8 \/ d = 9) by lia;
  repeat (destruct C as [C | C]; [subst d | ]); [ .. | subst d].

Lemma no_nul_digit d : 0 <= d <= 9 -> Ascii.eqb (digit_char d) zero = false.
Proof. intros H. digit_cases d; reflexivity. Qed.

Lemma no_nul_show_nat n : 0 <= n -> no_nul (show_nat n) = true.
Proof.
  intros Hn. pattern n. apply decimal_ind; [| | exact Hn]; clear n Hn.
  - intros n H. rewrite show_nat_small by assumption. simpl.
    now rewrite no_nul_digit by lia.
  - intros n H IH. rewrite show_nat_eq by lia.
    destruct (Z.ltb_spec n 10); [lia |].
    rewrite no_nul_append, IH. simpl.
    pose proof (Z.mod_pos_bound n 10 ltac:(lia)).
    now rewrite no_nul_digit by lia.
Qed.

Lemma no_nul_show_Z z : no_nul (show_Z z) = true.
Proof.
  unfold show_Z. destruct (Z.ltb_spec z 0); simpl; apply no_nul_show_nat; lia.
Qed.

(** The numeral of an [int] has at most eleven characters, and at most
    four between -999 and 9999. *)
Lemma length_show_Z_int z : in_int z -> (String.length (show_Z z) <= 11)%nat.
Proof.
  unfold in_int, int_min, int_max, show_Z. intros H.
  destruct (Z.ltb_spec z 0); cbn [String.length].
  - pose proof (length_show_nat (- z) ltac:(lia) 10%nat ltac:(lia) ltac:(lia)). lia.
  - pose proof (length_show_nat z ltac:(lia) 10%nat ltac:(lia) ltac:(lia)). lia.
Qed.

Lemma length_show_Z_year z : -999 <= z <= 9999 -> (String.length (show_Z z) <= 4)%nat.
Proof.
  unfold show_Z. intros H. destruct (Z.ltb_spec z 0); cbn [String.length].
  - pose proof (length_show_nat (- z) ltac:(lia) 3%nat ltac:(lia) ltac:(lia)). lia.
  - pose proof (length_show_nat z ltac:(lia) 4%nat ltac:(lia) ltac:(lia)). lia.
Qed.

(** ** The fuel of the rendering *)

(** The loop that renders a number in decimal ends within the fuel that
    [show_nat] gives it: every fuel above the number of binary digits
    gives the same text, which is not empty and has no more characters
    than the fuel. *)
Theorem show_digits_terminates n fuel :
  0 <= n -> (Z.to_nat (Z.log2 n) < fuel)%nat ->
  show_digits fuel n = show_nat n /\
  (1 <= String.length (show_nat n) <= fuel)%nat.
Proof.
  intros Hn Hf. pose proof (log2_fuel n Hn) as [_ Hlog].
  assert (Hp : n < 2 ^ Z.of_nat fuel).
  { eapply Z.lt_le_trans; [exact Hlog |]. apply Z.pow_le_mono_r; lia. }
  assert (E : show_digits fuel n = show_nat n)
    by (apply show_digits_fuel; try lia; now apply log2_fuel).
  split; [exact E |]. rewrite <- E. assert (H0 : fuel <> O) by lia. clear E Hlog Hf.
  revert n Hn Hp H0. induction fuel as [|fuel IH]; intros n Hn Hp H0; [congruence |].
  cbn [show_digits]. rewrite length_append. cbn [String.length].
  destruct (Z.ltb_spec n 10); [cbn; lia |].
  rewrite Nat2Z.inj_succ, Z.pow_succ_r in Hp by lia.
  assert (Hq : 1 <= n / 10 < 2 ^ Z.of_nat fuel)
    by (split; [apply Z.div_le_lower_bound; lia | apply Z.div_lt_upper_bound; lia]).
  assert (Hf : fuel <> O) by (intros ->; cbn in Hq; lia).
  specialize (IH (n / 10) ltac:(lia) (proj2 Hq) Hf). lia.
Qed.

(** ** Machines with outputs, and their simulation

    A component whose operations are called in sequence is a machine: a
    step returns an output and the next state.  When every step of a
    concrete machine is matched by the step of an abstract one, through an
    abstraction function and under an invariant that the concrete steps
    preserve, every run of the concrete machine is matched by the run of
    the abstract one. *)

Fixpoint run_machine {S O : Type} (step : S -> O * S) (n : nat) (s : S) : list O * S :=
  match n with
  | O => ([], s)
  | Datatypes.S n' =>
      let '(o, s1) := step s in
      let '(os, s2) := run_machine step n' s1 in
      (o :: os, s2)
  end.

Lemma run_machine_S {S O : Type} (step : S -> O * S) n s :
  run_machine step (Datatypes.S n) s
  = (fst (step s) :: fst (run_machine step n (snd (step s))),
     snd (run_machine step n (snd (step s)))).
Proof.
  cbn [run_machine]. destruct (step s) as [o s1]. cbn [fst snd].
  now destruct (run_machine step n s1).
Qed.

Section Simulation.

Variables C A O : Type.
Variable step_c : C -> O * C.
Variable step_a : A -> O * A.
Variable inv : C -> Prop.
Variable abs : C -> A.

Hypothesis inv_step : forall c, inv c -> inv (snd (step_c c)).
Hypothesis sim_step :
  forall c, inv c -> step_a (abs c) = (fst (step_c c), abs (snd (step_c c))).

Lemma run_machine_inv n : forall c, inv c -> inv (snd (run_machine step_c n c)).
Proof.
  induction n as [|n IH]; intros c H; cbn [run_machine]; [exact H |].
  pose proof (inv_step c H) as H1. destruct (step_c c) as [o c1].
  specialize (IH c1 H1). now destruct (run_machine step_c n c1) as [os c2].
Qed.

Lemma run_machine_simulation n : forall c, inv c ->
  run_machine step_a n (abs c)
  = (fst (run_machine step_c n c), abs (snd (run_machine step_c n c))).
Proof.
  induction n as [|n IH]; intros c H; cbn [run_machine]; [reflexivity |].
  rewrite (sim_step c H). pose proof (inv_step c H) as H1.
  destruct (step_c c) as [o c1]. cbn [fst snd] in *. rewrite (IH c1 H1).
  now destruct (run_machine step_c n c1) as [os c2].
Qed.

End Simulation.

(** ** Tactics *)

(** Linear arithmetic with divisions and remainders by constants. *)
Ltac div_lia := Z.div_mod_to_equations; lia.

(** Close a goal about concrete numbers by evaluation. *)
Ltac by_eval :=
  vm_compute;
  first [ reflexivity | discriminate | lia
        | repeat split; (reflexivity || discriminate || lia)
        | intuition congruence ].

Example show_digits_terminates_witness :
  show_digits 40 2147483647 = show_nat 2147483647 /\
  (1 <= String.length (show_nat 2147483647) <= 40)%nat.
Proof. apply show_digits_terminates; by_eval. Defined.
