(* ===== verification/Calendar.v ===== *)
(** * Calendar: [struct tm] and the proleptic Gregorian day count

    [mktime] (called on line 75 of [src/mysqlpp.hpp]) normalises a broken-down
    time by converting it to a count of seconds and back.  This file holds
    the calendar arithmetic of that conversion: the number of days between
    1970-01-01 and a civil date ([days_from_civil]), its inverse
    ([civil_from_days]), and the proofs that they are inverse of each
    other.  Years are counted in eras of 400 years that start on March 1,
    so that the leap day is the last day of a year. *)

From Stdlib Require Import ZArith Lia Bool.
From S2P Require Import Prelude.

#[local] Open Scope Z_scope.

(** ** [struct tm] *)

Record tm : Type := mk_tm {
  tm_sec : Z;
  tm_min : Z;
  tm_hour : Z;
  tm_mday : Z;
  tm_mon : Z;
  tm_year : Z;
  tm_wday : Z;
  tm_yday : Z;
  tm_isdst : Z
}.

(** ** Civil dates *)

Definition is_leap (y : Z) : bool :=
  ((y mod 4 =? 0) && negb (y mod 100 =? 0)) || (y mod 400 =? 0).

(** Days of month [m] (1..12) in year [y]. *)
Definition days_in_month (y m : Z) : Z :=
  if m =? 2 then (if is_leap y then 29 else 28)
  else if (m =? 4) || (m =? 6) || (m =? 9) || (m =? 11) then 30
  else 31.

Definition valid_date (y m d : Z) : Prop :=
  1 <= m <= 12 /\ 1 <= d <= days_in_month y m.

Definition valid_dateb (y m d : Z) : bool :=
  (1 <=? m) && (m <=? 12) && (1 <=? d) && (d <=? days_in_month y m).

(** A time of day. *)
Definition valid_time (H M S : Z) : Prop :=
  0 <= H <= 23 /\ 0 <= M <= 59 /\ 0 <= S <= 59.

(** Months counted from March: March is 0, February is 11. *)
Definition month_to_mp (m : Z) : Z := if 2 <? m then m - 3 else m + 9.
Definition mp_to_month (mp : Z) : Z := if mp <? 10 then mp + 3 else mp - 9.

(** Days from March 1 to the first day of month [mp]. *)
Definition doy_of_mp (mp : Z) : Z := (153 * mp + 2) / 5.

(** Days from the start of a 400-year era to March 1 of its year [yoe]. *)
Definition doe_of_yoe (yoe : Z) : Z := yoe * 365 + yoe / 4 - yoe / 100.

(** The year a date belongs to when years start in March: the civil year,
    or the one before for January and February. *)
Definition march_year (y m : Z) : Z := if m <=? 2 then y - 1 else y.

(** Days from 1970-01-01 to the civil date [y]-[m]-[d]; linear in [d], so
    it is also defined for a day outside its month. *)
Definition days_from_civil (y m d : Z) : Z :=
  let y' := march_year y m in
  let era := y' / 400 in
  let yoe := y' - era * 400 in
  let doy := doy_of_mp (month_to_mp m) + d - 1 in
  let doe := doe_of_yoe yoe + doy in
  era * 146097 + doe - 719468.

(** The civil date that is [z] days after 1970-01-01. *)
Definition civil_from_days (z : Z) : Z * Z * Z :=
  let z' := z + 719468 in
  let era := z' / 146097 in
  let doe := z' - era * 146097 in
  let yoe := (doe - doe / 1460 + doe / 36524 - doe / 146096) / 365 in
  let y := yoe + era * 400 in
  let doy := doe - doe_of_yoe yoe in
  let mp := (5 * doy + 2) / 153 in
  let d := doy - doy_of_mp mp + 1 in
  let m := mp_to_month mp in
  (if m <=? 2 then y + 1 else y, m, d).

(** Day of the week, 0 = Sunday: 1970-01-01 was a Thursday. *)
Definition weekday (z : Z) : Z := (z + 4) mod 7.

(** Day of the year, 0 = January 1. *)
Definition yearday (y m d : Z) : Z := days_from_civil y m d - days_from_civil y 1 1.

(** ** Arithmetic of the era decomposition *)

Lemma valid_dateb_true y m d : valid_dateb y m d = true <-> valid_date y m d.
Proof. unfold valid_dateb, valid_date. lia. Qed.

Lemma days_in_month_range y m : 28 <= days_in_month y m <= 31.
Proof.
  unfold days_in_month.
  destruct (m =? 2); [destruct (is_leap y) |
    destruct ((m =? 4) || (m =? 6) || (m =? 9) || (m =? 11))]; lia.
Qed.

Lemma mp_to_month_to_mp m : 1 <= m <= 12 -> mp_to_month (month_to_mp m) = m.
Proof.
  intros H. unfold mp_to_month, month_to_mp.
  destruct (Z.ltb_spec 2 m);
    [destruct (Z.ltb_spec (m - 3) 10) | destruct (Z.ltb_spec (m + 9) 10)]; lia.
Qed.

Lemma month_to_mp_to_month mp : 0 <= mp <= 11 -> month_to_mp (mp_to_month mp) = mp.
Proof.
  intros H. unfold mp_to_month, month_to_mp.
  destruct (Z.ltb_spec mp 10);
    [destruct (Z.ltb_spec 2 (mp + 3)) | destruct (Z.ltb_spec 2 (mp - 9))]; lia.
Qed.

Lemma month_to_mp_range m : 1 <= m <= 12 -> 0 <= month_to_mp m <= 11.
Proof. intros H. unfold month_to_mp. destruct (Z.ltb_spec 2 m); lia. Qed.

Lemma mp_to_month_range mp : 0 <= mp <= 11 -> 1 <= mp_to_month mp <= 12.
Proof. intros H. unfold mp_to_month. destruct (Z.ltb_spec mp 10); lia. Qed.

(** The era and the day of the era of a day count. *)
Lemma era_of_days era doe : 0 <= doe < 146097 ->
  (era * 146097 + doe) / 146097 = era.
Proof. intros H. div_lia. Qed.

(** The year of the era is recovered from the day of the era.  The last
    day of a year, [doy = 365], exists in leap years only. *)
Lemma yoe_of_doe yoe doy :
  0 <= yoe < 400 -> 0 <= doy <= 365 ->
  (doy = 365 -> yoe mod 4 = 3 /\ (yoe mod 100 <> 99 \/ yoe = 399)) ->
  let doe := doe_of_yoe yoe + doy in
  (doe - doe / 1460 + doe / 36524 - doe / 146096) / 365 = yoe /\ 0 <= doe < 146097.
Proof.
  intros Hy Hd Hl. cbv zeta. unfold doe_of_yoe.
  assert (Hb : 0 <= yoe * 365 + yoe / 4 - yoe / 100 + doy < 146097) by div_lia.
  split; [| exact Hb].
  remember (yoe * 365 + yoe / 4 - yoe / 100 + doy) as doe eqn:E.
  div_lia.
Qed.

(** Conversely the year computed from a day of the era is in range, and
    what remains is a day of that year. *)
Lemma doe_split doe :
  0 <= doe < 146097 ->
  let yoe := (doe - doe / 1460 + doe / 36524 - doe / 146096) / 365 in
  let doy := doe - doe_of_yoe yoe in
  0 <= yoe < 400 /\ 0 <= doy <= 365 /\
  (doy = 365 -> yoe mod 4 = 3 /\ (yoe mod 100 <> 99 \/ yoe = 399)).
Proof.
  intros H. cbv zeta. unfold doe_of_yoe.
  remember ((doe - doe / 1460 + doe / 36524 - doe / 146096) / 365) as yoe eqn:E.
  div_lia.
Qed.

(** ** Months *)

Lemma is_leap_true y :
  is_leap y = true <-> (y mod 4 = 0 /\ y mod 100 <> 0) \/ y mod 400 = 0.
Proof. unfold is_leap. lia. Qed.

(** Case analysis on a month number. *)
Ltac month_cases m H :=
  let C := fresh "C" in
  assert (C : m = 1 \/ m = 2 \/ m = 3 \/ m = 4 \/ m = 5 \/ m = 6 \/ m = 7 \/
              m = 8 \/ m = 9 \/ m = 10 \/ m = 11 \/ m = 12) by lia;
  clear H;
  repeat (destruct C as [C | C]; [subst m | ]); [ .. | subst m].

(** Evaluate the applications of [f] to closed arguments. *)
Ltac eval_closed f :=
  repeat match goal with
         | |- context [f ?k] =>
             let v := eval vm_compute in (f k) in
             progress change (f k) with v
         end.

(** A valid day of a month is a day of the March-based year from which the
    month is recovered; day 365 is February 29. *)
Lemma doy_of_valid y m d : valid_date y m d ->
  let doy := doy_of_mp (month_to_mp m) + d - 1 in
  0 <= doy <= 365 /\ (doy = 365 -> m = 2 /\ is_leap y = true) /\
  (5 * doy + 2) / 153 = month_to_mp m.
Proof.
  intros [Hm Hd]. cbv zeta. revert Hd. unfold days_in_month.
  month_cases m Hm; eval_closed month_to_mp; eval_closed doy_of_mp;
    cbn [Z.eqb Pos.eqb orb]; intros Hd;
    try (destruct (is_leap y)); div_lia.
Qed.

(** Outside February the length of a month is the distance between the
    first days of two months. *)
Lemma days_in_month_mp y mp : 0 <= mp <= 10 ->
  days_in_month y (mp_to_month mp) = doy_of_mp (mp + 1) - doy_of_mp mp.
Proof.
  intros H.
  assert (C : mp = 0 \/ mp = 1 \/ mp = 2 \/ mp = 3 \/ mp = 4 \/ mp = 5 \/ mp = 6 \/
              mp = 7 \/ mp = 8 \/ mp = 9 \/ mp = 10) by lia.
  clear H. repeat (destruct C as [C | C]; [subst mp; reflexivity |]).
  subst mp; reflexivity.
Qed.

(** Conversely a day of the March-based year falls in a month, on a day
    that exists unless it is past the end of February. *)
Lemma doy_split doy : 0 <= doy <= 365 ->
  let mp := (5 * doy + 2) / 153 in
  let d := doy - doy_of_mp mp + 1 in
  0 <= mp <= 11 /\ 1 <= d <= 31 /\
  (mp <> 11 -> forall y, d <= days_in_month y (mp_to_month mp)) /\
  (mp = 11 -> d <= 29 /\ (d = 29 -> doy = 365)).
Proof.
  intros H. cbv zeta.
  remember ((5 * doy + 2) / 153) as mp eqn:E.
  assert (Hmp : 0 <= mp <= 11) by div_lia.
  split; [exact Hmp |]. unfold doy_of_mp. split; [div_lia |]. split; [| div_lia].
  intros Hne y. rewrite days_in_month_mp by lia. unfold doy_of_mp. div_lia.
Qed.

(** ** The two conversions are inverse of each other *)

Lemma march_year_split y m :
  let y' := march_year y m in
  0 <= y' - y' / 400 * 400 < 400 /\ (y' - y' / 400 * 400 + y' / 400 * 400 = y').
Proof. cbv zeta. generalize (march_year y m). intros y'. div_lia. Qed.

(** In February of a leap year the year of the era is one before a leap
    year of the era. *)
Lemma leap_yoe y : is_leap y = true ->
  let yoe := (y - 1) - (y - 1) / 400 * 400 in
  yoe mod 4 = 3 /\ (yoe mod 100 <> 99 \/ yoe = 399).
Proof. intros L. apply is_leap_true in L. cbv zeta. div_lia. Qed.

Lemma yoe_leap era yoe : 0 <= yoe < 400 ->
  yoe mod 4 = 3 /\ (yoe mod 100 <> 99 \/ yoe = 399) ->
  is_leap (yoe + era * 400 + 1) = true.
Proof. intros H L. apply is_leap_true. div_lia. Qed.

(** A valid civil date is recovered from its day count. *)
Lemma civil_from_days_from_civil y m d :
  valid_date y m d -> civil_from_days (days_from_civil y m d) = (y, m, d).
Proof.
  intros V. pose proof (doy_of_valid y m d V) as (Hdoy & Hleap & Hmp).
  destruct V as [Hm Hd]. cbv zeta in Hdoy, Hleap, Hmp.
  unfold days_from_civil, civil_from_days. cbv zeta.
  destruct (march_year_split y m) as [Hyoe Hy]. cbv zeta in Hyoe, Hy.
  set (era := march_year y m / 400) in *.
  set (yoe := march_year y m - era * 400) in *.
  set (doy := doy_of_mp (month_to_mp m) + d - 1) in *.
  assert (Hl : doy = 365 -> yoe mod 4 = 3 /\ (yoe mod 100 <> 99 \/ yoe = 399)).
  { intros E. destruct (Hleap E) as [-> L]. apply (leap_yoe y L). }
  destruct (yoe_of_doe yoe doy Hyoe Hdoy Hl) as [Ey Hdoe]. cbv zeta in Ey, Hdoe.
  replace (era * 146097 + (doe_of_yoe yoe + doy) - 719468 + 719468)
    with (era * 146097 + (doe_of_yoe yoe + doy)) by lia.
  rewrite era_of_days by assumption.
  replace (era * 146097 + (doe_of_yoe yoe + doy) - era * 146097)
    with (doe_of_yoe yoe + doy) by lia.
  rewrite Ey.
  replace (doe_of_yoe yoe + doy - doe_of_yoe yoe) with doy by lia.
  rewrite Hmp, mp_to_month_to_mp by assumption.
  f_equal; [f_equal |]; [| subst doy; lia].
  rewrite Hy. unfold march_year. destruct (m <=? 2); lia.
Qed.

(** The date computed from a day count is a valid date. *)
Lemma civil_from_days_valid z :
  let '(y, m, d) := civil_from_days z in valid_date y m d.
Proof.
  unfold civil_from_days. cbv zeta.
  set (era := (z + 719468) / 146097). set (doe := z + 719468 - era * 146097).
  assert (Hdoe : 0 <= doe < 146097) by (subst doe era; div_lia).
  destruct (doe_split doe Hdoe) as (Hyoe & Hdoy & Hl). cbv zeta in Hyoe, Hdoy, Hl.
  set (yoe := (doe - doe / 1460 + doe / 36524 - doe / 146096) / 365) in *.
  set (doy := doe - doe_of_yoe yoe) in *.
  destruct (doy_split doy Hdoy) as (Hmp & Hd & Hlen & Hfeb). cbv zeta in Hmp, Hd, Hlen, Hfeb.
  set (mp := (5 * doy + 2) / 153) in *.
  split; [apply mp_to_month_range; assumption |]. split; [lia |].
  destruct (Z.eq_dec mp 11) as [E | N]; [| apply Hlen; assumption].
  rewrite E in *. change (mp_to_month 11) with 2. cbn [Z.leb Z.compare Pos.compare Pos.compare_cont].
  unfold days_in_month. cbn [Z.eqb Pos.eqb].
  destruct (Hfeb eq_refl) as [H29 Hlast].
  destruct (Z.eq_dec (doy - doy_of_mp 11 + 1) 29) as [E29 | N29]; [| destruct (is_leap _); lia].
  rewrite (yoe_leap era yoe Hyoe (Hl (Hlast E29))). lia.
Qed.

(** The day count of the date computed from a day count is that count. *)
Lemma days_from_civil_from_days z :
  let '(y, m, d) := civil_from_days z in days_from_civil y m d = z.
Proof.
  unfold civil_from_days. cbv zeta.
  set (era := (z + 719468) / 146097). set (doe := z + 719468 - era * 146097).
  assert (Hdoe : 0 <= doe < 146097) by (subst doe era; div_lia).
  destruct (doe_split doe Hdoe) as (Hyoe & Hdoy & _). cbv zeta in Hyoe, Hdoy.
  set (yoe := (doe - doe / 1460 + doe / 36524 - doe / 146096) / 365) in *.
  set (doy := doe - doe_of_yoe yoe) in *.
  destruct (doy_split doy Hdoy) as (Hmp & _). cbv zeta in Hmp.
  set (mp := (5 * doy + 2) / 153) in *.
  pose proof (mp_to_month_range mp Hmp) as Hm.
  unfold days_from_civil. cbv zeta.
  rewrite month_to_mp_to_month by assumption.
  set (m := mp_to_month mp) in *.
  replace (march_year (if m <=? 2 then yoe + era * 400 + 1 else yoe + era * 400) m)
    with (yoe + era * 400) by (unfold march_year; destruct (m <=? 2); lia).
  replace ((yoe + era * 400) / 400) with era by div_lia.
  replace (yoe + era * 400 - era * 400) with yoe by lia.
  subst doy doe. lia.
Qed.

(** The year of a day count is of the size of the count divided by 365. *)
Lemma civil_from_days_year z :
  - 2 ^ 36 <= z <= 2 ^ 36 ->
  - 2 ^ 30 <= fst (fst (civil_from_days z)) <= 2 ^ 30.
Proof.
  intros H. unfold civil_from_days. cbv zeta.
  set (era := (z + 719468) / 146097). set (doe := z + 719468 - era * 146097).
  assert (Hdoe : 0 <= doe < 146097) by (subst doe era; div_lia).
  destruct (doe_split doe Hdoe) as (Hyoe & _). cbv zeta in Hyoe.
  set (yoe := (doe - doe / 1460 + doe / 36524 - doe / 146096) / 365) in *.
  cbn [fst]. assert (- 2 ^ 20 <= era <= 2 ^ 20) by (subst era; div_lia).
  destruct (_ <=? 2); lia.
Qed.

(** ** The day count on existing dates *)

(** The date of a day count is the one existing date that has this day
    count: [civil_from_days] and [days_from_civil] are inverse bijections
    between the integers and the dates of the calendar. *)
Theorem civil_from_days_spec z y m d :
  civil_from_days z = (y, m, d) <-> valid_date y m d /\ days_from_civil y m d = z.
Proof.
  split.
  - intros E. pose proof (civil_from_days_valid z) as V.
    pose proof (days_from_civil_from_days z) as R. rewrite E in V, R. now split.
  - intros [V <-]. now apply civil_from_days_from_civil.
Qed.

(** Two existing dates with the same day count are the same date: the
    normalisation that [mktime] does through the day count never merges
    two dates of the calendar. *)
Theorem days_from_civil_inj y m d y' m' d' :
  valid_date y m d -> valid_date y' m' d' ->
  days_from_civil y m d = days_from_civil y' m' d' ->
  (y, m, d) = (y', m', d').
Proof.
  intros V V' E. rewrite <- (civil_from_days_from_civil y m d V), E.
  now apply civil_from_days_from_civil.
Qed.

(** Days from the start of the eras to March 1 of the year [y']. *)
Definition march_start (y' : Z) : Z :=
  let era := y' / 400 in era * 146097 + doe_of_yoe (y' - era * 400).

Lemma days_from_civil_march y m d :
  days_from_civil y m d
  = march_start (march_year y m) + doy_of_mp (month_to_mp m) + d - 1 - 719468.
Proof. unfold days_from_civil, march_start. lia. Qed.

Lemma is_leap_false y :
  is_leap y = false <-> (y mod 4 <> 0 \/ y mod 100 = 0) /\ y mod 400 <> 0.
Proof. unfold is_leap. lia. Qed.

(** From March 1 to March 1 there are 365 days, and one more when the
    February in between has 29. *)
Lemma march_start_next y :
  march_start y = march_start (y - 1) + (if is_leap y then 366 else 365).
Proof.
  destruct (is_leap y) eqn:L;
    [apply is_leap_true in L | apply is_leap_false in L];
    unfold march_start, doe_of_yoe; cbv zeta; div_lia.
Qed.

(** Decide the tests of the goal that are closed. *)
Ltac eval_tests :=
  repeat match goal with
         | |- context [if ?b then _ else _] =>
             let v := eval vm_compute in b in
             match v with
             | true => change b with true
             | false => change b with false
             end; cbv iota
         end.

(** The day after the last day of a month is the first of the next. *)
Lemma days_from_civil_month_end y m : 1 <= m <= 12 ->
  days_from_civil y m (days_in_month y m) + 1
  = if m <? 12 then days_from_civil y (m + 1) 1 else days_from_civil (y + 1) 1 1.
Proof.
  intros Hm. rewrite !days_from_civil_march. unfold days_in_month, march_year.
  month_cases m Hm; eval_tests; eval_closed month_to_mp; eval_closed doy_of_mp;
    rewrite ?Z.add_simpl_r; try lia.
  rewrite (march_start_next y). destruct (is_leap y); lia.
Qed.

(** The day count grows by one from a day to the next day of the calendar:
    the next of its month, the first of the next month after the last day
    of a month, January 1 after December 31. *)
Theorem days_from_civil_next y m d :
  valid_date y m d ->
  days_from_civil y m d + 1
  = if d <? days_in_month y m then days_from_civil y m (d + 1)
    else if m <? 12 then days_from_civil y (m + 1) 1
    else days_from_civil (y + 1) 1 1.
Proof.
  intros [Hm Hd]. destruct (Z.ltb_spec d (days_in_month y m)) as [Hlt | Hge].
  - unfold days_from_civil. lia.
  - replace d with (days_in_month y m) by lia. now apply days_from_civil_month_end.
Qed.

Example days_from_civil_inj_witness :
  (2021, 3, 2) = (2021, 3, 2).
Proof.
  exact (days_from_civil_inj 2021 3 2 2021 3 2 ltac:(by_eval) ltac:(by_eval) eq_refl).
Defined.

Example days_from_civil_next_witness :
  days_from_civil 2020 2 29 + 1 = days_from_civil 2020 3 1.
Proof. exact (days_from_civil_next 2020 2 29 ltac:(by_eval)). Defined.
