(* ===== verification/Libc.v ===== *)
(** * Libc: the C library as [src/mysqlpp.hpp] calls it

    The header calls five functions of the C library:
    - [std::sscanf] with the format ["%d-%d-%d %d:%d:%d"] (line 65);
    - [std::mktime] (line 75);
    - [std::time] and [std::localtime] (lines 51 and 52);
    - [std::strftime] with the format ["%Y-%m-%d %H:%M:%S"] (line 113).

    [sscanf] and [strftime] are modelled for the directives these formats
    use, after ISO C 7.21.6.2 and 7.27.3.5 (the out-of-range conversion of
    [%d] as glibc does it: [strtol] saturates at [long], the store truncates
    to [int]).  [mktime] and [localtime] depend on the time zone of the process,
    so the header's code is verified against a class, [CLib], that states
    what it relies on; [utc_clib] is the instance for [TZ=UTC].  The clock
    that [std::time] reads is an argument of the constructor that calls
    it. *)

From Stdlib Require Import ZArith Lia List String Ascii Bool Morphisms Setoid.
From S2P Require Import Prelude Calendar.
Import ListNotations.

#[local] Open Scope string_scope.
#[local] Open Scope Z_scope.

(** ** [sscanf] *)

(** The directives of a [scanf] format: a conversion [%d], white space, or
    an ordinary character. *)
Inductive directive : Type :=
| DInt
| DSpace
| DLit (c : ascii).

(** Reading a format string; [None] on a conversion other than [%d]. *)
Fixpoint parse_format (fmt : string) : option (list directive) :=
  match fmt with
  | EmptyString => Some []
  | String "%" (String "d" rest) => option_map (cons DInt) (parse_format rest)
  | String "%" _ => None
  | String c rest =>
      option_map (cons (if is_space c then DSpace else DLit c)) (parse_format rest)
  end.

(** What one directive does to the input. *)
Inductive scan_result : Type :=
| Stored (v : Z) (rest : string)
| Skipped (rest : string)
| MatchFailure
| InputFailure.

Definition long_min : Z := - 2 ^ 63.
Definition long_max : Z := 2 ^ 63 - 1.

(** [strtol]'s saturation. *)
Definition clamp_long (z : Z) : Z := Z.max long_min (Z.min long_max z).

(** [%d]: skip white space, read an optional sign and a non-empty run of
    digits; the value is stored in an [int]. *)
Definition scan_int (s : string) : scan_result :=
  match skip_space s with
  | EmptyString => InputFailure
  | String c r as s1 =>
      let '(neg, s2) :=
        if Ascii.eqb c "-" then (true, r)
        else if Ascii.eqb c "+" then (false, r)
        else (false, s1) in
      if starts_with_digit s2 then
        let '(n, rest) := scan_digits 0 s2 in
        Stored (cast_int (clamp_long (if neg then - n else n))) rest
      else MatchFailure
  end.

(** An ordinary character matches itself; the end of the input is an input
    failure. *)
Definition scan_lit (c : ascii) (s : string) : scan_result :=
  match s with
  | EmptyString => InputFailure
  | String c' rest => if Ascii.eqb c c' then Skipped rest else MatchFailure
  end.

Definition scan_directive (d : directive) (s : string) : scan_result :=
  match d with
  | DInt => scan_int s
  | DSpace => Skipped (skip_space s)
  | DLit c => scan_lit c s
  end.

(** The values stored so far, in order, and whether the scan ended on an
    input failure. *)
Fixpoint scan_loop (fmt : list directive) (s : string) (stored : list Z) : list Z * bool :=
  match fmt with
  | [] => (stored, false)
  | d :: fmt' =>
      match scan_directive d s with
      | Stored v rest => scan_loop fmt' rest (stored ++ [v])%list
      | Skipped rest => scan_loop fmt' rest stored
      | MatchFailure => (stored, false)
      | InputFailure => (stored, true)
      end
  end.

Definition EOF : Z := -1.

(** [sscanf(s, fmt, ...)]: the return value and the values stored through
    the pointer arguments, in order.  The return value is the number of
    stores, or [EOF] on an input failure before the first store. *)
Definition sscanf (s : string) (fmt : list directive) : Z * list Z :=
  let '(stored, input_failure) := scan_loop fmt s [] in
  (if input_failure && (Nat.eqb (List.length stored) 0) then EOF
   else Z.of_nat (List.length stored),
   stored).

(** ** [strftime] *)

(** The conversions of the format of line 113. *)
Inductive conversion : Type :=
| CYear      (* %Y *)
| CMonth     (* %m *)
| CDay       (* %d *)
| CHour      (* %H *)
| CMinute    (* %M *)
| CSecond    (* %S *)
| CChar (c : ascii).

Definition conversion_of (c : ascii) : option conversion :=
  if Ascii.eqb c "Y" then Some CYear
  else if Ascii.eqb c "m" then Some CMonth
  else if Ascii.eqb c "d" then Some CDay
  else if Ascii.eqb c "H" then Some CHour
  else if Ascii.eqb c "M" then Some CMinute
  else if Ascii.eqb c "S" then Some CSecond
  else None.

Fixpoint parse_time_format (fmt : string) : option (list conversion) :=
  match fmt with
  | EmptyString => Some []
  | String "%" (String c rest) =>
      match conversion_of c, parse_time_format rest with
      | Some cv, Some l => Some (cv :: l)
      | _, _ => None
      end
  | String "%" EmptyString => None
  | String c rest => option_map (cons (CChar c)) (parse_time_format rest)
  end.

(** A number of two digits, padded with a zero. *)
Definition pad2 (n : Z) : string :=
  if n <? 10 then String "0" (show_nat n) else show_nat n.

(** A field in its normal range prints as two digits; outside it the
    characters stored are unspecified ([None]): ISO C 7.27.3.5 describes
    the conversions for the ranges of 7.27.1 only.  A library may print
    something there (glibc prints the month 0 as [00]); no theorem
    relies on what. *)
Definition two_digits (lo hi n : Z) : option string :=
  if (lo <=? n) && (n <=? hi) then Some (pad2 n) else None.

Definition render (t : tm) (c : conversion) : option string :=
  match c with
  | CYear => Some (show_Z (tm_year t + 1900))
  | CMonth => two_digits 1 12 (tm_mon t + 1)
  | CDay => two_digits 1 31 (tm_mday t)
  | CHour => two_digits 0 23 (tm_hour t)
  | CMinute => two_digits 0 59 (tm_min t)
  | CSecond => two_digits 0 60 (tm_sec t)
  | CChar c => Some (String c "")
  end.

Fixpoint render_all (t : tm) (fmt : list conversion) : option string :=
  match fmt with
  | [] => Some ""
  | c :: fmt' =>
      match render t c, render_all t fmt' with
      | Some s, Some rest => Some (s ++ rest)
      | _, _ => None
      end
  end.

(** [strftime(buf, max, fmt, &t)] followed by reading [buf] as a string:
    the characters stored, or [None] when they are unspecified: a field
    outside its range, or a result that does not fit [max] bytes with its
    terminator. *)
Definition strftime (max : Z) (fmt : list conversion) (t : tm) : option string :=
  match render_all t fmt with
  | Some s => if Z.of_nat (String.length s) <? max then Some s else None
  | None => None
  end.

(** ** [mktime] *)

(** A broken-down time whose fields are in their calendar ranges. *)
Definition normal_tm (t : tm) : Prop :=
  0 <= tm_sec t <= 59 /\ 0 <= tm_min t <= 59 /\ 0 <= tm_hour t <= 23 /\
  0 <= tm_mon t <= 11 /\
  1 <= tm_mday t <= days_in_month (tm_year t + 1900) (tm_mon t + 1) /\
  in_int (tm_year t).

Definition normal_tmb (t : tm) : bool :=
  (0 <=? tm_sec t) && (tm_sec t <=? 59) && (0 <=? tm_min t) && (tm_min t <=? 59) &&
  (0 <=? tm_hour t) && (tm_hour t <=? 23) && (0 <=? tm_mon t) && (tm_mon t <=? 11) &&
  (1 <=? tm_mday t) && (tm_mday t <=? days_in_month (tm_year t + 1900) (tm_mon t + 1)) &&
  in_intb (tm_year t).

(** Two broken-down times that agree on the six fields of a date-time. *)
Definition same_time (t u : tm) : Prop :=
  tm_sec t = tm_sec u /\ tm_min t = tm_min u /\ tm_hour t = tm_hour u /\
  tm_mday t = tm_mday u /\ tm_mon t = tm_mon u /\ tm_year t = tm_year u.

#[export] Instance same_time_equivalence : Equivalence same_time.
Proof.
  unfold same_time. split; [intros t | intros t u | intros t u v]; intuition congruence.
Qed.

(** What the header relies on.  [mktime t] is the normalised structure and
    the returned [time_t]: when the call does not return [-1] the
    structure is calendar-normal, and a structure that is already normal
    keeps its six fields, unless the zone has no instant with that local
    time ([skipped]: the clocks were set forward over it).  The call reads
    the six fields of a date-time and [tm_isdst] only (ISO C 7.27.2.3: the
    original [tm_wday] and [tm_yday] are ignored).  [localtime s] is the
    structure behind the pointer that the call returns, [None] for a null
    pointer; a local time that it returns is one that the zone has. *)
Class CLib : Type := {
  mktime : tm -> tm * Z;
  localtime : Z -> option tm;
  skipped : tm -> Prop;
  mktime_normal : forall t, snd (mktime t) <> -1 -> normal_tm (fst (mktime t));
  mktime_fixed : forall t, normal_tm t -> ~ skipped t -> snd (mktime t) <> -1 ->
                           same_time (fst (mktime t)) t;
  mktime_reads : forall t u, same_time t u -> tm_isdst t = tm_isdst u ->
                             snd (mktime t) = snd (mktime u) /\
                             (snd (mktime t) <> -1 -> fst (mktime t) = fst (mktime u));
  skipped_reads : forall t u, same_time t u -> skipped t -> skipped u;
  localtime_normal : forall s t, localtime s = Some t -> normal_tm t /\ ~ skipped t
}.

(** *** The instance for [TZ=UTC] *)

(** Seconds since the epoch of a broken-down time, whatever its fields
    ([timegm]): months beyond a year carry into the year, days beyond a
    month into the day count, and so on. *)
Definition secs_of_tm (t : tm) : Z :=
  let y := tm_year t + 1900 + tm_mon t / 12 in
  let m := tm_mon t mod 12 + 1 in
  (days_from_civil y m 1 + (tm_mday t - 1)) * 86400
  + tm_hour t * 3600 + tm_min t * 60 + tm_sec t.

(** The broken-down time of a count of seconds ([gmtime]). *)
Definition tm_of_secs (s : Z) : tm :=
  let days := s / 86400 in
  let rem := s mod 86400 in
  let '(y, m, d) := civil_from_days days in
  {| tm_sec := rem mod 60;
     tm_min := rem / 60 mod 60;
     tm_hour := rem / 3600;
     tm_mday := d;
     tm_mon := m - 1;
     tm_year := y - 1900;
     tm_wday := weekday days;
     tm_yday := yearday y m d;
     tm_isdst := 0 |}.

Definition in_long (z : Z) : Prop := long_min <= z <= long_max.
Definition in_longb (z : Z) : bool := (long_min <=? z) && (z <=? long_max).

(** [mktime] under [TZ=UTC]: the count of seconds and the structure
    rebuilt from it; [-1] with the structure unchanged when the year does
    not fit an [int] or the count a [time_t]. *)
Definition mktime_utc (t : tm) : tm * Z :=
  let s := secs_of_tm t in
  let t' := tm_of_secs s in
  if in_intb (tm_year t') && in_longb s then (t', s) else (t, -1).

(** [localtime] under [TZ=UTC] ([gmtime]): a null pointer when the year
    does not fit [tm_year]. *)
Definition localtime_utc (s : Z) : option tm :=
  let t := tm_of_secs s in
  if in_intb (tm_year t) then Some t else None.

(** ** The laws of [CLib] hold under UTC *)

Lemma normal_tmb_true t : normal_tmb t = true <-> normal_tm t.
Proof.
  unfold normal_tmb, normal_tm. rewrite !andb_true_iff, in_intb_true, !Z.leb_le.
  tauto.
Qed.

Lemma days_from_civil_linear y m d :
  days_from_civil y m 1 + (d - 1) = days_from_civil y m d.
Proof. unfold days_from_civil. lia. Qed.

(** The time of day of a count of seconds is in range. *)
Lemma time_of_day_range s :
  let rem := s mod 86400 in
  0 <= rem mod 60 <= 59 /\ 0 <= rem / 60 mod 60 <= 59 /\ 0 <= rem / 3600 <= 23.
Proof. cbv zeta. div_lia. Qed.

(** A time of day in range is recovered from the count of seconds. *)
Lemma time_of_day_inv days h mi sec :
  0 <= h <= 23 -> 0 <= mi <= 59 -> 0 <= sec <= 59 ->
  let s := days * 86400 + h * 3600 + mi * 60 + sec in
  s / 86400 = days /\ (s mod 86400) mod 60 = sec /\
  (s mod 86400) / 60 mod 60 = mi /\ (s mod 86400) / 3600 = h.
Proof. intros Hh Hm Hs. cbv zeta. div_lia. Qed.

(** [gmtime] yields calendar-normal fields. *)
Lemma tm_of_secs_normal s : in_int (tm_year (tm_of_secs s)) -> normal_tm (tm_of_secs s).
Proof.
  unfold tm_of_secs, normal_tm. cbv zeta.
  pose proof (civil_from_days_valid (s / 86400)) as V.
  pose proof (time_of_day_range s) as R. cbv zeta in R.
  destruct (civil_from_days (s / 86400)) as [[y m] d]. cbn [tm_sec tm_min tm_hour tm_mday tm_mon tm_year].
  destruct V as [Hm Hd]. intros Hy.
  replace (y - 1900 + 1900) with y by lia. replace (m - 1 + 1) with m by lia.
  repeat split; try lia; apply Hy.
Qed.

(** [gmtime] after [timegm] keeps the six fields of a normal structure. *)
Lemma tm_of_secs_of_tm t : normal_tm t -> same_time (tm_of_secs (secs_of_tm t)) t.
Proof.
  intros (Hs & Hmi & Hh & Hmo & Hd & Hy).
  unfold secs_of_tm, tm_of_secs. cbv zeta.
  replace (tm_mon t / 12) with 0 by div_lia.
  replace (tm_mon t mod 12) with (tm_mon t) by div_lia.
  rewrite days_from_civil_linear, Z.add_0_r.
  destruct (time_of_day_inv (days_from_civil (tm_year t + 1900) (tm_mon t + 1) (tm_mday t))
              (tm_hour t) (tm_min t) (tm_sec t) Hh Hmi Hs) as (Ed & Es & Em & Eh).
  cbv zeta in Ed, Es, Em, Eh. rewrite Ed, Es, Em, Eh.
  rewrite civil_from_days_from_civil by (split; lia).
  unfold same_time. cbn [tm_sec tm_min tm_hour tm_mday tm_mon tm_year].
  repeat split; lia.
Qed.

(** Two normal structures with the same count of seconds have the same
    six fields. *)
Lemma secs_of_tm_inj t u :
  normal_tm t -> normal_tm u -> secs_of_tm t = secs_of_tm u -> same_time t u.
Proof.
  intros Nt Nu E. pose proof (tm_of_secs_of_tm t Nt) as Ht.
  pose proof (tm_of_secs_of_tm u Nu) as Hu. rewrite E in Ht.
  unfold same_time in *. intuition congruence.
Qed.

Lemma mktime_utc_ok t : snd (mktime_utc t) <> -1 ->
  mktime_utc t = (tm_of_secs (secs_of_tm t), secs_of_tm t) /\
  in_int (tm_year (tm_of_secs (secs_of_tm t))).
Proof.
  unfold mktime_utc. cbv zeta.
  destruct (in_intb (tm_year (tm_of_secs (secs_of_tm t)))) eqn:E; cbn [andb snd];
    [| congruence].
  destruct (in_longb (secs_of_tm t)); cbn [snd]; [| congruence].
  intros _. split; [reflexivity | now apply in_intb_true].
Qed.

(** The count of seconds reads the six fields only. *)
#[export] Instance secs_of_tm_same : Proper (same_time ==> eq) secs_of_tm.
Proof.
  intros t u (Es & Emi & Eh & Ed & Emo & Ey). unfold secs_of_tm.
  now rewrite Es, Emi, Eh, Ed, Emo, Ey.
Qed.

Lemma mktime_utc_reads t u : same_time t u ->
  snd (mktime_utc t) = snd (mktime_utc u) /\
  (snd (mktime_utc t) <> -1 -> fst (mktime_utc t) = fst (mktime_utc u)).
Proof.
  intros E. unfold mktime_utc. cbv zeta. rewrite (secs_of_tm_same t u E).
  destruct (in_intb (tm_year (tm_of_secs (secs_of_tm u))) && in_longb (secs_of_tm u));
    cbn [fst snd]; split; congruence.
Qed.

Lemma localtime_utc_normal s t : localtime_utc s = Some t -> normal_tm t.
Proof.
  unfold localtime_utc. cbv zeta. destruct (in_intb (tm_year (tm_of_secs s))) eqn:E; [| easy].
  intros [= <-]. now apply tm_of_secs_normal, in_intb_true.
Qed.

(** Under UTC the clocks are never set forward. *)
#[export] Instance utc_clib : CLib.
Proof.
  refine {| mktime := mktime_utc; localtime := localtime_utc; skipped := fun _ => False |}.
  - intros t H. destruct (mktime_utc_ok t H) as [-> Hy]. now apply tm_of_secs_normal.
  - intros t N _ H. destruct (mktime_utc_ok t H) as [-> _]. now apply tm_of_secs_of_tm.
  - intros t u E _. now apply mktime_utc_reads.
  - easy.
  - intros s t E. split; [exact (localtime_utc_normal s t E) | easy].
Defined.

(** ** [%d] on rendered numbers *)

Lemma is_digit_code c : is_digit c = true <-> 48 <= code c <= 57.
Proof. unfold is_digit. lia. Qed.

(** A digit is neither white space nor a sign. *)
Lemma digit_not_space c : is_digit c = true -> is_space c = false.
Proof. rewrite is_digit_code. unfold is_space. lia. Qed.

Lemma digit_not_char c (k : ascii) : is_digit c = true -> is_digit k = false ->
  Ascii.eqb c k = false.
Proof.
  intros Hc Hk. destruct (Ascii.eqb_spec c k) as [-> | N]; [congruence | reflexivity].
Qed.

Lemma clamp_long_int z : in_int z -> cast_int (clamp_long z) = z.
Proof.
  intros H. unfold clamp_long, long_min, long_max.
  unfold in_int, int_min, int_max in H.
  rewrite Z.min_r, Z.max_r by lia. apply cast_int_id, H.
Qed.

(** [%d] on an input that starts with a digit. *)
Lemma scan_int_digits s : starts_with_digit s = true ->
  scan_int s = Stored (cast_int (clamp_long (fst (scan_digits 0 s)))) (snd (scan_digits 0 s)).
Proof.
  destruct s as [|c r]; [discriminate |]. cbn [starts_with_digit]. intros Hc.
  unfold scan_int. cbn [skip_space]. rewrite (digit_not_space c Hc).
  rewrite !(digit_not_char c) by (assumption || reflexivity).
  cbn [starts_with_digit]. rewrite Hc.
  destruct (scan_digits 0 (String c r)). reflexivity.
Qed.

(** [%d] on a minus sign followed by a digit. *)
Lemma scan_int_minus s : starts_with_digit s = true ->
  scan_int (String "-" s)
  = Stored (cast_int (clamp_long (- fst (scan_digits 0 s)))) (snd (scan_digits 0 s)).
Proof.
  intros Hs. unfold scan_int. cbn [skip_space is_space code]. cbn -[scan_digits].
  rewrite Hs. destruct (scan_digits 0 s). reflexivity.
Qed.

Lemma starts_with_digit_show_nat n rest : 0 <= n ->
  starts_with_digit (show_nat n ++ rest) = true.
Proof.
  intros Hn. destruct (show_nat_head n Hn) as (d & s & Hd & ->).
  cbn. now apply is_digit_digit_char.
Qed.

Lemma scan_int_show_nat n rest : 0 <= n -> in_int n -> starts_with_digit rest = false ->
  scan_int (show_nat n ++ rest) = Stored n rest.
Proof.
  intros Hn Hi Hr. rewrite scan_int_digits by now apply starts_with_digit_show_nat.
  rewrite scan_show_nat_stop by assumption. cbn [fst snd].
  now rewrite clamp_long_int.
Qed.

(** [%d] on the decimal text of any integer followed by a non-digit. *)
Lemma scan_int_show_Z_any z rest : starts_with_digit rest = false ->
  scan_int (show_Z z ++ rest) = Stored (cast_int (clamp_long z)) rest.
Proof.
  intros Hr. unfold show_Z. destruct (Z.ltb_spec z 0).
  - cbn [append]. rewrite scan_int_minus by (apply starts_with_digit_show_nat; lia).
    rewrite scan_show_nat_stop by (assumption || lia). cbn [fst snd].
    now rewrite Z.opp_involutive.
  - rewrite scan_int_digits by now apply starts_with_digit_show_nat.
    now rewrite scan_show_nat_stop by assumption.
Qed.

(** The round trip of [%d]: a rendered [int] followed by a non-digit is
    read back. *)
Lemma scan_int_show_Z z rest : in_int z -> starts_with_digit rest = false ->
  scan_int (show_Z z ++ rest) = Stored z rest.
Proof. intros Hi Hr. now rewrite scan_int_show_Z_any, clamp_long_int. Qed.

Lemma in_int_small n : 0 <= n <= 99 -> in_int n.
Proof. unfold in_int, int_min, int_max. lia. Qed.

(** A padded field of two digits is read back. *)
Lemma scan_int_pad2 n rest : 0 <= n <= 99 -> starts_with_digit rest = false ->
  scan_int (pad2 n ++ rest) = Stored n rest.
Proof.
  intros Hn Hr. unfold pad2. destruct (Z.ltb_spec n 10).
  - cbn [append]. rewrite scan_int_digits by reflexivity.
    change (scan_digits 0 (String "0" (show_nat n ++ rest)))
      with (scan_digits 0 (show_nat n ++ rest)).
    rewrite scan_show_nat_stop by (assumption || lia). cbn [fst snd].
    apply f_equal2; [apply clamp_long_int, in_int_small, Hn | reflexivity].
  - apply scan_int_show_nat; [lia | apply in_int_small, Hn | assumption].
Qed.

Lemma length_pad2 n : 0 <= n <= 99 -> String.length (pad2 n) = 2%nat.
Proof.
  intros Hn. unfold pad2. destruct (Z.ltb_spec n 10).
  - now rewrite show_nat_small by lia.
  - rewrite show_nat_eq by lia. destruct (Z.ltb_spec n 10); [lia |].
    rewrite show_nat_small by div_lia. reflexivity.
Qed.

Lemma no_nul_pad2 n : 0 <= n -> no_nul (pad2 n) = true.
Proof.
  intros Hn. unfold pad2. destruct (n <? 10); cbn [no_nul]; now rewrite ?no_nul_show_nat.
Qed.

Lemma scan_int_pad2_end n : 0 <= n <= 99 -> scan_int (pad2 n) = Stored n "".
Proof.
  intros Hn. rewrite <- (append_nil_r (pad2 n)) at 1.
  now apply scan_int_pad2.
Qed.

Lemma scan_lit_same c rest : scan_lit c (String c rest) = Skipped rest.
Proof. unfold scan_lit. now rewrite Ascii.eqb_refl. Qed.

Lemma skip_space_digit s : starts_with_digit s = true -> skip_space s = s.
Proof.
  destruct s as [|c r]; [reflexivity |]. cbn. intros H.
  now rewrite (digit_not_space c H).
Qed.

Lemma starts_with_digit_pad2 n rest : 0 <= n ->
  starts_with_digit (pad2 n ++ rest) = true.
Proof.
  intros Hn. unfold pad2. destruct (n <? 10); [reflexivity |].
  now apply starts_with_digit_show_nat.
Qed.

Lemma skip_space_pad2 n rest : 0 <= n ->
  skip_space (String " " (pad2 n ++ rest)) = pad2 n ++ rest.
Proof.
  intros Hn. change (skip_space (String " " (pad2 n ++ rest)))
    with (skip_space (pad2 n ++ rest)).
  now apply skip_space_digit, starts_with_digit_pad2.
Qed.

(** White space before a number: [%d] skips it. *)
Fixpoint spaces (n : nat) : string :=
  match n with
  | O => ""
  | S n' => String " " (spaces n')
  end.

Lemma skip_space_spaces n s : skip_space (spaces n ++ s) = skip_space s.
Proof. induction n as [|n IH]; [reflexivity | exact IH]. Qed.

Lemma scan_int_spaces n s : scan_int (spaces n ++ s) = scan_int s.
Proof. unfold scan_int. now rewrite skip_space_spaces. Qed.

Lemma no_nul_spaces n : no_nul (spaces n) = true.
Proof. induction n as [|n IH]; [reflexivity | exact IH]. Qed.

Lemma length_spaces n : String.length (spaces n) = n.
Proof. induction n as [|n IH]; cbn [spaces String.length]; congruence. Qed.

(** A character that ends a date: not a digit, not white space, not a
    sign, not NUL. *)
Definition junk (c : ascii) : bool :=
  negb (is_digit c) && negb (is_space c) && negb (Ascii.eqb c "-")
  && negb (Ascii.eqb c "+") && negb (Ascii.eqb c zero).

Lemma junk_inv c : junk c = true ->
  is_digit c = false /\ is_space c = false /\ Ascii.eqb c "-" = false /\
  Ascii.eqb c "+" = false /\ Ascii.eqb c zero = false.
Proof.
  unfold junk. rewrite !andb_true_iff, !negb_true_iff. tauto.
Qed.

(** [%d] fails to match on such a character, and white space in the format
    skips nothing before it. *)
Lemma scan_int_junk c rest : junk c = true -> scan_int (String c rest) = MatchFailure.
Proof.
  intros J. apply junk_inv in J as (Hd & Hs & Hm & Hp & _).
  unfold scan_int. cbn [skip_space]. rewrite Hs, Hm, Hp.
  cbn [starts_with_digit]. now rewrite Hd.
Qed.

Lemma skip_space_junk c rest : junk c = true -> skip_space (String c rest) = String c rest.
Proof.
  intros J. apply junk_inv in J as (_ & Hs & _). cbn [skip_space]. now rewrite Hs.
Qed.

Lemma starts_with_digit_junk c rest : junk c = true -> starts_with_digit (String c rest) = false.
Proof. intros J. now apply junk_inv in J as (Hd & _). Qed.

Create Rewrite HintDb scan.
#[export] Hint Rewrite scan_int_show_Z scan_int_pad2 scan_int_pad2_end skip_space_pad2
  using (first [assumption | reflexivity | lia | now apply starts_with_digit_junk]) : scan.
#[export] Hint Rewrite scan_lit_same scan_int_spaces : scan.
#[export] Hint Rewrite scan_int_junk skip_space_junk using assumption : scan.

(** One step of the scan loop, then the rewrites of the [scan] database. *)
Ltac scan_steps :=
  repeat (cbn [scan_loop scan_directive app]; autorewrite with scan).

(** ** Bounds of [mktime] under UTC *)

(** The day count of the first of a month grows with the year by at most
    366 days a year. *)
Lemma days_from_civil_bound y m :
  1 <= m <= 12 -> - 2 ^ 33 <= y <= 2 ^ 33 ->
  - 2 ^ 42 <= days_from_civil y m 1 <= 2 ^ 42.
Proof.
  intros Hm Hy. unfold days_from_civil, march_year, month_to_mp, doy_of_mp, doe_of_yoe.
  cbv zeta. destruct (m <=? 2), (2 <? m); div_lia.
Qed.

(** Whatever [int]s the fields hold, the count of seconds is far inside
    the range of a 64-bit [time_t]. *)
Lemma secs_of_tm_bound t :
  in_int (tm_sec t) -> in_int (tm_min t) -> in_int (tm_hour t) ->
  in_int (tm_mday t) -> in_int (tm_mon t) -> in_int (tm_year t) ->
  - 2 ^ 60 <= secs_of_tm t <= 2 ^ 60.
Proof.
  unfold in_int, int_min, int_max, secs_of_tm.
  intros Hs Hmi Hh Hd Hmo Hy. cbv zeta.
  assert (Hq : - 2 ^ 31 <= tm_mon t / 12 <= 2 ^ 31) by div_lia.
  assert (Hr : 1 <= tm_mon t mod 12 + 1 <= 12) by div_lia.
  pose proof (days_from_civil_bound (tm_year t + 1900 + tm_mon t / 12)
                (tm_mon t mod 12 + 1) Hr ltac:(lia)).
  lia.
Qed.

(** So [mktime] under UTC never fails for the size of the count. *)
Lemma secs_of_tm_in_long t :
  in_int (tm_sec t) -> in_int (tm_min t) -> in_int (tm_hour t) ->
  in_int (tm_mday t) -> in_int (tm_mon t) -> in_int (tm_year t) ->
  in_long (secs_of_tm t).
Proof.
  intros Hs Hmi Hh Hd Hmo Hy. pose proof (secs_of_tm_bound t Hs Hmi Hh Hd Hmo Hy).
  unfold in_long, long_min, long_max. lia.
Qed.

(** The year of an instant within 2^52 seconds of the epoch fits
    [tm_year]. *)
Lemma tm_of_secs_year s :
  - 2 ^ 52 <= s <= 2 ^ 52 -> in_int (tm_year (tm_of_secs s)).
Proof.
  intros H. unfold tm_of_secs. cbv zeta.
  pose proof (civil_from_days_year (s / 86400) ltac:(div_lia)) as Hy.
  destruct (civil_from_days (s / 86400)) as [[y m] d]. cbn [fst tm_year] in *.
  unfold in_int, int_min, int_max. lia.
Qed.

(** The count of seconds of a structure with a year of at most four
    digits, a month and a day in the ranges of the calendar and a time of
    day. *)
Lemma secs_of_tm_small t :
  0 <= tm_year t + 1900 <= 9999 -> 0 <= tm_mon t <= 11 -> 1 <= tm_mday t <= 31 ->
  valid_time (tm_hour t) (tm_min t) (tm_sec t) ->
  - 2 ^ 40 <= secs_of_tm t <= 2 ^ 40.
Proof.
  intros Hy Hm Hd (HH & HM & HS). unfold secs_of_tm. cbv zeta.
  replace (tm_mon t / 12) with 0 by div_lia.
  replace (tm_mon t mod 12) with (tm_mon t) by div_lia.
  unfold days_from_civil, march_year, month_to_mp, doy_of_mp, doe_of_yoe. cbv zeta.
  destruct (_ <=? 2), (2 <? _); div_lia.
Qed.

(** The fields of a normal structure are [int]s. *)
Lemma normal_tm_ints t : normal_tm t ->
  in_int (tm_sec t) /\ in_int (tm_min t) /\ in_int (tm_hour t) /\
  in_int (tm_mday t) /\ in_int (tm_mon t) /\ in_int (tm_year t).
Proof.
  intros (Hs & Hmi & Hh & Hmo & Hd & Hy).
  pose proof (days_in_month_range (tm_year t + 1900) (tm_mon t + 1)).
  unfold in_int, int_min, int_max in *. lia.
Qed.

Lemma in_longb_true z : in_longb z = true <-> in_long z.
Proof. unfold in_longb, in_long. lia. Qed.

(** Under UTC [mktime] returns the count of seconds of a normal
    structure. *)
Lemma mktime_utc_normal t : normal_tm t ->
  mktime_utc t = (tm_of_secs (secs_of_tm t), secs_of_tm t).
Proof.
  intros N. unfold mktime_utc. cbv zeta.
  pose proof (tm_of_secs_of_tm t N) as (_ & _ & _ & _ & _ & Ey).
  destruct N as (Hs & Hmi & Hh & Hmo & Hd & Hy).
  pose proof (days_in_month_range (tm_year t + 1900) (tm_mon t + 1)).
  rewrite Ey. apply in_intb_true in Hy as Hyb. rewrite Hyb.
  assert (L : in_long (secs_of_tm t))
    by (apply secs_of_tm_in_long; try assumption; unfold in_int, int_min, int_max; lia).
  apply in_longb_true in L. now rewrite L.
Qed.

(** The only normal structure for which it returns [-1] is the last second
    of 1969. *)
Lemma mktime_utc_minus_one t : normal_tm t ->
  snd (mktime_utc t) = -1 <->
  same_time t (mk_tm 59 59 23 31 11 69 0 0 0).
Proof.
  intros N. rewrite mktime_utc_normal by assumption. cbn [snd].
  pose proof (tm_of_secs_of_tm t N) as E. split.
  - intros Es. rewrite Es in E. unfold same_time in *. cbn in E. cbn. intuition congruence.
  - intros Et. now rewrite Et.
Qed.

(** ** [mktime] under UTC on fields out of their ranges *)

(** The count of seconds, with the day carried into the day count. *)
Lemma secs_of_tm_days t :
  secs_of_tm t
  = days_from_civil (tm_year t + 1900 + tm_mon t / 12) (tm_mon t mod 12 + 1) (tm_mday t)
    * 86400 + tm_hour t * 3600 + tm_min t * 60 + tm_sec t.
Proof. unfold secs_of_tm. cbv zeta. now rewrite days_from_civil_linear. Qed.

(** [gmtime] of a day count and a time of day. *)
Lemma tm_of_secs_time z H M S : valid_time H M S ->
  tm_of_secs (z * 86400 + H * 3600 + M * 60 + S)
  = let '(y, m, d) := civil_from_days z in
    mk_tm S M H d (m - 1) (y - 1900) (weekday z) (yearday y m d) 0.
Proof.
  intros (HH & HM & HS). unfold tm_of_secs. cbv zeta.
  destruct (time_of_day_inv z H M S HH HM HS) as (Ed & Es & Em & Eh).
  cbv zeta in Ed, Es, Em, Eh. rewrite Ed, Es, Em, Eh.
  now destruct (civil_from_days z) as [[y m] d].
Qed.

(** Fields of two digits beyond their calendar ranges are carried, not
    refused: the day count of the date is taken as it is, and the date is
    computed back from it. *)
Lemma mktime_utc_carries t :
  0 <= tm_year t + 1900 <= 9999 -> -1 <= tm_mon t <= 98 -> 0 <= tm_mday t <= 99 ->
  valid_time (tm_hour t) (tm_min t) (tm_sec t) ->
  let z := days_from_civil (tm_year t + 1900 + tm_mon t / 12) (tm_mon t mod 12 + 1)
             (tm_mday t) in
  let s := z * 86400 + tm_hour t * 3600 + tm_min t * 60 + tm_sec t in
  mktime_utc t = (tm_of_secs s, s).
Proof.
  intros Hy Hm Hd Ht. cbv zeta. unfold mktime_utc. cbv zeta.
  rewrite secs_of_tm_days.
  set (z := days_from_civil _ _ _).
  assert (Hq : -1 <= tm_mon t / 12 <= 8) by div_lia.
  assert (Hr : 1 <= tm_mon t mod 12 + 1 <= 12) by div_lia.
  assert (Hz : - 2 ^ 36 <= z <= 2 ^ 36).
  { subst z. rewrite <- days_from_civil_linear.
    unfold days_from_civil, march_year, month_to_mp, doy_of_mp, doe_of_yoe. cbv zeta.
    destruct (_ <=? 2), (2 <? _); div_lia. }
  rewrite tm_of_secs_time by assumption.
  pose proof (civil_from_days_year z Hz) as Hyear.
  destruct (civil_from_days z) as [[y' m'] d']. cbn [fst tm_year] in *.
  destruct Ht as (HH & HM & HS).
  replace (in_intb (y' - 1900)) with true
    by (symmetry; apply in_intb_true; unfold in_int, int_min, int_max; lia).
  replace (in_longb _) with true
    by (symmetry; apply in_longb_true; unfold in_long, long_min, long_max; lia).
  reflexivity.
Qed.

(** ** [timegm] and [gmtime] *)

(** The count of seconds of the broken-down time of a count of seconds is
    that count: under UTC the structure that [mktime] stores denotes the
    instant that it returns. *)
Lemma secs_of_tm_of_secs s : secs_of_tm (tm_of_secs s) = s.
Proof.
  rewrite secs_of_tm_days. unfold tm_of_secs. cbv zeta.
  pose proof (civil_from_days_valid (s / 86400)) as V.
  pose proof (days_from_civil_from_days (s / 86400)) as R.
  destruct (civil_from_days (s / 86400)) as [[y m] d]. destruct V as [Hm _].
  cbn [tm_sec tm_min tm_hour tm_mday tm_mon tm_year].
  replace (y - 1900 + 1900 + (m - 1) / 12) with y by div_lia.
  replace ((m - 1) mod 12 + 1) with m by div_lia.
  rewrite R. div_lia.
Qed.

(** Whatever [int]s the six fields hold, [mktime] under UTC returns [-1]
    in two cases only: the instant is one second before the epoch, or its
    year does not fit [tm_year].  The count of seconds itself always fits a
    64-bit [time_t]. *)
Theorem mktime_utc_fails_only t :
  in_int (tm_sec t) -> in_int (tm_min t) -> in_int (tm_hour t) ->
  in_int (tm_mday t) -> in_int (tm_mon t) -> in_int (tm_year t) ->
  snd (mktime_utc t) = -1 ->
  secs_of_tm t = -1 \/ ~ in_int (tm_year (tm_of_secs (secs_of_tm t))).
Proof.
  intros Hs Hmi Hh Hd Hmo Hy. unfold mktime_utc. cbv zeta.
  pose proof (secs_of_tm_in_long t Hs Hmi Hh Hd Hmo Hy) as L.
  apply in_longb_true in L. rewrite L, andb_true_r.
  destruct (in_intb (tm_year (tm_of_secs (secs_of_tm t)))) eqn:E; cbn [snd].
  - now left.
  - intros _. right. now apply in_intb_false.
Qed.

Example mktime_utc_fails_only_witness :
  secs_of_tm (mk_tm 59 59 23 31 11 69 0 0 (-1)) = -1 \/
  ~ in_int (tm_year (tm_of_secs (secs_of_tm (mk_tm 59 59 23 31 11 69 0 0 (-1))))).
Proof.
  apply mktime_utc_fails_only; by_eval.
Defined.

(** ** What [sscanf] stores and returns *)

Lemma scan_directive_int d s v rest : scan_directive d s = Stored v rest -> in_int v.
Proof.
  destruct d as [| | c]; cbn [scan_directive]; [| discriminate |].
  - unfold scan_int. destruct (skip_space s) as [|c r]; [discriminate |].
    destruct (if Ascii.eqb c "-" then _ else _) as [neg s2].
    destruct (starts_with_digit s2); [| discriminate].
    destruct (scan_digits 0 s2) as [n rest']. intros [= <- _]. apply cast_int_range.
  - unfold scan_lit. destruct s as [|c' r]; [discriminate |].
    destruct (Ascii.eqb c c'); discriminate.
Qed.

Lemma scan_loop_ints fmt : forall s stored,
  Forall in_int stored ->
  Forall in_int (fst (scan_loop fmt s stored)) /\
  (List.length stored <= List.length (fst (scan_loop fmt s stored))
   <= List.length stored + List.length fmt)%nat.
Proof.
  induction fmt as [|d fmt IH]; intros s stored H; cbn [scan_loop fst List.length];
    [split; [assumption | lia] |].
  destruct (scan_directive d s) as [v rest | rest | |] eqn:E; cbn [fst];
    try (split; [assumption | lia]).
  - destruct (IH rest (stored ++ [v])%list) as [F L].
    + apply Forall_app. split; [assumption |]. constructor; [| constructor].
      eapply scan_directive_int, E.
    + rewrite length_app in L. cbn [List.length] in L. split; [assumption | lia].
  - destruct (IH rest stored H) as [F L]. split; [assumption | lia].
Qed.

(** Whatever the input and the format, every value that [sscanf] stores is
    an [int], and the value returned is [EOF] with nothing stored or the
    number of stores, at most the number of directives. *)
Theorem sscanf_typed s fmt :
  Forall in_int (snd (sscanf s fmt)) /\
  (fst (sscanf s fmt) = EOF /\ snd (sscanf s fmt) = [] \/
   fst (sscanf s fmt) = Z.of_nat (List.length (snd (sscanf s fmt)))) /\
  EOF <= fst (sscanf s fmt) <= Z.of_nat (List.length fmt).
Proof.
  unfold sscanf, EOF. destruct (scan_loop_ints fmt s [] (Forall_nil _)) as [F L].
  destruct (scan_loop fmt s []) as [stored failed]. cbn [fst snd List.length] in *.
  split; [assumption |].
  destruct (failed && Nat.eqb (List.length stored) 0) eqn:E; cbn [fst snd].
  - apply andb_true_iff in E as [_ E]. apply Nat.eqb_eq in E.
    destruct stored; [| discriminate]. split; [now left | lia].
  - split; [now right | lia].
Qed.
