(* ===== verification/Exception.v ===== *)
(** * Exception: [mysqlpp::exception] (lines 25-45 of [src/mysqlpp.hpp])

    The class derives from [std::runtime_error].  Its constructor keeps
    the message for the base class and builds a second message,
    ["file:line what"], which [what()] returns as a C string. *)

From Stdlib Require Import ZArith Lia String Ascii Bool.
From S2P Require Import Prelude.

#[local] Open Scope string_scope.
#[local] Open Scope Z_scope.

(** The object: the message of the [std::runtime_error] base and the
    private member [err]. *)
Record exception : Type := mk_exception_object {
  runtime_error_what : string;
  err : string
}.

(** [exception(const char* file, int line, const std::string& what)]:
    [oss << file << ":" << line << " " << what; err = oss.str();] *)
Definition mk_exception (file : string) (line : Z) (what : string) : exception :=
  {| runtime_error_what := what;
     err := file ++ ":" ++ show_Z line ++ " " ++ what |}.

(** [const char* what() const]: [err.c_str()]. *)
Definition what (e : exception) : string := c_str (err e).

(** [__FILE__] where the header throws (lines 61, 68, 77, 152 and 167):
    the path under which the compiler opened the header, which depends
    on the build.  [FILE] stands for it; no theorem depends on its value,
    which is used only to evaluate the definitions on concrete inputs. *)
Definition FILE : string := "mysqlpp.hpp".

(** ** Properties *)

(** C36. The message that [what()] returns: the location, then the text. *)
Theorem what_mk_exception file line text :
  no_nul file = true -> no_nul text = true ->
  what (mk_exception file line text) = file ++ ":" ++ show_Z line ++ " " ++ text.
Proof.
  intros Hf Ht. unfold what, mk_exception. cbn [err].
  apply c_str_no_nul.
  rewrite !no_nul_append, Hf, Ht, no_nul_show_Z. reflexivity.
Qed.

(** C27. A NUL in the text cuts the message that [what()] returns, while the
    base class keeps the whole text. *)
Theorem what_cut_at_nul file line text rest :
  no_nul file = true -> no_nul text = true ->
  what (mk_exception file line (text ++ String zero rest))
  = file ++ ":" ++ show_Z line ++ " " ++ text.
Proof.
  intros Hf Ht. unfold what, mk_exception. cbn [err].
  rewrite <- !append_assoc.
  set (p := (((file ++ ":") ++ show_Z line) ++ " ") ++ text).
  assert (Hp : no_nul p = true).
  { subst p. rewrite !no_nul_append, Hf, Ht, no_nul_show_Z. reflexivity. }
  clearbody p. induction p as [|c p IH]; simpl in *; [reflexivity |].
  destruct (Ascii.eqb c zero); simpl in *; [discriminate |]. now rewrite IH.
Qed.

Example what_mk_exception_witness :
  what (mk_exception FILE 61 "datetime cast failed") = "mysqlpp.hpp:61 datetime cast failed".
Proof. exact (what_mk_exception FILE 61 "datetime cast failed" eq_refl eq_refl). Defined.

Example what_cut_at_nul_witness :
  what (mk_exception FILE 61 ("datetime" ++ String zero " cast failed"))
  = "mysqlpp.hpp:61 datetime".
Proof. exact (what_cut_at_nul FILE 61 "datetime" " cast failed" eq_refl eq_refl). Defined.
