(* ===== verification/Datetime.v ===== *)
(** * Datetime: [mysqlpp::datetime] (lines 47-117 of [src/mysqlpp.hpp])

    [struct datetime : st_mysql_time] is the client library's [MYSQL_TIME]
    with two constructors and three member functions.  Each is one
    definition here, with the source's name:

    - [datetime_now]        the default constructor (lines 49-55);
    - [datetime_of_string]  [datetime(const std::string&)] (lines 57-81);
    - [set_time]            lines 83-91;
    - [c_tm]                lines 93-106;
    - [str]                 lines 108-116.

    The constructors do not initialise every member, and [c_tm] and the
    string constructor read a local [std::tm] that is written in part
    only.  What such storage holds is a parameter of the model: [raw] for
    the object, [stack] for the local.  The C library is a parameter too,
    through the class [CLib]. *)

From Stdlib Require Import ZArith Lia List String Ascii Bool Morphisms Setoid.
From S2P Require Import Prelude Calendar Libc Exception.
Import ListNotations.

#[local] Open Scope string_scope.
#[local] Open Scope Z_scope.
#[local] Open Scope outcome_scope.

(** ** The object *)

(** [MYSQL_TIME]: six [unsigned int] fields and three fields that the
    header never writes. *)
Record datetime : Type := mk_datetime {
  year : Z;
  month : Z;
  day : Z;
  hour : Z;
  minute : Z;
  second : Z;
  second_part : Z;
  neg : bool;
  time_type : Z
}.

(** ** Writing the fields of a [std::tm] *)

Definition set_tm_year (v : Z) (t : tm) : tm :=
  mk_tm (tm_sec t) (tm_min t) (tm_hour t) (tm_mday t) (tm_mon t) v
        (tm_wday t) (tm_yday t) (tm_isdst t).
Definition set_tm_mon (v : Z) (t : tm) : tm :=
  mk_tm (tm_sec t) (tm_min t) (tm_hour t) (tm_mday t) v (tm_year t)
        (tm_wday t) (tm_yday t) (tm_isdst t).
Definition set_tm_mday (v : Z) (t : tm) : tm :=
  mk_tm (tm_sec t) (tm_min t) (tm_hour t) v (tm_mon t) (tm_year t)
        (tm_wday t) (tm_yday t) (tm_isdst t).
Definition set_tm_hour (v : Z) (t : tm) : tm :=
  mk_tm (tm_sec t) (tm_min t) v (tm_mday t) (tm_mon t) (tm_year t)
        (tm_wday t) (tm_yday t) (tm_isdst t).
Definition set_tm_min (v : Z) (t : tm) : tm :=
  mk_tm (tm_sec t) v (tm_hour t) (tm_mday t) (tm_mon t) (tm_year t)
        (tm_wday t) (tm_yday t) (tm_isdst t).
Definition set_tm_sec (v : Z) (t : tm) : tm :=
  mk_tm v (tm_min t) (tm_hour t) (tm_mday t) (tm_mon t) (tm_year t)
        (tm_wday t) (tm_yday t) (tm_isdst t).
Definition set_tm_isdst (v : Z) (t : tm) : tm :=
  mk_tm (tm_sec t) (tm_min t) (tm_hour t) (tm_mday t) (tm_mon t) (tm_year t)
        (tm_wday t) (tm_yday t) v.

(** The pointer arguments of the [sscanf] call of line 65, in order. *)
Definition scan_targets : list (Z -> tm -> tm) :=
  [set_tm_year; set_tm_mon; set_tm_mday; set_tm_hour; set_tm_min; set_tm_sec].

(** [sscanf] stores its values through the first pointers and leaves the
    others alone. *)
Fixpoint store_fields (targets : list (Z -> tm -> tm)) (vals : list Z) (t : tm) : tm :=
  match targets, vals with
  | f :: targets', v :: vals' => store_fields targets' vals' (f v t)
  | _, _ => t
  end.

(** The formats of lines 65 and 113. *)
Definition scan_format : list directive :=
  Eval vm_compute in
    match parse_format "%d-%d-%d %d:%d:%d" with Some f => f | None => [] end.

Definition time_format : list conversion :=
  Eval vm_compute in
    match parse_time_format "%Y-%m-%d %H:%M:%S" with Some f => f | None => [] end.

Definition cast_failed (line : Z) : exception :=
  mk_exception FILE line "datetime cast failed".

(** ** Member functions *)

(** [void set_time(const std::tm& time)], lines 83-91. *)
Definition set_time (self : datetime) (time : tm) : datetime :=
  {| year := cast_uint (cast_uint (tm_year time) + 1900);
     month := cast_uint (cast_uint (tm_mon time) + 1);
     day := cast_uint (tm_mday time);
     hour := cast_uint (tm_hour time);
     minute := cast_uint (tm_min time);
     second := cast_uint (tm_sec time);
     second_part := second_part self;
     neg := neg self;
     time_type := time_type self |}.

(** [std::tm c_tm()], lines 93-106.  The two subtractions are on [int]. *)
Definition c_tm (stack : tm) (self : datetime) : outcome exception tm :=
  y <- int_sub (cast_int (year self)) 1900 ;;
  m <- int_sub (cast_int (month self)) 1 ;;
  Value {| tm_sec := cast_int (second self);
           tm_min := cast_int (minute self);
           tm_hour := cast_int (hour self);
           tm_mday := cast_int (day self);
           tm_mon := m;
           tm_year := y;
           tm_wday := tm_wday stack;
           tm_yday := tm_yday stack;
           tm_isdst := -1 |}.

(** [std::string str()], lines 108-116: [None] when the characters that
    [strftime] stores are unspecified. *)
Definition str (stack : tm) (self : datetime) : outcome exception (option string) :=
  time <- c_tm stack self ;;
  Value (strftime 32 time_format time).

Section WithCLib.

Context {clib : CLib}.

(** [datetime()], lines 49-55: [time_] is what [std::time(0)] returned.
    The pointer that [std::localtime] returns is read without a test;
    reading through a null pointer is undefined. *)
Definition datetime_now (raw : datetime) (time_ : Z) : outcome exception datetime :=
  match localtime time_ with
  | Some time => Value (set_time raw time)
  | None => Undefined
  end.

(** [datetime(const std::string& str)], lines 57-81. *)
Definition datetime_of_string (raw : datetime) (stack : tm) (s : string)
  : outcome exception datetime :=
  throw_if (19 <? Z.of_nat (String.length s)) (cast_failed 61) ;;;
  let '(count, stored) := sscanf (c_str s) scan_format in
  let time := store_fields scan_targets stored stack in
  throw_if (negb (count =? 3) && negb (count =? 6)) (cast_failed 68) ;;;
  y <- int_sub (tm_year time) 1900 ;;
  let time := set_tm_year y time in
  m <- int_sub (tm_mon time) 1 ;;
  let time := set_tm_isdst (-1) (set_tm_mon m time) in
  let '(time, r) := mktime time in
  throw_if (r =? -1) (cast_failed 77) ;;;
  Value (set_time raw time).

End WithCLib.

(** ** The text of a date-time *)

(** ["YYYY-MM-DD HH:MM:SS"] and ["YYYY-MM-DD"]. *)
Definition datetime_text (y m d H M S : Z) : string :=
  show_Z y ++ String "-" (pad2 m ++ String "-" (pad2 d ++ String " "
    (pad2 H ++ String ":" (pad2 M ++ String ":" (pad2 S))))).

Definition date_text (y m d : Z) : string :=
  show_Z y ++ String "-" (pad2 m ++ String "-" (pad2 d)).

(** Fields of two digits. *)
Definition two (n : Z) : Prop := 0 <= n <= 99.

(** [sscanf] on the text of a date-time stores its six fields. *)
Lemma sscanf_datetime_text y m d H M S :
  in_int y -> two m -> two d -> two H -> two M -> two S ->
  sscanf (datetime_text y m d H M S) scan_format = (6, [y; m; d; H; M; S]).
Proof.
  unfold two. intros Hy Hm Hd HH HM HS.
  unfold sscanf, scan_format, datetime_text. scan_steps. reflexivity.
Qed.

(** On the text of a date it stores three fields and stops at the end of
    the input. *)
Lemma sscanf_date_text y m d :
  in_int y -> two m -> two d ->
  sscanf (date_text y m d) scan_format = (3, [y; m; d]).
Proof.
  unfold two. intros Hy Hm Hd.
  unfold sscanf, scan_format, date_text. scan_steps. reflexivity.
Qed.

(** ** The constructor from text, branch by branch *)

(** The structure that the constructor hands to [mktime] when [sscanf] has
    stored [vals]: lines 71-73 applied to the scanned structure. *)
Definition scanned_tm (stack : tm) (vals : list Z) : tm :=
  let time := store_fields scan_targets vals stack in
  set_tm_isdst (-1)
    (set_tm_mon (tm_mon time - 1) (set_tm_year (tm_year time - 1900) time)).

(** The fields of a value built by [set_time] from a structure with the
    fields [y-1900], [m-1], [d], [H], [M], [S]. *)
Definition datetime_of_fields (raw : datetime) (y m d H M S : Z) : datetime :=
  {| year := cast_uint y; month := cast_uint m; day := cast_uint d;
     hour := cast_uint H; minute := cast_uint M; second := cast_uint S;
     second_part := second_part raw; neg := neg raw; time_type := time_type raw |}.

Section Constructor.

Context {clib : CLib}.
Variables (raw : datetime) (stack : tm).

(** C5. Line 59: a string of more than 19 bytes is rejected before it is
    read. *)
Theorem datetime_of_string_too_long s :
  (19 < String.length s)%nat ->
  datetime_of_string raw stack s = Throw (cast_failed 61).
Proof.
  intros H. unfold datetime_of_string.
  replace (19 <? Z.of_nat (String.length s)) with true by lia.
  reflexivity.
Qed.

(** C6. Line 66: a scan that stores neither three nor six fields is rejected. *)
Theorem datetime_of_string_bad_count s :
  (String.length s <= 19)%nat ->
  fst (sscanf (c_str s) scan_format) <> 3 ->
  fst (sscanf (c_str s) scan_format) <> 6 ->
  datetime_of_string raw stack s = Throw (cast_failed 68).
Proof.
  intros Hl H3 H6. unfold datetime_of_string.
  replace (19 <? Z.of_nat (String.length s)) with false by lia.
  cbn [throw_if bind]. destruct (sscanf (c_str s) scan_format) as [count vals].
  cbn [fst] in H3, H6.
  replace (negb (count =? 3) && negb (count =? 6)) with true by lia.
  reflexivity.
Qed.

(** Lines 71-80: after an accepted scan whose year and month can be
    shifted within [int], the outcome is decided by [mktime]. *)
Lemma datetime_of_string_scanned s count vals :
  (String.length s <= 19)%nat ->
  sscanf (c_str s) scan_format = (count, vals) ->
  count = 3 \/ count = 6 ->
  in_int (tm_year (store_fields scan_targets vals stack) - 1900) ->
  in_int (tm_mon (store_fields scan_targets vals stack) - 1) ->
  datetime_of_string raw stack s =
    if snd (mktime (scanned_tm stack vals)) =? -1 then Throw (cast_failed 77)
    else Value (set_time raw (fst (mktime (scanned_tm stack vals)))).
Proof.
  intros Hl Hs Hc Hy Hm. unfold datetime_of_string, scanned_tm.
  replace (19 <? Z.of_nat (String.length s)) with false by lia.
  rewrite Hs. cbv zeta.
  replace (negb (count =? 3) && negb (count =? 6)) with false by lia.
  cbn [throw_if bind]. rewrite int_sub_value by assumption. cbn [bind].
  rewrite int_sub_value by assumption. cbn [bind].
  destruct (mktime _) as [time r]. cbn [fst snd].
  destruct (r =? -1); reflexivity.
Qed.

(** C7. Lines 71-72: a year below [INT_MIN + 1900] or a month of [INT_MIN]
    makes the subtraction overflow: the behaviour is undefined. *)
Theorem datetime_of_string_overflow s count vals :
  (String.length s <= 19)%nat ->
  sscanf (c_str s) scan_format = (count, vals) ->
  count = 3 \/ count = 6 ->
  ~ in_int (tm_year (store_fields scan_targets vals stack) - 1900) \/
  ~ in_int (tm_mon (store_fields scan_targets vals stack) - 1) ->
  datetime_of_string raw stack s = Undefined.
Proof.
  intros Hl Hs Hc Ho. unfold datetime_of_string.
  replace (19 <? Z.of_nat (String.length s)) with false by lia.
  rewrite Hs. cbv zeta.
  replace (negb (count =? 3) && negb (count =? 6)) with false by lia.
  cbn [throw_if bind]. unfold int_sub at 1.
  destruct (in_intb_true (tm_year (store_fields scan_targets vals stack) - 1900)) as [_ Hy].
  destruct (in_intb (tm_year (store_fields scan_targets vals stack) - 1900)) eqn:E.
  - unfold checked_int at 1. rewrite E. cbn [bind].
    destruct Ho as [Ho | Ho]; [now apply in_intb_false in Ho; congruence |].
    unfold int_sub. now rewrite checked_int_undefined.
  - unfold checked_int. now rewrite E.
Qed.

End Constructor.

(** ** Concrete inputs *)

Definition zero_tm : tm := mk_tm 0 0 0 0 0 0 0 0 0.
Definition zero_datetime : datetime := mk_datetime 0 0 0 0 0 0 0 false 0.

Example datetime_of_string_too_long_witness :
  @datetime_of_string utc_clib zero_datetime zero_tm "2021-03-02 10:20:30 UTC"
  = Throw (cast_failed 61).
Proof. apply datetime_of_string_too_long. by_eval. Defined.

Example datetime_of_string_bad_count_witness :
  @datetime_of_string utc_clib zero_datetime zero_tm "2021-03-02 10:20"
  = Throw (cast_failed 68).
Proof. apply datetime_of_string_bad_count; by_eval. Defined.

Example datetime_of_string_overflow_witness :
  @datetime_of_string utc_clib zero_datetime zero_tm "-2147483648-1-1" = Undefined.
Proof.
  apply (datetime_of_string_overflow zero_datetime zero_tm "-2147483648-1-1"
           3 [-2147483648; 1; 1]); [by_eval | reflexivity | now left |].
  left. by_eval.
Defined.

(** ** The text of a date-time: length, characters, [strftime] *)

Lemma length_datetime_text y m d H M S :
  two m -> two d -> two H -> two M -> two S ->
  String.length (datetime_text y m d H M S) = (String.length (show_Z y) + 15)%nat.
Proof.
  unfold two, datetime_text. intros.
  repeat (rewrite length_append; cbn [String.length]).
  rewrite !length_pad2 by assumption. lia.
Qed.

Lemma length_date_text y m d :
  two m -> two d ->
  String.length (date_text y m d) = (String.length (show_Z y) + 6)%nat.
Proof.
  unfold two, date_text. intros.
  repeat (rewrite length_append; cbn [String.length]).
  rewrite !length_pad2 by assumption. lia.
Qed.

Lemma no_nul_datetime_text y m d H M S :
  two m -> two d -> two H -> two M -> two S ->
  no_nul (datetime_text y m d H M S) = true.
Proof.
  unfold two, datetime_text. intros.
  repeat (rewrite no_nul_append; cbn [no_nul]).
  rewrite no_nul_show_Z, !no_nul_pad2 by lia. reflexivity.
Qed.

Lemma no_nul_date_text y m d : two m -> two d -> no_nul (date_text y m d) = true.
Proof.
  unfold two, date_text. intros.
  repeat (rewrite no_nul_append; cbn [no_nul]).
  rewrite no_nul_show_Z, !no_nul_pad2 by lia. reflexivity.
Qed.

Lemma two_digits_in lo hi n : lo <= n <= hi -> two_digits lo hi n = Some (pad2 n).
Proof. intros H. unfold two_digits. now replace ((lo <=? n) && (n <=? hi)) with true by lia. Qed.

(** The fields that [strftime] prints are in the ranges of ISO C. *)
Definition printable_tm (t : tm) : Prop :=
  0 <= tm_sec t <= 60 /\ 0 <= tm_min t <= 59 /\ 0 <= tm_hour t <= 23 /\
  1 <= tm_mday t <= 31 /\ 0 <= tm_mon t <= 11.

(** On printable fields [strftime] with the format of line 113 stores the
    text of the date-time, if it fits the buffer. *)
Lemma render_all_printable t : printable_tm t ->
  render_all t time_format
  = Some (datetime_text (tm_year t + 1900) (tm_mon t + 1) (tm_mday t)
            (tm_hour t) (tm_min t) (tm_sec t)).
Proof.
  intros (Hs & Hmi & Hh & Hd & Hmo). unfold time_format, datetime_text.
  cbn [render_all render]. rewrite !two_digits_in by lia.
  cbn [append]. now rewrite append_nil_r.
Qed.

Lemma normal_printable t : normal_tm t -> printable_tm t.
Proof.
  intros (Hs & Hmi & Hh & Hmo & Hd & _). unfold printable_tm.
  pose proof (days_in_month_range (tm_year t + 1900) (tm_mon t + 1)). lia.
Qed.

(** The buffer of 32 bytes of line 110 is large enough for every year
    that an [int] holds. *)
Lemma strftime_fits t : printable_tm t -> in_int (tm_year t + 1900) ->
  strftime 32 time_format t
  = Some (datetime_text (tm_year t + 1900) (tm_mon t + 1) (tm_mday t)
            (tm_hour t) (tm_min t) (tm_sec t)).
Proof.
  intros P Hy. unfold strftime. rewrite render_all_printable by assumption.
  destruct P as (Hs & Hmi & Hh & Hd & Hmo).
  rewrite length_datetime_text by (unfold two; lia).
  pose proof (length_show_Z_int _ Hy).
  destruct (Z.ltb_spec (Z.of_nat (String.length (show_Z (tm_year t + 1900)) + 15)) 32);
    [reflexivity | lia].
Qed.

(** ** [set_time] and [c_tm] *)

(** A value whose date and time of day exist: the year is the unsigned
    image of a year [y] that a [std::tm] can hold. *)
Definition normal_datetime (d : datetime) : Prop :=
  exists y, in_int (y - 1900) /\ year d = cast_uint y /\
    1 <= month d <= 12 /\ 1 <= day d <= days_in_month y (month d) /\
    0 <= hour d <= 23 /\ 0 <= minute d <= 59 /\ 0 <= second d <= 59.

(** The members that the header never writes are those of the storage. *)
Definition inherits (raw d : datetime) : Prop :=
  second_part d = second_part raw /\ neg d = neg raw /\ time_type d = time_type raw.

Lemma set_time_fields raw t :
  set_time raw t
  = datetime_of_fields raw (tm_year t + 1900) (tm_mon t + 1) (tm_mday t)
      (tm_hour t) (tm_min t) (tm_sec t).
Proof. unfold set_time, datetime_of_fields. now rewrite !cast_uint_add_l. Qed.

(** [set_time] reads the six fields only. *)
#[export] Instance set_time_same raw : Proper (same_time ==> eq) (set_time raw).
Proof.
  intros t u (Es & Emi & Eh & Ed & Emo & Ey). unfold set_time.
  now rewrite Es, Emi, Eh, Ed, Emo, Ey.
Qed.

Lemma small_uint z : 0 <= z <= 99 -> cast_uint z = z.
Proof. intros H. apply cast_uint_id. unfold in_uint, uint_max. lia. Qed.

Lemma datetime_of_fields_small raw y m d H M S :
  two m -> two d -> two H -> two M -> two S ->
  datetime_of_fields raw y m d H M S
  = mk_datetime (cast_uint y) m d H M S (second_part raw) (neg raw) (time_type raw).
Proof.
  unfold two, datetime_of_fields. intros.
  now rewrite (small_uint m), (small_uint d), (small_uint H), (small_uint M), (small_uint S).
Qed.

(** [set_time] of a calendar-normal structure is a normal value. *)
Lemma set_time_normal raw t : normal_tm t ->
  normal_datetime (set_time raw t) /\ inherits raw (set_time raw t).
Proof.
  intros (Hs & Hmi & Hh & Hmo & Hd & Hy). split; [| now unfold inherits].
  pose proof (days_in_month_range (tm_year t + 1900) (tm_mon t + 1)).
  rewrite set_time_fields, datetime_of_fields_small by (unfold two; lia).
  exists (tm_year t + 1900). cbn [year month day hour minute second].
  replace (tm_year t + 1900 - 1900) with (tm_year t) by lia.
  repeat split; try lia; apply Hy.
Qed.

(** C18. [c_tm] after [set_time] gives back the six fields, when the year
    itself is an [int]. *)
Theorem c_tm_set_time stack raw t :
  normal_tm t -> in_int (tm_year t + 1900) ->
  exists u, c_tm stack (set_time raw t) = Value u /\ same_time u t /\
            tm_wday u = tm_wday stack /\ tm_yday u = tm_yday stack /\ tm_isdst u = -1.
Proof.
  intros (Hs & Hmi & Hh & Hmo & Hd & Hy) Hy'.
  pose proof (days_in_month_range (tm_year t + 1900) (tm_mon t + 1)).
  rewrite set_time_fields, datetime_of_fields_small by (unfold two; lia).
  unfold c_tm. cbn [year month day hour minute second].
  rewrite cast_int_uint.
  rewrite !cast_int_id by (assumption || apply in_int_small; lia).
  rewrite !int_sub_value
    by (replace (tm_year t + 1900 - 1900) with (tm_year t) by lia;
        assumption || apply in_int_small; lia).
  cbn [bind]. eexists. split; [reflexivity |].
  unfold same_time. cbn. repeat split; lia.
Qed.

(** C32. [set_time] after [c_tm] gives back the six fields of a value whose
    fields are [unsigned int]s. *)
Theorem set_time_c_tm stack raw d t :
  in_uint (year d) -> in_uint (month d) -> in_uint (day d) ->
  in_uint (hour d) -> in_uint (minute d) -> in_uint (second d) ->
  c_tm stack d = Value t ->
  set_time raw t
  = mk_datetime (year d) (month d) (day d) (hour d) (minute d) (second d)
      (second_part raw) (neg raw) (time_type raw).
Proof.
  intros Hy Hmo Hd Hh Hmi Hs. unfold c_tm.
  intros H. apply bind_value_inv in H as (y & Ey & H).
  apply bind_value_inv in H as (m & Em & H). injection H as <-.
  unfold int_sub, checked_int in Ey, Em.
  destruct (in_intb (cast_int (year d) - 1900)); [| discriminate].
  destruct (in_intb (cast_int (month d) - 1)); [| discriminate].
  injection Ey as <-. injection Em as <-.
  unfold set_time. cbn [tm_sec tm_min tm_hour tm_mday tm_mon tm_year].
  rewrite !cast_uint_add_l, !cast_uint_int.
  replace (cast_int (year d) - 1900 + 1900) with (cast_int (year d)) by lia.
  replace (cast_int (month d) - 1 + 1) with (cast_int (month d)) by lia.
  rewrite !cast_uint_int, !cast_uint_id by assumption. reflexivity.
Qed.

(** ** Accepted strings *)

(** The broken-down time of a civil date-time, as the constructor hands it
    to [mktime]. *)
Definition tm_of_fields (y m d H M S : Z) : tm :=
  mk_tm S M H d (m - 1) (y - 1900) 0 0 (-1).

Lemma tm_of_fields_normal y m d H M S :
  in_int (y - 1900) -> valid_date y m d -> valid_time H M S ->
  normal_tm (tm_of_fields y m d H M S).
Proof.
  intros Hy [Hm Hd] (HH & HM & HS). unfold normal_tm, tm_of_fields.
  cbn [tm_sec tm_min tm_hour tm_mday tm_mon tm_year].
  replace (y - 1900 + 1900) with y by lia. replace (m - 1 + 1) with m by lia.
  repeat split; try lia; apply Hy.
Qed.

Section Accepted.

Context {clib : CLib}.
Variables (raw : datetime) (stack : tm).

(** A constructed value is [set_time] of a structure that [mktime]
    accepted. *)
Lemma datetime_of_string_value s d :
  datetime_of_string raw stack s = Value d ->
  exists t, snd (mktime t) <> -1 /\ d = set_time raw (fst (mktime t)).
Proof.
  unfold datetime_of_string.
  destruct (19 <? Z.of_nat (String.length s)); [discriminate |]. cbn [throw_if bind].
  destruct (sscanf (c_str s) scan_format) as [count vals].
  destruct (negb (count =? 3) && negb (count =? 6)); [discriminate |]. cbn [throw_if bind].
  unfold int_sub, checked_int.
  destruct (in_intb _); [| discriminate]. cbn [bind].
  destruct (in_intb _); [| discriminate]. cbn [bind].
  destruct (mktime _) as [time r] eqn:E.
  destruct (Z.eqb_spec r (-1)); [discriminate |]. cbn [throw_if bind].
  intros [= <-]. eexists. rewrite E. split; [eassumption | reflexivity].
Qed.

(** C2. The invariant of construction: every value that the constructor
    returns has an existing date and time of day, and keeps the members
    that the header does not write. *)
Theorem datetime_of_string_normal s d :
  datetime_of_string raw stack s = Value d -> normal_datetime d /\ inherits raw d.
Proof.
  intros H. apply datetime_of_string_value in H as (t & Hr & ->).
  apply set_time_normal, mktime_normal, Hr.
Qed.

(** An accepted scan whose fields are those of an existing date-time
    yields that date-time. *)
Lemma datetime_of_string_fields s count vals y m d H M S :
  (String.length s <= 19)%nat ->
  sscanf (c_str s) scan_format = (count, vals) ->
  count = 3 \/ count = 6 ->
  same_time (store_fields scan_targets vals stack) (mk_tm S M H d m y 0 0 0) ->
  0 <= y <= 9999 -> valid_date y m d -> valid_time H M S ->
  ~ skipped (tm_of_fields y m d H M S) ->
  snd (mktime (tm_of_fields y m d H M S)) <> -1 ->
  datetime_of_string raw stack s
  = Value (mk_datetime y m d H M S (second_part raw) (neg raw) (time_type raw)).
Proof.
  intros Hl Hs Hc (Es & Emi & Eh & Ed & Emo & Ey) Hy Hv Ht Hk Hr.
  cbn [tm_sec tm_min tm_hour tm_mday tm_mon tm_year] in Es, Emi, Eh, Ed, Emo, Ey.
  assert (Hi : in_int (y - 1900)) by (unfold in_int, int_min, int_max; lia).
  pose proof Hv as [Hm Hd]. pose proof (days_in_month_range y m).
  rewrite (datetime_of_string_scanned raw stack s count vals Hl Hs Hc)
    by (rewrite ?Ey, ?Emo; assumption || (unfold in_int, int_min, int_max; lia)).
  assert (Esame : same_time (scanned_tm stack vals) (tm_of_fields y m d H M S)).
  { unfold scanned_tm, same_time, tm_of_fields. cbv zeta.
    destruct (store_fields scan_targets vals stack). cbn in *. subst. tauto. }
  destruct (mktime_reads _ _ Esame eq_refl) as [Esnd Efst].
  rewrite Esnd. destruct (Z.eqb_spec (snd (mktime (tm_of_fields y m d H M S))) (-1));
    [contradiction |].
  rewrite Efst by congruence.
  rewrite (set_time_same raw _ _ (mktime_fixed _ (tm_of_fields_normal y m d H M S Hi Hv Ht) Hk Hr)).
  destruct Ht as (HH & HM & HS).
  rewrite set_time_fields. unfold tm_of_fields.
  cbn [tm_sec tm_min tm_hour tm_mday tm_mon tm_year].
  replace (y - 1900 + 1900) with y by lia. replace (m - 1 + 1) with m by lia.
  rewrite datetime_of_fields_small by (unfold two; lia).
  rewrite cast_uint_id by (unfold in_uint, uint_max; lia). reflexivity.
Qed.

End Accepted.

Section Texts.

Context {clib : CLib}.
Variables (raw : datetime) (stack : tm).

(** The full format: the text of an existing date-time in the years 0 to
    9999 is accepted, and the value holds its six fields, unless the zone
    skips that local time or [mktime] returns [-1] for it. *)
Lemma datetime_text_accepted y m d H M S :
  0 <= y <= 9999 -> valid_date y m d -> valid_time H M S ->
  ~ skipped (tm_of_fields y m d H M S) ->
  snd (mktime (tm_of_fields y m d H M S)) <> -1 ->
  datetime_of_string raw stack (datetime_text y m d H M S)
  = Value (mk_datetime y m d H M S (second_part raw) (neg raw) (time_type raw)).
Proof.
  intros Hy Hv Ht Hk Hr. pose proof Hv as [Hm Hd]. pose proof Ht as (HH & HM & HS).
  pose proof (days_in_month_range y m).
  apply (datetime_of_string_fields raw stack _ 6 [y; m; d; H; M; S]); try assumption.
  - rewrite length_datetime_text by (unfold two; lia).
    pose proof (length_show_Z_year y ltac:(lia)). lia.
  - rewrite c_str_no_nul by (apply no_nul_datetime_text; unfold two; lia).
    apply sscanf_datetime_text; unfold two, in_int, int_min, int_max; lia.
  - now right.
  - unfold same_time. cbn. tauto.
Qed.

(** C8. The date-only format: [sscanf] stores three fields, and the time of
    day of the value is what the local [std::tm] held before the call. *)
Theorem datetime_of_string_date_text y m d :
  0 <= y <= 9999 -> valid_date y m d ->
  valid_time (tm_hour stack) (tm_min stack) (tm_sec stack) ->
  ~ skipped (tm_of_fields y m d (tm_hour stack) (tm_min stack) (tm_sec stack)) ->
  snd (mktime (tm_of_fields y m d (tm_hour stack) (tm_min stack) (tm_sec stack))) <> -1 ->
  datetime_of_string raw stack (date_text y m d)
  = Value (mk_datetime y m d (tm_hour stack) (tm_min stack) (tm_sec stack)
             (second_part raw) (neg raw) (time_type raw)).
Proof.
  intros Hy Hv Ht Hk Hr. pose proof Hv as [Hm Hd].
  pose proof (days_in_month_range y m).
  apply (datetime_of_string_fields raw stack _ 3 [y; m; d]); try assumption.
  - rewrite length_date_text by (unfold two; lia).
    pose proof (length_show_Z_year y ltac:(lia)). lia.
  - rewrite c_str_no_nul by (apply no_nul_date_text; unfold two; lia).
    apply sscanf_date_text; unfold two, in_int, int_min, int_max; lia.
  - now left.
  - unfold same_time. cbn. tauto.
Qed.

End Texts.

(** ** [str] *)

(** [str] of a value whose fields are a date and a time of day is the text
    of the date-time; the year may be any that an [int] holds. *)
Lemma str_value stack d :
  0 <= year d <= int_max -> 1 <= month d <= 12 -> 1 <= day d <= 31 ->
  valid_time (hour d) (minute d) (second d) ->
  str stack d
  = Value (Some (datetime_text (year d) (month d) (day d) (hour d) (minute d) (second d))).
Proof.
  unfold int_max. intros Hy Hm Hd (HH & HM & HS). unfold str, c_tm.
  rewrite !cast_int_id by (unfold in_int, int_min, int_max; lia).
  rewrite !int_sub_value by (unfold in_int, int_min, int_max; lia).
  cbn [bind]. rewrite strftime_fits.
  - cbn [tm_sec tm_min tm_hour tm_mday tm_mon tm_year].
    replace (year d - 1900 + 1900) with (year d) by lia.
    now replace (month d - 1 + 1) with (month d) by lia.
  - unfold printable_tm. cbn. lia.
  - cbn. unfold in_int, int_min, int_max. lia.
Qed.

Section RoundTrip.

Context {clib : CLib}.

(** C3. Round trip, from a value: [str] of a value with an existing date in
    the years 0 to 9999 is a text from which the constructor builds the
    same value, unless the zone skips that local time or [mktime] returns
    [-1] for it. *)
Theorem datetime_of_string_str stack stack' d :
  0 <= year d <= 9999 -> valid_date (year d) (month d) (day d) ->
  valid_time (hour d) (minute d) (second d) ->
  ~ skipped (tm_of_fields (year d) (month d) (day d) (hour d) (minute d) (second d)) ->
  snd (mktime (tm_of_fields (year d) (month d) (day d) (hour d) (minute d) (second d))) <> -1 ->
  exists s, str stack d = Value (Some s) /\ datetime_of_string d stack' s = Value d.
Proof.
  intros Hy Hv Ht Hk Hr. pose proof Hv as [Hm Hd].
  pose proof (days_in_month_range (year d) (month d)).
  eexists. split; [apply str_value; unfold int_max; lia || assumption |].
  rewrite datetime_text_accepted by assumption. now destruct d.
Qed.

(** C4. Round trip, from a string: whatever string the constructor accepts,
    [str] of the value is the canonical text of its fields, and it fits
    the buffer of line 110, when the year is an [int]. *)
Theorem str_datetime_of_string raw stack stack' s d :
  datetime_of_string raw stack s = Value d -> year d <= int_max ->
  str stack' d
  = Value (Some (datetime_text (year d) (month d) (day d) (hour d) (minute d) (second d))).
Proof.
  intros H Hy. apply datetime_of_string_value in H as (t & Hr & ->).
  destruct (set_time_normal raw (fst (mktime t)) (mktime_normal t Hr))
    as [(y & _ & Ey & Hm & Hd & Ht) _].
  remember (set_time raw (fst (mktime t))) as d eqn:Ed. clear Ed.
  pose proof (days_in_month_range y (month d)).
  pose proof (cast_uint_range y) as Hu. rewrite <- Ey in Hu. unfold in_uint in Hu.
  apply str_value; unfold valid_time; lia.
Qed.

End RoundTrip.

(** ** The default constructor *)

(** The year of a value made from a normal structure: when it is at most
    9999 it is the year of the structure itself, and the six fields are
    those of the structure. *)
Lemma set_time_small_year raw t :
  normal_tm t -> year (set_time raw t) <= 9999 ->
  set_time raw t
  = mk_datetime (tm_year t + 1900) (tm_mon t + 1) (tm_mday t) (tm_hour t) (tm_min t)
      (tm_sec t) (second_part raw) (neg raw) (time_type raw) /\
  0 <= tm_year t + 1900 <= 9999.
Proof.
  intros (Hs & Hmi & Hh & Hmo & Hd & Hy).
  pose proof (days_in_month_range (tm_year t + 1900) (tm_mon t + 1)).
  rewrite set_time_fields, datetime_of_fields_small by (unfold two; lia).
  cbn [year]. unfold cast_uint, in_int, int_min, int_max in *. intros Hle.
  assert (0 <= tm_year t + 1900) by div_lia.
  rewrite Z.mod_small in * by lia. now split.
Qed.

Section Now.

Context {clib : CLib}.

(** C19. The two constructors agree: in every time zone, the text of the value
    that [datetime()] builds is read back by [datetime(str)] as the same
    value, when its year has at most four digits and [mktime] does not
    return [-1] for it.  A local time that [localtime] returns is never
    one that the zone skips. *)
Theorem datetime_now_str raw time_ stack stack' d :
  datetime_now raw time_ = Value d -> year d <= 9999 ->
  snd (mktime (tm_of_fields (year d) (month d) (day d) (hour d) (minute d) (second d))) <> -1 ->
  inherits raw d /\
  exists s, str stack d = Value (Some s) /\ datetime_of_string d stack' s = Value d.
Proof.
  unfold datetime_now. destruct (localtime time_) as [t |] eqn:El; [| discriminate].
  intros [= <-] Hy. destruct (localtime_normal _ _ El) as [N Hk].
  destruct (set_time_small_year raw t N Hy) as [-> H0]. clear Hy.
  cbn [year month day hour minute second]. intros Hr. split; [easy |].
  destruct N as (Hs & Hmi & Hh & Hmo & Hd & Hy).
  pose proof (days_in_month_range (tm_year t + 1900) (tm_mon t + 1)).
  assert (Hv : valid_date (tm_year t + 1900) (tm_mon t + 1) (tm_mday t))
    by (unfold valid_date; lia).
  assert (Ht : valid_time (tm_hour t) (tm_min t) (tm_sec t)) by (unfold valid_time; lia).
  eexists. split;
    [apply str_value; cbn [year month day hour minute second]; unfold int_max; lia || assumption |].
  cbn [year month day hour minute second].
  refine (eq_trans (datetime_text_accepted _ _ _ _ _ _ _ _ H0 Hv Ht _ Hr) eq_refl).
  intros F. apply Hk. revert F. apply skipped_reads. unfold same_time, tm_of_fields. cbn. repeat split; lia.
Qed.

End Now.

(** Under UTC the default constructor builds the civil date and time of
    day of the clock. *)
Example utc_datetime_now :
  @datetime_now utc_clib zero_datetime 1614680430 = Value (mk_datetime 2021 3 2 10 20 30 0 false 0).
Proof. reflexivity. Qed.

(** ** Strings of another shape that the constructor accepts *)

Section OtherShapes.

Context {clib : CLib}.
Variables (raw : datetime) (stack : tm).

Lemma sscanf_date_text_junk y m d c tail :
  in_int y -> two m -> two d -> junk c = true ->
  sscanf (date_text y m d ++ String c tail) scan_format = (3, [y; m; d]).
Proof.
  unfold two. intros Hy Hm Hd J.
  unfold sscanf, scan_format, date_text.
  rewrite !append_assoc. cbn [append]. rewrite !append_assoc. cbn [append].
  scan_steps. reflexivity.
Qed.

(** C17. Characters after a date are not looked at: the string is accepted as
    the date alone when they start with neither a digit, white space nor a
    sign.  ["2021-03-02T10:20:30"] is read as the date 2021-03-02. *)
Theorem datetime_of_string_trailing y m d c tail :
  0 <= y <= 9999 -> valid_date y m d -> junk c = true ->
  (String.length (date_text y m d ++ String c tail) <= 19)%nat ->
  valid_time (tm_hour stack) (tm_min stack) (tm_sec stack) ->
  ~ skipped (tm_of_fields y m d (tm_hour stack) (tm_min stack) (tm_sec stack)) ->
  snd (mktime (tm_of_fields y m d (tm_hour stack) (tm_min stack) (tm_sec stack))) <> -1 ->
  datetime_of_string raw stack (date_text y m d ++ String c tail)
  = Value (mk_datetime y m d (tm_hour stack) (tm_min stack) (tm_sec stack)
             (second_part raw) (neg raw) (time_type raw)).
Proof.
  intros Hy Hv J Hl Ht Hk Hr. pose proof Hv as [Hm Hd].
  pose proof (days_in_month_range y m).
  apply (datetime_of_string_fields raw stack _ 3 [y; m; d]); try assumption.
  - rewrite c_str_append by (apply no_nul_date_text; unfold two; lia).
    cbn [c_str]. destruct (junk_inv c J) as (_ & _ & _ & _ & ->).
    apply sscanf_date_text_junk; unfold two, in_int, int_min, int_max; (lia || assumption).
  - now left.
  - unfold same_time. cbn. tauto.
Qed.

(** A date as the format of line 65 reads it: each number may come after
    white space, with any number of digits and with a sign. *)
Definition loose_date_text (a b c : nat) (y m d : Z) : string :=
  spaces a ++ show_Z y ++ String "-" (spaces b ++ show_Z m ++ String "-"
    (spaces c ++ show_Z d)).

Lemma sscanf_loose_date_text a b c y m d :
  in_int y -> in_int m -> in_int d ->
  sscanf (loose_date_text a b c y m d) scan_format = (3, [y; m; d]).
Proof.
  intros Hy Hm Hd. unfold sscanf, scan_format, loose_date_text.
  rewrite <- (append_nil_r (show_Z d)). scan_steps. reflexivity.
Qed.

Lemma no_nul_loose_date_text a b c y m d : no_nul (loose_date_text a b c y m d) = true.
Proof.
  unfold loose_date_text. repeat (rewrite no_nul_append; cbn [no_nul]).
  now rewrite !no_nul_spaces, !no_nul_show_Z.
Qed.

(** C29. A date with white space before its numbers and without padding is
    accepted as the date: [" 2021- 3- 2"] is read as 2021-03-02. *)
Theorem datetime_of_string_loose a b c y m d :
  0 <= y <= 9999 -> valid_date y m d ->
  (String.length (loose_date_text a b c y m d) <= 19)%nat ->
  valid_time (tm_hour stack) (tm_min stack) (tm_sec stack) ->
  ~ skipped (tm_of_fields y m d (tm_hour stack) (tm_min stack) (tm_sec stack)) ->
  snd (mktime (tm_of_fields y m d (tm_hour stack) (tm_min stack) (tm_sec stack))) <> -1 ->
  datetime_of_string raw stack (loose_date_text a b c y m d)
  = Value (mk_datetime y m d (tm_hour stack) (tm_min stack) (tm_sec stack)
             (second_part raw) (neg raw) (time_type raw)).
Proof.
  intros Hy Hv Hl Ht Hk Hr. pose proof Hv as [Hm Hd].
  pose proof (days_in_month_range y m).
  apply (datetime_of_string_fields raw stack _ 3 [y; m; d]); try assumption.
  - rewrite c_str_no_nul by apply no_nul_loose_date_text.
    apply sscanf_loose_date_text; unfold in_int, int_min, int_max; lia.
  - now left.
  - unfold same_time. cbn. tauto.
Qed.

(** The constructor looks at a string through its size and through what
    [c_str()] shows to [sscanf]. *)
Lemma datetime_of_string_c_str s s' :
  c_str s = c_str s' ->
  (19 <? Z.of_nat (String.length s)) = (19 <? Z.of_nat (String.length s')) ->
  datetime_of_string raw stack s = datetime_of_string raw stack s'.
Proof. intros Ec El. unfold datetime_of_string. now rewrite Ec, El. Qed.

(** C24. A string with a NUL: [size()] counts the bytes after it, [sscanf]
    does not see them.  Within 19 bytes the string is read as the text
    before the NUL; beyond, it is refused whatever that text is. *)
Theorem datetime_of_string_nul s tail :
  no_nul s = true -> (String.length s <= 19)%nat ->
  datetime_of_string raw stack (s ++ String zero tail)
  = if (19 <=? String.length s + String.length tail)%nat then Throw (cast_failed 61)
    else datetime_of_string raw stack s.
Proof.
  intros Hn Hl. destruct (Nat.leb_spec 19 (String.length s + String.length tail)) as [H | H].
  - unfold datetime_of_string. rewrite length_append. cbn [String.length].
    now rewrite (proj2 (Z.ltb_lt 19 _)) by lia.
  - apply datetime_of_string_c_str.
    + rewrite c_str_append by assumption. cbn [c_str]. rewrite Ascii.eqb_refl.
      now rewrite append_nil_r, c_str_no_nul.
    + rewrite length_append. cbn [String.length].
      now rewrite !(proj2 (Z.ltb_ge 19 _)) by lia.
Qed.

(** A year that no [int] holds.  [%d] converts the digits through
    [strtol] and stores the low 32 bits of the result, so the year of the
    value is the year of the text modulo [2^32]. *)
Lemma sscanf_date_text_any Y m d :
  two m -> two d ->
  sscanf (date_text Y m d) scan_format = (3, [cast_int (clamp_long Y); m; d]).
Proof.
  unfold two. intros Hm Hd. unfold sscanf, scan_format, date_text.
  cbn [scan_loop scan_directive app]. rewrite scan_int_show_Z_any by reflexivity.
  scan_steps. reflexivity.
Qed.

Lemma cast_int_wraps y k : in_int y -> cast_int (y + k * 2 ^ 32) = y.
Proof.
  unfold in_int, int_min, int_max, cast_int. intros Hy.
  replace (y + k * 2 ^ 32 + 2 ^ 31) with (y + 2 ^ 31 + k * 2 ^ 32) by lia.
  rewrite Z_mod_plus_full, Z.mod_small by lia. lia.
Qed.

Lemma length_show_Z_13 z :
  - 10 ^ 12 < z < 10 ^ 13 -> (String.length (show_Z z) <= 13)%nat.
Proof.
  unfold show_Z. intros H. destruct (Z.ltb_spec z 0); cbn [String.length].
  - pose proof (length_show_nat (- z) ltac:(lia) 12%nat ltac:(lia) ltac:(lia)). lia.
  - pose proof (length_show_nat z ltac:(lia) 13%nat ltac:(lia) ltac:(lia)). lia.
Qed.

(** C38. Line 65 on a year of up to 13 characters: the string passes the test
    of line 59, no test of the constructor looks at the size of the
    number, and the value holds the year of the text reduced modulo
    [2^32].  ["4294969317-03-02"] is accepted as 2021-03-02. *)
Theorem datetime_of_string_year_wraps y k m d :
  0 <= y <= 9999 -> valid_date y m d ->
  - 10 ^ 12 < y + k * 2 ^ 32 < 10 ^ 13 ->
  valid_time (tm_hour stack) (tm_min stack) (tm_sec stack) ->
  ~ skipped (tm_of_fields y m d (tm_hour stack) (tm_min stack) (tm_sec stack)) ->
  snd (mktime (tm_of_fields y m d (tm_hour stack) (tm_min stack) (tm_sec stack))) <> -1 ->
  datetime_of_string raw stack (date_text (y + k * 2 ^ 32) m d)
  = Value (mk_datetime y m d (tm_hour stack) (tm_min stack) (tm_sec stack)
             (second_part raw) (neg raw) (time_type raw)).
Proof.
  intros Hy Hv HY Ht Hk Hr. pose proof Hv as [Hm Hd].
  pose proof (days_in_month_range y m).
  apply (datetime_of_string_fields raw stack _ 3 [y; m; d]); try assumption.
  - rewrite length_date_text by (unfold two; lia).
    pose proof (length_show_Z_13 _ HY). lia.
  - rewrite c_str_no_nul by (apply no_nul_date_text; unfold two; lia).
    rewrite sscanf_date_text_any by (unfold two; lia).
    unfold clamp_long, long_min, long_max. rewrite Z.min_r, Z.max_r by lia.
    now rewrite cast_int_wraps by (unfold in_int, int_min, int_max; lia).
  - now left.
  - unfold same_time. cbn. tauto.
Qed.

End OtherShapes.

(** ** The text of six fields of two digits *)

Section Scanned.

Context {clib : CLib}.
Variables (raw : datetime) (stack : tm).

(** On the text of a year of at most four digits and five fields of two
    digits, in their calendar ranges or not, the constructor hands the
    six fields to [mktime]. *)
Lemma datetime_text_scanned y m d H M S :
  0 <= y <= 9999 -> two m -> two d -> two H -> two M -> two S ->
  datetime_of_string raw stack (datetime_text y m d H M S)
  = if snd (mktime (tm_of_fields y m d H M S)) =? -1 then Throw (cast_failed 77)
    else Value (set_time raw (fst (mktime (tm_of_fields y m d H M S)))).
Proof.
  intros Hy Hm Hd HH HM HS. unfold two in *.
  rewrite (datetime_of_string_scanned raw stack _ 6 [y; m; d; H; M; S]); cycle 1.
  - rewrite length_datetime_text by (unfold two; lia).
    pose proof (length_show_Z_year y ltac:(lia)). lia.
  - rewrite c_str_no_nul by (apply no_nul_datetime_text; unfold two; lia).
    apply sscanf_datetime_text; unfold two, in_int, int_min, int_max; lia.
  - now right.
  - cbn. unfold in_int, int_min, int_max. lia.
  - cbn. unfold in_int, int_min, int_max. lia.
  - assert (E : same_time (scanned_tm stack [y; m; d; H; M; S]) (tm_of_fields y m d H M S))
      by (unfold same_time; cbn; tauto).
    destruct (mktime_reads _ _ E eq_refl) as [Es Ef]. rewrite Es.
    destruct (Z.eqb_spec (snd (mktime (tm_of_fields y m d H M S))) (-1));
      [reflexivity | now rewrite Ef by congruence].
Qed.

End Scanned.

(** ** Under UTC *)

Section UTC.

Variables (raw : datetime) (stack : tm).

(** C1. Under UTC the text of every existing date-time of the years 0 to 9999
    is accepted, except the last second of 1969. *)
Theorem utc_datetime_of_string_datetime_text y m d H M S :
  0 <= y <= 9999 -> valid_date y m d -> valid_time H M S ->
  ~ (y = 1969 /\ m = 12 /\ d = 31 /\ H = 23 /\ M = 59 /\ S = 59) ->
  @datetime_of_string utc_clib raw stack (datetime_text y m d H M S)
  = Value (mk_datetime y m d H M S (second_part raw) (neg raw) (time_type raw)).
Proof.
  intros Hy Hv Ht Hn. apply datetime_text_accepted; try assumption; [easy |].
  change (@mktime utc_clib) with mktime_utc.
  intros E. apply mktime_utc_minus_one in E.
  - unfold same_time, tm_of_fields in E.
    cbn [tm_sec tm_min tm_hour tm_mday tm_mon tm_year] in E. lia.
  - apply tm_of_fields_normal; try assumption. unfold in_int, int_min, int_max. lia.
Qed.

(** C9. A month or a day of two digits beyond its calendar range is carried
    into the next months and years: the string is accepted, and the value
    is the date-time that many days later. *)
Theorem utc_datetime_of_string_carries y m d H M S :
  0 <= y <= 9999 -> two m -> two d -> valid_time H M S ->
  let z := days_from_civil (y + (m - 1) / 12) ((m - 1) mod 12 + 1) d in
  z * 86400 + H * 3600 + M * 60 + S <> -1 ->
  @datetime_of_string utc_clib raw stack (datetime_text y m d H M S)
  = Value (datetime_of_fields raw (fst (fst (civil_from_days z)))
             (snd (fst (civil_from_days z))) (snd (civil_from_days z)) H M S).
Proof.
  intros Hy Hm Hd Ht z Hz. unfold two in Hm, Hd. pose proof Ht as (HH & HM & HS).
  rewrite datetime_text_scanned by (unfold two; lia).
  change (@mktime utc_clib) with mktime_utc. unfold tm_of_fields.
  rewrite mktime_utc_carries
    by (cbn [tm_sec tm_min tm_hour tm_mday tm_mon tm_year]; unfold valid_time; lia).
  cbn [tm_sec tm_min tm_hour tm_mday tm_mon tm_year fst snd].
  replace (y - 1900 + 1900) with y by lia. fold z.
  destruct (Z.eqb_spec (z * 86400 + H * 3600 + M * 60 + S) (-1)); [contradiction |].
  rewrite tm_of_secs_time, set_time_fields by assumption.
  destruct (civil_from_days z) as [[y' m'] d'].
  cbn [fst snd tm_sec tm_min tm_hour tm_mday tm_mon tm_year].
  replace (y' - 1900 + 1900) with y' by lia.
  now replace (m' - 1 + 1) with m' by lia.
Qed.

End UTC.

Example utc_datetime_of_string_carries_witness :
  @datetime_of_string utc_clib zero_datetime zero_tm "2021-02-30 10:20:30"
  = Value (mk_datetime 2021 3 2 10 20 30 0 false 0).
Proof.
  exact (utc_datetime_of_string_carries zero_datetime zero_tm 2021 2 30 10 20 30
           ltac:(by_eval) ltac:(by_eval) ltac:(by_eval) ltac:(by_eval) ltac:(by_eval)).
Defined.

(** ** The two formats, the buffer, and the casts of [c_tm] *)

(** What [strftime] writes with the format of line 113, [sscanf] reads back
    with the format of line 65: six stores, the six fields as the text
    shows them. *)
Theorem sscanf_strftime t :
  printable_tm t -> in_int (tm_year t + 1900) ->
  exists s, strftime 32 time_format t = Some s /\
    sscanf s scan_format
    = (6, [tm_year t + 1900; tm_mon t + 1; tm_mday t; tm_hour t; tm_min t; tm_sec t]).
Proof.
  intros P Hy. eexists. split; [now apply strftime_fits |].
  destruct P as (Hs & Hmi & Hh & Hd & Hmo).
  apply sscanf_datetime_text; unfold two; (assumption || lia).
Qed.

(** C21. The text that [str] returns has at most 26 characters and no NUL: the
    32 bytes of [buf] hold it with its terminator, and the [std::string]
    built from [buf] is the whole text. *)
Theorem str_fits stack d :
  0 <= year d <= int_max -> 1 <= month d <= 12 -> 1 <= day d <= 31 ->
  valid_time (hour d) (minute d) (second d) ->
  exists s, str stack d = Value (Some s) /\
    (String.length s <= 26)%nat /\ c_str s = s.
Proof.
  intros Hy Hm Hd Ht. eexists. split; [now apply str_value |].
  destruct Ht as (HH & HM & HS).
  rewrite length_datetime_text by (unfold two; lia).
  pose proof (length_show_Z_int (year d)
                ltac:(unfold in_int, int_min, int_max in *; lia)).
  split; [lia |]. apply c_str_no_nul, no_nul_datetime_text; unfold two; lia.
Qed.

(** C20. Lines 97-98: the subtractions of [c_tm] are on [int]s.  They overflow,
    and the behaviour is undefined, exactly when the year is one of the
    1900 values from [2^31] on or the month is [2^31]. *)
Theorem c_tm_undefined stack d :
  in_uint (year d) -> in_uint (month d) ->
  c_tm stack d = Undefined <->
  2 ^ 31 <= year d < 2 ^ 31 + 1900 \/ month d = 2 ^ 31.
Proof.
  unfold in_uint, uint_max. intros Hy Hm. unfold c_tm, int_sub, checked_int.
  destruct (in_intb (cast_int (year d) - 1900)) eqn:Ey;
    [apply in_intb_true in Ey | apply in_intb_false in Ey]; cbn [bind];
    [destruct (in_intb (cast_int (month d) - 1)) eqn:Em;
       [apply in_intb_true in Em | apply in_intb_false in Em]; cbn [bind] |];
    unfold in_int, int_min, int_max, cast_int in *;
    (split; [intros E; try discriminate E | intros E; try reflexivity]); div_lia.
Qed.

(** ** Concrete inputs, continued *)

Definition noon_tm : tm := mk_tm 7 8 9 0 0 0 0 0 0.
Definition a_datetime : datetime := mk_datetime 2021 3 2 10 20 30 0 false 0.

Example datetime_of_string_normal_witness :
  normal_datetime a_datetime /\ inherits zero_datetime a_datetime.
Proof.
  apply (@datetime_of_string_normal utc_clib zero_datetime zero_tm "2021-03-02 10:20:30").
  vm_compute. reflexivity.
Defined.

Example utc_datetime_of_string_datetime_text_witness :
  @datetime_of_string utc_clib zero_datetime zero_tm "2021-03-02 10:20:30" = Value a_datetime.
Proof.
  exact (utc_datetime_of_string_datetime_text zero_datetime zero_tm 2021 3 2 10 20 30
           ltac:(by_eval) ltac:(by_eval) ltac:(by_eval) ltac:(by_eval)).
Defined.

Example datetime_of_string_date_text_witness :
  @datetime_of_string utc_clib zero_datetime noon_tm "2021-03-02"
  = Value (mk_datetime 2021 3 2 9 8 7 0 false 0).
Proof.
  exact (@datetime_of_string_date_text utc_clib zero_datetime noon_tm 2021 3 2
           ltac:(by_eval) ltac:(by_eval) ltac:(by_eval) (fun F => F) ltac:(by_eval)).
Defined.

Example datetime_of_string_trailing_witness :
  @datetime_of_string utc_clib zero_datetime zero_tm "2021-03-02T10:20:30"
  = Value (mk_datetime 2021 3 2 0 0 0 0 false 0).
Proof.
  exact (@datetime_of_string_trailing utc_clib zero_datetime zero_tm 2021 3 2 "T" "10:20:30"
           ltac:(by_eval) ltac:(by_eval) eq_refl ltac:(by_eval) ltac:(by_eval)
           (fun F => F) ltac:(by_eval)).
Defined.

Example datetime_of_string_loose_witness :
  @datetime_of_string utc_clib zero_datetime zero_tm " 2021- 3- 2"
  = Value (mk_datetime 2021 3 2 0 0 0 0 false 0).
Proof.
  exact (datetime_of_string_loose zero_datetime zero_tm 1 1 1 2021 3 2
           ltac:(by_eval) ltac:(by_eval) ltac:(by_eval) ltac:(by_eval) (fun F => F)
           ltac:(by_eval)).
Defined.

Example datetime_of_string_nul_witness :
  @datetime_of_string utc_clib zero_datetime zero_tm
    ("2021-03-02" ++ String zero "10:20:30")
  = @datetime_of_string utc_clib zero_datetime zero_tm "2021-03-02" /\
  @datetime_of_string utc_clib zero_datetime zero_tm
    ("2021-03-02" ++ String zero " 10:20:30")
  = Throw (cast_failed 61).
Proof.
  split.
  - exact (datetime_of_string_nul zero_datetime zero_tm "2021-03-02" "10:20:30" eq_refl
             ltac:(by_eval)).
  - exact (datetime_of_string_nul zero_datetime zero_tm "2021-03-02" " 10:20:30" eq_refl
             ltac:(by_eval)).
Defined.

Example datetime_of_string_year_wraps_witness :
  @datetime_of_string utc_clib zero_datetime zero_tm "4294969317-03-02"
  = Value (mk_datetime 2021 3 2 0 0 0 0 false 0).
Proof.
  exact (datetime_of_string_year_wraps zero_datetime zero_tm 2021 1 3 2
           ltac:(by_eval) ltac:(by_eval) ltac:(by_eval) ltac:(by_eval) (fun F => F)
           ltac:(by_eval)).
Defined.

Example datetime_of_string_str_witness :
  exists s, str zero_tm a_datetime = Value (Some s) /\
            @datetime_of_string utc_clib a_datetime zero_tm s = Value a_datetime.
Proof.
  apply (@datetime_of_string_str utc_clib zero_tm zero_tm a_datetime);
    [by_eval | by_eval | by_eval | exact (fun F => F) | by_eval].
Defined.

Example str_datetime_of_string_witness :
  str zero_tm (mk_datetime 2021 3 2 0 0 0 0 false 0) = Value (Some "2021-03-02 00:00:00").
Proof.
  exact (@str_datetime_of_string utc_clib zero_datetime zero_tm zero_tm "2021-03-02"
           (mk_datetime 2021 3 2 0 0 0 0 false 0) ltac:(vm_compute; reflexivity)
           ltac:(by_eval)).
Defined.

Example datetime_now_str_witness :
  inherits zero_datetime a_datetime /\
  exists s, str zero_tm a_datetime = Value (Some s) /\
            @datetime_of_string utc_clib a_datetime zero_tm s = Value a_datetime.
Proof.
  exact (@datetime_now_str utc_clib zero_datetime 1614680430 zero_tm zero_tm a_datetime
           eq_refl ltac:(by_eval) ltac:(by_eval)).
Defined.

Example c_tm_set_time_witness :
  exists u, c_tm zero_tm (set_time zero_datetime (mk_tm 30 20 10 2 2 121 0 0 0)) = Value u /\
            same_time u (mk_tm 30 20 10 2 2 121 0 0 0) /\
            tm_wday u = 0 /\ tm_yday u = 0 /\ tm_isdst u = -1.
Proof. apply (c_tm_set_time zero_tm zero_datetime (mk_tm 30 20 10 2 2 121 0 0 0)); by_eval. Defined.

Example set_time_c_tm_witness :
  set_time zero_datetime (mk_tm 30 20 10 2 2 121 0 0 (-1)) = a_datetime.
Proof.
  apply (set_time_c_tm zero_tm zero_datetime a_datetime); by_eval.
Defined.

Example sscanf_strftime_witness :
  exists s, strftime 32 time_format (mk_tm 30 20 10 2 2 121 0 0 0) = Some s /\
            sscanf s scan_format = (6, [2021; 3; 2; 10; 20; 30]).
Proof. apply (sscanf_strftime (mk_tm 30 20 10 2 2 121 0 0 0)); by_eval. Defined.

Example str_fits_witness :
  exists s, str zero_tm a_datetime = Value (Some s) /\
            (String.length s <= 26)%nat /\ c_str s = s.
Proof. apply (str_fits zero_tm a_datetime); by_eval. Defined.

Example c_tm_undefined_witness :
  c_tm zero_tm (mk_datetime 2147483648 1 1 0 0 0 0 false 0) = Undefined.
Proof.
  apply (c_tm_undefined zero_tm (mk_datetime 2147483648 1 1 0 0 0 0 false 0));
    [by_eval | by_eval | left; by_eval].
Defined.

(** ** The types of the fields *)

(** The six fields of a value are [unsigned int]s, those of a structure
    are [int]s. *)
Definition typed_datetime (d : datetime) : Prop :=
  in_uint (year d) /\ in_uint (month d) /\ in_uint (day d) /\
  in_uint (hour d) /\ in_uint (minute d) /\ in_uint (second d).

Definition typed_tm (t : tm) : Prop :=
  in_int (tm_sec t) /\ in_int (tm_min t) /\ in_int (tm_hour t) /\
  in_int (tm_mday t) /\ in_int (tm_mon t) /\ in_int (tm_year t).

(** [set_time] stores [unsigned int]s whatever the structure holds, and the
    structure that [c_tm] returns holds [int]s whatever the value holds:
    no cast of lines 85-90 and 97-102 leaves its type. *)
Theorem set_time_c_tm_typed :
  (forall raw t, typed_datetime (set_time raw t)) /\
  (forall stack d t, c_tm stack d = Value t -> typed_tm t /\ tm_isdst t = -1).
Proof.
  split.
  - intros raw t. unfold typed_datetime, set_time. cbn [year month day hour minute second].
    repeat (split; [apply cast_uint_range |]). apply cast_uint_range.
  - intros stack d t. unfold c_tm. intros H.
    apply bind_value_inv in H as (y & Ey & H). apply bind_value_inv in H as (m & Em & H).
    injection H as <-. unfold int_sub, checked_int in Ey, Em.
    destruct (in_intb (cast_int (year d) - 1900)) eqn:By; [| discriminate].
    destruct (in_intb (cast_int (month d) - 1)) eqn:Bm; [| discriminate].
    injection Ey as <-. injection Em as <-. apply in_intb_true in By, Bm.
    unfold typed_tm. cbn [tm_sec tm_min tm_hour tm_mday tm_mon tm_year tm_isdst].
    split; [| reflexivity].
    repeat (split; [assumption || apply cast_int_range |]). assumption.
Qed.

(** ** [str] on every value *)

(** The values that [str] prints: a month, a day and a time of day in the
    ranges that ISO C gives to the fields of a [std::tm]. *)
Definition printable (d : datetime) : Prop :=
  1 <= month d <= 12 /\ 1 <= day d <= 31 /\
  hour d <= 23 /\ minute d <= 59 /\ second d <= 60.

(** The cast of line 97 to 102 keeps a small field and makes no large one
    small. *)
Lemma cast_int_between z lo hi :
  in_uint z -> 0 <= lo -> hi < 2 ^ 31 ->
  lo <= cast_int z <= hi <-> lo <= z <= hi.
Proof. unfold in_uint, uint_max, cast_int. intros Hz Hlo Hhi. div_lia. Qed.

(** A field outside its range leaves the characters that [strftime]
    stores unspecified. *)
Lemma strftime_not_printable max t :
  ~ printable_tm t -> strftime max time_format t = None.
Proof.
  intros N. unfold strftime.
  assert (render_all t time_format = None) as ->; [| reflexivity].
  unfold time_format. cbn [render_all render]. unfold two_digits.
  repeat match goal with
         | |- context [(?a <=? ?b) && (?c <=? ?d)] =>
             destruct (Z.leb_spec a b), (Z.leb_spec c d); cbn [andb]; try reflexivity
         end.
  exfalso. apply N. unfold printable_tm. lia.
Qed.

(** The structure that [c_tm] fills is printable exactly when the value
    is. *)
Lemma c_tm_printable stack d :
  typed_datetime d -> year d <= int_max -> month d <> 2 ^ 31 ->
  exists t, c_tm stack d = Value t /\ tm_year t = year d - 1900 /\
    (printable_tm t <-> printable d) /\
    (printable d ->
     tm_mon t = month d - 1 /\ tm_mday t = day d /\ tm_hour t = hour d /\
     tm_min t = minute d /\ tm_sec t = second d).
Proof.
  unfold int_max. intros (Hy & Hm & Hd & HH & HM & HS) Hyear Hmonth.
  pose proof (cast_int_between (month d) 1 12 Hm) as Im.
  pose proof (cast_int_between (day d) 1 31 Hd) as Id.
  pose proof (cast_int_between (hour d) 0 23 HH) as Ih.
  pose proof (cast_int_between (minute d) 0 59 HM) as Imi.
  pose proof (cast_int_between (second d) 0 60 HS) as Is.
  unfold in_uint, uint_max in *. unfold c_tm.
  rewrite (cast_int_id (year d)) by (unfold in_int, int_min, int_max; lia).
  rewrite !int_sub_value; cbn [bind];
    [| unfold in_int, int_min, int_max, cast_int; div_lia
     | unfold in_int, int_min, int_max; lia].
  eexists. split; [reflexivity |].
  cbn [tm_sec tm_min tm_hour tm_mday tm_mon tm_year]. split; [reflexivity |].
  split; [unfold printable_tm, printable;
          cbn [tm_sec tm_min tm_hour tm_mday tm_mon tm_year]; lia |].
  intros (Pm & Pd & Ph & Pmi & Ps).
  rewrite !cast_int_id by (unfold in_int, int_min, int_max; lia). tauto.
Qed.

(** C10. Lines 108 to 116 on every value whose year an [int] holds and whose
    month is not [2^31] (the values on which [c_tm] is defined): [str]
    returns the text of the six fields when month, day and time of day are
    in the ranges of ISO C, the second 60 of a leap second included, and
    characters that ISO C leaves unspecified otherwise.  The zero date of
    MySQL and every value of the type TIME have the month 0. *)
Theorem str_printable stack d :
  typed_datetime d -> year d <= int_max -> month d <> 2 ^ 31 ->
  (printable d ->
   str stack d
   = Value (Some (datetime_text (year d) (month d) (day d) (hour d) (minute d) (second d)))) /\
  (~ printable d -> str stack d = Value None).
Proof.
  intros Ht Hy Hm.
  destruct (c_tm_printable stack d Ht Hy Hm) as (t & Et & Ey & Ep & Ef).
  unfold str. rewrite Et. cbn [bind]. split; intros P.
  - destruct (Ef P) as (Emo & Ed & Eh & Emi & Es).
    rewrite strftime_fits; [| now apply Ep |].
    + rewrite Ey, Emo, Ed, Eh, Emi, Es. do 3 f_equal; lia.
    + destruct Ht as ((? & _) & _). unfold in_int, int_min, int_max in *. lia.
  - rewrite strftime_not_printable; [reflexivity | now rewrite Ep].
Qed.

Example str_printable_witness :
  str zero_tm zero_datetime = Value None /\
  str zero_tm (mk_datetime 2016 12 31 23 59 60 0 false 0) = Value (Some "2016-12-31 23:59:60").
Proof.
  split.
  - apply (str_printable zero_tm zero_datetime); [by_eval | by_eval | by_eval |].
    unfold printable. cbn. lia.
  - apply (str_printable zero_tm (mk_datetime 2016 12 31 23 59 60 0 false 0));
      [by_eval | by_eval | by_eval | by_eval].
Defined.
