(* ===== verification/Zone.v ===== *)
(** * Zone: [mktime] in a time zone at a fixed offset from UTC

    [std::mktime] (line 75 of [src/mysqlpp.hpp]) reads the broken-down
    time as local time.  [Libc.v] gives the instance of [CLib] for
    [TZ=UTC]; this file gives the instance for any zone without daylight
    saving time, [offset] seconds east of Greenwich: the structure is
    normalised as under UTC, and the [time_t] returned is earlier by
    [offset].  The constructor of [datetime] then accepts the same texts
    in every such zone but one, which depends on the zone: the local time
    whose [time_t] is [-1]. *)

From Stdlib Require Import ZArith Lia List String Ascii Bool Morphisms Setoid.
From S2P Require Import Prelude Calendar Libc Exception Datetime.
Import ListNotations.

#[local] Open Scope string_scope.
#[local] Open Scope Z_scope.

(** ** The instance *)

(** [mktime] in the zone [offset] seconds east of Greenwich; [-1] with the
    structure unchanged when the year does not fit an [int] or the count a
    [time_t]. *)
Definition mktime_offset (offset : Z) (t : tm) : tm * Z :=
  let local := secs_of_tm t in
  let t' := tm_of_secs local in
  if in_intb (tm_year t') && in_longb (local - offset) then (t', local - offset)
  else (t, -1).

(** [localtime] in that zone: the structure of the instant moved by the
    offset, a null pointer when its year does not fit [tm_year]. *)
Definition localtime_offset (offset : Z) (s : Z) : option tm :=
  let t := tm_of_secs (s + offset) in
  if in_intb (tm_year t) then Some t else None.

Section FixedOffset.

Variable offset : Z.

Lemma mktime_offset_ok t : snd (mktime_offset offset t) <> -1 ->
  mktime_offset offset t = (tm_of_secs (secs_of_tm t), secs_of_tm t - offset) /\
  in_int (tm_year (tm_of_secs (secs_of_tm t))).
Proof.
  unfold mktime_offset. cbv zeta.
  destruct (in_intb (tm_year (tm_of_secs (secs_of_tm t)))) eqn:E; cbn [andb snd];
    [| congruence].
  destruct (in_longb (secs_of_tm t - offset)); cbn [snd]; [| congruence].
  intros _. split; [reflexivity | now apply in_intb_true].
Qed.

Lemma mktime_offset_reads t u : same_time t u ->
  snd (mktime_offset offset t) = snd (mktime_offset offset u) /\
  (snd (mktime_offset offset t) <> -1 ->
   fst (mktime_offset offset t) = fst (mktime_offset offset u)).
Proof.
  intros E. unfold mktime_offset. cbv zeta. rewrite (secs_of_tm_same t u E).
  destruct (in_intb (tm_year (tm_of_secs (secs_of_tm u))) && in_longb (secs_of_tm u - offset));
    cbn [fst snd]; split; congruence.
Qed.

(** The laws of [CLib] hold in every zone at a fixed offset. *)
Definition offset_clib : CLib.
Proof.
  refine {| mktime := mktime_offset offset; localtime := localtime_offset offset;
            skipped := fun _ => False |}.
  - intros t H. destruct (mktime_offset_ok t H) as [-> Hy]. now apply tm_of_secs_normal.
  - intros t N _ H. destruct (mktime_offset_ok t H) as [-> _]. now apply tm_of_secs_of_tm.
  - intros t u E _. now apply mktime_offset_reads.
  - easy.
  - intros s t. unfold localtime_offset. cbv zeta.
    destruct (in_intb (tm_year (tm_of_secs (s + offset)))) eqn:E; [| easy].
    intros [= <-]. split; [now apply tm_of_secs_normal, in_intb_true | easy].
Defined.

(** ** What [mktime] returns *)

(** Real zones are less than a day from Greenwich. *)
Hypothesis offset_range : - 86400 < offset < 86400.

(** On a normal structure [mktime] returns its count of seconds, earlier
    by the offset. *)
Lemma mktime_offset_normal t : normal_tm t ->
  mktime_offset offset t = (tm_of_secs (secs_of_tm t), secs_of_tm t - offset).
Proof.
  intros N. unfold mktime_offset. cbv zeta.
  pose proof (tm_of_secs_of_tm t N) as (_ & _ & _ & _ & _ & Ey).
  destruct (normal_tm_ints t N) as (Hs & Hmi & Hh & Hd & Hmo & Hy).
  pose proof (secs_of_tm_bound t Hs Hmi Hh Hd Hmo Hy) as B.
  rewrite Ey. apply in_intb_true in Hy. rewrite Hy.
  replace (in_longb (secs_of_tm t - offset)) with true; [reflexivity |].
  symmetry. apply in_longb_true. unfold in_long, long_min, long_max. lia.
Qed.

(** It returns [-1] for one instant only. *)
Lemma mktime_offset_minus_one t : normal_tm t ->
  snd (mktime_offset offset t) = -1 <-> secs_of_tm t = offset - 1.
Proof. intros N. rewrite mktime_offset_normal by assumption. cbn [snd]. lia. Qed.

(** The local time of that instant: a normal structure of 1969 or 1970. *)
Lemma rejected_tm :
  normal_tm (tm_of_secs (offset - 1)) /\ 69 <= tm_year (tm_of_secs (offset - 1)) <= 70.
Proof.
  assert (Y : 69 <= tm_year (tm_of_secs (offset - 1)) <= 70).
  { unfold tm_of_secs. cbv zeta.
    assert (D : (offset - 1) / 86400 = 0 \/ (offset - 1) / 86400 = -1) by div_lia.
    destruct D as [-> | ->]; cbn; lia. }
  split; [| exact Y]. apply tm_of_secs_normal. unfold in_int, int_min, int_max. lia.
Qed.

Variables (raw : datetime) (stack : tm).

(** The text of an existing date-time of the years 0 to 9999 is accepted,
    and the value holds its six fields, unless its [time_t] is [-1]. *)
Lemma offset_text_accepted y m d H M S :
  0 <= y <= 9999 -> valid_date y m d -> valid_time H M S ->
  secs_of_tm (tm_of_fields y m d H M S) <> offset - 1 ->
  @datetime_of_string offset_clib raw stack (datetime_text y m d H M S)
  = Value (mk_datetime y m d H M S (second_part raw) (neg raw) (time_type raw)).
Proof.
  intros Hy Hv Ht Hn. apply datetime_text_accepted; try assumption; [easy |].
  change (@mktime offset_clib) with (mktime_offset offset).
  rewrite mktime_offset_minus_one; [exact Hn |].
  apply tm_of_fields_normal; try assumption. unfold in_int, int_min, int_max. lia.
Qed.

(** The date-time whose [time_t] is [-1] is refused: line 75 reads it as a
    failure. *)
Lemma offset_text_rejected y m d H M S :
  0 <= y <= 9999 -> valid_date y m d -> valid_time H M S ->
  secs_of_tm (tm_of_fields y m d H M S) = offset - 1 ->
  @datetime_of_string offset_clib raw stack (datetime_text y m d H M S)
  = Throw (cast_failed 77).
Proof.
  intros Hy Hv Ht E. pose proof Hv as [Hm Hd]. pose proof Ht as (HH & HM & HS).
  pose proof (days_in_month_range y m).
  rewrite datetime_text_scanned by (unfold two; lia).
  change (@mktime offset_clib) with (mktime_offset offset).
  replace (snd (mktime_offset offset (tm_of_fields y m d H M S))) with (-1);
    [reflexivity |].
  symmetry. apply mktime_offset_minus_one; [| exact E].
  apply tm_of_fields_normal; try assumption. unfold in_int, int_min, int_max. lia.
Qed.

(** In every zone at a fixed offset exactly one date-time cannot be
    built, one of 1969 or 1970: the local time of the second before the
    epoch.  The text of every other existing date-time of the years 0 to
    9999 gives the value with its six fields. *)
Theorem offset_datetime_of_string :
  exists y0 m0 d0 H0 M0 S0, 1969 <= y0 <= 1970 /\
    forall y m d H M S,
      0 <= y <= 9999 -> valid_date y m d -> valid_time H M S ->
      ((y, m, d, H, M, S) = (y0, m0, d0, H0, M0, S0) ->
       @datetime_of_string offset_clib raw stack (datetime_text y m d H M S)
       = Throw (cast_failed 77)) /\
      ((y, m, d, H, M, S) <> (y0, m0, d0, H0, M0, S0) ->
       @datetime_of_string offset_clib raw stack (datetime_text y m d H M S)
       = Value (mk_datetime y m d H M S (second_part raw) (neg raw) (time_type raw))).
Proof.
  destruct rejected_tm as [N0 Y0]. pose proof (secs_of_tm_of_secs (offset - 1)) as E0.
  remember (tm_of_secs (offset - 1)) as u eqn:Eu. clear Eu.
  exists (tm_year u + 1900), (tm_mon u + 1), (tm_mday u), (tm_hour u), (tm_min u), (tm_sec u).
  split; [lia |]. intros y m d H M S Hy Hv Ht.
  assert (N : normal_tm (tm_of_fields y m d H M S))
    by (apply tm_of_fields_normal; try assumption; unfold in_int, int_min, int_max; lia).
  split; intros E.
  - apply offset_text_rejected; try assumption. injection E as -> -> -> -> -> ->.
    rewrite <- E0. apply secs_of_tm_same. unfold same_time, tm_of_fields.
    cbn [tm_sec tm_min tm_hour tm_mday tm_mon tm_year]. repeat split; lia.
  - apply offset_text_accepted; try assumption. intros Es. apply E.
    rewrite <- E0 in Es. destruct (secs_of_tm_inj _ _ N N0 Es) as (Hs & Hmi & Hh & Hd & Hmo & Hyr).
    unfold tm_of_fields in *. cbn [tm_sec tm_min tm_hour tm_mday tm_mon tm_year] in *.
    f_equal; [f_equal; [f_equal; [f_equal; [f_equal |] |] |] |]; lia.
Qed.

End FixedOffset.

(** ** The zone of Greenwich *)

(** With no offset the instance is that of [TZ=UTC]. *)
Theorem mktime_offset_zero t : mktime_offset 0 t = mktime_utc t.
Proof. unfold mktime_offset, mktime_utc. cbv zeta. now rewrite Z.sub_0_r. Qed.

(** ** Concrete inputs: one hour east of Greenwich *)

Example offset_datetime_of_string_witness :
  exists y0 m0 d0 H0 M0 S0, 1969 <= y0 <= 1970 /\
    forall y m d H M S,
      0 <= y <= 9999 -> valid_date y m d -> valid_time H M S ->
      ((y, m, d, H, M, S) = (y0, m0, d0, H0, M0, S0) ->
       @datetime_of_string (offset_clib 3600) zero_datetime zero_tm (datetime_text y m d H M S)
       = Throw (cast_failed 77)) /\
      ((y, m, d, H, M, S) <> (y0, m0, d0, H0, M0, S0) ->
       @datetime_of_string (offset_clib 3600) zero_datetime zero_tm (datetime_text y m d H M S)
       = Value (mk_datetime y m d H M S 0 false 0)).
Proof. exact (offset_datetime_of_string 3600 ltac:(lia) zero_datetime zero_tm). Defined.

(** One hour east of Greenwich the last second of 1969 is accepted, and
    00:59:59 on the first day of 1970 is not. *)
Example one_hour_east :
  @datetime_of_string (offset_clib 3600) zero_datetime zero_tm "1969-12-31 23:59:59"
  = Value (mk_datetime 1969 12 31 23 59 59 0 false 0) /\
  @datetime_of_string (offset_clib 3600) zero_datetime zero_tm "1970-01-01 00:59:59"
  = Throw (cast_failed 77).
Proof.
  split.
  - exact (offset_text_accepted 3600 ltac:(lia) zero_datetime zero_tm
             1969 12 31 23 59 59 ltac:(by_eval) ltac:(by_eval) ltac:(by_eval) ltac:(by_eval)).
  - exact (offset_text_rejected 3600 ltac:(lia) zero_datetime zero_tm
             1970 1 1 0 59 59 ltac:(by_eval) ltac:(by_eval) ltac:(by_eval) ltac:(by_eval)).
Qed.
