(* ===== verification/Dst.v ===== *)
(** * Dst: [mktime] and [localtime] in a time zone that changes its offset

    [std::mktime] (line 75 of [src/mysqlpp.hpp]) and [std::localtime]
    (line 52) read the time zone of the process.  [Zone.v] covers the
    zones at a fixed offset; this file covers every zone that is given,
    as in a TZif file, by the table of its changes of offset: daylight
    saving time, and changes of the standard time of a zone.

    In such a zone a local time can occur twice (the clocks are set back)
    or never (they are set forward).  The header passes [tm_isdst = -1],
    so the C library chooses: for a local time that occurs the six fields
    are kept, whichever instant is returned; for one that never occurs
    glibc returns an instant that is the width of the gap away, and the
    six fields change.  The constructor of [datetime] then accepts the
    text and builds another date-time than the text names. *)

From Stdlib Require Import ZArith Lia List String Ascii Bool Sorted Morphisms Setoid.
From S2P Require Import Prelude Calendar Libc Exception Datetime Zone.
Import ListNotations.

#[local] Open Scope string_scope.
#[local] Open Scope Z_scope.

(** ** The table of a zone *)

(** One change: from the instant [from] on, local time is [gmtoff]
    seconds east of Greenwich, and [isdst] tells whether this is daylight
    saving time. *)
Record change : Type := mk_change {
  from : Z;
  gmtoff : Z;
  isdst : bool
}.

(** A zone: the offset before the first change, and the changes. *)
Record zone : Type := mk_zone {
  first_offset : Z;
  first_isdst : bool;
  changes : list change
}.

(** The changes are in the order of their instants. *)
Definition valid_zone (z : zone) : Prop := StronglySorted Z.le (map from (changes z)).

(** Real zones are less than a day from Greenwich. *)
Definition bounded_zone (z : zone) : Prop :=
  - 86400 < first_offset z < 86400 /\
  Forall (fun c => - 86400 < gmtoff c < 86400) (changes z).

(** The offset in force at an instant: that of the last change that is not
    after it. *)
Fixpoint period_at (cur : Z * bool) (cs : list change) (s : Z) : Z * bool :=
  match cs with
  | [] => cur
  | c :: cs' => if s <? from c then cur else period_at (gmtoff c, isdst c) cs' s
  end.

Definition offset_at (z : zone) (s : Z) : Z :=
  fst (period_at (first_offset z, first_isdst z) (changes z) s).

Definition dst_at (z : zone) (s : Z) : bool :=
  snd (period_at (first_offset z, first_isdst z) (changes z) s).

(** ** [localtime] *)

(** The structure of an instant: its civil time at the offset in force,
    with the flag of daylight saving time; a null pointer when the year
    does not fit [tm_year]. *)
Definition localtime_zone (z : zone) (s : Z) : option tm :=
  let t := tm_of_secs (s + offset_at z s) in
  if in_intb (tm_year t)
  then Some (set_tm_isdst (if dst_at z s then 1 else 0) t)
  else None.

(** ** [mktime] with [tm_isdst = -1] *)

Definition above (lo : option Z) (s : Z) : bool :=
  match lo with
  | Some l => l <=? s
  | None => true
  end.

(** The instants whose local time is [local] seconds, in the order of the
    table: in the period that starts at [lo] with the offset [off] there
    is at most one, [local - off], when it lies in the period. *)
Fixpoint instants (local : Z) (lo : option Z) (off : Z) (cs : list change) : list Z :=
  let s := local - off in
  match cs with
  | [] => if above lo s then [s] else []
  | c :: cs' =>
      (if above lo s && (s <? from c) then [s] else [])
      ++ instants local (Some (from c)) (gmtoff c) cs'
  end.

(** A local time that the clocks skip lies between the end of one period
    and the start of the next.  glibc then returns an instant that is the
    width of the gap away from the requested time, and of the two prefers
    the one in daylight saving time: after the change when it starts
    there, before the change when it ends there. *)
Fixpoint gap_instant (local : Z) (off : Z) (dst : bool) (cs : list change) : Z :=
  match cs with
  | [] => local - off
  | c :: cs' =>
      if (from c <=? local - off) && (local - gmtoff c <? from c)
      then (if dst && negb (isdst c) then local - gmtoff c else local - off)
      else gap_instant local (gmtoff c) (isdst c) cs'
  end.

(** The instant that [mktime] returns for a count of local seconds: the
    first instant with that local time, or the choice above. *)
Definition instant_of (z : zone) (local : Z) : Z :=
  match instants local None (first_offset z) (changes z) with
  | s :: _ => s
  | [] => gap_instant local (first_offset z) (first_isdst z) (changes z)
  end.

(** [mktime]: the structure is rebuilt from the instant; [-1] with the
    structure unchanged when the year does not fit an [int] or the instant
    a [time_t]. *)
Definition mktime_zone (z : zone) (t : tm) : tm * Z :=
  let s := instant_of z (secs_of_tm t) in
  match localtime_zone z s with
  | Some t' => if in_longb s then (t', s) else (t, -1)
  | None => (t, -1)
  end.

(** The local times that a zone skips: no instant has them. *)
Definition skipped_zone (z : zone) (t : tm) : Prop :=
  forall s, s + offset_at z s <> secs_of_tm t.

Definition skipped_zoneb (z : zone) (t : tm) : bool :=
  match instants (secs_of_tm t) None (first_offset z) (changes z) with
  | [] => true
  | _ :: _ => false
  end.

(** ** The instants of a local time *)

(** The instants found in the periods from [lo] on are not before [lo]. *)
Lemma instants_above local cs : forall l off,
  StronglySorted Z.le (l :: map from cs) ->
  Forall (fun s => l <= s) (instants local (Some l) off cs).
Proof.
  induction cs as [| c cs IH]; intros l off H; cbn [instants above].
  - destruct (Z.leb_spec l (local - off)); auto.
  - apply StronglySorted_inv in H as [H Hl]. cbn [map] in H, Hl.
    apply Forall_inv in Hl as Hc. apply Forall_app. split.
    + destruct (Z.leb_spec l (local - off)); cbn [andb]; [| auto].
      destruct (local - off <? from c); auto.
    + eapply Forall_impl; [| exact (IH _ (gmtoff c) H)]. cbn beta. lia.
Qed.

(** [instants] lists exactly the instants whose local time is [local]. *)
Lemma instants_spec local cs : forall lo cur s,
  StronglySorted Z.le (map from cs) -> above lo s = true ->
  In s (instants local lo (fst cur) cs) <-> s + fst (period_at cur cs s) = local.
Proof.
  induction cs as [| c cs IH]; intros lo cur s H Hlo; cbn [instants period_at map] in *.
  - destruct (above lo (local - fst cur)) eqn:E; cbn [In].
    + lia.
    + split; [easy | intros <-]. replace (s + fst cur - fst cur) with s in E by lia.
      congruence.
  - rewrite in_app_iff.
    pose proof (instants_above local cs (from c) (gmtoff c) H) as A.
    rewrite Forall_forall in A. apply StronglySorted_inv in H as [H _].
    specialize (IH (Some (from c)) (gmtoff c, isdst c) s H). cbn [fst above] in IH.
    destruct (Z.ltb_spec s (from c)) as [Hs | Hs].
    + split.
      * intros [Hi | Hi]; [| apply A in Hi; lia].
        destruct (above lo (local - fst cur) && (local - fst cur <? from c));
          cbn [In] in Hi; lia.
      * intros <-. left. replace (s + fst cur - fst cur) with s by lia.
        rewrite Hlo. apply Z.ltb_lt in Hs. rewrite Hs. now left.
    + rewrite <- IH by lia. split; [| tauto]. intros [Hi | Hi]; [| exact Hi].
      destruct (above lo (local - fst cur)); cbn [andb In] in Hi; [| easy].
      destruct (Z.ltb_spec (local - fst cur) (from c)); cbn [In] in Hi; [lia | easy].
Qed.

Section Zone.

Variable z : zone.
Hypothesis valid : valid_zone z.

Lemma instants_zone local s :
  In s (instants local None (first_offset z) (changes z)) <-> s + offset_at z s = local.
Proof.
  exact (instants_spec local (changes z) None (first_offset z, first_isdst z) s valid eq_refl).
Qed.

(** [skipped_zoneb] decides [skipped_zone]. *)
Lemma skipped_zoneb_spec t : skipped_zoneb z t = true <-> skipped_zone z t.
Proof.
  unfold skipped_zoneb, skipped_zone.
  destruct (instants (secs_of_tm t) None (first_offset z) (changes z)) as [| s ss] eqn:E.
  - split; [intros _ s Hs | easy]. apply instants_zone in Hs. now rewrite E in Hs.
  - split; [easy | intros H]. destruct (H s). apply instants_zone. rewrite E. now left.
Qed.

(** For a local time that occurs, [mktime] returns an instant that has
    it. *)
Lemma instant_of_local t :
  ~ skipped_zone z t ->
  instant_of z (secs_of_tm t) + offset_at z (instant_of z (secs_of_tm t)) = secs_of_tm t.
Proof.
  intros Hk. unfold instant_of.
  destruct (instants (secs_of_tm t) None (first_offset z) (changes z)) as [| s ss] eqn:E.
  - destruct Hk. apply skipped_zoneb_spec. unfold skipped_zoneb. now rewrite E.
  - apply instants_zone. rewrite E. now left.
Qed.

(** ** What [localtime] and [mktime] return *)

Lemma secs_of_set_tm_isdst v t : secs_of_tm (set_tm_isdst v t) = secs_of_tm t.
Proof. now destruct t. Qed.

Lemma normal_set_tm_isdst v t : normal_tm t -> normal_tm (set_tm_isdst v t).
Proof. now destruct t. Qed.

Lemma localtime_zone_value s t :
  localtime_zone z s = Some t ->
  normal_tm t /\ secs_of_tm t = s + offset_at z s.
Proof.
  unfold localtime_zone. cbv zeta.
  destruct (in_intb (tm_year (tm_of_secs (s + offset_at z s)))) eqn:E; [| easy].
  intros [= <-]. rewrite secs_of_set_tm_isdst, secs_of_tm_of_secs.
  split; [| reflexivity]. now apply normal_set_tm_isdst, tm_of_secs_normal, in_intb_true.
Qed.

Lemma mktime_zone_ok t : snd (mktime_zone z t) <> -1 ->
  localtime_zone z (instant_of z (secs_of_tm t)) = Some (fst (mktime_zone z t)) /\
  snd (mktime_zone z t) = instant_of z (secs_of_tm t).
Proof.
  unfold mktime_zone. cbv zeta.
  destruct (localtime_zone z (instant_of z (secs_of_tm t))) as [t' |]; [| easy].
  now destruct (in_longb (instant_of z (secs_of_tm t))).
Qed.

Lemma mktime_zone_reads t u : same_time t u ->
  snd (mktime_zone z t) = snd (mktime_zone z u) /\
  (snd (mktime_zone z t) <> -1 -> fst (mktime_zone z t) = fst (mktime_zone z u)).
Proof.
  intros E. unfold mktime_zone. cbv zeta. rewrite (secs_of_tm_same t u E).
  destruct (localtime_zone z (instant_of z (secs_of_tm u))) as [t' |]; [| easy].
  now destruct (in_longb (instant_of z (secs_of_tm u))).
Qed.

(** The laws of [CLib] hold in every zone whose table is in order. *)
Definition zone_clib : CLib.
Proof.
  refine {| mktime := mktime_zone z; localtime := localtime_zone z;
            skipped := skipped_zone z |}.
  - intros t H. destruct (mktime_zone_ok t H) as [E _].
    now apply localtime_zone_value in E.
  - intros t N Hk H. destruct (mktime_zone_ok t H) as [E _].
    apply localtime_zone_value in E as [N' E]. rewrite (instant_of_local t Hk) in E.
    exact (secs_of_tm_inj _ _ N' N E).
  - intros t u E _. now apply mktime_zone_reads.
  - intros t u E H s. rewrite <- (secs_of_tm_same t u E). apply H.
  - intros s t E. apply localtime_zone_value in E as [N E]. split; [exact N |].
    intros H. exact (H s (eq_sym E)).
Defined.

(** ** A local time that the zone skips *)

(** The hypothesis of [mktime_fixed] is needed: when [mktime] accepts a
    local time that the zone skips, the structure that it hands back has
    other fields. *)
Lemma mktime_zone_skipped t :
  skipped_zone z t -> snd (mktime_zone z t) <> -1 ->
  ~ same_time (fst (mktime_zone z t)) t.
Proof.
  intros Hk H E. destruct (mktime_zone_ok t H) as [El _].
  apply localtime_zone_value in El as [_ El]. rewrite (secs_of_tm_same _ _ E) in El.
  exact (Hk _ (eq_sym El)).
Qed.

(** ** Zones less than a day from Greenwich *)

Hypothesis bounded : bounded_zone z.

Lemma period_at_bounded cs : forall cur s,
  - 86400 < fst cur < 86400 -> Forall (fun c => - 86400 < gmtoff c < 86400) cs ->
  - 86400 < fst (period_at cur cs s) < 86400.
Proof.
  induction cs as [| c cs IH]; intros cur s Hc H; cbn [period_at]; [exact Hc |].
  apply Forall_cons_iff in H as [H1 H]. destruct (s <? from c); [exact Hc |].
  now apply IH.
Qed.

Lemma offset_at_bounded s : - 86400 < offset_at z s < 86400.
Proof. destruct bounded as [H1 H2]. now apply period_at_bounded. Qed.

(** On a normal structure whose local time occurs, [mktime] returns an
    instant that has this local time, and the structure with the flag of
    daylight saving time of that instant. *)
Lemma mktime_zone_normal t :
  normal_tm t -> ~ skipped_zone z t ->
  let s := instant_of z (secs_of_tm t) in
  mktime_zone z t
  = (set_tm_isdst (if dst_at z s then 1 else 0) (tm_of_secs (secs_of_tm t)), s).
Proof.
  intros N Hk s. unfold mktime_zone, localtime_zone. cbv zeta. fold s.
  pose proof (instant_of_local t Hk) as E. fold s in E. rewrite E.
  pose proof (tm_of_secs_of_tm t N) as (_ & _ & _ & _ & _ & Ey).
  destruct (normal_tm_ints t N) as (Hs & Hmi & Hh & Hd & Hmo & Hy).
  pose proof (secs_of_tm_bound t Hs Hmi Hh Hd Hmo Hy) as B.
  pose proof (offset_at_bounded s).
  rewrite Ey. apply in_intb_true in Hy. rewrite Hy.
  replace (in_longb s) with true; [reflexivity |].
  symmetry. apply in_longb_true. unfold in_long, long_min, long_max. lia.
Qed.

Variables (raw : datetime) (stack : tm).

(** C15. The constructor in any zone, on the text of an existing date-time of
    the years 0 to 9999.  When the local time occurs the text is accepted
    and the value holds its six fields, but for the one whose instant is
    [-1], which is refused.  When the zone skips the local time, whatever
    value the constructor builds is not the date-time of the text. *)
Theorem zone_datetime_of_string y m d H M S :
  0 <= y <= 9999 -> valid_date y m d -> valid_time H M S ->
  let t := tm_of_fields y m d H M S in
  let text := datetime_text y m d H M S in
  let value := mk_datetime y m d H M S (second_part raw) (neg raw) (time_type raw) in
  (~ skipped_zone z t ->
   @datetime_of_string zone_clib raw stack text
   = if instant_of z (secs_of_tm t) =? -1 then Throw (cast_failed 77) else Value value) /\
  (skipped_zone z t -> @datetime_of_string zone_clib raw stack text <> Value value).
Proof.
  intros Hy Hv Ht t text value. pose proof Hv as [Hm Hd]. pose proof Ht as (HH & HM & HS).
  pose proof (days_in_month_range y m).
  assert (N : normal_tm t)
    by (apply tm_of_fields_normal; try assumption; unfold in_int, int_min, int_max; lia).
  split; intros Hk.
  - destruct (Z.eqb_spec (instant_of z (secs_of_tm t)) (-1)) as [E | E].
    + unfold text. rewrite datetime_text_scanned by (unfold two; lia).
      change (@mktime zone_clib) with (mktime_zone z). fold t.
      rewrite (mktime_zone_normal t N Hk). cbn [snd]. now rewrite E.
    + apply datetime_text_accepted; try assumption.
      change (@mktime zone_clib) with (mktime_zone z). fold t.
      now rewrite (mktime_zone_normal t N Hk).
  - unfold text. rewrite datetime_text_scanned by (unfold two; lia).
    change (@mktime zone_clib) with (mktime_zone z). fold t.
    destruct (Z.eqb_spec (snd (mktime_zone z t)) (-1)) as [E | E]; [easy |].
    intros Ev. apply (f_equal (fun o => match o with Value v => v | _ => value end)) in Ev.
    apply (mktime_zone_skipped t Hk E).
    pose proof (@mktime_normal zone_clib t E) as N'.
    change (@mktime zone_clib t) with (mktime_zone z t) in N'.
    destruct (set_time_small_year raw _ N') as [Es _]; [rewrite Ev; cbn; lia |].
    rewrite Es in Ev. unfold value in Ev. injection Ev as Ey Emo Ed Eh Emi Esec.
    subst t. unfold same_time, tm_of_fields in *.
    cbn [tm_sec tm_min tm_hour tm_mday tm_mon tm_year] in *. repeat split; lia.
Qed.

End Zone.

(** ** A zone without changes *)

Lemma set_tm_isdst_of_secs s : set_tm_isdst 0 (tm_of_secs s) = tm_of_secs s.
Proof. unfold tm_of_secs. cbv zeta. now destruct (civil_from_days (s / 86400)) as [[y m] d]. Qed.

(** With an empty table [mktime] is the one of [Zone.v]. *)
Theorem mktime_zone_fixed offset t :
  mktime_zone (mk_zone offset false []) t = mktime_offset offset t.
Proof.
  unfold mktime_zone, mktime_offset, instant_of, localtime_zone, offset_at, dst_at.
  cbn [instants above first_offset first_isdst changes period_at fst snd]. cbv zeta.
  rewrite Z.sub_add, set_tm_isdst_of_secs.
  destruct (in_intb (tm_year (tm_of_secs (secs_of_tm t)))); cbn [andb]; [| reflexivity].
  now destruct (in_longb (secs_of_tm t - offset)).
Qed.

Theorem localtime_zone_fixed offset s :
  localtime_zone (mk_zone offset false []) s = localtime_offset offset s.
Proof.
  unfold localtime_zone, localtime_offset, offset_at, dst_at.
  cbn [first_offset first_isdst changes period_at fst snd]. cbv zeta.
  now rewrite set_tm_isdst_of_secs.
Qed.

(** ** The start of daylight saving time *)

(** A zone around one start of daylight saving time: standard time [std]
    seconds east of Greenwich until the instant [start], and [dst] seconds
    from then on. *)
Definition dst_start (std start dst : Z) : zone :=
  mk_zone std false [mk_change start dst true].

Section SpringForward.

Variables std start dst : Z.
Hypothesis forward : std < dst.

Lemma dst_start_valid : valid_zone (dst_start std start dst).
Proof. unfold valid_zone. cbn. repeat constructor. Qed.

(** The local times that are skipped are those of the gap. *)
Lemma dst_start_skipped t :
  skipped_zone (dst_start std start dst) t <-> start + std <= secs_of_tm t < start + dst.
Proof.
  rewrite <- (skipped_zoneb_spec _ dst_start_valid). unfold skipped_zoneb.
  cbn [instants above first_offset changes dst_start from gmtoff andb app].
  destruct (Z.ltb_spec (secs_of_tm t - std) start), (Z.leb_spec start (secs_of_tm t - dst));
    cbn [app]; split; (easy || lia).
Qed.

(** In the gap [mktime] returns the instant that standard time gives,
    which lies in daylight saving time: the structure is later by the
    width of the gap. *)
Lemma mktime_dst_start t :
  start + std <= secs_of_tm t < start + dst ->
  - 2 ^ 51 <= secs_of_tm t <= 2 ^ 51 -> - 86400 < std -> dst < 86400 ->
  mktime_zone (dst_start std start dst) t
  = (set_tm_isdst 1 (tm_of_secs (secs_of_tm t + (dst - std))), secs_of_tm t - std).
Proof.
  intros Hg Hb Hs Hd. unfold mktime_zone, instant_of, localtime_zone, offset_at, dst_at.
  cbn [instants above first_offset first_isdst changes dst_start from gmtoff isdst andb
       gap_instant period_at negb].
  replace (secs_of_tm t - std <? start) with false by lia.
  replace (start <=? secs_of_tm t - dst) with false by lia.
  replace (start <=? secs_of_tm t - std) with true by lia.
  replace (secs_of_tm t - dst <? start) with true by lia.
  cbn [app andb period_at from gmtoff isdst]. cbv zeta.
  replace (secs_of_tm t - std <? start) with false by lia. cbn [fst snd].
  replace (secs_of_tm t - std + dst) with (secs_of_tm t + (dst - std)) by lia.
  pose proof (tm_of_secs_year (secs_of_tm t + (dst - std)) ltac:(lia)) as Hy.
  apply in_intb_true in Hy. rewrite Hy.
  replace (in_longb (secs_of_tm t - std)) with true; [reflexivity |].
  symmetry. apply in_longb_true. unfold in_long, long_min, long_max. lia.
Qed.

Variables (raw : datetime) (stack : tm).

(** C16. The constructor accepts the text of a date-time that the zone skips,
    and builds the date-time that is later by the width of the gap. *)
Theorem datetime_of_string_skipped y m d H M S :
  0 <= y <= 9999 -> valid_date y m d -> valid_time H M S ->
  - 86400 < std -> dst < 86400 ->
  let local := secs_of_tm (tm_of_fields y m d H M S) in
  start + std <= local < start + dst -> local - std <> -1 ->
  @datetime_of_string (zone_clib _ dst_start_valid) raw stack (datetime_text y m d H M S)
  = Value (set_time raw (tm_of_secs (local + (dst - std)))).
Proof.
  intros Hy Hv Ht Hs Hd local Hg Hn. pose proof Hv as [Hm Hday].
  pose proof Ht as (HH & HM & HS). pose proof (days_in_month_range y m).
  rewrite datetime_text_scanned by (unfold two; lia).
  change (@mktime (zone_clib _ dst_start_valid)) with (mktime_zone (dst_start std start dst)).
  rewrite mktime_dst_start; try assumption.
  - cbn [fst snd]. fold local. destruct (Z.eqb_spec (local - std) (-1)); [contradiction |].
    apply f_equal, set_time_same. now destruct (tm_of_secs (local + (dst - std))).
  - pose proof (secs_of_tm_small (tm_of_fields y m d H M S) ltac:(cbn; lia) ltac:(cbn; lia)
                  ltac:(cbn; lia) Ht). lia.
Qed.

End SpringForward.

(** ** Concrete inputs *)

(** Central European time in 2015: summer time from 29 March, 01:00 UTC,
    to 25 October, 01:00 UTC. *)
Definition berlin_2015 : zone :=
  mk_zone 3600 false
    [mk_change 1427590800 7200 true; mk_change 1445734800 3600 false].

Lemma berlin_2015_valid : valid_zone berlin_2015.
Proof. unfold valid_zone. cbn. repeat constructor; lia. Qed.

(** 02:30 on 29 March 2015 does not exist in that zone: the constructor
    accepts the text and builds 03:30, and [str] of the value is not the
    text. *)
Example berlin_skipped :
  @datetime_of_string (zone_clib berlin_2015 berlin_2015_valid) zero_datetime zero_tm
    "2015-03-29 02:30:00"
  = Value (mk_datetime 2015 3 29 3 30 0 0 false 0) /\
  str zero_tm (mk_datetime 2015 3 29 3 30 0 0 false 0) = Value (Some "2015-03-29 03:30:00").
Proof. split; reflexivity. Qed.

(** 02:30 on 25 October 2015 occurs twice: the text is accepted as it
    is. *)
Example berlin_twice :
  instants 1445740200 None 3600 (changes berlin_2015) = [1445733000; 1445736600] /\
  @datetime_of_string (zone_clib berlin_2015 berlin_2015_valid) zero_datetime zero_tm
    "2015-10-25 02:30:00"
  = Value (mk_datetime 2015 10 25 2 30 0 0 false 0).
Proof. split; reflexivity. Qed.

(** The default constructor at 11:00 UTC on 1 July 2015. *)
Example berlin_now :
  @datetime_now (zone_clib berlin_2015 berlin_2015_valid) zero_datetime 1435748400
  = Value (mk_datetime 2015 7 1 13 0 0 0 false 0).
Proof. reflexivity. Qed.

Example datetime_of_string_skipped_witness :
  @datetime_of_string (zone_clib _ (dst_start_valid 3600 1427590800 7200)) zero_datetime
    zero_tm (datetime_text 2015 3 29 2 30 0)
  = Value (set_time zero_datetime
             (tm_of_secs (secs_of_tm (tm_of_fields 2015 3 29 2 30 0) + (7200 - 3600)))).
Proof.
  exact (datetime_of_string_skipped 3600 1427590800 7200 ltac:(lia) zero_datetime zero_tm
           2015 3 29 2 30 0 ltac:(by_eval) ltac:(by_eval) ltac:(by_eval) ltac:(by_eval) ltac:(by_eval)
           ltac:(by_eval) ltac:(by_eval)).
Defined.

Lemma berlin_2015_bounded : bounded_zone berlin_2015.
Proof. unfold bounded_zone. cbn. repeat constructor; lia. Qed.

Example zone_datetime_of_string_witness :
  @datetime_of_string (zone_clib berlin_2015 berlin_2015_valid) zero_datetime zero_tm
    "2015-07-01 13:00:00"
  = Value (mk_datetime 2015 7 1 13 0 0 0 false 0) /\
  @datetime_of_string (zone_clib berlin_2015 berlin_2015_valid) zero_datetime zero_tm
    "2015-03-29 02:30:00"
  <> Value (mk_datetime 2015 3 29 2 30 0 0 false 0).
Proof.
  split.
  - refine (proj1 (zone_datetime_of_string berlin_2015 berlin_2015_valid berlin_2015_bounded
                     zero_datetime zero_tm 2015 7 1 13 0 0 ltac:(by_eval) ltac:(by_eval)
                     ltac:(by_eval)) _).
    intros F. apply (skipped_zoneb_spec _ berlin_2015_valid) in F. discriminate F.
  - refine (proj2 (zone_datetime_of_string berlin_2015 berlin_2015_valid berlin_2015_bounded
                     zero_datetime zero_tm 2015 3 29 2 30 0 ltac:(by_eval) ltac:(by_eval)
                     ltac:(by_eval)) _).
    now apply (skipped_zoneb_spec _ berlin_2015_valid).
Defined.
