(* ===== verification/Column.v ===== *)
(** * Column: [mysqlpp::st_mysql_column] (lines 119-134 of [src/mysqlpp.hpp])

    One column of a result: the wire type and the name that the metadata
    give, the buffer that the client library fills on a fetch, and the
    length and the three flags that it reports.  The flags are [char]s
    that the code tests for being non-zero. *)

From Stdlib Require Import ZArith Lia List String Ascii Bool.
From S2P Require Import Prelude.
Import ListNotations.

#[local] Open Scope Z_scope.

(** The wire types of the client library's [enum_field_types], by the
    kinds that the fetch engine tells apart. *)
Inductive enum_field_types : Type :=
| MYSQL_TYPE_TINY
| MYSQL_TYPE_SHORT
| MYSQL_TYPE_LONG
| MYSQL_TYPE_LONGLONG
| MYSQL_TYPE_FLOAT
| MYSQL_TYPE_DOUBLE
| MYSQL_TYPE_DATE
| MYSQL_TYPE_TIME
| MYSQL_TYPE_DATETIME
| MYSQL_TYPE_TIMESTAMP
| MYSQL_TYPE_NEWDECIMAL
| MYSQL_TYPE_VAR_STRING
| MYSQL_TYPE_STRING
| MYSQL_TYPE_BLOB.

(** The size of the buffer of a column of fixed width, and [None] for a
    column of variable length. *)
Definition fixed_size (t : enum_field_types) : option Z :=
  match t with
  | MYSQL_TYPE_TINY => Some 1
  | MYSQL_TYPE_SHORT => Some 2
  | MYSQL_TYPE_LONG => Some 4
  | MYSQL_TYPE_LONGLONG => Some 8
  | MYSQL_TYPE_FLOAT => Some 4
  | MYSQL_TYPE_DOUBLE => Some 8
  | MYSQL_TYPE_DATE | MYSQL_TYPE_TIME | MYSQL_TYPE_DATETIME | MYSQL_TYPE_TIMESTAMP => Some 40
  | MYSQL_TYPE_NEWDECIMAL | MYSQL_TYPE_VAR_STRING | MYSQL_TYPE_STRING | MYSQL_TYPE_BLOB => None
  end.

(** [struct st_mysql_column]. *)
Record st_mysql_column : Type := mk_column {
  type : enum_field_types;
  name : string;
  buffer : list ascii;
  length : Z;
  is_unsigned : Z;
  is_null : Z;
  error : Z
}.

(** A [char] used as a condition. *)
Definition truthy (c : Z) : bool := negb (c =? 0).

(** [st_mysql_column()], line 121: the member [type] is not in the
    initialiser list, so it keeps what the storage held. *)
Definition st_mysql_column_new (raw_type : enum_field_types) : st_mysql_column :=
  {| type := raw_type; name := EmptyString; buffer := []; length := 0;
     is_unsigned := 0; is_null := 0; error := 0 |}.

(** The invariant of a column: when the value is not null the buffer holds
    at least [length] bytes. *)
Definition column_ok (c : st_mysql_column) : Prop :=
  truthy (is_null c) = false -> length c <= Z.of_nat (List.length (buffer c)).

(** A new column is not null, has no error and satisfies the invariant. *)
Lemma st_mysql_column_new_ok raw_type :
  column_ok (st_mysql_column_new raw_type) /\
  truthy (is_null (st_mysql_column_new raw_type)) = false /\
  truthy (error (st_mysql_column_new raw_type)) = false.
Proof. unfold column_ok. cbn. repeat split; lia. Qed.
