(* ===== verification/Result.v ===== *)
(** * Result: [mysqlpp::result] (lines 136-210 of [src/mysqlpp.hpp])

    The header holds the state of a result (lines 202-209), the two
    [get<T>] templates (lines 146-174) and the signatures of the other
    members.  [get] is translated from the templates.  What they call,
    [get_column] and the overloads of [fetch_column], is declared in the
    header and defined elsewhere: [get] is verified against any
    definition of them, through the classes [Lookup] and [Fetchable], and
    the instance [spec_lookup] is their description in the specification
    (section 4.3).  The members that the header only declares are the
    class [Engine]. *)

From Stdlib Require Import ZArith Lia List String Ascii Bool.
From S2P Require Import Prelude Exception Column.
Import ListNotations.

#[local] Open Scope string_scope.
#[local] Open Scope Z_scope.
#[local] Open Scope outcome_scope.

(** ** State *)

(** The part of [st_mysql_bind] that the result engine sets for a column. *)
Record st_mysql_bind : Type := mk_bind {
  buffer_type : enum_field_types;
  buffer_length : Z
}.

(** The private members of [result], lines 202-209. [stmt], [metadata] and
    [fields] are pointers into the client library, kept as handles. *)
Record result : Type := mk_result {
  stmt : Z;
  metadata : Z;
  fields : Z;
  field_count : Z;
  binds : list st_mysql_bind;
  columns : list st_mysql_column
}.

(** ** The interfaces that [get] calls *)

(** The overloads of [fetch_column] (lines 176-190): a requested type has
    a default value [T()] and a conversion from a column, which receives
    the value to overwrite. *)
Class Fetchable (T : Type) : Type := {
  default_value : T;
  fetch_column : st_mysql_column -> T -> outcome exception T
}.

(** The two overloads of the private [get_column] (lines 199-200). *)
Class Lookup : Type := {
  get_column : result -> Z -> outcome exception st_mysql_column;
  get_column_by_name : result -> string -> outcome exception st_mysql_column
}.

(** ** The members that a translation unit defines *)

(** [bool bind()], [unsigned long long int num_rows()] and
    [bool fetch(bool is_proc = false)] are declared in the header (lines
    142-144) and defined by a translation unit.  [S] is what the client
    library holds for the statement: [bind] and [num_rows] read it, a
    fetch moves it on.  [Fetch.v] gives the members as the specification
    describes them; [Cursor.v] states what a caller relies on, proves the
    cursor from it, and proves it of the members of [Fetch.v]. *)
Class Engine (S : Type) : Type := {
  engine_bind : S -> result -> bool * result;
  engine_num_rows : S -> Z;
  engine_fetch : bool -> S -> result -> bool * S * result
}.

(** [bool fetch_stmt_result()] and [bool fetch_proc_result()], the
    private members of lines 196-197: the fetch of a row of an ordinary
    result set, and that of the result set of a stored procedure. *)
Class EnginePrivate (S : Type) : Type := {
  engine_fetch_stmt_result : S -> result -> bool * S * result;
  engine_fetch_proc_result : S -> result -> bool * S * result
}.

Definition null_value (line : Z) : exception :=
  mk_exception FILE line "null value field".

Section Get.

Context {lookup : Lookup} {T : Type} {fetchable : Fetchable T}.

(** [template<typename T> T get(unsigned int index)], lines 146-159.  The
    index is a [Z]: what an index outside the columns gives is left to
    [get_column], which the header only declares (line 199). *)
Definition get (self : result) (index : Z) : outcome exception T :=
  column <- get_column self index ;;
  throw_if (truthy (is_null column)) (null_value 152) ;;;
  fetch_column column default_value.

(** [template<typename T> T get(const std::string& name)], lines 161-174. *)
Definition get_by_name (self : result) (name : string) : outcome exception T :=
  column <- get_column_by_name self name ;;
  throw_if (truthy (is_null column)) (null_value 167) ;;;
  fetch_column column default_value.

End Get.

(** [bool is_null(unsigned int index)] and [bool is_null(const std::string&)],
    lines 192-193: the null flag of the column, without a conversion. *)
Definition result_is_null {lookup : Lookup} (self : result) (index : Z)
  : outcome exception bool :=
  column <- get_column self index ;;
  Value (truthy (is_null column)).

Definition result_is_null_by_name {lookup : Lookup} (self : result) (name : string)
  : outcome exception bool :=
  column <- get_column_by_name self name ;;
  Value (truthy (is_null column)).

(** ** Lookup as the specification describes it *)

(** The ordinal of the first column of that name. *)
Fixpoint find_ordinal (name : string) (cols : list st_mysql_column) : option nat :=
  match cols with
  | [] => None
  | c :: cols' =>
      if String.eqb (Column.name c) name then Some O
      else option_map S (find_ordinal name cols')
  end.

(** By ordinal: the column at that position.  The specification names no
    error for an ordinal beyond the columns; nothing is promised there. *)
Definition spec_get_column (self : result) (index : Z) : outcome exception st_mysql_column :=
  if (0 <=? index) && (index <? field_count self) then
    match nth_error (columns self) (Z.to_nat index) with
    | Some c => Value c
    | None => Undefined
    end
  else Undefined.

(** By name: the first column of that name, and the error [not_found]
    when there is none. *)
Definition spec_get_column_by_name (not_found : string -> exception)
    (self : result) (name : string) : outcome exception st_mysql_column :=
  match find_ordinal name (columns self) with
  | Some i => spec_get_column self (Z.of_nat i)
  | None => Throw (not_found name)
  end.

Definition spec_lookup (not_found : string -> exception) : Lookup :=
  {| get_column := spec_get_column;
     get_column_by_name := spec_get_column_by_name not_found |}.

(** After [bind()] the count of fields is the number of columns and of
    binds. *)
Definition result_ok (r : result) : Prop :=
  field_count r = Z.of_nat (List.length (columns r)) /\
  List.length (binds r) = List.length (columns r).

(** ** [get] against any lookup and any conversion *)

Section GetProperties.

Context {lookup : Lookup}.

(** C22. A null column makes the typed access of every type throw the
    exception of line 152, and only a null column does. *)
Theorem get_null_iff (self : result) (index : Z) (c : st_mysql_column) :
  get_column self index = Value c ->
  (result_is_null self index = Value true <->
   forall (T : Type) (F : Fetchable T), @get lookup T F self index = Throw (null_value 152)).
Proof.
  intros Hc. unfold result_is_null, get. rewrite Hc. cbn [bind]. split.
  - intros [= ->] T F. reflexivity.
  - intros H.
    specialize (H unit {| default_value := tt; fetch_column := fun _ v => Value v |}).
    destruct (truthy (is_null c)); [reflexivity | discriminate].
Qed.

(** On a column that is not null the typed access is the conversion of
    the column, started from [T()]. *)
Theorem get_not_null {T : Type} {F : Fetchable T} (self : result) (index : Z) c :
  get_column self index = Value c -> result_is_null self index = Value false ->
  get self index = fetch_column c default_value.
Proof.
  intros Hc. unfold result_is_null, get. rewrite Hc. cbn [bind].
  now intros [= ->].
Qed.

(** The two accesses after the lookup: the same steps, with the exception
    of another line. *)
Lemma get_after_lookup {T : Type} {F : Fetchable T} (self : result) name index :
  get_column_by_name self name = get_column self index ->
  match get_column self index with
  | Value c =>
      if truthy (is_null c)
      then get_by_name (T := T) self name = Throw (null_value 167) /\
           get (T := T) self index = Throw (null_value 152)
      else get_by_name (T := T) self name = fetch_column c default_value /\
           get (T := T) self index = fetch_column c default_value
  | Throw e => get_by_name (T := T) self name = Throw e /\ get (T := T) self index = Throw e
  | Undefined => get_by_name (T := T) self name = Undefined /\ get (T := T) self index = Undefined
  end.
Proof.
  intros E. unfold get_by_name, get. rewrite E.
  destruct (get_column self index) as [c | e |]; cbn [bind]; try (split; reflexivity).
  destruct (truthy (is_null c)); cbn [throw_if bind]; split; reflexivity.
Qed.

(** C23. Access by name and by ordinal agree on every value when the two
    lookups find the same column; on a null column both throw, from
    different lines. *)
Theorem get_by_name_agrees {T : Type} {F : Fetchable T} (self : result) name index :
  get_column_by_name self name = get_column self index ->
  (forall v : T, get_by_name self name = Value v <-> get self index = Value v) /\
  (is_throw (@get_by_name lookup T F self name) = is_throw (@get lookup T F self index)) /\
  (get_by_name (T := T) self name = Undefined <-> get (T := T) self index = Undefined).
Proof.
  intros E. pose proof (get_after_lookup (T := T) self name index E) as H.
  destruct (get_column self index) as [c | e |]; [destruct (truthy (is_null c)) | |];
    destruct H as [-> ->]; repeat split; intros; congruence.
Qed.

End GetProperties.

(** ** Lookup by name: the first occurrence wins *)

Lemma find_ordinal_lt name cols i :
  find_ordinal name cols = Some i -> (i < List.length cols)%nat.
Proof.
  revert i. induction cols as [|c cols IH]; intros i; cbn; [discriminate |].
  destruct (String.eqb (Column.name c) name); [intros [= <-]; lia |].
  destruct (find_ordinal name cols) as [j |]; cbn; [| discriminate].
  intros [= <-]. specialize (IH j eq_refl). lia.
Qed.

(** The ordinal that a name denotes is the position of a column of that
    name, and no column before it has the name. *)
Lemma find_ordinal_first name cols i :
  find_ordinal name cols = Some i ->
  (exists c, nth_error cols i = Some c /\ Column.name c = name) /\
  (forall j c, (j < i)%nat -> nth_error cols j = Some c -> Column.name c <> name).
Proof.
  revert i. induction cols as [|c cols IH]; intros i; cbn; [discriminate |].
  destruct (String.eqb_spec (Column.name c) name) as [E | N].
  - intros [= <-]. split; [exists c; now split | intros j c' Hj; lia].
  - destruct (find_ordinal name cols) as [k |]; cbn; [| discriminate].
    intros [= <-]. destruct (IH k eq_refl) as [Hex Hbefore]. split; [exact Hex |].
    intros [|j] c' Hj; cbn; [now intros [= <-] | apply Hbefore; lia].
Qed.

Lemma find_ordinal_none name cols :
  find_ordinal name cols = None <-> (forall c, In c cols -> Column.name c <> name).
Proof.
  induction cols as [|c cols IH]; cbn; [split; [intros _ c [] | reflexivity] |].
  destruct (String.eqb_spec (Column.name c) name) as [E | N].
  - split; [discriminate | intros H; now destruct (H c (or_introl eq_refl))].
  - destruct (find_ordinal name cols) as [k |]; cbn.
    + split; [discriminate |]. intros H.
      destruct IH as [_ IH]. discriminate IH. intros c' Hc'. apply H. now right.
    + split; [| reflexivity]. intros _ c' [<- | Hc']; [assumption |].
      now apply IH.
Qed.

(** In a result whose count of fields is its number of columns, the
    ordinals below the count denote the columns. *)
Lemma spec_get_column_nth self i c :
  result_ok self -> nth_error (columns self) i = Some c ->
  spec_get_column self (Z.of_nat i) = Value c.
Proof.
  intros [Hc _] Hn. unfold spec_get_column.
  assert (i < List.length (columns self))%nat by (apply nth_error_Some; congruence).
  replace ((0 <=? Z.of_nat i) && (Z.of_nat i <? field_count self)) with true by lia.
  now rewrite Nat2Z.id, Hn.
Qed.

(** Under the lookup of the specification, the typed access at the
    position of a column is the null test of this column, then its
    conversion. *)
Lemma get_nth {T : Type} {F : Fetchable T} not_found self i c :
  result_ok self -> nth_error (columns self) i = Some c ->
  @get (spec_lookup not_found) T F self (Z.of_nat i)
  = if truthy (is_null c) then Throw (null_value 152) else fetch_column c default_value.
Proof.
  intros Ok Hn. unfold get. cbn [get_column spec_lookup].
  rewrite (spec_get_column_nth self i c Ok Hn). cbn [bind].
  now destruct (truthy (is_null c)).
Qed.

Section FirstOccurrence.

Variable not_found : string -> exception.

(** Under the specification's lookup, access by name returns the values
    of access by the ordinal of the first column of that name: a later
    column of the same name cannot be reached by name. *)
Theorem get_by_name_first {T : Type} {F : Fetchable T} (self : result) name i :
  find_ordinal name (columns self) = Some i ->
  forall v : T,
    @get_by_name (spec_lookup not_found) T F self name = Value v <->
    @get (spec_lookup not_found) T F self (Z.of_nat i) = Value v.
Proof.
  intros Hf v.
  assert (E : @get_column_by_name (spec_lookup not_found) self name
              = @get_column (spec_lookup not_found) self (Z.of_nat i))
    by (cbn [get_column get_column_by_name spec_lookup];
        unfold spec_get_column_by_name; now rewrite Hf).
  pose proof (@get_after_lookup (spec_lookup not_found) T F self name (Z.of_nat i) E) as H.
  destruct (@get_column (spec_lookup not_found) self (Z.of_nat i)) as [c | e |];
    [destruct (truthy (is_null c)) | |]; destruct H as [-> ->]; split; congruence.
Qed.

(** A name that no column has is refused with the error of the lookup,
    for every requested type. *)
Theorem get_by_name_absent {T : Type} {F : Fetchable T} (self : result) name :
  (forall c, In c (columns self) -> Column.name c <> name) ->
  @get_by_name (spec_lookup not_found) T F self name = Throw (not_found name).
Proof.
  intros H. apply find_ordinal_none in H. unfold get_by_name.
  cbn [get_column_by_name spec_lookup]. unfold spec_get_column_by_name.
  now rewrite H.
Qed.

End FirstOccurrence.

(** ** Concrete inputs *)

(** A conversion for [int]: the four bytes of the buffer, little-endian. *)
#[local] Instance fetch_int : Fetchable Z :=
  {| default_value := 0;
     fetch_column := fun c _ =>
       match buffer c with
       | [b0; b1; b2; b3] =>
           Value (cast_int (code b0 + 256 * (code b1 + 256 * (code b2 + 256 * code b3))))
       | _ => Undefined
       end |}.

Definition no_such_column (name : string) : exception :=
  mk_exception FILE 0 ("no column " ++ name).

Definition id_column : st_mysql_column :=
  mk_column MYSQL_TYPE_LONG "id" ["*"%char; zero; zero; zero] 4 0 0 0.
Definition null_column : st_mysql_column :=
  mk_column MYSQL_TYPE_LONG "v" [zero; zero; zero; zero] 0 0 1 0.
Definition second_id_column : st_mysql_column :=
  mk_column MYSQL_TYPE_LONG "id" ["+"%char; zero; zero; zero] 4 0 0 0.

Definition a_result : result :=
  mk_result 1 1 1 3
    [mk_bind MYSQL_TYPE_LONG 4; mk_bind MYSQL_TYPE_LONG 4; mk_bind MYSQL_TYPE_LONG 4]
    [id_column; null_column; second_id_column].

Example get_null_iff_witness :
  @result_is_null (spec_lookup no_such_column) a_result 1 = Value true <->
  forall (T : Type) (F : Fetchable T),
    @get (spec_lookup no_such_column) T F a_result 1 = Throw (null_value 152).
Proof. exact (@get_null_iff (spec_lookup no_such_column) a_result 1 null_column eq_refl). Defined.

Example get_not_null_witness :
  @get (spec_lookup no_such_column) Z fetch_int a_result 0 = Value 42.
Proof.
  exact (@get_not_null (spec_lookup no_such_column) Z fetch_int a_result 0 id_column
           eq_refl eq_refl).
Defined.

Example get_by_name_agrees_witness :
  (forall v : Z, @get_by_name (spec_lookup no_such_column) Z fetch_int a_result "v" = Value v <->
                 @get (spec_lookup no_such_column) Z fetch_int a_result 1 = Value v) /\
  (is_throw (@get_by_name (spec_lookup no_such_column) Z fetch_int a_result "v")
   = is_throw (@get (spec_lookup no_such_column) Z fetch_int a_result 1)) /\
  (@get_by_name (spec_lookup no_such_column) Z fetch_int a_result "v" = Undefined <->
   @get (spec_lookup no_such_column) Z fetch_int a_result 1 = Undefined).
Proof.
  exact (@get_by_name_agrees (spec_lookup no_such_column) Z fetch_int a_result "v" 1 eq_refl).
Defined.

Example get_by_name_first_witness :
  @get_by_name (spec_lookup no_such_column) Z fetch_int a_result "id" = Value 42 <->
  @get (spec_lookup no_such_column) Z fetch_int a_result 0 = Value 42.
Proof. exact (get_by_name_first no_such_column a_result "id" 0%nat eq_refl 42). Defined.

Example get_by_name_absent_witness :
  @get_by_name (spec_lookup no_such_column) Z fetch_int a_result "w"
  = Throw (no_such_column "w").
Proof.
  apply get_by_name_absent. intros c [<- | [<- | [<- | []]]]; discriminate.
Defined.
