(* ===== verification/Statement.v ===== *)
(** * Statement: [mysqlpp::statement] (lines 212-249 of [src/mysqlpp.hpp])

    The header holds the state of a statement (lines 242-248) and the
    signatures of its members: one [param] per parameter type (lines
    218-234), [execute] and [query].  The state and the parameter types
    are translated from the header; what the members do is taken from the
    specification (section 4.2): parameters fill the slots from left to
    right, one more than the statement declares is refused, and [execute]
    refuses a set of parameters that is not complete.  The signatures of
    the members are the class [Members]; [Lifecycle.v] states what a
    caller relies on of them.

    A member that throws leaves the statement as it was; the server is
    represented by its reply. *)

From Stdlib Require Import ZArith Lia List String Ascii Bool.
From S2P Require Import Prelude Exception Column Result.
Import ListNotations.

#[local] Open Scope Z_scope.
#[local] Open Scope outcome_scope.

(** ** State *)

(** The argument of a call of [param], [param_blob] or [param_null]: one
    constructor per overload of lines 218-234.  Floating-point values are
    kept as their bits. *)
Inductive param_value : Type :=
| PUChar (v : Z)
| PShort (v : Z)
| PUShort (v : Z)
| PInt (v : Z)
| PUInt (v : Z)
| PLongLong (v : Z)
| PULongLong (v : Z)
| PFloat (bits : Z)
| PDouble (bits : Z)
| PString (v : string)
| PBlob (v : string)
| PNull (is_null : Z).

(** The wire type that a parameter is sent with, and whether it is
    unsigned. *)
Definition wire_type (v : param_value) : option enum_field_types * bool :=
  match v with
  | PUChar _ => (Some MYSQL_TYPE_TINY, true)
  | PShort _ => (Some MYSQL_TYPE_SHORT, false)
  | PUShort _ => (Some MYSQL_TYPE_SHORT, true)
  | PInt _ => (Some MYSQL_TYPE_LONG, false)
  | PUInt _ => (Some MYSQL_TYPE_LONG, true)
  | PLongLong _ => (Some MYSQL_TYPE_LONGLONG, false)
  | PULongLong _ => (Some MYSQL_TYPE_LONGLONG, true)
  | PFloat _ => (Some MYSQL_TYPE_FLOAT, false)
  | PDouble _ => (Some MYSQL_TYPE_DOUBLE, false)
  | PString _ => (Some MYSQL_TYPE_STRING, false)
  | PBlob _ => (Some MYSQL_TYPE_BLOB, false)
  | PNull _ => (None, false)
  end.

(** The length that a parameter of variable length holds in [lengths]. *)
Definition value_length (v : param_value) : Z :=
  match v with
  | PString s | PBlob s => Z.of_nat (String.length s)
  | _ => 0
  end.

(** The private members of [statement], lines 242-248.  A slot of [binds]
    is [None] until a parameter is bound to it. *)
Record statement : Type := mk_statement {
  stmt : Z;
  param_count : Z;
  bind_index : Z;
  binds : list (option param_value);
  lengths : list Z
}.

(** ** The members that a translation unit defines *)

(** The header declares the overloads of [param], [param_blob] and
    [param_null] (lines 218-234), [execute] and [query] (lines 236-237),
    and defines none of them.  A call of [param] is given by its
    argument, a [param_value].  The server is represented by its reply:
    the count of affected rows for [execute], and for [query] what the
    client library then holds for the statement, of type [S]. *)
Class Members (S : Type) : Type := {
  member_param : param_value -> statement -> outcome exception statement;
  member_execute : outcome exception Z -> statement -> outcome exception (Z * statement);
  member_query : outcome exception S -> statement -> outcome exception (result * S * statement)
}.

(** ** Members, after the specification *)

Definition bind_error : exception := mk_exception FILE 0 "invalid bind_index".

(** The constructor, once the server has prepared the query and reported
    [count] placeholders. *)
Definition statement_new (handle count : Z) : statement :=
  {| stmt := handle; param_count := count; bind_index := 0;
     binds := repeat None (Z.to_nat count);
     lengths := repeat 0 (Z.to_nat count) |}.

(** Overwriting position [i] of a vector. *)
Fixpoint set_nth {A : Type} (i : nat) (x : A) (l : list A) : list A :=
  match l, i with
  | [], _ => []
  | _ :: l', O => x :: l'
  | y :: l', S i' => y :: set_nth i' x l'
  end.

(** [get_bind()]: the next free slot, and the cursor moved past it; a
    bind beyond the declared parameters is refused. *)
Definition get_bind (self : statement) : outcome exception (nat * statement) :=
  throw_if (negb (bind_index self <? param_count self)) bind_error ;;;
  Value (Z.to_nat (bind_index self),
         mk_statement (stmt self) (param_count self) (bind_index self + 1)
                      (binds self) (lengths self)).

(** [param(value)], [param_blob(value)], [param_null()]. *)
Definition param (v : param_value) (self : statement) : outcome exception statement :=
  slot <- get_bind self ;;
  let '(i, self') := slot in
  Value (mk_statement (stmt self') (param_count self') (bind_index self')
                      (set_nth i (Some v) (binds self'))
                      (set_nth i (value_length v) (lengths self'))).

(** [execute()]: [reply] is what the server answers, the count of affected
    rows or an error.  A set of parameters that is not complete is
    refused before the server is asked; a successful call consumes the
    parameters. *)
Definition execute (reply : outcome exception Z) (self : statement)
  : outcome exception (Z * statement) :=
  throw_if (negb (bind_index self =? param_count self)) bind_error ;;;
  rows <- reply ;;
  Value (rows, mk_statement (stmt self) (param_count self) 0 (binds self) (lengths self)).

(** ** The bind cycle as a sequence of calls *)

Inductive call : Type :=
| CallParam (v : param_value)
| CallExecute (reply : outcome exception Z).

(** One call: the statement after it and whether it threw.  A call that
    throws leaves the statement as it was. *)
Definition step (self : statement) (c : call) : statement * bool :=
  match c with
  | CallParam v =>
      match param v self with Value s => (s, false) | _ => (self, true) end
  | CallExecute reply =>
      match execute reply self with Value (_, s) => (s, false) | _ => (self, true) end
  end.

Definition run (self : statement) (calls : list call) : statement :=
  fold_left (fun s c => fst (step s c)) calls self.

(** The invariant of a statement. *)
Definition statement_ok (s : statement) : Prop :=
  0 <= bind_index s <= param_count s /\
  List.length (binds s) = Z.to_nat (param_count s) /\
  List.length (lengths s) = Z.to_nat (param_count s).

(** ** Vectors *)

Lemma length_set_nth {A} i (x : A) l : List.length (set_nth i x l) = List.length l.
Proof.
  revert i. induction l as [|y l IH]; intros [|i]; cbn; try reflexivity.
  now rewrite IH.
Qed.

Lemma set_nth_split {A} i (x : A) l : (i < List.length l)%nat ->
  set_nth i x l = (firstn i l ++ x :: skipn (S i) l)%list.
Proof.
  revert i. induction l as [|y l IH]; intros [|i] H; cbn in *; try lia; [reflexivity |].
  now rewrite IH by lia.
Qed.

(** ** One call *)

(** A parameter is bound to the slot under the cursor and moves the
    cursor by one; on a statement whose slots are all bound it is refused
    and nothing is bound. *)
Lemma param_spec v s :
  statement_ok s ->
  (bind_index s < param_count s ->
   exists s', param v s = Value s' /\ statement_ok s' /\
     bind_index s' = bind_index s + 1 /\ param_count s' = param_count s /\
     binds s' = (firstn (Z.to_nat (bind_index s)) (binds s) ++ Some v
                 :: skipn (S (Z.to_nat (bind_index s))) (binds s))%list) /\
  (bind_index s = param_count s -> param v s = Throw bind_error).
Proof.
  intros (Hi & Hb & Hl). unfold param, get_bind. split; intros H.
  - replace (negb (bind_index s <? param_count s)) with false by lia.
    cbn [throw_if bind]. eexists. split; [reflexivity |].
    unfold statement_ok. cbn [bind_index param_count binds lengths].
    rewrite !length_set_nth. repeat split; try lia.
    apply set_nth_split. lia.
  - replace (negb (bind_index s <? param_count s)) with true by lia. reflexivity.
Qed.

(** [execute] asks the server exactly when every slot has been bound in
    this cycle; otherwise it throws the bind error whatever the server
    would answer.  After success the cursor is back at the first slot. *)
Lemma execute_spec reply s :
  (bind_index s <> param_count s -> execute reply s = Throw bind_error) /\
  (bind_index s = param_count s ->
   execute reply s
   = bind reply (fun rows =>
       Value (rows, mk_statement (stmt s) (param_count s) 0 (binds s) (lengths s)))).
Proof.
  unfold execute. split; intros H.
  - now replace (negb (bind_index s =? param_count s)) with true by lia.
  - now replace (negb (bind_index s =? param_count s)) with false by lia.
Qed.

(** ** Sequences of calls *)

Lemma step_ok s c : statement_ok s -> statement_ok (fst (step s c)).
Proof.
  intros Hs. destruct c as [v | reply]; cbn [step].
  - destruct (Z_lt_le_dec (bind_index s) (param_count s)) as [Hlt | Hge].
    + destruct (proj1 (param_spec v s Hs) Hlt) as (s' & -> & Hs' & _). exact Hs'.
    + rewrite (proj2 (param_spec v s Hs)) by (destruct Hs; lia). exact Hs.
  - unfold execute. destruct (negb (bind_index s =? param_count s)); cbn [throw_if bind];
      [exact Hs |].
    destruct reply as [rows | e |]; cbn [bind fst]; try exact Hs.
    destruct Hs as (Hi & Hb & Hl). unfold statement_ok. cbn. repeat split; lia || assumption.
Qed.

Lemma statement_new_ok handle count : 0 <= count -> statement_ok (statement_new handle count).
Proof.
  intros H. unfold statement_ok, statement_new. cbn. rewrite !repeat_length. lia.
Qed.

Lemma run_preserves s calls : statement_ok s -> statement_ok (run s calls).
Proof.
  unfold run. revert s.
  induction calls as [|c calls IH]; intros s Hs; cbn [fold_left]; [exact Hs |].
  apply IH, step_ok, Hs.
Qed.

(** C37. The invariant holds after the constructor and after every sequence of
    calls, throwing or not. *)
Theorem run_ok handle count calls :
  0 <= count -> statement_ok (run (statement_new handle count) calls).
Proof. intros Hc. now apply run_preserves, statement_new_ok. Qed.

(** No call changes the handle of the statement. *)
Lemma run_stmt s calls : stmt (run s calls) = stmt s.
Proof.
  unfold run. revert s. induction calls as [|c calls IH]; intros s; cbn [fold_left];
    [reflexivity |].
  rewrite IH. destruct c as [v | reply]; cbn [step].
  - unfold param, get_bind. destruct (negb (bind_index s <? param_count s)); reflexivity.
  - unfold execute. destruct (negb (bind_index s =? param_count s)); [reflexivity |].
    destruct reply; reflexivity.
Qed.

(** Binding values one after the other fills the slots from left to
    right. *)
Lemma run_params s vs :
  statement_ok s ->
  bind_index s + Z.of_nat (List.length vs) <= param_count s ->
  let s' := run s (map CallParam vs) in
  bind_index s' = bind_index s + Z.of_nat (List.length vs) /\
  param_count s' = param_count s /\
  binds s' = (firstn (Z.to_nat (bind_index s)) (binds s) ++ map Some vs
              ++ skipn (Z.to_nat (bind_index s) + List.length vs) (binds s))%list.
Proof.
  revert s. induction vs as [|v vs IH]; intros s Hs Hn; cbn [map List.length run fold_left].
  - cbn. rewrite Nat.add_0_r, firstn_skipn. repeat split; lia.
  - cbn [List.length] in Hn. rewrite Nat2Z.inj_succ in Hn.
    destruct (proj1 (param_spec v s Hs) ltac:(lia)) as (s1 & E1 & Hs1 & Ei & Ec & Eb).
    cbn [step]. rewrite E1. cbn [fst].
    destruct (IH s1 Hs1 ltac:(lia)) as (Ei' & Ec' & Eb'). cbv zeta in Ei', Ec', Eb'.
    unfold run in Ei', Ec', Eb'. rewrite Ei', Ec', Eb', Ei, Ec, Eb. cbv zeta.
    destruct Hs as (Hi & Hb & _).
    set (k := Z.to_nat (bind_index s)) in *.
    assert (Hk : (k < List.length (binds s))%nat) by lia.
    replace (Z.to_nat (bind_index s + 1)) with (S k) by lia.
    repeat split; try lia.
    rewrite firstn_app, firstn_firstn, Nat.min_r, length_firstn, Nat.min_l by lia.
    replace (S k - k)%nat with 1%nat by lia. cbn [firstn].
    rewrite skipn_app, length_firstn, Nat.min_l by lia.
    rewrite (skipn_all2 (firstn k (binds s))) by (rewrite length_firstn; lia).
    replace (S k + List.length vs - k)%nat with (S (List.length vs)) by lia.
    change (skipn (S (List.length vs)) (Some v :: skipn (S k) (binds s)))
      with (skipn (List.length vs) (skipn (S k) (binds s))).
    rewrite skipn_skipn, <- !app_assoc. cbn [app].
    now replace (List.length vs + S k)%nat with (k + S (List.length vs))%nat by lia.
Qed.

(** ** The bind cycle *)

(** The statement after binding [vs] to a new statement of at least as
    many placeholders. *)
Lemma bound_statement handle count vs :
  Z.of_nat (List.length vs) <= count ->
  let s := run (statement_new handle count) (map CallParam vs) in
  bind_index s = Z.of_nat (List.length vs) /\ param_count s = count /\
  binds s = (map Some vs ++ repeat None (Z.to_nat count - List.length vs))%list.
Proof.
  intros H. cbv zeta.
  destruct (run_params (statement_new handle count) vs
              (statement_new_ok handle count ltac:(lia)) ltac:(cbn; lia)) as (Ei & Ec & Eb).
  cbv zeta in Ei, Ec, Eb. rewrite Ei, Ec, Eb. cbn [bind_index param_count binds statement_new].
  repeat split; try lia. cbn [Z.to_nat firstn app Nat.add].
  f_equal.
  apply nth_error_ext. intros i.
  rewrite nth_error_skipn.
  destruct (Nat.ltb_spec (List.length vs + i) (Z.to_nat count)) as [Hlt | Hge].
  - rewrite !nth_error_repeat by lia. reflexivity.
  - transitivity (@None (option param_value)).
    + apply nth_error_None. rewrite repeat_length. lia.
    + symmetry. apply nth_error_None. rewrite repeat_length. lia.
Qed.

(** With exactly as many parameters as placeholders, bound from left to
    right, [execute] returns the server's count of affected rows, and the
    slots hold the values in their order. *)
Theorem execute_after_all_params handle vs rows :
  let count := Z.of_nat (List.length vs) in
  exists s, execute (Value rows) (run (statement_new handle count) (map CallParam vs))
            = Value (rows, s) /\
            binds s = map Some vs /\ bind_index s = 0 /\ param_count s = count.
Proof.
  cbv zeta. destruct (bound_statement handle (Z.of_nat (List.length vs)) vs (Z.le_refl _))
    as (Ei & Ec & Eb). cbv zeta in Ei, Ec, Eb.
  eexists. rewrite (proj2 (execute_spec _ _)) by congruence. autorewrite with outcome.
  split; [reflexivity |]. cbn [binds bind_index param_count].
  rewrite Eb, Ec, Nat2Z.id, Nat.sub_diag. cbn [repeat]. now rewrite app_nil_r.
Qed.

(** With fewer parameters than placeholders [execute] throws the bind
    error, whatever the server would answer: a missing parameter is never
    sent as a stale or empty slot. *)
Theorem execute_after_too_few handle count vs reply :
  Z.of_nat (List.length vs) < count ->
  execute reply (run (statement_new handle count) (map CallParam vs)) = Throw bind_error.
Proof.
  intros H. destruct (bound_statement handle count vs ltac:(lia)) as (Ei & Ec & _).
  cbv zeta in Ei, Ec. apply execute_spec. lia.
Qed.

(** One parameter more than the placeholders is refused when it is
    bound, and the statement keeps the parameters bound before. *)
Theorem param_after_all_params handle vs v :
  let s := run (statement_new handle (Z.of_nat (List.length vs))) (map CallParam vs) in
  param v s = Throw bind_error /\ fst (step s (CallParam v)) = s.
Proof.
  cbv zeta. destruct (bound_statement handle (Z.of_nat (List.length vs)) vs (Z.le_refl _))
    as (Ei & Ec & _). cbv zeta in Ei, Ec.
  assert (E : param v (run (statement_new handle (Z.of_nat (List.length vs)))
                         (map CallParam vs)) = Throw bind_error).
  { apply param_spec; [apply run_preserves, statement_new_ok; lia | congruence]. }
  split; [exact E |]. cbn [step]. now rewrite E.
Qed.

(** A second [execute] without binding again is refused when the
    statement has parameters: the binds of the last cycle are not sent
    again. *)
Theorem execute_twice handle vs rows reply s :
  vs <> [] ->
  execute (Value rows) (run (statement_new handle (Z.of_nat (List.length vs)))
                            (map CallParam vs)) = Value (rows, s) ->
  execute reply s = Throw bind_error.
Proof.
  intros Hv H.
  destruct (bound_statement handle (Z.of_nat (List.length vs)) vs (Z.le_refl _))
    as (Ei & Ec & _). cbv zeta in Ei, Ec.
  rewrite (proj2 (execute_spec _ _)) in H by congruence. autorewrite with outcome in H.
  injection H as <-. apply execute_spec. cbn [bind_index param_count]. rewrite Ec.
  destruct vs; [congruence | cbn; lia].
Qed.

(** ** Concrete inputs *)

#[local] Open Scope string_scope.

Example run_ok_witness :
  statement_ok (run (statement_new 7 2)
                    [CallParam (PInt 1); CallExecute (Value 1); CallParam (PString "a");
                     CallParam (PNull 1); CallExecute (Value 1)]).
Proof. apply run_ok. lia. Defined.

Example execute_after_too_few_witness :
  execute (Value 1) (run (statement_new 7 2) (map CallParam [PInt 1])) = Throw bind_error.
Proof. apply (execute_after_too_few 7 2 [PInt 1]). by_eval. Defined.

Example execute_twice_witness :
  execute (Value 1) (mk_statement 7 1 0 [Some (PInt 1)] [0]) = Throw bind_error.
Proof.
  apply (execute_twice 7 [PInt 1] 1 (Value 1)); [discriminate | reflexivity].
Defined.
