(* ===== verification/Fetch.v ===== *)
(** * Fetch: the fetch engine of [mysqlpp::result]

    [bind()], [fetch()] and [num_rows()] are declared in
    [src/mysqlpp.hpp] (lines 142-144): the class [Engine] of [Result.v].
    Their bodies are not part of the sources: this file gives the
    instance [server_engine] that follows section 4.3 of the
    specification, with the constructor (line 139) and the two private
    members behind [fetch()] (lines 196-197, the class
    [EnginePrivate]).  The state is the [result] of [Result.v]; the
    prepared statement on the side of the client library is a [server]:
    the metadata of the result set, the rows not yet fetched, and whether
    the status of a stored procedure is still to be read.

    A fetch has two phases.  The first writes into the buffers as they
    are: a value longer than its buffer is cut, and the column reports
    its true length and the truncation.  The second resizes the buffer
    of each truncated column and fetches this one column again. *)

From Stdlib Require Import ZArith Lia List String Ascii Bool.
From S2P Require Import Prelude Exception Column Result.
Import ListNotations.

#[local] Open Scope Z_scope.
#[local] Open Scope outcome_scope.

(** ** The client library's side *)

(** What the metadata of a result set say of one column. *)
Record field_meta : Type := mk_field_meta {
  field_type : enum_field_types;
  field_name : string;
  field_unsigned : bool
}.

(** A value of a row: SQL NULL, or the bytes of the value. *)
Definition cell : Type := option (list ascii).
Definition row : Type := list cell.

(** The number that the bytes of a buffer denote, least significant byte
    first, and the bytes of a number. *)
Fixpoint le_decode (bytes : list ascii) : Z :=
  match bytes with
  | [] => 0
  | b :: bytes' => code b + 256 * le_decode bytes'
  end.

Fixpoint le_encode (n : nat) (z : Z) : list ascii :=
  match n with
  | O => []
  | S n' => ascii_of_N (Z.to_N (z mod 256)) :: le_encode n' (z / 256)
  end.

Record server : Type := mk_server {
  result_fields : option (list field_meta);
  pending_rows : list row;
  fetched : Z;
  more_results : bool
}.

(** ** The constructor *)

(** [result::result(st_mysql_stmt* stmt_)], line 139: a result on the
    handle of the statement, with no column yet. *)
Definition result_new (handle : Z) : result := mk_result handle 0 0 0 [] [].

(** ** [bind()] *)

(** The buffer of a new column: the size of its type, or empty for a
    column of variable length. *)
Definition buffer_size (t : enum_field_types) : nat :=
  match fixed_size t with
  | Some n => Z.to_nat n
  | None => O
  end.

Definition column_of_field (f : field_meta) : st_mysql_column :=
  {| type := field_type f; name := field_name f;
     buffer := repeat zero (buffer_size (field_type f)); length := 0;
     is_unsigned := if field_unsigned f then 1 else 0; is_null := 0; error := 0 |}.

(** The bind of a column points to its buffer. *)
Definition bind_of_column (c : st_mysql_column) : st_mysql_bind :=
  {| buffer_type := type c; buffer_length := Z.of_nat (List.length (buffer c)) |}.

Definition with_columns (self : result) (count : Z) (cols : list st_mysql_column) : result :=
  mk_result (stmt self) (metadata self) (fields self) count (map bind_of_column cols) cols.

(** [bool bind()]: the discovery of the columns, once; [false] when the
    statement has no result set. *)
Definition result_bind (srv : server) (self : result) : bool * result :=
  match result_fields srv with
  | None => (false, self)
  | Some fs => (true, with_columns self (Z.of_nat (List.length fs)) (map column_of_field fs))
  end.

(** ** [fetch()] *)

(** First phase, one column: what fits the buffer is written over its
    first bytes; the length is the true one. *)
Definition probe_column (c : st_mysql_column) (v : cell) : st_mysql_column :=
  match v with
  | None =>
      {| type := type c; name := name c; buffer := buffer c; length := 0;
         is_unsigned := is_unsigned c; is_null := 1; error := 0 |}
  | Some bytes =>
      let cap := List.length (buffer c) in
      {| type := type c; name := name c;
         buffer := firstn cap bytes ++ skipn (List.length bytes) (buffer c);
         length := Z.of_nat (List.length bytes);
         is_unsigned := is_unsigned c; is_null := 0;
         error := if (cap <? List.length bytes)%nat then 1 else 0 |}
  end.

(** Second phase, one column: a truncated column is resized to its length
    and fetched again.  The second fetch of the model always delivers the
    bytes: a failure of the protocol between the two phases, the
    FetchError of the specification, is not modelled. *)
Definition refetch_column (c : st_mysql_column) (v : cell) : st_mysql_column :=
  match v with
  | Some bytes =>
      if truthy (error c) then
        {| type := type c; name := name c; buffer := bytes; length := length c;
           is_unsigned := is_unsigned c; is_null := is_null c; error := 0 |}
      else c
  | None => c
  end.

Definition fetch_cell (c : st_mysql_column) (v : cell) : st_mysql_column :=
  refetch_column (probe_column c v) v.

(** The columns after a row: a row has one cell per column. *)
Fixpoint fetch_columns (cols : list st_mysql_column) (r : row) : list st_mysql_column :=
  match cols, r with
  | c :: cols', v :: r' => fetch_cell c v :: fetch_columns cols' r'
  | _, _ => cols
  end.

(** [bool fetch_stmt_result()]: the next row of an ordinary result set. *)
Definition fetch_stmt_result (srv : server) (self : result) : bool * server * result :=
  match pending_rows srv with
  | r :: rest =>
      (true,
       mk_server (result_fields srv) rest (fetched srv + 1) (more_results srv),
       with_columns self (field_count self) (fetch_columns (columns self) r))
  | [] => (false, srv, self)
  end.

(** [bool fetch_proc_result()]: after the last row the status of the
    procedure is read as well. *)
Definition fetch_proc_result (srv : server) (self : result) : bool * server * result :=
  match pending_rows srv with
  | _ :: _ => fetch_stmt_result srv self
  | [] => (false, mk_server (result_fields srv) [] (fetched srv) false, self)
  end.

(** [bool fetch(bool is_proc = false)]. *)
Definition fetch (is_proc : bool) (srv : server) (self : result) : bool * server * result :=
  if is_proc then fetch_proc_result srv self else fetch_stmt_result srv self.

(** [unsigned long long num_rows()], for a result set that the client
    library holds in full: the rows fetched and those to come. *)
Definition num_rows (srv : server) : Z :=
  fetched srv + Z.of_nat (List.length (pending_rows srv)).

(** [n] calls of [fetch]: what each returned, then the state. *)
Fixpoint fetch_n (n : nat) (is_proc : bool) (srv : server) (self : result)
  : list bool * server * result :=
  match n with
  | O => ([], srv, self)
  | S n' =>
      let '(b, srv1, self1) := fetch is_proc srv self in
      let '(bs, srv2, self2) := fetch_n n' is_proc srv1 self1 in
      (b :: bs, srv2, self2)
  end.

(** The members of this file are an engine on the result sets that the
    client library holds. *)
#[export] Instance server_engine : Engine server :=
  {| engine_bind := result_bind;
     engine_num_rows := num_rows;
     engine_fetch := fetch |}.

#[export] Instance server_private : EnginePrivate server :=
  {| engine_fetch_stmt_result := fetch_stmt_result;
     engine_fetch_proc_result := fetch_proc_result |}.

(** ** Invariants *)

(** A cell that the server may send for a column: a column of fixed width
    gets exactly the bytes of its width. *)
Definition cell_fits (t : enum_field_types) (v : cell) : Prop :=
  match v, fixed_size t with
  | Some bytes, Some n => Z.of_nat (List.length bytes) = n
  | _, _ => True
  end.

(** The rows to come have one such cell per column. *)
Definition server_ok (self : result) (srv : server) : Prop :=
  Forall (Forall2 cell_fits (map type (columns self))) (pending_rows srv).

(** A column after a fetch of the cell [v]. *)
Definition holds (c : st_mysql_column) (v : cell) : Prop :=
  match v with
  | None => truthy (is_null c) = true
  | Some bytes =>
      truthy (is_null c) = false /\ truthy (error c) = false /\
      length c = Z.of_nat (List.length bytes) /\
      firstn (List.length bytes) (buffer c) = bytes
  end.

(** A column keeps the buffer of its type, or a longer one when it is of
    variable length. *)
Definition sized (c : st_mysql_column) : Prop :=
  match fixed_size (type c) with
  | Some n => Z.of_nat (List.length (buffer c)) = n
  | None => True
  end.

Definition engine_ok (self : result) : Prop :=
  result_ok self /\ Forall column_ok (columns self) /\ Forall sized (columns self) /\
  binds self = map bind_of_column (columns self).

(** ** One column *)

Ltac fetch_cases c v :=
  unfold fetch_cell, probe_column, refetch_column;
  destruct v as [bytes |]; cbv zeta;
  [destruct (Nat.ltb_spec (List.length (buffer c)) (List.length bytes));
   cbn [error truthy Z.eqb negb type name buffer length is_unsigned is_null] |
   cbn [error truthy Z.eqb negb type name buffer length is_unsigned is_null]].

(** After the two phases a column holds its cell, whatever its buffer
    was. *)
Lemma fetch_cell_holds c v : holds (fetch_cell c v) v.
Proof.
  fetch_cases c v; unfold holds;
    cbn [error truthy Z.eqb negb type name buffer length is_unsigned is_null];
    repeat split; try reflexivity.
  - apply firstn_all.
  - replace (firstn (List.length (buffer c)) bytes) with bytes
      by (symmetry; apply firstn_all2; lia).
    rewrite firstn_app, firstn_all, Nat.sub_diag. cbn [firstn]. apply app_nil_r.
Qed.

Lemma fetch_cell_column_ok c v : column_ok (fetch_cell c v).
Proof.
  fetch_cases c v; unfold column_ok;
    cbn [error truthy Z.eqb negb type name buffer length is_unsigned is_null];
    intros _; try lia.
  rewrite length_app, length_firstn, length_skipn. lia.
Qed.

Lemma fetch_cell_type c v :
  type (fetch_cell c v) = type c /\ name (fetch_cell c v) = name c /\
  is_unsigned (fetch_cell c v) = is_unsigned c.
Proof. fetch_cases c v; now repeat split. Qed.

(** A column of fixed width is never truncated: the second phase leaves
    it alone, and its buffer keeps its size. *)
Lemma probe_fixed c v n :
  fixed_size (type c) = Some n -> sized c -> cell_fits (type c) v ->
  truthy (error (probe_column c v)) = false /\
  List.length (buffer (fetch_cell c v)) = List.length (buffer c).
Proof.
  unfold sized, cell_fits. intros E. rewrite E. intros Hs Hf.
  fetch_cases c v; try (split; reflexivity); try lia.
  split; [reflexivity |]. rewrite length_app, length_firstn, length_skipn. lia.
Qed.

Lemma fetch_cell_sized c v : sized c -> cell_fits (type c) v -> sized (fetch_cell c v).
Proof.
  intros Hs Hf. unfold sized. destruct (fetch_cell_type c v) as (-> & _).
  destruct (fixed_size (type c)) as [n |] eqn:E; [| exact I].
  destruct (probe_fixed c v n E Hs Hf) as [_ ->]. unfold sized in Hs. now rewrite E in Hs.
Qed.

(** ** One row *)

Lemma length_fetch_columns cols r :
  List.length (fetch_columns cols r) = List.length cols.
Proof.
  revert r. induction cols as [|c cols IH]; intros [|v r]; cbn; try reflexivity.
  now rewrite IH.
Qed.

Lemma nth_fetch_columns cols : forall r j c v,
  nth_error cols j = Some c -> nth_error r j = Some v ->
  nth_error (fetch_columns cols r) j = Some (fetch_cell c v).
Proof.
  induction cols as [|c0 cols IH]; intros [|v0 r] [|j] c v; cbn; try discriminate.
  - now intros [= ->] [= ->].
  - apply IH.
Qed.

Lemma fetch_columns_holds cols r :
  List.length r = List.length cols -> Forall2 holds (fetch_columns cols r) r.
Proof.
  revert r. induction cols as [|c cols IH]; intros [|v r]; cbn; intros H;
    try discriminate; constructor.
  - apply fetch_cell_holds.
  - apply IH. lia.
Qed.

Lemma fetch_columns_names cols r :
  map name (fetch_columns cols r) = map name cols /\
  map type (fetch_columns cols r) = map type cols.
Proof.
  revert r. induction cols as [|c cols IH]; intros [|v r]; cbn; try (split; reflexivity).
  destruct (IH r) as [-> ->]. destruct (fetch_cell_type c v) as (-> & -> & _).
  split; reflexivity.
Qed.

Lemma fetch_columns_ok cols r :
  Forall column_ok cols -> Forall column_ok (fetch_columns cols r).
Proof.
  intros H. revert r. induction H as [|c cols Hc Hcols IH]; intros [|v r]; cbn;
    try (now constructor).
  constructor; [apply fetch_cell_column_ok | apply IH].
Qed.

Lemma fetch_columns_sized cols r :
  Forall sized cols -> Forall2 cell_fits (map type cols) r ->
  Forall sized (fetch_columns cols r).
Proof.
  intros H. revert r. induction H as [|c cols Hc Hcols IH]; intros r F; cbn in *;
    inversion F; subst; constructor; [now apply fetch_cell_sized | now apply IH].
Qed.

(** ** [bind()] and [fetch()] *)

Lemma column_of_field_ok f :
  column_ok (column_of_field f) /\ sized (column_of_field f).
Proof.
  unfold column_ok, sized, column_of_field, buffer_size. cbn [type buffer length is_null].
  split; [intros _; lia |]. rewrite repeat_length.
  destruct (field_type f); cbn; reflexivity.
Qed.

Lemma with_columns_ok self cols :
  Forall column_ok cols -> Forall sized cols ->
  engine_ok (with_columns self (Z.of_nat (List.length cols)) cols).
Proof.
  intros Hc Hs. unfold engine_ok, result_ok, with_columns.
  cbn [field_count columns binds]. rewrite length_map. now repeat split.
Qed.

Lemma columns_of_fields_ok fs :
  Forall column_ok (map column_of_field fs) /\ Forall sized (map column_of_field fs).
Proof. split; apply Forall_map, Forall_forall; intros f _; apply column_of_field_ok. Qed.

(** What [bind()] returns on a statement with a result set. *)
Lemma result_bind_columns srv self fs :
  result_fields srv = Some fs ->
  exists self', result_bind srv self = (true, self') /\ stmt self' = stmt self /\
    engine_ok self' /\ map name (columns self') = map field_name fs.
Proof.
  intros E. unfold result_bind. rewrite E. eexists. split; [reflexivity |].
  split; [reflexivity |]. rewrite <- (length_map column_of_field fs).
  split; [apply with_columns_ok; apply columns_of_fields_ok |].
  cbn [columns with_columns]. now rewrite map_map.
Qed.

(** [bind()] on a statement with a result set: one column per field, with
    the name and the type of the field and the buffer of the type; none is
    null. *)
Theorem result_bind_ok srv self fs :
  result_fields srv = Some fs ->
  exists self', result_bind srv self = (true, self') /\ engine_ok self' /\
    map name (columns self') = map field_name fs /\
    map type (columns self') = map field_type fs /\
    Forall (fun c => truthy (is_null c) = false /\
                     List.length (buffer c) = buffer_size (type c)) (columns self').
Proof.
  intros E. unfold result_bind. rewrite E. eexists. split; [reflexivity |].
  rewrite <- (length_map column_of_field fs).
  split; [apply with_columns_ok; apply columns_of_fields_ok |].
  cbn [columns with_columns]. rewrite !map_map.
  repeat split; try reflexivity. apply Forall_map, Forall_forall. intros f _.
  cbn. now rewrite repeat_length.
Qed.

Lemma fetch_next is_proc srv self r rest :
  pending_rows srv = r :: rest ->
  fetch is_proc srv self
  = (true, mk_server (result_fields srv) rest (fetched srv + 1) (more_results srv),
     with_columns self (field_count self) (fetch_columns (columns self) r)).
Proof.
  intros E. unfold fetch, fetch_proc_result, fetch_stmt_result. rewrite E.
  now destruct is_proc.
Qed.

(** [fetch()] with a row to come: it returns [true], the cursor moves by
    one row, and every column holds its cell of the row: the null flag for
    NULL, else the whole value, whatever the size of its buffer was. *)
Theorem fetch_row is_proc srv self r rest :
  pending_rows srv = r :: rest -> List.length r = List.length (columns self) ->
  exists srv' self', fetch is_proc srv self = (true, srv', self') /\
    pending_rows srv' = rest /\ fetched srv' = fetched srv + 1 /\
    Forall2 holds (columns self') r /\
    map name (columns self') = map name (columns self) /\
    field_count self' = field_count self.
Proof.
  intros E Hl. rewrite (fetch_next _ _ _ _ _ E). do 2 eexists. split; [reflexivity |].
  cbn [pending_rows fetched columns with_columns field_count].
  repeat split; [now apply fetch_columns_holds | apply fetch_columns_names].
Qed.

(** ** Sequences of fetches *)

Lemma fetch_empty is_proc srv self :
  pending_rows srv = [] ->
  exists srv', fetch is_proc srv self = (false, srv', self) /\
    pending_rows srv' = [] /\ fetched srv' = fetched srv /\
    more_results srv' = (if is_proc then false else more_results srv).
Proof.
  intros E. unfold fetch, fetch_proc_result, fetch_stmt_result. rewrite E.
  destruct is_proc; eexists; (split; [reflexivity |]); now repeat split.
Qed.

(** After the last row [fetch()] returns [false], and so does every later
    call. *)
Lemma fetch_n_empty k is_proc srv self :
  pending_rows srv = [] ->
  exists srv', fetch_n k is_proc srv self = (repeat false k, srv', self) /\
    pending_rows srv' = [] /\ fetched srv' = fetched srv.
Proof.
  revert srv. induction k as [|k IH]; intros srv E; cbn [fetch_n repeat].
  - exists srv. now repeat split.
  - destruct (fetch_empty is_proc srv self E) as (srv1 & -> & E1 & F1 & _).
    destruct (IH srv1 E1) as (srv2 & -> & E2 & F2). exists srv2.
    repeat split; [assumption | congruence].
Qed.

(** C30. [fetch()] returns [true] once for each row, then [false]: the calls
    after the end change nothing and fail no more than the first. *)
Theorem fetch_until_end is_proc srv self k :
  exists srv' self',
    fetch_n (List.length (pending_rows srv) + k) is_proc srv self
    = (repeat true (List.length (pending_rows srv)) ++ repeat false k, srv', self') /\
    pending_rows srv' = [] /\
    fetched srv' = fetched srv + Z.of_nat (List.length (pending_rows srv)).
Proof.
  remember (pending_rows srv) as rows eqn:E. revert srv self E.
  induction rows as [|r rows IH]; intros srv self E; cbn [List.length Nat.add repeat app].
  - destruct (fetch_n_empty k is_proc srv self (eq_sym E)) as (srv' & -> & E' & F').
    exists srv', self. repeat split; [assumption | lia].
  - cbn [fetch_n]. rewrite (fetch_next _ _ _ _ _ (eq_sym E)).
    destruct (IH (mk_server (result_fields srv) rows (fetched srv + 1) (more_results srv))
                 (with_columns self (field_count self) (fetch_columns (columns self) r))
                 eq_refl) as (srv' & self' & -> & E' & F').
    exists srv', self'. cbn [fetched] in F'. repeat split; [assumption | lia].
Qed.

(** ** The invariant of the engine *)

Lemma fetch_ok is_proc srv self :
  engine_ok self -> server_ok self srv ->
  exists b srv' self', fetch is_proc srv self = (b, srv', self') /\
    engine_ok self' /\ server_ok self' srv' /\
    map name (columns self') = map name (columns self) /\ num_rows srv' = num_rows srv.
Proof.
  intros Ok Hs. destruct (pending_rows srv) as [|r rest] eqn:E.
  - destruct (fetch_empty is_proc srv self E) as (srv' & -> & E' & F' & _).
    exists false, srv', self. unfold server_ok, num_rows. rewrite E', F', E.
    split; [reflexivity |]. split; [exact Ok |]. split; [constructor |]. now split.
  - rewrite (fetch_next _ _ _ _ _ E). do 3 eexists. split; [reflexivity |].
    destruct Ok as ((Hc & Hb) & Hok & Hsz & _). unfold server_ok in *. rewrite E in Hs.
    inversion Hs as [| ? ? Hr Hrest]; subst.
    destruct (fetch_columns_names (columns self) r) as [En Et].
    unfold engine_ok, result_ok, num_rows.
    cbn [pending_rows fetched columns binds field_count with_columns List.length].
    rewrite length_map, length_fetch_columns, Et, E. cbn [List.length].
    repeat split; try assumption; try lia;
      [now apply fetch_columns_ok | now apply fetch_columns_sized].
Qed.

(** The invariant holds after every sequence of fetches from a server
    whose rows have one cell per column, of the width of the column when
    it is fixed; the names of the columns and the count of rows do not
    change. *)
Theorem fetch_n_ok n is_proc srv self :
  engine_ok self -> server_ok self srv ->
  exists bs srv' self', fetch_n n is_proc srv self = (bs, srv', self') /\
    engine_ok self' /\ server_ok self' srv' /\
    map name (columns self') = map name (columns self) /\ num_rows srv' = num_rows srv.
Proof.
  revert srv self. induction n as [|n IH]; intros srv self Ok Hs; cbn [fetch_n].
  - exists [], srv, self. split; [reflexivity |]. split; [exact Ok |]. now split.
  - destruct (fetch_ok is_proc srv self Ok Hs) as (b & srv1 & self1 & -> & Ok1 & Hs1 & En1 & Er1).
    destruct (IH srv1 self1 Ok1 Hs1) as (bs & srv2 & self2 & -> & Ok2 & Hs2 & En2 & Er2).
    exists (b :: bs), srv2, self2. split; [reflexivity |]. split; [exact Ok2 |].
    split; [exact Hs2 |]. split; congruence.
Qed.

(** ** Typed access after a fetch *)

Lemma Forall2_nth_error {A B} (P : A -> B -> Prop) l l' i b :
  Forall2 P l l' -> nth_error l' i = Some b -> exists a, nth_error l i = Some a /\ P a b.
Proof.
  intros F. revert i. induction F as [|x y l l' Hxy _ IH]; intros [|i]; cbn; try discriminate.
  - intros [= <-]. now exists x.
  - apply IH.
Qed.

(** After a fetch, [get<T>] at the ordinal of a NULL cell throws the
    exception of line 152, and at the ordinal of a value it is the
    conversion of a column that holds the whole value. *)
Theorem get_after_fetch {T : Type} {F : Fetchable T} not_found is_proc srv self r rest i v :
  result_ok self -> pending_rows srv = r :: rest ->
  List.length r = List.length (columns self) -> nth_error r i = Some v ->
  exists srv' self', fetch is_proc srv self = (true, srv', self') /\
    match v with
    | None => @get (spec_lookup not_found) T F self' (Z.of_nat i) = Throw (null_value 152)
    | Some bytes =>
        exists c, holds c v /\
          @get (spec_lookup not_found) T F self' (Z.of_nat i) = fetch_column c default_value
    end.
Proof.
  intros [Hc Hb] E Hl Hi. rewrite (fetch_next _ _ _ _ _ E).
  do 2 eexists. split; [reflexivity |].
  set (self' := with_columns self (field_count self) (fetch_columns (columns self) r)).
  destruct (Forall2_nth_error _ _ _ i v (fetch_columns_holds (columns self) r Hl) Hi)
    as (c & Hn & Hcv).
  assert (Ok' : result_ok self')
    by (split; cbn [self' with_columns field_count binds columns];
        rewrite ?length_map, length_fetch_columns; assumption || reflexivity).
  unfold get. cbn [get_column spec_lookup].
  rewrite (spec_get_column_nth self' i c Ok' Hn). cbn [bind].
  destruct v as [bytes |]; unfold holds in Hcv.
  - exists c. destruct Hcv as (Hnull & Hrest). rewrite Hnull. now repeat split.
  - now rewrite Hcv.
Qed.

(** ** Bytes and numbers *)

(** ** Bytes and numbers *)

Lemma code_ascii_of_N z : 0 <= z < 256 -> code (ascii_of_N (Z.to_N z)) = z.
Proof.
  intros H. unfold code. rewrite N_ascii_embedding by lia. lia.
Qed.

Lemma code_range b : 0 <= code b < 256.
Proof. unfold code. pose proof (N_ascii_bounded b) as H. lia. Qed.

Lemma le_decode_nonneg bytes : 0 <= le_decode bytes.
Proof.
  induction bytes as [| b bytes IH]; cbn [le_decode]; [lia |].
  pose proof (code_range b). lia.
Qed.

Lemma length_le_encode n z : List.length (le_encode n z) = n.
Proof. revert z. induction n as [|n IH]; intros z; cbn; [reflexivity | now rewrite IH]. Qed.

(** The bytes of a number denote the number modulo their width. *)
Lemma le_decode_encode n z : le_decode (le_encode n z) = z mod 2 ^ (8 * Z.of_nat n).
Proof.
  revert z. induction n as [|n IH]; intros z; cbn [le_encode le_decode].
  - cbn. now rewrite Z.mod_1_r.
  - rewrite IH, code_ascii_of_N by (apply Z.mod_pos_bound; lia).
    replace (8 * Z.of_nat (S n)) with (8 + 8 * Z.of_nat n) by lia.
    rewrite Z.pow_add_r by lia. change (2 ^ 8) with 256.
    rewrite Z.rem_mul_r by lia. reflexivity.
Qed.

(** ** Concrete inputs *)

#[local] Open Scope string_scope.

(** [SELECT a, b FROM t WHERE a = ?] with one row, [(5, "x")]. *)
Definition select_fields : list field_meta :=
  [mk_field_meta MYSQL_TYPE_LONG "a" false; mk_field_meta MYSQL_TYPE_VAR_STRING "b" false].

Definition select_row : row := [Some (le_encode 4 5); Some ["x"%char]].

Definition select_server : server := mk_server (Some select_fields) [select_row] 0 false.

Definition new_result : result := mk_result 1 0 0 0 [] [].

Definition bound_result : result := snd (result_bind select_server new_result).

Example result_bind_ok_witness :
  exists self', result_bind select_server new_result = (true, self') /\ engine_ok self' /\
    map name (columns self') = map field_name select_fields /\
    map type (columns self') = map field_type select_fields /\
    Forall (fun c => truthy (is_null c) = false /\
                     List.length (buffer c) = buffer_size (type c)) (columns self').
Proof. exact (result_bind_ok select_server new_result select_fields eq_refl). Defined.

Example fetch_row_witness :
  exists srv' self', fetch false select_server bound_result = (true, srv', self') /\
    pending_rows srv' = [] /\ fetched srv' = 1 /\
    Forall2 holds (columns self') select_row /\
    map name (columns self') = ["a"; "b"] /\ field_count self' = 2.
Proof. exact (fetch_row false select_server bound_result select_row [] eq_refl eq_refl). Defined.

Lemma bound_result_ok : engine_ok bound_result /\ server_ok bound_result select_server.
Proof.
  split; [| repeat constructor].
  change bound_result
    with (with_columns new_result (Z.of_nat (List.length (map column_of_field select_fields)))
            (map column_of_field select_fields)).
  apply with_columns_ok; apply columns_of_fields_ok.
Qed.

Example fetch_n_ok_witness :
  exists bs srv' self', fetch_n 3 false select_server bound_result = (bs, srv', self') /\
    engine_ok self' /\ server_ok self' srv' /\
    map name (columns self') = ["a"; "b"] /\ num_rows srv' = 1.
Proof.
  exact (fetch_n_ok 3 false select_server bound_result
           (proj1 bound_result_ok) (proj2 bound_result_ok)).
Defined.

Example get_after_fetch_witness :
  exists srv' self', fetch false select_server bound_result = (true, srv', self') /\
    exists c, holds c (Some (le_encode 4 5)) /\
      @get (spec_lookup no_such_column) Z fetch_int self' 0
      = @fetch_column Z fetch_int c 0.
Proof.
  apply (@get_after_fetch Z fetch_int no_such_column false
           select_server bound_result select_row [] 0%nat (Some (le_encode 4 5)));
    (reflexivity || (split; reflexivity)).
Defined.
