(* ===== verification/Convert.v ===== *)
(** * Convert: the conversions of [fetch_column]

    The overloads of [fetch_column] are declared on lines 176-190 of
    [src/mysqlpp.hpp]; their bodies are not part of the sources, and this
    file follows the conversion rules of section 4.3 of the
    specification.  A column of an integer type is read from its buffer at
    the width and signedness of the column and cut or extended to the
    requested type; a string is the decimal text of an integer, the bytes
    of a text or a blob, or the text of a date and time, which the buffer
    holds as a [MYSQL_TIME] and [datetime::str] renders. *)

From Stdlib Require Import ZArith Lia List String Ascii Bool.
From S2P Require Import Prelude Calendar Libc Exception Datetime Column Result Fetch.
Import ListNotations.

#[local] Open Scope Z_scope.
#[local] Open Scope outcome_scope.

(** ** Integers and texts *)

(** The value of [bits] bits, read as signed or as unsigned. *)
Definition wrap (bits : Z) (signed : bool) (z : Z) : Z :=
  if signed then (z + 2 ^ (bits - 1)) mod 2 ^ bits - 2 ^ (bits - 1)
  else z mod 2 ^ bits.

(** The integer types that [fetch_column] is overloaded for, lines
    176-185. *)
Inductive int_kind : Type :=
| KUChar | KShort | KUShort | KInt | KUInt | KLongLong | KULongLong.

Definition kind_bits (k : int_kind) : Z :=
  match k with
  | KUChar => 8
  | KShort | KUShort => 16
  | KInt | KUInt => 32
  | KLongLong | KULongLong => 64
  end.

Definition kind_signed (k : int_kind) : bool :=
  match k with
  | KShort | KInt | KLongLong => true
  | KUChar | KUShort | KUInt | KULongLong => false
  end.

Definition is_integer (t : enum_field_types) : bool :=
  match t with
  | MYSQL_TYPE_TINY | MYSQL_TYPE_SHORT | MYSQL_TYPE_LONG | MYSQL_TYPE_LONGLONG => true
  | _ => false
  end.

Definition is_text (t : enum_field_types) : bool :=
  match t with
  | MYSQL_TYPE_NEWDECIMAL | MYSQL_TYPE_VAR_STRING | MYSQL_TYPE_STRING | MYSQL_TYPE_BLOB => true
  | _ => false
  end.

(** The number that a column of an integer type holds. *)
Definition column_number (c : st_mysql_column) : option Z :=
  if is_integer (type c) then
    Some (wrap (8 * Z.of_nat (buffer_size (type c))) (negb (truthy (is_unsigned c)))
            (le_decode (firstn (buffer_size (type c)) (buffer c))))
  else None.

(** The bytes that a column holds, as a string. *)
Definition column_bytes (c : st_mysql_column) : string :=
  string_of_list_ascii (firstn (Z.to_nat (length c)) (buffer c)).

(** ** Dates and times *)

Definition is_temporal (t : enum_field_types) : bool :=
  match t with
  | MYSQL_TYPE_DATE | MYSQL_TYPE_TIME | MYSQL_TYPE_DATETIME | MYSQL_TYPE_TIMESTAMP => true
  | _ => false
  end.

(** The first [n] bytes of a buffer as a number, and the rest of the
    buffer. *)
Definition take (n : nat) (bytes : list ascii) : Z * list ascii :=
  (le_decode (firstn n bytes), skipn n bytes).

(** The [MYSQL_TIME] that the buffer of a date and time column holds, as
    the client library lays it out where [long] has 64 bits: six
    [unsigned int]s, [second_part] on eight bytes, [neg] on one byte, three
    bytes of padding, [time_type] on four bytes; 40 bytes in all, the
    [fixed_size] of the four types.  [datetime] derives from [MYSQL_TIME]
    and adds no member (line 47). *)
Definition datetime_of_buffer (bytes : list ascii) : datetime :=
  let '(y, b) := take 4 bytes in
  let '(mo, b) := take 4 b in
  let '(d, b) := take 4 b in
  let '(h, b) := take 4 b in
  let '(mi, b) := take 4 b in
  let '(s, b) := take 4 b in
  let '(part, b) := take 8 b in
  let '(ng, b) := take 1 b in
  let '(_, b) := take 3 b in
  let '(kind, _) := take 4 b in
  mk_datetime y mo d h mi s part (negb (ng =? 0)) (cast_int kind).

(** The bytes that the client library writes for a value. *)
Definition buffer_of_datetime (d : datetime) : list ascii :=
  le_encode 4 (year d) ++ le_encode 4 (month d) ++ le_encode 4 (day d) ++
  le_encode 4 (hour d) ++ le_encode 4 (minute d) ++ le_encode 4 (second d) ++
  le_encode 8 (second_part d) ++ le_encode 1 (if neg d then 1 else 0) ++
  le_encode 3 0 ++ le_encode 4 (time_type d).

Section Conversions.

(** What the engine does on a request that the conversion rules of the
    specification do not cover here: an integer from a column that is not
    an integer, a string from a floating-point column, and the string of a
    date and time that [strftime] leaves unspecified. *)
Variable uncovered : forall T : Type, st_mysql_column -> outcome exception T.

(** [fetch_column(column, value)] for the integer types: the number of the
    column, cut or extended to the requested type. *)
Definition fetch_column_int (k : int_kind) (c : st_mysql_column) (value : Z)
  : outcome exception Z :=
  match column_number c with
  | Some z => Value (wrap (kind_bits k) (kind_signed k) z)
  | None => uncovered Z c
  end.

(** The text of a date and time column: [str()] of the value in its
    buffer.  [stack] is the structure that [c_tm] declares. *)
Definition column_datetime (stack : tm) (c : st_mysql_column) : outcome exception string :=
  text <- str stack (datetime_of_buffer (buffer c)) ;;
  match text with
  | Some s => Value s
  | None => uncovered string c
  end.

(** [fetch_column(column, value)] for [std::string]: a number in decimal,
    the bytes of a text or a blob as they are, a date and time in the
    format of [datetime::str]. *)
Definition fetch_column_string (stack : tm) (c : st_mysql_column) (value : string)
  : outcome exception string :=
  match column_number c with
  | Some z => Value (show_Z z)
  | None =>
      if is_text (type c) then Value (column_bytes c)
      else if is_temporal (type c) then column_datetime stack c
      else uncovered string c
  end.

Definition fetchable_int (k : int_kind) : Fetchable Z :=
  {| default_value := 0; fetch_column := fetch_column_int k |}.

Definition fetchable_string (stack : tm) : Fetchable string :=
  {| default_value := EmptyString; fetch_column := fetch_column_string stack |}.

End Conversions.

(** The wire type of an integer type, and the range of its values. *)
Definition kind_type (k : int_kind) : enum_field_types :=
  match k with
  | KUChar => MYSQL_TYPE_TINY
  | KShort | KUShort => MYSQL_TYPE_SHORT
  | KInt | KUInt => MYSQL_TYPE_LONG
  | KLongLong | KULongLong => MYSQL_TYPE_LONGLONG
  end.

Definition in_kind (k : int_kind) (z : Z) : Prop :=
  if kind_signed k then - 2 ^ (kind_bits k - 1) <= z < 2 ^ (kind_bits k - 1)
  else 0 <= z < 2 ^ kind_bits k.

Lemma wrap_in_kind k z : in_kind k z -> wrap (kind_bits k) (kind_signed k) z = z.
Proof.
  unfold in_kind, wrap. destruct k; cbn [kind_signed kind_bits]; intros H;
    rewrite Z.mod_small; lia.
Qed.

Lemma wrap_mod bits signed z : 0 < bits ->
  wrap bits signed (z mod 2 ^ bits) = wrap bits signed z.
Proof.
  intros H. unfold wrap. destruct signed.
  - now rewrite Zplus_mod_idemp_l.
  - now rewrite Z.mod_mod by lia.
Qed.

Lemma buffer_size_kind k : 8 * Z.of_nat (buffer_size (kind_type k)) = kind_bits k.
Proof. destruct k; reflexivity. Qed.

Section ConversionProperties.

Variable uncovered : forall T : Type, st_mysql_column -> outcome exception T.

(** The number in the first bytes of the buffer of an integer column
    comes back as it was, when it is of the requested type. *)
Lemma fetch_column_int_value k z c value :
  in_kind k z -> type c = kind_type k ->
  truthy (is_unsigned c) = negb (kind_signed k) ->
  firstn (buffer_size (kind_type k)) (buffer c) = le_encode (buffer_size (kind_type k)) z ->
  fetch_column_int uncovered k c value = Value z.
Proof.
  intros Hz Et Eu Eb. unfold fetch_column_int, column_number.
  rewrite Et, Eu, Eb, negb_involutive.
  replace (is_integer (kind_type k)) with true by now destruct k.
  rewrite le_decode_encode, buffer_size_kind.
  rewrite wrap_mod by (destruct k; cbn; lia).
  now rewrite !(wrap_in_kind k z Hz).
Qed.

(** C33. Same width, same signedness: a value of the requested type that the
    server sends as the bytes of its width comes back as it was. *)
Theorem fetch_column_int_roundtrip k z c value :
  in_kind k z -> type c = kind_type k ->
  truthy (is_unsigned c) = negb (kind_signed k) ->
  buffer c = le_encode (buffer_size (kind_type k)) z ->
  fetch_column_int uncovered k c value = Value z.
Proof.
  intros Hz Et Eu Eb. apply fetch_column_int_value; try assumption.
  rewrite Eb. apply firstn_all2. rewrite length_le_encode. lia.
Qed.

(** Any integer column, any requested integer type: the number of the
    column reduced to the requested width, with no check of its size. *)
Theorem fetch_column_int_truncates k c value z :
  column_number c = Some z ->
  exists r, fetch_column_int uncovered k c value = Value r /\ in_kind k r /\
            (r - z) mod 2 ^ kind_bits k = 0.
Proof.
  intros E. unfold fetch_column_int. rewrite E. eexists. split; [reflexivity |].
  unfold in_kind, wrap. destruct k; cbn [kind_signed kind_bits]; split;
    Z.div_mod_to_equations; lia.
Qed.

End ConversionProperties.

(** ** The buffer of a date and time *)

Lemma take_encode n z rest :
  take n (le_encode n z ++ rest) = (z mod 2 ^ (8 * Z.of_nat n), rest).
Proof.
  unfold take. pose proof (length_le_encode n z) as E.
  rewrite firstn_app, skipn_app, E, Nat.sub_diag, firstn_all2, skipn_all2 by lia.
  cbn [firstn skipn app]. now rewrite app_nil_r, le_decode_encode.
Qed.

Lemma length_buffer_of_datetime d :
  List.length (buffer_of_datetime d) = buffer_size MYSQL_TYPE_DATETIME.
Proof. unfold buffer_of_datetime. now rewrite !length_app, !length_le_encode. Qed.

(** The value that the client library writes is the value read. *)
Lemma datetime_of_buffer_of_datetime d :
  typed_datetime d -> 0 <= second_part d < 2 ^ 64 -> in_int (time_type d) ->
  datetime_of_buffer (buffer_of_datetime d) = d.
Proof.
  unfold typed_datetime, in_uint, uint_max. intros (Hy & Hmo & Hd & Hh & Hmi & Hs) Hp Ht.
  unfold datetime_of_buffer, buffer_of_datetime.
  rewrite <- (app_nil_r (le_encode 4 (time_type d))).
  repeat (rewrite take_encode; cbv beta iota).
  change (8 * Z.of_nat 4) with 32. change (8 * Z.of_nat 8) with 64.
  rewrite !Z.mod_small by lia. fold (cast_uint (time_type d)).
  rewrite cast_int_uint, cast_int_id by assumption.
  destruct d as [? ? ? ? ? ? ? [] ?]; reflexivity.
Qed.

Section TemporalProperties.

Context {clib : CLib}.
Variable uncovered : forall T : Type, st_mysql_column -> outcome exception T.
Variables (stack stack' : tm).

(** C35. A value that the server sends in a column of a date and time type,
    an existing date and time of the years 0 to 9999, is fetched as its
    text in the format of [str]; and the constructor of [datetime] reads
    this text back as the value, unless the zone skips that local time or
    [mktime] returns [-1] for it. *)
Theorem fetch_column_string_datetime c d value :
  is_temporal (type c) = true -> buffer c = buffer_of_datetime d ->
  0 <= second_part d < 2 ^ 64 -> in_int (time_type d) ->
  0 <= year d <= 9999 -> valid_date (year d) (month d) (day d) ->
  valid_time (hour d) (minute d) (second d) ->
  fetch_column_string uncovered stack c value
  = Value (datetime_text (year d) (month d) (day d) (hour d) (minute d) (second d)) /\
  (~ skipped (tm_of_fields (year d) (month d) (day d) (hour d) (minute d) (second d)) ->
   snd (mktime (tm_of_fields (year d) (month d) (day d) (hour d) (minute d) (second d))) <> -1 ->
   datetime_of_string d stack'
     (datetime_text (year d) (month d) (day d) (hour d) (minute d) (second d)) = Value d).
Proof.
  intros Hc Eb Hp Hk Hy Hv Ht. pose proof Hv as [Hm Hd]. pose proof Ht as (HH & HM & HS).
  pose proof (days_in_month_range (year d) (month d)). split.
  - unfold fetch_column_string, column_number, column_datetime.
    destruct (type c); try discriminate Hc; cbn [is_integer is_text is_temporal];
      (rewrite Eb, datetime_of_buffer_of_datetime, str_value;
       unfold typed_datetime, in_uint, uint_max, int_max; try assumption; try lia;
       reflexivity).
  - intros Hs Hr. rewrite datetime_text_accepted by assumption. now destruct d.
Qed.

End TemporalProperties.

(** ** Concrete inputs *)

#[local] Open Scope string_scope.

Definition no_conversion (T : Type) (c : st_mysql_column) : outcome exception T :=
  Throw (mk_exception FILE 0 "no conversion").

(** The scenario of the specification: bind, fetch once, read both
    columns by name, fetch again. *)
Example select_scenario :
  let '(b1, srv1, r1) := fetch false select_server bound_result in
  let '(b2, _, _) := fetch false srv1 r1 in
  b1 = true /\ b2 = false /\
  @get_by_name (spec_lookup no_such_column) Z (fetchable_int no_conversion KInt) r1 "a"
  = Value 5 /\
  @get_by_name (spec_lookup no_such_column) string (fetchable_string no_conversion zero_tm) r1 "b"
  = Value "x".
Proof. vm_compute. now repeat split. Qed.

Example fetch_column_int_roundtrip_witness :
  fetch_column_int no_conversion KShort
    (mk_column MYSQL_TYPE_SHORT "n" (le_encode 2 (-2)) 2 0 0 0) 0 = Value (-2).
Proof.
  apply (fetch_column_int_roundtrip no_conversion KShort (-2)); by_eval.
Defined.

Example fetch_column_int_truncates_witness :
  exists r, fetch_column_int no_conversion KUChar
              (mk_column MYSQL_TYPE_LONG "n" (le_encode 4 (-2)) 4 0 0 0) 0 = Value r /\
            in_kind KUChar r /\ (r - -2) mod 2 ^ kind_bits KUChar = 0.
Proof.
  apply (fetch_column_int_truncates no_conversion KUChar
           (mk_column MYSQL_TYPE_LONG "n" (le_encode 4 (-2)) 4 0 0 0) 0 (-2)).
  vm_compute. reflexivity.
Defined.

(** A DATETIME column that holds 2021-03-02 10:20:30. *)
Definition datetime_column : st_mysql_column :=
  mk_column MYSQL_TYPE_DATETIME "t" (buffer_of_datetime a_datetime) 40 0 0 0.

Example fetch_column_string_datetime_witness :
  fetch_column_string no_conversion zero_tm datetime_column "" = Value "2021-03-02 10:20:30" /\
  (~ @skipped utc_clib (tm_of_fields 2021 3 2 10 20 30) ->
   snd (@mktime utc_clib (tm_of_fields 2021 3 2 10 20 30)) <> -1 ->
   @datetime_of_string utc_clib a_datetime zero_tm "2021-03-02 10:20:30" = Value a_datetime).
Proof.
  exact (@fetch_column_string_datetime utc_clib no_conversion zero_tm zero_tm
           datetime_column a_datetime "" eq_refl eq_refl
           ltac:(by_eval) ltac:(by_eval) ltac:(by_eval) ltac:(by_eval) ltac:(by_eval)).
Defined.

