(* ===== verification/Ieee.v ===== *)
(** * Ieee: the [float] and [double] overloads of [fetch_column]

    Lines 187-188 of [src/mysqlpp.hpp] declare [fetch_column] for [float&]
    and [double&]; section 4.3 of the specification says that a request
    for a floating-point type from an integer or a floating-point column
    is a numeric cast.  A floating-point value is a [spec_float] of the
    Standard Library, in the formats of IEEE 754: binary32 for [float]
    (24 bits of precision) and binary64 for [double] (53 bits).  A column
    of the type FLOAT or DOUBLE holds the bits of its value, least
    significant byte first.

    The casts are those of C++ where the floating-point types are the
    IEEE formats and the rounding is to nearest, ties to even: from an
    integer ([float_of_Z]), from [float] to [double] ([widen], exact) and
    from [double] to [float] ([narrow]), which is undefined for a value
    beyond the range of [float]. *)

From Stdlib Require Import ZArith Lia List String Ascii Bool SpecFloat.
From S2P Require Import Prelude Exception Column Result Fetch Convert.
Import ListNotations.

#[local] Open Scope Z_scope.
#[local] Open Scope outcome_scope.

(** ** The two formats *)

(** The floating-point types of the overloads, lines 187-188. *)
Inductive float_kind : Type :=
| KFloat
| KDouble.

(** The bits of the mantissa with the implicit one, and the exponent of
    the infinities. *)
Definition kind_prec (k : float_kind) : Z :=
  match k with
  | KFloat => 24
  | KDouble => 53
  end.

Definition kind_emax (k : float_kind) : Z :=
  match k with
  | KFloat => 128
  | KDouble => 1024
  end.

Definition float_type (k : float_kind) : enum_field_types :=
  match k with
  | KFloat => MYSQL_TYPE_FLOAT
  | KDouble => MYSQL_TYPE_DOUBLE
  end.

(** A value of the format. *)
Definition is_float (k : float_kind) (f : spec_float) : Prop :=
  valid_binary (kind_prec k) (kind_emax k) f = true.

(** ** Bits *)

(** The weight of the sign bit. *)
Definition sign_weight (k : float_kind) : Z := 2 ^ (kind_prec k - 1) * (2 * kind_emax k).

(** The value of a sign, a biased exponent and a fraction: zero and the
    subnormal numbers at the exponent 0, infinity and NaN at the largest
    exponent, the normal numbers with their implicit bit between. *)
Definition float_of_fields (k : float_kind) (s : bool) (ex frac : Z) : spec_float :=
  if ex =? 0 then
    match frac with
    | Zpos m => S754_finite s m (emin (kind_prec k) (kind_emax k))
    | _ => S754_zero s
    end
  else if ex =? 2 * kind_emax k - 1 then
    if frac =? 0 then S754_infinity s else S754_nan
  else
    match frac + 2 ^ (kind_prec k - 1) with
    | Zpos m => S754_finite s m (ex + emin (kind_prec k) (kind_emax k) - 1)
    | _ => S754_nan
    end.

(** The value that the bits of a word denote: the fraction in the low
    bits, then the biased exponent, then the sign. *)
Definition float_of_bits (k : float_kind) (bits : Z) : spec_float :=
  float_of_fields k (negb ((bits / sign_weight k) mod 2 =? 0))
    ((bits / 2 ^ (kind_prec k - 1)) mod (2 * kind_emax k))
    (bits mod 2 ^ (kind_prec k - 1)).

(** The word of a sign, a biased exponent and a fraction. *)
Definition bits_of_fields (k : float_kind) (s : bool) (ex frac : Z) : Z :=
  (if s then sign_weight k else 0) + ex * 2 ^ (kind_prec k - 1) + frac.

(** The bits of a value; those of a NaN are the quiet NaN. *)
Definition bits_of_float (k : float_kind) (f : spec_float) : Z :=
  match f with
  | S754_zero s => bits_of_fields k s 0 0
  | S754_infinity s => bits_of_fields k s (2 * kind_emax k - 1) 0
  | S754_nan => bits_of_fields k false (2 * kind_emax k - 1) (2 ^ (kind_prec k - 2))
  | S754_finite s m e =>
      if Zpos m <? 2 ^ (kind_prec k - 1) then bits_of_fields k s 0 (Zpos m)
      else bits_of_fields k s (e - emin (kind_prec k) (kind_emax k) + 1)
             (Zpos m - 2 ^ (kind_prec k - 1))
  end.

(** ** The casts *)

(** [static_cast<T>(z)] for an integer [z]: the nearest value of the
    format, ties to even. *)
Definition float_of_Z (k : float_kind) (z : Z) : spec_float :=
  binary_normalize (kind_prec k) (kind_emax k) z 0 false.

(** The value in another format, rounded to nearest. *)
Definition round_to (k : float_kind) (f : spec_float) : spec_float :=
  match f with
  | S754_finite s m e => binary_normalize (kind_prec k) (kind_emax k) (cond_Zopp s (Zpos m)) e s
  | _ => f
  end.

(** [static_cast<double>(f)] for a [float]: every value of binary32 is a
    value of binary64. *)
Definition widen (f : spec_float) : spec_float := round_to KDouble f.

(** The largest [float], [(2^24 - 1) * 2^104], as a [double]. *)
Definition float_max : spec_float := widen (S754_finite false 16777215 104).

(** [static_cast<float>(d)] for a [double]: undefined for a finite value
    beyond the largest [float]. *)
Definition narrow {E : Type} (d : spec_float) : outcome E spec_float :=
  match d with
  | S754_finite _ _ _ => if SFltb float_max (SFabs d) then Undefined else Value (round_to KFloat d)
  | _ => Value d
  end.

(** [static_cast<long long>(f)], without its range: the integer part of a
    finite value. *)
Definition float_to_Z (f : spec_float) : option Z :=
  match f with
  | S754_zero _ => Some 0
  | S754_finite s m e =>
      Some (cond_Zopp s (if 0 <=? e then Zpos m * 2 ^ e else Zpos m / 2 ^ (- e)))
  | _ => None
  end.

(** ** [fetch_column] *)

Section FloatConversions.

Variable uncovered : forall T : Type, st_mysql_column -> outcome exception T.

(** The bits in the buffer of a floating-point column. *)
Definition column_float (k : float_kind) (c : st_mysql_column) : spec_float :=
  float_of_bits k (le_decode (firstn (buffer_size (float_type k)) (buffer c))).

(** [fetch_column(column, value)] for [float&] and [double&]: the cast of
    the number of an integer column or of the value of a floating-point
    column. *)
Definition fetch_column_float (k : float_kind) (c : st_mysql_column) (value : spec_float)
  : outcome exception spec_float :=
  match column_number c with
  | Some z => Value (float_of_Z k z)
  | None =>
      match type c, k with
      | MYSQL_TYPE_FLOAT, KFloat => Value (column_float KFloat c)
      | MYSQL_TYPE_FLOAT, KDouble => Value (widen (column_float KFloat c))
      | MYSQL_TYPE_DOUBLE, KDouble => Value (column_float KDouble c)
      | MYSQL_TYPE_DOUBLE, KFloat => narrow (column_float KDouble c)
      | _, _ => uncovered spec_float c
      end
  end.

Definition fetchable_float (k : float_kind) : Fetchable spec_float :=
  {| default_value := S754_zero false; fetch_column := fetch_column_float k |}.

End FloatConversions.

(** ** Digits and shifts *)

(** [m] shifted left by [n] bits. *)
Definition shl (m : positive) (n : Z) : positive :=
  match n with
  | Zpos p => Pos.iter xO m p
  | _ => m
  end.

Lemma digits2_pos_bounds m :
  2 ^ (Zpos (digits2_pos m) - 1) <= Zpos m < 2 ^ Zpos (digits2_pos m).
Proof.
  induction m as [m IH | m IH |]; cbn [digits2_pos]; [| | cbn; lia];
    rewrite Pos2Z.inj_succ;
    replace (Z.succ (Zpos (digits2_pos m)) - 1) with (Z.succ (Zpos (digits2_pos m) - 1)) by lia;
    rewrite !Z.pow_succ_r by lia; lia.
Qed.

(** A number has at most [n] binary digits when it is below [2^n]. *)
Lemma digits2_pos_le m n : 0 <= n -> Zpos (digits2_pos m) <= n <-> Zpos m < 2 ^ n.
Proof.
  intros Hn. pose proof (digits2_pos_bounds m) as [Hl Hu]. split; intros H.
  - apply Z.lt_le_trans with (1 := Hu). apply Z.pow_le_mono_r; lia.
  - destruct (Z_le_gt_dec (Zpos (digits2_pos m)) n) as [L | G]; [exact L | exfalso].
    assert (2 ^ n <= 2 ^ (Zpos (digits2_pos m) - 1)) by (apply Z.pow_le_mono_r; lia). lia.
Qed.

Lemma iter_xO m p : Zpos (Pos.iter xO m p) = Zpos m * 2 ^ Zpos p.
Proof.
  induction p as [| p IH] using Pos.peano_ind.
  - cbn. lia.
  - rewrite Pos.iter_succ, Pos2Z.inj_succ, Z.pow_succ_r, Pos2Z.inj_xO, IH by lia. lia.
Qed.

Lemma digits2_iter_xO m p : digits2_pos (Pos.iter xO m p) = (digits2_pos m + p)%positive.
Proof.
  induction p as [| p IH] using Pos.peano_ind.
  - cbn. lia.
  - rewrite Pos.iter_succ. cbn [digits2_pos]. rewrite IH. lia.
Qed.

Lemma shl_value m n : 0 <= n -> Zpos (shl m n) = Zpos m * 2 ^ n.
Proof. intros H. destruct n as [| p | p]; cbn [shl]; [lia | apply iter_xO | lia]. Qed.

(** ** Rounding a number that needs no rounding *)

Section Round.

Variables prec emax : Z.

(** A canonical mantissa and exponent are left as they are. *)
Lemma binary_round_aux_canonical s m e :
  bounded prec emax m e = true ->
  binary_round_aux prec emax s (Zpos m) e loc_Exact = S754_finite s m e.
Proof.
  unfold bounded, canonical_mantissa. intros B. apply andb_prop in B as [C B].
  apply Z.eqb_eq in C. unfold binary_round_aux, shr_fexp. cbn [Zdigits2 shr_record_of_loc].
  rewrite C, Z.sub_diag.
  cbn [shr shr_m loc_of_shr_record round_nearest_even Zdigits2 shr_record_of_loc].
  rewrite C, Z.sub_diag. cbn [shr shr_m]. now rewrite B.
Qed.

(** A number of at most [prec] digits is shifted to [prec] digits: its
    value does not change. *)
Lemma binary_round_small s m e :
  Zpos (digits2_pos m) <= prec ->
  emin prec emax <= Zpos (digits2_pos m) + e - prec -> Zpos (digits2_pos m) + e <= emax ->
  binary_round prec emax s m e
  = S754_finite s (shl m (prec - Zpos (digits2_pos m))) (e + Zpos (digits2_pos m) - prec) /\
  bounded prec emax (shl m (prec - Zpos (digits2_pos m))) (e + Zpos (digits2_pos m) - prec) = true.
Proof.
  intros Hd Hmin Hmax. unfold binary_round.
  assert (F : fexp prec emax (Zpos (digits2_pos m) + e) = Zpos (digits2_pos m) + e - prec)
    by (unfold fexp; lia).
  rewrite F. unfold shl_align.
  assert (B : bounded prec emax (shl m (prec - Zpos (digits2_pos m)))
                (e + Zpos (digits2_pos m) - prec) = true).
  { unfold bounded, canonical_mantissa, fexp. apply andb_true_intro.
    destruct (prec - Zpos (digits2_pos m)) as [| p | p] eqn:E; try lia; cbn [shl];
      rewrite ?digits2_iter_xO, ?Pos2Z.inj_add; lia. }
  split; [| exact B]. revert B.
  replace (Zpos (digits2_pos m) + e - prec - e) with (- (prec - Zpos (digits2_pos m))) by lia.
  destruct (prec - Zpos (digits2_pos m)) as [| p | p] eqn:E; try lia; cbn [shl Z.opp]; intros B.
  - replace (e + Zpos (digits2_pos m) - prec) with e in * by lia.
    now apply binary_round_aux_canonical.
  - replace (Zpos (digits2_pos m) + e - prec) with (e + Zpos (digits2_pos m) - prec) by lia.
    now apply binary_round_aux_canonical.
Qed.

End Round.

(** ** The cast of an integer *)

Lemma kind_params k : 2 <= kind_prec k <= kind_emax k.
Proof. destruct k; cbn; lia. Qed.

Lemma float_to_Z_shl s m n :
  0 <= n -> float_to_Z (S754_finite s (shl m n) (- n)) = Some (cond_Zopp s (Zpos m)).
Proof.
  intros H. unfold float_to_Z. rewrite shl_value, Z.opp_involutive by exact H.
  destruct (Z.leb_spec 0 (- n)); do 2 f_equal.
  - replace n with 0 by lia. cbn. lia.
  - apply Z.div_mul. apply Z.pow_nonzero; lia.
Qed.

Lemma float_of_pos k s m :
  Zpos m < 2 ^ kind_prec k ->
  binary_round (kind_prec k) (kind_emax k) s m 0
  = S754_finite s (shl m (kind_prec k - Zpos (digits2_pos m)))
      (- (kind_prec k - Zpos (digits2_pos m))) /\
  bounded (kind_prec k) (kind_emax k) (shl m (kind_prec k - Zpos (digits2_pos m)))
    (- (kind_prec k - Zpos (digits2_pos m))) = true.
Proof.
  intros H. pose proof (kind_params k). apply digits2_pos_le in H; [| lia].
  replace (- (kind_prec k - Zpos (digits2_pos m))) with (0 + Zpos (digits2_pos m) - kind_prec k)
    by lia.
  apply binary_round_small; unfold emin; lia.
Qed.

Lemma float_of_sign_exact k s m :
  Zpos m < 2 ^ kind_prec k ->
  is_float k (binary_round (kind_prec k) (kind_emax k) s m 0) /\
  float_to_Z (binary_round (kind_prec k) (kind_emax k) s m 0) = Some (cond_Zopp s (Zpos m)) /\
  match binary_round (kind_prec k) (kind_emax k) s m 0 with
  | S754_finite s' m' e => s' = s /\ e <= 0 /\ Zpos m' = Zpos m * 2 ^ (- e)
  | _ => False
  end.
Proof.
  intros H. destruct (float_of_pos k s m H) as [-> B]. pose proof (kind_params k).
  apply digits2_pos_le in H; [| lia]. unfold is_float. cbn [valid_binary].
  split; [exact B |]. split; [apply float_to_Z_shl; lia |].
  rewrite shl_value, Z.opp_involutive by lia. repeat split; lia.
Qed.

(** Every integer of at most [prec] bits is a value of the format: the
    cast is exact, and casting back gives the integer. *)
Lemma float_of_Z_exact k z :
  Z.abs z < 2 ^ kind_prec k ->
  is_float k (float_of_Z k z) /\ float_to_Z (float_of_Z k z) = Some z /\
  match float_of_Z k z with
  | S754_zero _ => z = 0
  | S754_finite s m e => s = (z <? 0) /\ e <= 0 /\ Zpos m = Z.abs z * 2 ^ (- e)
  | _ => False
  end.
Proof.
  intros H. unfold float_of_Z, binary_normalize.
  destruct z as [| m | m]; [now repeat split | |].
  - destruct (float_of_sign_exact k false m H) as (V & T & F).
    split; [exact V |]. split; [exact T |].
    now destruct (binary_round (kind_prec k) (kind_emax k) false m 0).
  - destruct (float_of_sign_exact k true m H) as (V & T & F).
    split; [exact V |]. split; [exact T |].
    now destruct (binary_round (kind_prec k) (kind_emax k) true m 0).
Qed.

(** ** The bits of a value *)

(** Replace the powers of two of the formats by their values. *)
Ltac format_constants :=
  cbv [sign_weight bits_of_fields kind_prec kind_emax emin] in *;
  change (2 ^ (24 - 1)) with 8388608 in *; change (2 ^ (53 - 1)) with 4503599627370496 in *;
  change (2 ^ (24 - 2)) with 4194304 in *; change (2 ^ (53 - 2)) with 2251799813685248 in *;
  change (2 ^ 24) with 16777216 in *; change (2 ^ 53) with 9007199254740992 in *.

(** A word has two times the weight of its sign bit. *)
Lemma buffer_bits k : 2 ^ (8 * Z.of_nat (buffer_size (float_type k))) = 2 * sign_weight k.
Proof. now destruct k. Qed.

(** The three fields are read back from the word. *)
Lemma fields_of_bits k s ex frac :
  0 <= frac < 2 ^ (kind_prec k - 1) -> 0 <= ex < 2 * kind_emax k ->
  float_of_bits k (bits_of_fields k s ex frac) = float_of_fields k s ex frac /\
  0 <= bits_of_fields k s ex frac < 2 ^ (8 * Z.of_nat (buffer_size (float_type k))).
Proof.
  intros Hf He. unfold float_of_bits.
  assert (E : bits_of_fields k s ex frac mod 2 ^ (kind_prec k - 1) = frac /\
              (bits_of_fields k s ex frac / 2 ^ (kind_prec k - 1)) mod (2 * kind_emax k) = ex /\
              (bits_of_fields k s ex frac / sign_weight k) mod 2 = (if s then 1 else 0) /\
              0 <= bits_of_fields k s ex frac
              < 2 ^ (8 * Z.of_nat (buffer_size (float_type k)))).
  { rewrite buffer_bits. destruct k, s; format_constants; repeat split; div_lia. }
  destruct E as (-> & -> & -> & B). split; [now destruct s | exact B].
Qed.

(** What validity says of a mantissa and an exponent. *)
Lemma bounded_ranges k m e :
  bounded (kind_prec k) (kind_emax k) m e = true ->
  Zpos m < 2 ^ kind_prec k /\
  emin (kind_prec k) (kind_emax k) <= e <= kind_emax k - kind_prec k /\
  (Zpos m < 2 ^ (kind_prec k - 1) -> e = emin (kind_prec k) (kind_emax k)).
Proof.
  unfold bounded, canonical_mantissa, fexp. intros B. pose proof (kind_params k).
  rewrite <- (digits2_pos_le m (kind_prec k)), <- (digits2_pos_le m (kind_prec k - 1)) by lia.
  lia.
Qed.

(** The bits of a value of the format denote the value, and fit the
    buffer of a column of its type. *)
Lemma float_of_bits_of_float k f :
  is_float k f ->
  float_of_bits k (bits_of_float k f) = f /\
  0 <= bits_of_float k f < 2 ^ (8 * Z.of_nat (buffer_size (float_type k))).
Proof.
  unfold is_float. intros V. pose proof (kind_params k).
  assert (P : 0 < 2 ^ (kind_prec k - 2) < 2 ^ (kind_prec k - 1))
    by (split; [apply Z.pow_pos_nonneg | apply Z.pow_lt_mono_r]; lia).
  destruct f as [s | s | | s m e]; cbn [bits_of_float valid_binary] in *.
  - destruct (fields_of_bits k s 0 0) as [-> B]; [lia | lia |]. now split.
  - destruct (fields_of_bits k s (2 * kind_emax k - 1) 0) as [-> B]; [lia | lia |].
    split; [| exact B]. unfold float_of_fields.
    replace (2 * kind_emax k - 1 =? 0) with false by lia. now rewrite Z.eqb_refl.
  - destruct (fields_of_bits k false (2 * kind_emax k - 1) (2 ^ (kind_prec k - 2))) as [-> B];
      [lia | lia |].
    split; [| exact B]. unfold float_of_fields.
    replace (2 * kind_emax k - 1 =? 0) with false by lia. rewrite Z.eqb_refl.
    now replace (2 ^ (kind_prec k - 2) =? 0) with false by lia.
  - apply bounded_ranges in V as (Hm & He & Hs). unfold emin in *.
    destruct (Z.ltb_spec (Zpos m) (2 ^ (kind_prec k - 1))) as [Lt | Ge].
    + destruct (fields_of_bits k s 0 (Zpos m)) as [-> B]; [lia | lia |].
      split; [| exact B]. unfold float_of_fields. cbn [Z.eqb]. now rewrite (Hs Lt).
    + assert (2 ^ kind_prec k = 2 * 2 ^ (kind_prec k - 1))
        by (rewrite <- Z.pow_succ_r by lia; f_equal; lia).
      destruct (fields_of_bits k s (e - (3 - kind_emax k - kind_prec k) + 1)
                  (Zpos m - 2 ^ (kind_prec k - 1))) as [-> B]; [lia | lia |].
      split; [| exact B]. unfold float_of_fields, emin.
      replace (e - (3 - kind_emax k - kind_prec k) + 1 =? 0) with false by lia.
      replace (e - (3 - kind_emax k - kind_prec k) + 1 =? 2 * kind_emax k - 1) with false by lia.
      replace (Zpos m - 2 ^ (kind_prec k - 1) + 2 ^ (kind_prec k - 1)) with (Zpos m) by lia.
      f_equal. lia.
Qed.

(** ** Between the two formats *)

(** Shifting right the bits that a shift to the left added loses
    nothing. *)
Lemma iter_pos_shr_1 p : forall m,
  iter_pos shr_1 p {| shr_m := Zpos (Pos.iter xO m p); shr_r := false; shr_s := false |}
  = {| shr_m := Zpos m; shr_r := false; shr_s := false |}.
Proof.
  induction p as [p IH | p IH |]; intros m; cbn [iter_pos Pos.iter shr_1 orb].
  - now rewrite !IH.
  - now rewrite !IH.
  - reflexivity.
Qed.

Section RoundShifted.

Variables prec emax : Z.

(** Rounding a value of the format that is written with more digits
    gives the value. *)
Lemma binary_round_shifted s m e p :
  bounded prec emax m e = true ->
  binary_round prec emax s (Pos.iter xO m p) (e - Zpos p) = S754_finite s m e.
Proof.
  intros B. pose proof B as B'. unfold bounded, canonical_mantissa in B'.
  apply andb_prop in B' as [C L]. apply Z.eqb_eq in C.
  assert (F : fexp prec emax (Zpos (digits2_pos (Pos.iter xO m p)) + (e - Zpos p)) = e).
  { rewrite digits2_iter_xO, Pos2Z.inj_add. rewrite <- C at 2. f_equal. lia. }
  unfold binary_round, shl_align. rewrite F.
  replace (e - (e - Zpos p)) with (Zpos p) by lia.
  unfold binary_round_aux, shr_fexp. cbn [Zdigits2 shr_record_of_loc]. rewrite F.
  replace (e - (e - Zpos p)) with (Zpos p) by lia. cbn [shr]. rewrite iter_pos_shr_1.
  replace (e - Zpos p + Zpos p) with e by lia.
  cbn [shr_m loc_of_shr_record round_nearest_even Zdigits2 shr_record_of_loc].
  rewrite C, Z.sub_diag. cbn [shr shr_m]. now rewrite L.
Qed.

End RoundShifted.

(** The largest [float], written as a [double]. *)
Lemma float_max_value : float_max = S754_finite false 9007198717870080 75.
Proof. reflexivity. Qed.

(** A [float] widened to a [double] is not beyond the largest [float]. *)
Lemma widened_in_range s m p e :
  Zpos m < 2 ^ 24 -> e - Zpos p <= 75 -> (e - Zpos p = 75 -> Zpos p = 29) ->
  SFltb float_max (SFabs (S754_finite s (Pos.iter xO m p) (e - Zpos p))) = false.
Proof.
  intros Hm He Hp. rewrite float_max_value. unfold SFltb, SFabs, SFcompare.
  destruct (Z.compare_spec 75 (e - Zpos p)) as [E | L | G]; [| lia | reflexivity].
  change (Pos.compare_cont Eq 9007198717870080 (Pos.iter xO m p))
    with (9007198717870080 ?= Pos.iter xO m p)%positive.
  destruct (Pos.compare_spec 9007198717870080 (Pos.iter xO m p)) as [_ | L | _];
    try reflexivity.
  apply Pos2Z.pos_lt_pos in L. rewrite iter_xO, (Hp (eq_sym E)) in L.
  change (2 ^ 29) with 536870912 in L. change (2 ^ 24) with 16777216 in Hm. lia.
Qed.

(** Round trip: every [float] is a [double], with the same value, and the
    cast back to [float] is defined and gives the [float]. *)
Theorem narrow_widen {E : Type} f :
  is_float KFloat f ->
  is_float KDouble (widen f) /\ @narrow E (widen f) = Value f /\
  match f, widen f with
  | S754_finite s m e, S754_finite s' m' e' =>
      s' = s /\ e' <= e /\ Zpos m' = Zpos m * 2 ^ (e - e')
  | _, g => g = f
  end.
Proof.
  unfold is_float. destruct f as [s | s | | s m e]; try (now repeat split).
  cbn [valid_binary]. intros V. apply bounded_ranges in V as V'. destruct V' as (Hm & He & _).
  pose proof (proj2 (digits2_pos_le m 24 ltac:(lia)) Hm) as Hd.
  assert (W : widen (S754_finite s m e) = binary_round 53 1024 s m e) by now destruct s.
  rewrite W. cbn [kind_prec kind_emax] in *. unfold emin in He.
  destruct (binary_round_small 53 1024 s m e) as [-> B]; try (unfold emin; lia).
  destruct (53 - Zpos (digits2_pos m)) as [| p | p] eqn:Ep; try lia. cbn [shl] in *.
  replace (e + Zpos (digits2_pos m) - 53) with (e - Zpos p) in * by lia.
  cbn [valid_binary]. split; [exact B |]. split.
  - unfold narrow. rewrite widened_in_range by (assumption || lia).
    replace (round_to KFloat (S754_finite s (Pos.iter xO m p) (e - Zpos p)))
      with (binary_round 24 128 s (Pos.iter xO m p) (e - Zpos p)) by now destruct s.
    now rewrite binary_round_shifted.
  - rewrite iter_xO. repeat split; [lia |]. do 2 f_equal. lia.
Qed.

(** ** [fetch_column] on a floating-point column and on an integer column *)

Section FloatProperties.

Variable uncovered : forall T : Type, st_mysql_column -> outcome exception T.

(** A column of the type of the request is read as the bits of its
    buffer. *)
Lemma fetch_column_float_value k c value :
  type c = float_type k ->
  fetch_column_float uncovered k c value = Value (column_float k c).
Proof.
  intros Et. unfold fetch_column_float, column_number. rewrite Et.
  now destruct k.
Qed.

(** C34. Same format: a value of the format that the server sends as the bits
    of its width comes back as it was. *)
Theorem fetch_column_float_roundtrip k f c value :
  is_float k f -> type c = float_type k ->
  buffer c = le_encode (buffer_size (float_type k)) (bits_of_float k f) ->
  fetch_column_float uncovered k c value = Value f.
Proof.
  intros V Et Eb. destruct (float_of_bits_of_float k f V) as [R B].
  assert (C : column_float k c = f).
  { unfold column_float. rewrite Eb, firstn_all2 by (rewrite length_le_encode; lia).
    now rewrite le_decode_encode, Z.mod_small. }
  now rewrite fetch_column_float_value, C.
Qed.

(** An integer column read as a [float] or a [double]: the cast is exact
    for a number of at most 24 or 53 bits, so for every column of 32 bits
    or less read as a [double]. *)
Theorem fetch_column_float_of_int k c z value :
  column_number c = Some z -> Z.abs z < 2 ^ kind_prec k ->
  exists f, fetch_column_float uncovered k c value = Value f /\
            is_float k f /\ float_to_Z f = Some z.
Proof.
  intros E H. unfold fetch_column_float. rewrite E. eexists. split; [reflexivity |].
  destruct (float_of_Z_exact k z H) as (V & T & _). now split.
Qed.

End FloatProperties.

Example float_examples :
  float_of_bits KDouble 4617315517961601024 = S754_finite false 5629499534213120 (-50) /\
  float_of_Z KDouble 5 = S754_finite false 5629499534213120 (-50) /\
  bits_of_float KDouble (float_of_Z KDouble 5) = 4617315517961601024 /\
  float_of_bits KFloat 3221225472 = float_of_Z KFloat (-2) /\
  float_of_Z KFloat 16777217 = float_of_Z KFloat 16777216 /\
  float_of_bits KDouble (bits_of_float KDouble S754_nan) = S754_nan /\
  @narrow exception (float_of_Z KDouble (2 ^ 128)) = Undefined /\
  @narrow exception (widen (float_of_Z KFloat 3)) = Value (float_of_Z KFloat 3).
Proof. vm_compute. repeat split; reflexivity. Qed.

(** ** Concrete inputs *)

#[local] Open Scope string_scope.

(** 0.75 as a [float], 5 as a [double] in a DOUBLE column, 5 in an INT
    column. *)
Definition three_quarters : spec_float := S754_finite false 12582912 (-24).

Definition double_column : st_mysql_column :=
  mk_column MYSQL_TYPE_DOUBLE "x" (le_encode 8 (bits_of_float KDouble (float_of_Z KDouble 5)))
    8 0 0 0.

Definition int_column : st_mysql_column :=
  mk_column MYSQL_TYPE_LONG "n" (le_encode 4 5) 4 0 0 0.

Example narrow_widen_witness :
  is_float KDouble (widen three_quarters) /\
  @narrow exception (widen three_quarters) = Value three_quarters /\
  match widen three_quarters with
  | S754_finite s' m' e' => s' = false /\ e' <= -24 /\ Zpos m' = 12582912 * 2 ^ (-24 - e')
  | g => g = three_quarters
  end.
Proof. exact (narrow_widen three_quarters eq_refl). Defined.

Example fetch_column_float_roundtrip_witness :
  fetch_column_float no_conversion KDouble double_column (S754_zero false)
  = Value (float_of_Z KDouble 5).
Proof.
  exact (fetch_column_float_roundtrip no_conversion KDouble (float_of_Z KDouble 5)
           double_column (S754_zero false) eq_refl eq_refl eq_refl).
Defined.

Example fetch_column_float_of_int_witness :
  exists f, fetch_column_float no_conversion KFloat int_column (S754_zero false) = Value f /\
            is_float KFloat f /\ float_to_Z f = Some 5.
Proof.
  exact (fetch_column_float_of_int no_conversion KFloat int_column 5 (S754_zero false)
           eq_refl ltac:(by_eval)).
Defined.
