(* ===== verification/Overload.v ===== *)
(** * Overload: which overload a call of [param] or of [get<T>] selects

    [statement::param] is declared ten times (lines 218-232 of
    [src/mysqlpp.hpp]), once per type of its parameter [const T&], and
    [result::fetch_column] ten times (lines 176-190), once per type of its
    parameter [T&]; the template [get<T>] calls [fetch_column] on a local
    of type [T] (lines 155-156).  Which of the ten a call selects, and
    whether it selects one at all, is decided by the overload resolution
    of C++ (ISO C++ [over.match.best], [over.ics.rank]): a call is
    well-formed when one viable overload has a better conversion of the
    argument than every other.

    This file translates the two overload sets and derives what the
    header accepts: the types of its overloads, the small integer types
    through their promotion to [int], and neither [long] nor [unsigned
    long], which are the [int64_t] and [uint64_t] of LP64.  The rule of
    the language is an assumption of these theorems, not code of the
    header: [resolve] is the best viable function for a call with one
    argument, over the ranks of the standard. *)

From Stdlib Require Import ZArith Lia List String Ascii Bool.
From stdpp Require Import base decidable list finite.
From S2P Require Import Prelude Exception Column Result Statement Fetch Convert Ieee.
Import ListNotations.

(** ** Types of arguments *)

(** The arithmetic types of C++, [std::string], and [const char*], the
    type of a string literal as an argument. *)
Inductive ctype : Type :=
| TBool | TChar | TSChar | TUChar | TShort | TUShort | TInt | TUInt
| TLong | TULong | TLongLong | TULongLong
| TFloat | TDouble | TLongDouble
| TString | TCharPtr.

#[export] Instance ctype_eq_dec : EqDecision ctype.
Proof. solve_decision. Defined.

Definition all_ctypes : list ctype :=
  [TBool; TChar; TSChar; TUChar; TShort; TUShort; TInt; TUInt; TLong; TULong; TLongLong;
   TULongLong; TFloat; TDouble; TLongDouble; TString; TCharPtr].

#[export] Instance ctype_finite : Finite ctype.
Proof.
  refine {| enum := all_ctypes |}.
  - apply (bool_decide_unpack _). vm_compute. reflexivity.
  - intros []; apply (bool_decide_unpack _); vm_compute; reflexivity.
Defined.

Definition is_arithmetic (t : ctype) : bool :=
  match t with
  | TString | TCharPtr => false
  | _ => true
  end.

(** The width and the signedness of the integer types on LP64, where
    [char] is signed. *)
Definition width (t : ctype) : option Z :=
  match t with
  | TChar | TSChar | TUChar => Some 8%Z
  | TShort | TUShort => Some 16%Z
  | TInt | TUInt => Some 32%Z
  | TLong | TULong | TLongLong | TULongLong => Some 64%Z
  | _ => None
  end.

Definition signed (t : ctype) : bool :=
  match t with
  | TChar | TSChar | TShort | TInt | TLong | TLongLong => true
  | _ => false
  end.

(** ** The overload sets *)

(** [void param(const T& value)], lines 218-232. *)
Definition param_overloads : list ctype :=
  [TUChar; TShort; TUShort; TInt; TUInt; TLongLong; TULongLong; TFloat; TDouble; TString].

(** [void fetch_column(const st_mysql_column& column, T& value)], lines
    176-190. *)
Definition fetch_column_overloads : list ctype :=
  [TUChar; TShort; TUShort; TInt; TUInt; TLongLong; TULongLong; TFloat; TDouble; TString].

(** ** Implicit conversions *)

(** The ranks of an implicit conversion sequence, best first; a
    conversion through a constructor is worse than every standard
    conversion. *)
Inductive rank : Type :=
| Exact
| Promotion
| Conversion
| UserDefined.

#[export] Instance rank_eq_dec : EqDecision rank.
Proof. solve_decision. Defined.

Definition rank_index (r : rank) : nat :=
  match r with
  | Exact => 0
  | Promotion => 1
  | Conversion => 2
  | UserDefined => 3
  end.

Definition ranks : list rank := [Exact; Promotion; Conversion; UserDefined].

(** The integral promotions and the floating-point promotion: a type
    smaller than [int] becomes [int], which holds all its values, and
    [float] becomes [double]. *)
Definition promoted (a : ctype) : option ctype :=
  match a with
  | TBool | TChar | TSChar | TUChar | TShort | TUShort => Some TInt
  | TFloat => Some TDouble
  | _ => None
  end.

(** The conversion that binds a parameter [const T&] to an argument of
    type [a]: the identity, a promotion, another conversion between
    arithmetic types, or the constructor of [std::string] from
    [const char*]. *)
Definition const_ref_rank (a t : ctype) : option rank :=
  if decide (a = t) then Some Exact
  else if decide (promoted a = Some t) then Some Promotion
  else if is_arithmetic a && is_arithmetic t then Some Conversion
  else if decide (a = TCharPtr /\ t = TString) then Some UserDefined
  else None.

(** A parameter [T&] binds to an lvalue of the type [T] only. *)
Definition ref_rank (a t : ctype) : option rank :=
  if decide (a = t) then Some Exact else None.

(** ** Resolution *)

Inductive resolution : Type :=
| Selected (t : ctype)
| Ambiguous
| NoViable.

#[export] Instance resolution_eq_dec : EqDecision resolution.
Proof. solve_decision. Defined.

Section Resolution.

Variable rk : ctype -> ctype -> option rank.
Variable overloads : list ctype.
Variable a : ctype.

(** The overloads whose conversion of the argument has the rank [r]. *)
Definition candidates (r : rank) : list ctype :=
  List.filter (fun t => bool_decide (rk a t = Some r)) overloads.

(** The overloads of the best rank that some overload has: one is
    selected, several are an ambiguity. *)
Fixpoint best (rs : list rank) : resolution :=
  match rs with
  | [] => NoViable
  | r :: rs' =>
      match candidates r with
      | [] => best rs'
      | [t] => Selected t
      | _ :: _ :: _ => Ambiguous
      end
  end.

Definition resolve : resolution := best ranks.

End Resolution.

(** ** What the header accepts *)


(** A call [get<T>()], by [T]: the template is instantiated for the types
    of the overloads of [fetch_column] and for no other, since a
    parameter [T&] admits no conversion. *)
Theorem get_resolution a :
  resolve ref_rank fetch_column_overloads a
  = if bool_decide (In a fetch_column_overloads) then Selected a else NoViable.
Proof. destruct a; reflexivity. Qed.

(** An overload of [param] is never selected through a conversion
    between two arithmetic types, the rank of the conversions that can
    change the value: with ten overloads such a conversion is never the
    only viable one.  The proof is by enumeration of the pairs of types. *)
Theorem param_never_converts a t :
  resolve const_ref_rank param_overloads a = Selected t ->
  const_ref_rank a t <> Some Conversion.
Proof. revert a t. apply (bool_decide_unpack _). vm_compute. reflexivity. Qed.


(** The integer types of [<stdint.h>] on LP64 with glibc: [int8_t] is
    [signed char], [int64_t] is [long]. *)
Definition stdint (is_signed : bool) (bits : Z) : option ctype :=
  if (bits =? 8)%Z then Some (if is_signed then TSChar else TUChar)
  else if (bits =? 16)%Z then Some (if is_signed then TShort else TUShort)
  else if (bits =? 32)%Z then Some (if is_signed then TInt else TUInt)
  else if (bits =? 64)%Z then Some (if is_signed then TLong else TULong)
  else None.

Definition well_formed (r : resolution) : bool :=
  match r with
  | Selected _ => true
  | _ => false
  end.

(** C26. The integers of 8, 16, 32 and 64 bits, signed and unsigned: [param]
    takes all of them but the two of 64 bits, and [get<T>] neither those
    nor [int8_t]. *)
Theorem stdint_support is_signed bits t :
  stdint is_signed bits = Some t ->
  well_formed (resolve const_ref_rank param_overloads t) = negb (bits =? 64)%Z /\
  well_formed (resolve ref_rank fetch_column_overloads t)
  = negb (bits =? 64)%Z && negb (is_signed && (bits =? 8)%Z).
Proof.
  unfold stdint.
  repeat match goal with
         | |- context [(bits =? ?n)%Z] =>
             is_var bits; destruct (Z.eqb_spec bits n) as [-> |];
             [destruct is_signed; intros [= <-]; split; reflexivity |]
         end.
  intros E. discriminate E.
Qed.

(** ** The overloads and the model of the members *)

(** The overload that a parameter of the model stands for; [param_blob]
    and [param_null] are members of their own. *)
Definition overload_of (v : param_value) : option ctype :=
  match v with
  | PUChar _ => Some TUChar
  | PShort _ => Some TShort
  | PUShort _ => Some TUShort
  | PInt _ => Some TInt
  | PUInt _ => Some TUInt
  | PLongLong _ => Some TLongLong
  | PULongLong _ => Some TULongLong
  | PFloat _ => Some TFloat
  | PDouble _ => Some TDouble
  | PString _ => Some TString
  | PBlob _ | PNull _ => None
  end.

(** The parameters of [Statement.v] are the overloads of the header, and
    each integer is sent with the wire type of its width and with its
    signedness. *)
Theorem overload_of_wire v t :
  overload_of v = Some t ->
  In t param_overloads /\
  forall w, width t = Some w ->
    exists ty, fst (wire_type v) = Some ty /\ fixed_size ty = Some (w / 8)%Z /\
               snd (wire_type v) = negb (signed t).
Proof.
  destruct v; intros [= <-]; (split; [cbn; tauto |]); intros w [= <-];
    eexists; repeat split; reflexivity.
Qed.

(** The overload that a conversion of [Convert.v] and [Ieee.v] stands
    for. *)
Definition overload_of_int (k : int_kind) : ctype :=
  match k with
  | KUChar => TUChar
  | KShort => TShort
  | KUShort => TUShort
  | KInt => TInt
  | KUInt => TUInt
  | KLongLong => TLongLong
  | KULongLong => TULongLong
  end.

Definition overload_of_float (k : float_kind) : ctype :=
  match k with
  | KFloat => TFloat
  | KDouble => TDouble
  end.

(** The conversions of the model are the overloads of [fetch_column], in
    the order of the header, with the widths and the signedness of their
    types. *)
Theorem overloads_of_kinds :
  map overload_of_int [KUChar; KShort; KUShort; KInt; KUInt; KLongLong; KULongLong]
  ++ map overload_of_float [KFloat; KDouble] ++ [TString]
  = fetch_column_overloads /\
  forall k, width (overload_of_int k) = Some (kind_bits k) /\
            signed (overload_of_int k) = kind_signed k.
Proof. split; [reflexivity | intros []; split; reflexivity]. Qed.

(** ** Concrete inputs *)


Example stdint_support_witness :
  well_formed (resolve const_ref_rank param_overloads TLong) = false /\
  well_formed (resolve ref_rank fetch_column_overloads TLong) = false.
Proof. exact (stdint_support true 64 TLong eq_refl). Defined.

Example overload_of_wire_witness :
  In TUShort param_overloads /\
  forall w, width TUShort = Some w ->
    exists ty, fst (wire_type (PUShort 7)) = Some ty /\ fixed_size ty = Some (w / 8)%Z /\
               snd (wire_type (PUShort 7)) = negb (signed TUShort).
Proof. exact (overload_of_wire (PUShort 7) TUShort eq_refl). Defined.
