(* ===== verification/Cursor.v ===== *)
(** * Cursor: the result engine implements a cursor over rows

    Section 4.3 of the specification describes a result as a cursor: the
    names of the columns, the current row, the rows to come.  This file
    states that description as an abstract machine, [cursor] with its step
    [next], and what a caller relies on of the members that the header
    declares (the class [Engine] of [Result.v]) as the laws [EngineLaws].
    Every engine with these laws implements the cursor: the abstraction
    [abs] reads the current row back from the columns, and each [fetch()]
    is matched by one [next]; the [k]-th call exposes the [k]-th row, and
    the loop of a caller reads exactly the rows to come, in order.  The
    engine of [Fetch.v], with its buffers, lengths, flags and two phases,
    has the laws, and so all of this holds of it. *)

From Stdlib Require Import ZArith Lia List String Ascii Bool.
From S2P Require Import Prelude Exception Column Result Fetch.
Import ListNotations.

#[local] Open Scope Z_scope.

(** ** The abstract machine *)

Record cursor : Type := mk_cursor {
  names : list string;
  current : row;
  remaining : list row;
  served : Z
}.

(** One step: the next row becomes the current one. *)
Definition next (c : cursor) : bool * cursor :=
  match remaining c with
  | r :: rest => (true, mk_cursor (names c) r rest (served c + 1))
  | [] => (false, c)
  end.

(** ** The reads of a caller *)

(** The cell that a column holds: what a caller reads through [is_null],
    [length] and [buffer]. *)
Definition cell_of_column (c : st_mysql_column) : cell :=
  if truthy (is_null c) then None
  else Some (firstn (Z.to_nat (length c)) (buffer c)).

(** ** An engine as a machine *)

Section Machine.

Context {S : Type} {E : Engine S}.

(** One call of [fetch], on the state of the client library and the
    result. *)
Definition fetch_step (is_proc : bool) (e : S * result) : bool * (S * result) :=
  let '(b, s, self) := engine_fetch is_proc (fst e) (snd e) in (b, (s, self)).

(** [while (r.fetch()) rows.push_back(...)]: the rows read until [fetch()]
    returns [false], or [None] when the fuel runs out before. *)
Fixpoint fetch_all (fuel : nat) (is_proc : bool) (s : S) (self : result)
  : option (list row * S * result) :=
  match fuel with
  | O => None
  | Datatypes.S fuel' =>
      let '(b, s1, self1) := engine_fetch is_proc s self in
      if b then
        match fetch_all fuel' is_proc s1 self1 with
        | Some (rows, s2, self2) =>
            Some (map cell_of_column (columns self1) :: rows, s2, self2)
        | None => None
        end
      else Some ([], s1, self1)
  end.

End Machine.

(** ** What a caller relies on *)

(** Section 4.3 of the specification, for any engine: the client library
    holds rows to come and has a count of the rows fetched; a fetch with a
    row to come returns [true] and leaves the row in the columns, under
    the names of [bind()]; a fetch after the last row returns [false] and
    changes nothing that a caller reads.  [engine_inv] is what the engine
    needs of its state for this, and keeps; [bind()] establishes it, when
    the client library holds a result set that is [engine_ready].  What
    [num_rows()] counts depends on the mode of the result set, buffered
    or streamed, which the specification leaves open: it is not among
    these laws. *)
Class EngineLaws (S : Type) {E : Engine S} : Type := {
  to_come : S -> list row;
  so_far : S -> Z;
  engine_ready : S -> Prop;
  engine_inv : S * result -> Prop;
  engine_bind_inv : forall s self0 self,
    engine_ready s -> engine_bind s self0 = (true, self) -> engine_inv (s, self);
  engine_fetch_inv : forall is_proc e, engine_inv e -> engine_inv (snd (fetch_step is_proc e));
  engine_fetch_row : forall is_proc s self r rest,
    to_come s = r :: rest ->
    exists s' self', engine_fetch is_proc s self = (true, s', self') /\
      to_come s' = rest /\ so_far s' = so_far s + 1 /\
      map name (columns self') = map name (columns self) /\
      (engine_inv (s, self) -> map cell_of_column (columns self') = r);
  engine_fetch_end : forall is_proc s self,
    to_come s = [] ->
    exists s', engine_fetch is_proc s self = (false, s', self) /\
      to_come s' = [] /\ so_far s' = so_far s
}.

(** [fetch(is_proc)] is one of the two private members: [is_proc]
    selects the one for the result set of a stored procedure. *)
Class FetchPrivate (S : Type) {E : Engine S} {P : EnginePrivate S} : Prop :=
  engine_fetch_private : forall is_proc s self,
    engine_fetch is_proc s self
    = if is_proc then engine_fetch_proc_result s self else engine_fetch_stmt_result s self.

(** ** The abstraction *)

Definition abs {S : Type} {E : Engine S} {L : EngineLaws S} (e : S * result) : cursor :=
  mk_cursor (map name (columns (snd e))) (map cell_of_column (columns (snd e)))
    (to_come (fst e)) (so_far (fst e)).

(** ** The cursor *)

(** The step [k + 1] of a cursor exposes its row [k]. *)
Lemma run_next_row k : forall c r, nth_error (remaining c) k = Some r ->
  run_machine next (Datatypes.S k) c
  = (repeat true (Datatypes.S k),
     mk_cursor (names c) r (skipn (Datatypes.S k) (remaining c))
       (served c + Z.of_nat (Datatypes.S k))).
Proof.
  induction k as [|k IH]; intros c r E; rewrite run_machine_S;
    destruct (remaining c) as [| r0 rest] eqn:Er; cbn [nth_error] in E; try discriminate;
    replace (next c) with (true, mk_cursor (names c) r0 rest (served c + 1))
      by (unfold next; now rewrite Er);
    cbn [fst snd].
  - injection E as ->. reflexivity.
  - rewrite (IH _ r) by exact E.
    cbn [fst snd names remaining served repeat skipn]. do 2 f_equal. lia.
Qed.

(** A cursor keeps its names. *)
Lemma run_next_names n : forall c, names (snd (run_machine next n c)) = names c.
Proof.
  induction n as [|n IH]; intros c; [reflexivity |]. rewrite run_machine_S. cbn [snd].
  rewrite IH. unfold next. now destruct (remaining c).
Qed.

(** ** Every engine with the laws implements the cursor *)

Section Laws.

Context {S : Type} {E : Engine S} {L : EngineLaws S}.
Variable is_proc : bool.

Lemma fetch_step_value s self b s' self' :
  engine_fetch is_proc s self = (b, s', self') ->
  fetch_step is_proc (s, self) = (b, (s', self')).
Proof. unfold fetch_step. cbn [fst snd]. now intros ->. Qed.

(** Each [fetch()] is one step of the cursor. *)
Lemma fetch_step_next e :
  engine_inv e -> next (abs e) = (fst (fetch_step is_proc e), abs (snd (fetch_step is_proc e))).
Proof.
  destruct e as [s self]. intros H. unfold fetch_step, next, abs.
  cbn [fst snd remaining names served]. destruct (to_come s) as [| r rest] eqn:Er.
  - destruct (engine_fetch_end is_proc s self Er) as (s' & -> & E' & F').
    cbn [fst snd]. now rewrite E', F'.
  - destruct (engine_fetch_row is_proc s self r rest Er) as (s' & self' & -> & E' & F' & N' & R').
    cbn [fst snd]. now rewrite E', F', N', (R' H).
Qed.

(** [n] calls of [fetch()] and [n] steps of the cursor. *)
Lemma engine_simulation n e :
  engine_inv e ->
  run_machine next n (abs e)
  = (fst (run_machine (fetch_step is_proc) n e), abs (snd (run_machine (fetch_step is_proc) n e))).
Proof.
  exact (run_machine_simulation _ _ _ (fetch_step is_proc) next engine_inv abs
           (engine_fetch_inv is_proc) fetch_step_next n e).
Qed.

Lemma engine_run_inv n e :
  engine_inv e -> engine_inv (snd (run_machine (fetch_step is_proc) n e)).
Proof. exact (run_machine_inv _ _ (fetch_step is_proc) engine_inv (engine_fetch_inv is_proc) n e). Qed.

(** The call [k + 1] of [fetch()] returns [true] and leaves in the columns
    the row [k] of the rows to come. *)
Lemma engine_current_row k e r :
  engine_inv e -> nth_error (to_come (fst e)) k = Some r ->
  run_machine next (Datatypes.S k) (abs e)
  = (repeat true (Datatypes.S k),
     mk_cursor (map name (columns (snd e))) r (skipn (Datatypes.S k) (to_come (fst e)))
       (so_far (fst e) + Z.of_nat (Datatypes.S k))).
Proof. intros _ Er. exact (run_next_row k (abs e) r Er). Qed.

(** The loop of a caller terminates after one call of [fetch()] more than
    there are rows to come, and reads exactly these rows, in order; with
    less fuel it does not finish. *)
Lemma engine_fetch_all fuel : forall s self,
  engine_inv (s, self) ->
  ((List.length (to_come s) < fuel)%nat ->
   exists s' self', fetch_all fuel is_proc s self = Some (to_come s, s', self') /\
     to_come s' = [] /\ so_far s' = so_far s + Z.of_nat (List.length (to_come s))) /\
  ((fuel <= List.length (to_come s))%nat -> fetch_all fuel is_proc s self = None).
Proof.
  induction fuel as [|fuel IH]; intros s self H; cbn [fetch_all]; [split; [lia | easy] |].
  destruct (to_come s) as [| r rest] eqn:Er.
  - destruct (engine_fetch_end is_proc s self Er) as (s' & -> & E' & F').
    split; [intros _ | cbn; lia]. exists s', self. cbn [List.length]. repeat split; [exact E' | lia].
  - pose proof (engine_fetch_inv is_proc _ H) as H1.
    destruct (engine_fetch_row is_proc s self r rest Er)
      as (s1 & self1 & Ef & E1 & F1 & _ & R1). specialize (R1 H).
    rewrite (fetch_step_value _ _ _ _ _ Ef) in H1. rewrite Ef.
    destruct (IH _ _ H1) as [Hlt Hge]. clear IH.
    rewrite R1, E1 in *. cbn [List.length] in *. split; intros Hf.
    + destruct (Hlt ltac:(lia)) as (s' & self' & -> & E' & N'). exists s', self'.
      repeat split; [exact E' | lia].
    + now rewrite Hge by lia.
Qed.

(** [bind()] and the loop: the caller reads every row that the client
    library holds, in order, with one call of [fetch()] more than there
    are rows. *)
Theorem engine_bind_fetch_all s self0 self :
  engine_ready s -> engine_bind s self0 = (true, self) ->
  exists s' self',
    fetch_all (Datatypes.S (List.length (to_come s))) is_proc s self
    = Some (to_come s, s', self') /\
    to_come s' = [] /\ so_far s' = so_far s + Z.of_nat (List.length (to_come s)).
Proof.
  intros R B. apply (engine_fetch_all _ s self (engine_bind_inv s self0 self R B)). lia.
Qed.

End Laws.

(** ** The private members *)

Section Private.

Context {S : Type} {E : Engine S} {L : EngineLaws S}.
Context {P : EnginePrivate S} {F : FetchPrivate S}.

(** The two private members differ in nothing that a caller reads: with
    a row to come both return [true], leave the same row in the columns
    and the same rows to come; after the last row both return [false] and
    leave the result as it was. *)
Theorem private_fetch_agree s self :
  engine_inv (s, self) ->
  let '(b1, s1, self1) := engine_fetch_stmt_result s self in
  let '(b2, s2, self2) := engine_fetch_proc_result s self in
  b1 = b2 /\ abs (s1, self1) = abs (s2, self2).
Proof.
  intros H. rewrite <- (engine_fetch_private false), <- (engine_fetch_private true).
  pose proof (fetch_step_next false _ H) as N1. pose proof (fetch_step_next true _ H) as N2.
  unfold fetch_step in N1, N2. cbn [fst snd] in N1, N2.
  destruct (engine_fetch false s self) as [[b1 s1] self1].
  destruct (engine_fetch true s self) as [[b2 s2] self2].
  cbn [fst snd] in N1, N2. pose proof (eq_trans (eq_sym N1) N2) as X.
  split; [exact (f_equal fst X) | exact (f_equal snd X)].
Qed.

End Private.

(** ** The engine of the specification has the laws *)

Definition server_inv (e : server * result) : Prop :=
  engine_ok (snd e) /\ server_ok (snd e) (fst e).

(** The rows of a result set have one cell per field of the metadata, of
    the width of the field when it is fixed. *)
Definition server_ready (srv : server) : Prop :=
  match result_fields srv with
  | Some fs => Forall (Forall2 cell_fits (map field_type fs)) (pending_rows srv)
  | None => True
  end.

Lemma cell_of_column_holds c v : holds c v -> cell_of_column c = v.
Proof.
  unfold holds, cell_of_column. destruct v as [bytes |].
  - intros (-> & _ & -> & E). now rewrite Nat2Z.id, E.
  - now intros ->.
Qed.

Lemma row_of_columns cols r : Forall2 holds cols r -> map cell_of_column cols = r.
Proof.
  induction 1 as [| c v cols r H _ IH]; cbn [map]; [reflexivity |].
  now rewrite (cell_of_column_holds c v H), IH.
Qed.

Lemma server_ok_length self srv r rest :
  server_ok self srv -> pending_rows srv = r :: rest ->
  List.length r = List.length (columns self).
Proof.
  unfold server_ok. intros H E. rewrite E in H. inversion H as [| ? ? F _]; subst.
  apply Forall2_length in F. now rewrite length_map in F.
Qed.

Lemma server_bind_inv srv self0 self :
  server_ready srv -> result_bind srv self0 = (true, self) -> server_inv (srv, self).
Proof.
  unfold server_ready, result_bind. destruct (result_fields srv) as [fs |]; [| easy].
  intros R [= <-]. rewrite <- (length_map column_of_field fs). split; cbn [fst snd].
  - apply with_columns_ok; apply columns_of_fields_ok.
  - unfold server_ok. cbn [columns with_columns]. now rewrite map_map.
Qed.

Lemma server_fetch_inv is_proc e : server_inv e -> server_inv (snd (fetch_step is_proc e)).
Proof.
  destruct e as [srv self]. intros [Ok Hs]. cbn [fst snd] in *. unfold fetch_step, server_inv.
  destruct (fetch_ok is_proc srv self Ok Hs) as (b & srv' & self' & Ef & Ok' & Hs' & _).
  cbn [fst snd engine_fetch server_engine]. rewrite Ef. now split.
Qed.

Lemma server_fetch_row is_proc srv self r rest :
  pending_rows srv = r :: rest ->
  exists srv' self', fetch is_proc srv self = (true, srv', self') /\
    pending_rows srv' = rest /\ fetched srv' = fetched srv + 1 /\
    map name (columns self') = map name (columns self) /\
    (server_inv (srv, self) -> map cell_of_column (columns self') = r).
Proof.
  intros Er. rewrite (fetch_next _ _ _ _ _ Er). do 2 eexists. split; [reflexivity |].
  cbn [pending_rows fetched columns with_columns].
  repeat split; [apply fetch_columns_names |]. intros [_ Hs]. cbn [fst snd] in Hs.
  apply row_of_columns, fetch_columns_holds. exact (server_ok_length self srv r rest Hs Er).
Qed.

Lemma server_fetch_end is_proc srv self :
  pending_rows srv = [] ->
  exists srv', fetch is_proc srv self = (false, srv', self) /\
    pending_rows srv' = [] /\ fetched srv' = fetched srv.
Proof.
  intros Er. destruct (fetch_empty is_proc srv self Er) as (srv' & Ef & E' & F' & _).
  now exists srv'.
Qed.

#[export] Instance server_laws : EngineLaws server :=
  {| to_come := pending_rows;
     so_far := fetched;
     engine_ready := server_ready;
     engine_inv := server_inv;
     engine_bind_inv := server_bind_inv;
     engine_fetch_inv := server_fetch_inv;
     engine_fetch_row := server_fetch_row;
     engine_fetch_end := server_fetch_end |}.

#[export] Instance server_fetch_private : FetchPrivate server.
Proof. intros is_proc srv self. reflexivity. Qed.

Lemma fetch_n_run n is_proc : forall srv self,
  fetch_n n is_proc srv self
  = (fst (run_machine (fetch_step is_proc) n (srv, self)),
     fst (snd (run_machine (fetch_step is_proc) n (srv, self))),
     snd (snd (run_machine (fetch_step is_proc) n (srv, self)))).
Proof.
  induction n as [|n IH]; intros srv self; cbn [fetch_n run_machine]; [reflexivity |].
  unfold fetch_step at 1 3 5. cbn [fst snd engine_fetch server_engine].
  destruct (fetch is_proc srv self) as [[b srv1] self1]. rewrite IH.
  now destruct (run_machine (fetch_step is_proc) n (srv1, self1)) as [os [srv2 self2]].
Qed.

Section Refinement.

Variable is_proc : bool.
Variables (srv : server) (self : result).
Hypothesis engine_ok_self : engine_ok self.
Hypothesis server_ok_srv : server_ok self srv.

Lemma engine_inv_start : engine_inv (srv, self).
Proof. now split. Qed.

(** C11. Refinement: [n] calls of [fetch()] return what [n] steps of the cursor
    return, and leave the engine in a state whose abstraction is the
    state of the cursor. *)
Theorem fetch_n_refines n :
  let '(bs, srv', self') := fetch_n n is_proc srv self in
  run_machine next n (abs (srv, self)) = (bs, abs (srv', self')) /\
  engine_inv (srv', self').
Proof.
  rewrite fetch_n_run.
  pose proof (engine_simulation is_proc n _ engine_inv_start) as R.
  pose proof (engine_run_inv is_proc n _ engine_inv_start) as I.
  destruct (run_machine (fetch_step is_proc) n (srv, self)) as [bs [srv' self']].
  now split.
Qed.

(** The call [k + 1] of [fetch()] returns [true] and leaves in the columns
    the row [k] of the result set, as the server holds it. *)
Theorem fetch_n_current_row k r :
  nth_error (pending_rows srv) k = Some r ->
  let '(bs, srv', self') := fetch_n (Datatypes.S k) is_proc srv self in
  bs = repeat true (Datatypes.S k) /\ map cell_of_column (columns self') = r /\
  pending_rows srv' = skipn (Datatypes.S k) (pending_rows srv) /\
  fetched srv' = fetched srv + Z.of_nat (Datatypes.S k).
Proof.
  intros Er. rewrite fetch_n_run.
  pose proof (engine_simulation is_proc (Datatypes.S k) _ engine_inv_start) as R.
  rewrite (engine_current_row k (srv, self) r engine_inv_start Er) in R.
  destruct (run_machine (fetch_step is_proc) (Datatypes.S k) (srv, self)) as [bs [srv' self']].
  unfold abs in R. cbn [fst snd] in *.
  injection R as <- _ <- <- <-. now repeat split.
Qed.

(** The names of the columns are those of [bind()], whatever was
    fetched. *)
Lemma fetch_n_names n :
  map name (columns (snd (fetch_n n is_proc srv self))) = map name (columns self).
Proof.
  rewrite fetch_n_run. cbn [snd].
  pose proof (engine_simulation is_proc n _ engine_inv_start) as R.
  apply (f_equal (fun p => names (snd p))) in R. now rewrite run_next_names in R.
Qed.

End Refinement.

(** ** The loop of a caller *)

(** C31. The loop terminates after one call of [fetch()] more than there are
    rows, and reads exactly the rows that the server holds, in order; with
    less fuel it does not finish. *)
Theorem fetch_all_rows fuel is_proc srv self :
  engine_ok self -> server_ok self srv ->
  ((List.length (pending_rows srv) < fuel)%nat ->
   exists srv' self', fetch_all fuel is_proc srv self = Some (pending_rows srv, srv', self') /\
     pending_rows srv' = [] /\ num_rows srv' = num_rows srv) /\
  ((fuel <= List.length (pending_rows srv))%nat -> fetch_all fuel is_proc srv self = None).
Proof.
  intros Ok Hs. destruct (engine_fetch_all (L := server_laws) is_proc fuel srv self (conj Ok Hs))
    as [Hlt Hge].
  split; [| exact Hge]. intros Hf. destruct (Hlt Hf) as (srv' & self' & Ef & E' & F').
  exists srv', self'. unfold num_rows. cbn [to_come so_far server_laws] in *.
  rewrite E', F'. cbn [List.length]. repeat split; [exact Ef | lia].
Qed.

(** ** Concrete inputs *)

Example fetch_n_refines_witness :
  let '(bs, srv', self') := fetch_n 2 false select_server bound_result in
  run_machine next 2 (abs (select_server, bound_result)) = (bs, abs (srv', self')) /\
  engine_inv (srv', self').
Proof.
  exact (fetch_n_refines false select_server bound_result
           (proj1 bound_result_ok) (proj2 bound_result_ok) 2).
Defined.

Example fetch_n_current_row_witness :
  let '(bs, srv', self') := fetch_n 1 false select_server bound_result in
  bs = [true] /\ map cell_of_column (columns self') = select_row /\
  pending_rows srv' = [] /\ fetched srv' = 1.
Proof.
  exact (fetch_n_current_row false select_server bound_result
           (proj1 bound_result_ok) (proj2 bound_result_ok) 0 select_row eq_refl).
Defined.

Example fetch_all_rows_witness :
  exists srv' self', fetch_all 2 false select_server bound_result
                     = Some ([select_row], srv', self') /\
    pending_rows srv' = [] /\ num_rows srv' = 1.
Proof.
  exact (proj1 (fetch_all_rows 2 false select_server bound_result
                  (proj1 bound_result_ok) (proj2 bound_result_ok)) ltac:(cbn; lia)).
Defined.
