(* ===== verification/Query.v ===== *)
(** * Query: [statement::query()] (line 237 of [src/mysqlpp.hpp])

    [query()] is declared in the header and described in section 4.2 of
    the specification: it is [execute()] for a statement that returns
    rows, and its value is a new [result], bound to the metadata of the
    statement.  This file joins the bind cycle of [Statement.v] and the
    fetch engine of [Fetch.v]. *)

From Stdlib Require Import ZArith Lia List String Ascii Bool.
From S2P Require Import Prelude Libc Exception Datetime Column Result Statement Fetch Convert.
Import ListNotations.

#[local] Open Scope string_scope.
#[local] Open Scope Z_scope.
#[local] Open Scope outcome_scope.

(** The error of a [query()] on a statement without a result set. *)
Definition no_result_set : exception := mk_exception FILE 0 "no result set".

(** [result* query()]: [reply] is the state of the statement on the
    server after the execution, or the error of the execution.  A set of
    parameters that is not complete is refused before the server is
    asked; a successful call consumes the parameters. *)
Definition query (reply : outcome exception server) (self : statement)
  : outcome exception (result * server * statement) :=
  throw_if (negb (Statement.bind_index self =? param_count self)) bind_error ;;;
  srv <- reply ;;
  let '(bound, r) := result_bind srv (result_new (Statement.stmt self)) in
  throw_if (negb bound) no_result_set ;;;
  Value (r, srv,
         mk_statement (Statement.stmt self) (param_count self) 0
                      (Statement.binds self) (lengths self)).

(** The members of [Statement.v] and [query] are the members that the
    header declares. *)
#[export] Instance spec_members : Members server :=
  {| member_param := param;
     member_execute := execute;
     member_query := query |}.

(** ** Properties *)

(** A statement whose parameters are all bound, on a server that has a
    result set: the result has the columns of the metadata. *)
Lemma query_value srv s fs :
  Statement.bind_index s = param_count s -> result_fields srv = Some fs ->
  query (Value srv) s
  = Value (with_columns (result_new (Statement.stmt s)) (Z.of_nat (List.length fs))
             (map column_of_field fs),
           srv,
           mk_statement (Statement.stmt s) (param_count s) 0 (Statement.binds s) (lengths s)).
Proof.
  intros Ei Ef. unfold query. rewrite Ei, Z.eqb_refl. cbn [negb throw_if bind].
  unfold result_bind. now rewrite Ef.
Qed.

(** With every parameter bound, [query()] on a statement with a result
    set returns a result on the handle of the statement, with one column
    per field of the metadata, and the cursor of the statement is back at
    the first slot. *)
Theorem query_after_all_params handle vs srv fs :
  result_fields srv = Some fs ->
  exists r s,
    query (Value srv) (run (statement_new handle (Z.of_nat (List.length vs))) (map CallParam vs))
    = Value (r, srv, s) /\
    Result.stmt r = handle /\ engine_ok r /\ map name (columns r) = map field_name fs /\
    Statement.binds s = map Some vs /\ Statement.bind_index s = 0.
Proof.
  intros E.
  destruct (bound_statement handle (Z.of_nat (List.length vs)) vs (Z.le_refl _))
    as (Ei & Ec & Eb). cbv zeta in Ei, Ec, Eb.
  destruct (result_bind_columns srv (result_new handle) fs E) as (r & Er & Hh & Ok & En).
  unfold query. rewrite Ei, Ec, Z.eqb_refl. cbn [negb throw_if bind].
  rewrite run_stmt. cbn [Statement.stmt statement_new].
  rewrite Er. cbn [negb throw_if bind]. exists r. eexists. split; [reflexivity |].
  cbn [Statement.binds Statement.bind_index]. rewrite Eb, Nat2Z.id, Nat.sub_diag.
  cbn [repeat]. rewrite app_nil_r.
  split; [exact Hh |]. split; [exact Ok |]. split; [exact En |]. now split.
Qed.

(** A statement without a result set: [query()] throws, and no result is
    made. *)
Theorem query_without_result_set handle vs srv :
  result_fields srv = None ->
  query (Value srv) (run (statement_new handle (Z.of_nat (List.length vs))) (map CallParam vs))
  = Throw no_result_set.
Proof.
  intros E.
  destruct (bound_statement handle (Z.of_nat (List.length vs)) vs (Z.le_refl _))
    as (Ei & Ec & _). cbv zeta in Ei, Ec.
  unfold query. rewrite Ei, Ec, Z.eqb_refl. cbn [negb throw_if bind].
  unfold result_bind. now rewrite E.
Qed.

(** With fewer parameters than placeholders [query()] throws the bind
    error, whatever the server would answer. *)
Theorem query_after_too_few handle count vs reply :
  Z.of_nat (List.length vs) < count ->
  query reply (run (statement_new handle count) (map CallParam vs)) = Throw bind_error.
Proof.
  intros H. destruct (bound_statement handle count vs ltac:(lia)) as (Ei & Ec & _).
  cbv zeta in Ei, Ec. unfold query. rewrite Ei, Ec.
  now replace (negb (Z.of_nat (List.length vs) =? count)) with true by lia.
Qed.

(** ** Concrete inputs *)

(** The second scenario of the specification: [SELECT a, b FROM t WHERE
    a = ?] with the parameter 5, one row [(5, "x")]. *)
Example query_scenario :
  match query (Value select_server) (run (statement_new 7 1) [CallParam (PInt 5)]) with
  | Value (r, srv, _) =>
      let '(b1, srv1, r1) := fetch false srv r in
      let '(b2, _, _) := fetch false srv1 r1 in
      b1 = true /\ b2 = false /\
      @get_by_name (spec_lookup no_such_column) Z (fetchable_int no_conversion KInt) r1 "a"
      = Value 5 /\
      @get_by_name (spec_lookup no_such_column) string (fetchable_string no_conversion zero_tm) r1 "b"
      = Value "x"
  | _ => False
  end.
Proof. vm_compute. now repeat split. Qed.

Example query_after_all_params_witness :
  exists r s,
    query (Value select_server) (run (statement_new 7 1) (map CallParam [PInt 5]))
    = Value (r, select_server, s) /\
    Result.stmt r = 7 /\ engine_ok r /\ map name (columns r) = ["a"; "b"] /\
    Statement.binds s = [Some (PInt 5)] /\ Statement.bind_index s = 0.
Proof. exact (query_after_all_params 7 [PInt 5] select_server select_fields eq_refl). Defined.

Example query_without_result_set_witness :
  query (Value (mk_server None [] 0 false)) (run (statement_new 7 1) (map CallParam [PInt 5]))
  = Throw no_result_set.
Proof. exact (query_without_result_set 7 [PInt 5] (mk_server None [] 0 false) eq_refl). Defined.

Example query_after_too_few_witness :
  query (Value select_server) (run (statement_new 7 2) (map CallParam [PInt 5]))
  = Throw bind_error.
Proof. apply (query_after_too_few 7 2 [PInt 5]). by_eval. Defined.
