(* ===== verification/Echo.v ===== *)
(** * Echo: a parameter that the server sends back

    The bind engine and the fetch engine meet at the server.  This file
    follows one value through both: it is bound as a parameter of its
    type ([Statement.param]), [query()] makes the result and its columns
    ([Query.query], [Fetch.result_bind]), the server sends a row in which
    a column holds the value as it received it, [fetch()] fills the
    columns ([Fetch.fetch]), and [get<T>] at the type of the parameter
    ([Result.get], then the conversions of [Convert.v] and [Ieee.v])
    returns the value.  The server is any server that sends the value
    back in a field of the wire type of the parameter. *)

From Stdlib Require Import ZArith Lia List String Ascii Bool SpecFloat.
From S2P Require Import Prelude Calendar Libc Exception Datetime Column Result Statement.
From S2P Require Import Fetch Convert Ieee Query.
Import ListNotations.

#[local] Open Scope Z_scope.
#[local] Open Scope outcome_scope.

(** ** What is sent *)

(** A parameter by what the wire carries: an integer of a type, the bits
    of a floating-point number, bytes, or NULL. *)
Inductive sent : Type :=
| SentInt (k : int_kind) (z : Z)
| SentFloat (k : float_kind) (bits : Z)
| SentText (s : string)
| SentNull.

Definition sent_of (v : param_value) : sent :=
  match v with
  | PUChar z => SentInt KUChar z
  | PShort z => SentInt KShort z
  | PUShort z => SentInt KUShort z
  | PInt z => SentInt KInt z
  | PUInt z => SentInt KUInt z
  | PLongLong z => SentInt KLongLong z
  | PULongLong z => SentInt KULongLong z
  | PFloat bits => SentFloat KFloat bits
  | PDouble bits => SentFloat KDouble bits
  | PString s | PBlob s => SentText s
  | PNull _ => SentNull
  end.

(** The cell of a row that holds the parameter: an integer least
    significant byte first at the width of its type, the bits of a
    floating-point number likewise, the bytes of a text. *)
Definition wire_cell (v : param_value) : cell :=
  match sent_of v with
  | SentInt k z => Some (le_encode (buffer_size (kind_type k)) z)
  | SentFloat k bits => Some (le_encode (buffer_size (float_type k)) bits)
  | SentText s => Some (list_ascii_of_string s)
  | SentNull => None
  end.

(** A parameter that its C++ type can hold. *)
Definition param_ok (v : param_value) : Prop :=
  match sent_of v with
  | SentInt k z => in_kind k z
  | SentFloat k bits => 0 <= bits < 2 ^ (8 * Z.of_nat (buffer_size (float_type k)))
  | SentText _ => True
  | SentNull => True
  end.

(** The field of the result set has the wire type of the parameter. *)
Definition echoes (f : field_meta) (v : param_value) : Prop :=
  match v with
  | PNull _ => True
  | _ => wire_type v = (Some (field_type f), field_unsigned f)
  end.

Section Echo.

Variable uncovered : forall T : Type, st_mysql_column -> outcome exception T.
Variable stack : tm.

(** What the caller reads with the request of the type of the parameter,
    [g] being [get<T>] at the ordinal of the column. *)
Definition reads (v : param_value) (g : forall T : Type, Fetchable T -> outcome exception T)
  : Prop :=
  match sent_of v with
  | SentInt k z => g Z (fetchable_int uncovered k) = Value z
  | SentFloat k bits => g spec_float (fetchable_float uncovered k) = Value (float_of_bits k bits)
  | SentText s => g string (fetchable_string uncovered stack) = Value s
  | SentNull => forall (T : Type) (F : Fetchable T), g T F = Throw (null_value 152)
  end.

End Echo.

(** ** One column *)

Lemma wire_type_sent v :
  match sent_of v with
  | SentInt k _ => wire_type v = (Some (kind_type k), negb (kind_signed k))
  | SentFloat k _ => wire_type v = (Some (float_type k), false)
  | SentText _ => exists t, wire_type v = (Some t, false) /\ is_text t = true
  | SentNull => wire_type v = (None, false)
  end.
Proof. destruct v; cbn; eauto. Qed.

(** The bytes of a value of fixed width are the first bytes of the buffer
    of a column that holds it. *)
Lemma holds_encode c n z :
  holds c (Some (le_encode n z)) -> firstn n (buffer c) = le_encode n z.
Proof. intros (_ & _ & _ & E). now rewrite length_le_encode in E. Qed.

Section EchoProperties.

Variable uncovered : forall T : Type, st_mysql_column -> outcome exception T.
Variable stack : tm.

(** A column of the wire type of a parameter that holds its cell is
    converted back to the parameter by the overload of its type. *)
Lemma convert_held v c bytes :
  wire_cell v = Some bytes -> holds c (Some bytes) -> param_ok v ->
  wire_type v = (Some (type c), truthy (is_unsigned c)) ->
  reads uncovered stack v (fun T F => @fetch_column T F c default_value).
Proof.
  unfold wire_cell, param_ok, reads. pose proof (wire_type_sent v) as W.
  destruct (sent_of v) as [k z | k bits | s |]; [| | | discriminate];
    intros [= <-] H Ok E; cbn [fetch_column fetchable_int fetchable_float fetchable_string].
  - rewrite W in E. injection E as Et Eu.
    apply fetch_column_int_value; auto using holds_encode.
  - rewrite W in E. injection E as Et _. rewrite fetch_column_float_value by auto.
    unfold column_float. now rewrite (holds_encode c _ _ H), le_decode_encode, Z.mod_small.
  - destruct W as (t & W & Ht). rewrite W in E. injection E as Et _. subst t.
    destruct H as (_ & _ & El & Eb). unfold fetch_column_string, column_number, column_bytes.
    replace (is_integer (type c)) with false by (now destruct (type c)).
    now rewrite Ht, El, Nat2Z.id, Eb, string_of_list_ascii_of_string.
Qed.

Lemma reads_ext v (g g' : forall T : Type, Fetchable T -> outcome exception T) :
  (forall T F, g T F = g' T F) -> reads uncovered stack v g' -> reads uncovered stack v g.
Proof.
  unfold reads. intros E. destruct (sent_of v); rewrite ?E; auto.
  intros H T F. now rewrite E.
Qed.

(** ** From the parameter to the value read *)

Variable not_found : string -> exception.

(** The column of a field after [bind()] and a fetch of a cell. *)
Lemma fetched_column f v :
  holds (fetch_cell (column_of_field f) v) v /\
  type (fetch_cell (column_of_field f) v) = field_type f /\
  truthy (is_unsigned (fetch_cell (column_of_field f) v)) = field_unsigned f.
Proof.
  destruct (fetch_cell_type (column_of_field f) v) as (-> & _ & ->).
  split; [apply fetch_cell_holds |]. split; [reflexivity |]. cbn [column_of_field is_unsigned].
  now destruct (field_unsigned f).
Qed.

(** After a fetch of the row [r], [get<T>] at the position of a field
    reads the column of this field filled with its cell. *)
Lemma get_fetched {T : Type} {F : Fetchable T} handle fs r j f v :
  List.length r = List.length fs -> nth_error fs j = Some f -> nth_error r j = Some v ->
  let res := with_columns (result_new handle) (Z.of_nat (List.length fs)) (map column_of_field fs) in
  let res' := with_columns res (field_count res) (fetch_columns (columns res) r) in
  @get (spec_lookup not_found) T F res' (Z.of_nat j)
  = if truthy (is_null (fetch_cell (column_of_field f) v)) then Throw (null_value 152)
    else fetch_column (fetch_cell (column_of_field f) v) default_value.
Proof.
  intros Hl Hf Hr res res'. apply get_nth.
  - split; cbn [res' res with_columns field_count columns Result.binds];
      now rewrite ?length_map, ?length_fetch_columns, ?length_map.
  - cbn [res' res with_columns columns]. apply nth_fetch_columns; [| exact Hr].
    now apply map_nth_error.
Qed.

(** C13. End to end: a parameter of any of the types of [param] that the
    server sends back in a field of its wire type is read back by
    [get<T>] at its type as the value that was bound: an integer of the
    seven types, a [float] or a [double] by its bits, a text or a blob by
    its bytes; and a NULL makes [get<T>] throw for every type. *)
Theorem param_read_back handle vs srv fs r rest i j v f :
  result_fields srv = Some fs -> pending_rows srv = r :: rest ->
  List.length r = List.length fs ->
  nth_error vs i = Some v -> param_ok v ->
  nth_error fs j = Some f -> echoes f v -> nth_error r j = Some (wire_cell v) ->
  exists res s srv' res',
    query (Value srv) (run (statement_new handle (Z.of_nat (List.length vs))) (map CallParam vs))
    = Value (res, srv, s) /\
    nth_error (Statement.binds s) i = Some (Some v) /\
    fetch false srv res = (true, srv', res') /\
    reads uncovered stack v (fun T F => @get (spec_lookup not_found) T F res' (Z.of_nat j)).
Proof.
  intros Ef Er Hl Hv Ok Hf He Hc.
  destruct (bound_statement handle (Z.of_nat (List.length vs)) vs (Z.le_refl _)) as (Ei & Ec & Eb).
  cbv zeta in Ei, Ec, Eb. rewrite (query_value srv _ fs) by (congruence || assumption).
  rewrite run_stmt. cbn [Statement.stmt statement_new]. do 4 eexists.
  split; [reflexivity |]. cbn [Statement.binds]. rewrite Eb.
  split; [rewrite nth_error_app1 by (rewrite length_map; apply nth_error_Some; congruence);
          now apply map_nth_error |].
  rewrite (fetch_next _ _ _ _ _ Er). split; [reflexivity |].
  apply (reads_ext v _ _ (fun T F => get_fetched handle fs r j f (wire_cell v) Hl Hf Hc)).
  destruct (fetched_column f (wire_cell v)) as (H & Et & Eu).
  destruct (wire_cell v) as [bytes |] eqn:Ew.
  - pose proof H as (-> & _). apply (convert_held v _ bytes Ew H Ok).
    rewrite Et, Eu. destruct v; try exact He. discriminate Ew.
  - unfold holds in H. rewrite H. unfold reads. unfold wire_cell in Ew.
    now destruct (sent_of v).
Qed.

End EchoProperties.

(** ** Concrete inputs *)

#[local] Open Scope string_scope.

(** The second scenario of the specification: the parameter 5 of
    [SELECT a, b FROM t WHERE a = ?] comes back in the column [a]. *)
Example param_read_back_witness :
  exists res s srv' res',
    query (Value select_server) (run (statement_new 7 1) (map CallParam [PInt 5]))
    = Value (res, select_server, s) /\
    nth_error (Statement.binds s) 0 = Some (Some (PInt 5)) /\
    fetch false select_server res = (true, srv', res') /\
    @get (spec_lookup no_such_column) Z (fetchable_int no_conversion KInt) res' 0 = Value 5.
Proof.
  exact (param_read_back no_conversion zero_tm no_such_column 7 [PInt 5] select_server
           select_fields select_row [] 0 0 (PInt 5) (mk_field_meta MYSQL_TYPE_LONG "a" false)
           eq_refl eq_refl eq_refl eq_refl ltac:(by_eval) eq_refl eq_refl eq_refl).
Defined.

(** A server that sends back a [double] and a text. *)
Definition echo_server : server :=
  mk_server (Some [mk_field_meta MYSQL_TYPE_DOUBLE "d" false;
                   mk_field_meta MYSQL_TYPE_STRING "s" false])
    [[wire_cell (PDouble 4617315517961601024); wire_cell (PString "x'y")]] 0 false.

Example echo_scenario :
  match query (Value echo_server)
          (run (statement_new 7 2) [CallParam (PDouble 4617315517961601024);
                                    CallParam (PString "x'y")]) with
  | Value (r, srv, _) =>
      let '(_, _, r1) := fetch false srv r in
      @get (spec_lookup no_such_column) spec_float (fetchable_float no_conversion KDouble) r1 0
      = Value (float_of_Z KDouble 5) /\
      @get_by_name (spec_lookup no_such_column) string (fetchable_string no_conversion zero_tm) r1 "s"
      = Value "x'y"
  | _ => False
  end.
Proof. vm_compute. now split. Qed.
