(* ===== verification/Connection.v ===== *)
(** * Connection: [mysqlpp::connection] (lines 251-286 of [src/mysqlpp.hpp])

    The session wrapper: a handle of the client library and the two
    fields that a pool manager reads and writes, the time of the last
    release and the pooled flag.  The four accessors are defined in the
    header (lines 260-278) and translated from it; the constructor, [ping]
    and [prepare] are declared there and described by the specification
    (section 4.4).  The class [Connector] holds the signatures of the
    two; [spec_connector] is their description in the specification.

    [last_released] returns a pointer to the member [released]: a caller
    that writes through it changes the connection.  The model gives the
    pointer as a pair, the value read and the write through it. *)

From Stdlib Require Import ZArith Lia List String Ascii Bool.
From S2P Require Import Prelude Calendar Exception Statement.
Import ListNotations.

#[local] Open Scope string_scope.
#[local] Open Scope Z_scope.
#[local] Open Scope outcome_scope.

(** The private members, lines 281-284. *)
Record connection : Type := mk_connection {
  mysql : Z;
  released : tm;
  pooled : bool
}.

(** [std::tm* last_released()], lines 260-263: reading through the
    pointer, and writing through it. *)
Definition last_released (self : connection) : tm := released self.

Definition write_last_released (t : tm) (self : connection) : connection :=
  mk_connection (mysql self) t (pooled self).

(** [void set_released(const std::tm&)], lines 265-268. *)
Definition set_released (released_ : tm) (self : connection) : connection :=
  mk_connection (mysql self) released_ (pooled self).

(** [bool is_pooled()], lines 270-273. *)
Definition is_pooled (self : connection) : bool := pooled self.

(** [void set_pooled(bool)], lines 275-278. *)
Definition set_pooled (pooled_ : bool) (self : connection) : connection :=
  mk_connection (mysql self) (released self) pooled_.

(** The arguments of the constructor, line 254. *)
Record connect_args : Type := mk_connect_args {
  host : string;
  userid : string;
  passwd : string;
  database : string;
  port : Z;
  charset : string;
  pooled_ : bool
}.

(** A call with four arguments: the default arguments of line 254. *)
Definition default_args (host userid passwd database : string) : connect_args :=
  mk_connect_args host userid passwd database 3306 "utf8" false.

(** The constructor, line 254: [reply] is what the client library answers
    to the arguments, the handle of the open session or the error of the
    connection.  The member [released] is not an argument: it holds what
    the storage held. *)
Definition connection_new (args : connect_args) (reply : connect_args -> outcome exception Z)
    (raw_released : tm) : outcome exception connection :=
  handle <- reply args ;;
  Value (mk_connection handle raw_released (pooled_ args)).

(** [bool ping()] and [statement* prepare(const std::string&)], lines
    257-258, are declared in the header and defined by a translation
    unit.  The server is represented by its reply: whether it is alive,
    and the handle and the count of placeholders of the prepared query or
    the error of the preparation. *)
Class Connector : Type := {
  connector_ping : bool -> connection -> bool;
  connector_prepare : outcome exception (Z * Z) -> connection -> outcome exception statement
}.

(** [bool ping()], line 257: the liveness that the server reports; a dead
    session is [false], not an exception. *)
Definition ping (alive : bool) (self : connection) : bool := alive.

(** [statement* prepare(const std::string&)], line 258: [reply] is the
    statement handle and the count of placeholders that the server
    reports, or the error of the preparation. *)
Definition prepare (reply : outcome exception (Z * Z)) (self : connection)
  : outcome exception statement :=
  r <- reply ;;
  Value (statement_new (fst r) (snd r)).

#[export] Instance spec_connector : Connector :=
  {| connector_ping := ping; connector_prepare := prepare |}.

(** ** The bookkeeping of a pool *)

(** What a pool manager does to a connection. *)
Inductive pool_call : Type :=
| SetPooled (b : bool)
| SetReleased (t : tm)
| WriteLastReleased (t : tm).

Definition pool_step (self : connection) (c : pool_call) : connection :=
  match c with
  | SetPooled b => set_pooled b self
  | SetReleased t => set_released t self
  | WriteLastReleased t => write_last_released t self
  end.

Definition pool_run (self : connection) (calls : list pool_call) : connection :=
  fold_left pool_step calls self.

(** The last flag and the last time that a sequence of calls sets. *)
Fixpoint last_pooled (calls : list pool_call) (init : bool) : bool :=
  match calls with
  | [] => init
  | SetPooled b :: calls' => last_pooled calls' b
  | _ :: calls' => last_pooled calls' init
  end.

Fixpoint last_time (calls : list pool_call) (init : tm) : tm :=
  match calls with
  | [] => init
  | SetPooled _ :: calls' => last_time calls' init
  | SetReleased t :: calls' | WriteLastReleased t :: calls' => last_time calls' t
  end.

(** C28. The bookkeeping never touches the session, and the two fields are
    independent: the flag is the last one set, the time is the last one
    set or written through the pointer. *)
Theorem pool_run_spec calls self :
  mysql (pool_run self calls) = mysql self /\
  is_pooled (pool_run self calls) = last_pooled calls (is_pooled self) /\
  last_released (pool_run self calls) = last_time calls (last_released self).
Proof.
  revert self. unfold pool_run.
  induction calls as [|c calls IH]; intros self; cbn [fold_left]; [now repeat split |].
  destruct (IH (pool_step self c)) as (Em & Ep & Et). rewrite Em, Ep, Et.
  destruct c; cbn; now repeat split.
Qed.

(** A call of the constructor with four arguments asks for the port 3306
    and the character set utf8; the session that it opens is not pooled,
    and the time of its last release is what the storage held.  The call
    throws what the client library throws. *)
Theorem connection_new_default h u p d reply raw :
  match connection_new (default_args h u p d) reply raw with
  | Value c =>
      reply (mk_connect_args h u p d 3306 "utf8" false) = Value (mysql c) /\
      is_pooled c = false /\ last_released c = raw
  | Throw e => reply (mk_connect_args h u p d 3306 "utf8" false) = Throw e
  | Undefined => reply (mk_connect_args h u p d 3306 "utf8" false) = Undefined
  end.
Proof.
  unfold connection_new, default_args. cbn [pooled_].
  destruct (reply (mk_connect_args h u p d 3306 "utf8" false)); cbn [bind]; now repeat split.
Qed.

(** A prepared statement starts its bind cycle at the first of the
    placeholders that the server reports. *)
Theorem prepare_statement handle count self :
  0 <= count ->
  exists s, prepare (Value (handle, count)) self = Value s /\
            statement_ok s /\ bind_index s = 0 /\ param_count s = count.
Proof.
  intros H. eexists. split; [reflexivity |].
  split; [now apply statement_new_ok | now split].
Qed.

Example prepare_statement_witness :
  exists s, prepare (Value (7, 2)) (mk_connection 1 (mk_tm 0 0 0 1 0 70 4 0 0) false) = Value s /\
            statement_ok s /\ bind_index s = 0 /\ param_count s = 2.
Proof. apply prepare_statement. lia. Defined.
