(* ===== verification/Lifecycle.v ===== *)
(** * Lifecycle: the life cycle of a statement and its result

    The specification (section 4.4) gives the life cycle of a statement
    and its result as a state machine: Created, Prepared, the bind cycle,
    Executing, Row-Streaming, Exhausted, and Closed.  This file states it
    as a labelled transition relation, proves by induction on its runs
    what the machine guarantees (an execution is sent with all the
    parameters bound since the last one, a row is delivered only between
    the result set and its end, nothing happens after Closed), and proves
    that the members of [connection], [statement] and [result], called in
    any order on a client, produce only runs of this machine.

    The members are those of the classes [Connector], [Members] and
    [Engine], the signatures of the header.  What the proofs need of them
    is the class [MemberLaws], with [EngineLaws] of [Cursor.v]: the
    theorems hold of every translation unit that keeps these laws.  The
    members that follow the specification keep them
    ([spec_member_laws]). *)

From Stdlib Require Import ZArith Lia List String Ascii Bool.
From S2P Require Import Prelude Calendar Exception Column Result Statement Fetch Cursor Query Connection.
Import ListNotations.

#[local] Open Scope Z_scope.
#[local] Open Scope outcome_scope.

(** ** The machine of the specification *)

(** [ParamsBound k]: [k] parameters are bound in this cycle, [k > 0]. *)
Inductive phase : Type :=
| Created
| Prepared
| ParamsBound (k : Z)
| Executing
| RowStreaming
| Exhausted
| Closed.

(** What a member does on the wire: the server prepares the query, a
    parameter is bound, the parameters are sent, the server answers with
    a count of affected rows, with a result set or with an error, a row
    arrives, the rows end, the objects are destroyed. *)
Inductive event : Type :=
| EvPrepare
| EvParam
| EvSend
| EvAffected
| EvRows
| EvRejected
| EvRow
| EvEnd
| EvClose.

Section Machine.

(** The number of placeholders that the server reports. *)
Variable count : Z.

(** The phase in which the parameters of a cycle are all bound. *)
Definition all_bound : phase := if count =? 0 then Prepared else ParamsBound count.

Inductive transition : phase -> event -> phase -> Prop :=
| t_prepare : transition Created EvPrepare Prepared
| t_param_first : 0 < count -> transition Prepared EvParam (ParamsBound 1)
| t_param k : 0 < k < count -> transition (ParamsBound k) EvParam (ParamsBound (k + 1))
| t_send : transition all_bound EvSend Executing
| t_affected : transition Executing EvAffected Prepared
| t_rejected : transition Executing EvRejected all_bound
| t_rows : transition Executing EvRows RowStreaming
| t_row : transition RowStreaming EvRow RowStreaming
| t_end : transition RowStreaming EvEnd Exhausted
| t_end_again : transition Exhausted EvEnd Exhausted
| t_close p : p <> Closed -> transition p EvClose Closed.

(** The runs from a phase: the events in order, and the phase reached. *)
Inductive run_from (p0 : phase) : list event -> phase -> Prop :=
| run_nil : run_from p0 [] p0
| run_snoc evs p e p' :
    run_from p0 evs p -> transition p e p' -> run_from p0 (evs ++ [e]) p'.

End Machine.

(** The machine is deterministic: its step as a function, and its runs. *)
Definition phase_step (count : Z) (p : phase) (e : event) : option phase :=
  match e, p with
  | EvClose, Closed => None
  | EvClose, _ => Some Closed
  | EvPrepare, Created => Some Prepared
  | EvParam, Prepared => if 0 <? count then Some (ParamsBound 1) else None
  | EvParam, ParamsBound k => if (0 <? k) && (k <? count) then Some (ParamsBound (k + 1)) else None
  | EvSend, Prepared => if count =? 0 then Some Executing else None
  | EvSend, ParamsBound k => if (k =? count) && negb (count =? 0) then Some Executing else None
  | EvAffected, Executing => Some Prepared
  | EvRejected, Executing => Some (all_bound count)
  | EvRows, Executing => Some RowStreaming
  | EvRow, RowStreaming => Some RowStreaming
  | EvEnd, RowStreaming | EvEnd, Exhausted => Some Exhausted
  | _, _ => None
  end.

Fixpoint phase_run (count : Z) (p : phase) (evs : list event) : option phase :=
  match evs with
  | [] => Some p
  | e :: evs' =>
      match phase_step count p e with
      | Some q => phase_run count q evs'
      | None => None
      end
  end.

Create HintDb lifecycle.
#[export] Hint Constructors transition run_from : lifecycle.

(** ** The client *)

(** What a caller holds: nothing yet, a statement in a bind cycle, a
    statement and the result of its query with what the client library
    holds for it, or destroyed objects. *)
Inductive client (S : Type) : Type :=
| Unprepared
| Binding (s : statement)
| Fetching (s : statement) (srv : S) (r : result)
| Destroyed.

Arguments Unprepared {S}.
Arguments Binding {S} s.
Arguments Fetching {S} s srv r.
Arguments Destroyed {S}.

(** A call of a member, with what the server answers to it. *)
Inductive op (S : Type) : Type :=
| OpPrepare (reply : outcome exception Z)
| OpParam (v : param_value)
| OpExecute (reply : outcome exception Z)
| OpQuery (reply : outcome exception S)
| OpFetch (is_proc : bool)
| OpDestroy.

Arguments OpPrepare {S} reply.
Arguments OpParam {S} v.
Arguments OpExecute {S} reply.
Arguments OpQuery {S} reply.
Arguments OpFetch {S} is_proc.
Arguments OpDestroy {S}.

Section Client.

Context {S : Type} {E : Engine S} {M : Members S} {C : Connector}.
Variable count : Z.
Variable self : connection.

(** One call of a caller on the objects it holds.  This is the program
    of a caller, not code of the header: it calls the member that the
    operation names and records which events of section 4.4 the call
    stands for.  [execute] and [query] reach the server only with every
    parameter bound (section 4.2), so the events [EvSend] are recorded
    under that test, and only the refusals of the server are taken from
    the answer of the member.  [None] when the call is outside the life
    cycle: a member of an object that does not exist or exists no more,
    a parameter or an execution while a result is read, or a call whose
    behaviour is undefined. *)
Definition client_step (c : client S) (o : op S) : option (list event * client S) :=
  match c, o with
  | Destroyed, _ => None
  | _, OpDestroy => Some ([EvClose], Destroyed)
  | Unprepared, OpPrepare reply =>
      match connector_prepare (h <- reply ;; Value (h, count)) self with
      | Value s => Some ([EvPrepare], Binding s)
      | Throw _ => Some ([], Unprepared)
      | Undefined => None
      end
  | Binding s, OpParam v =>
      match member_param v s with
      | Value s' => Some ([EvParam], Binding s')
      | Throw _ => Some ([], Binding s)
      | Undefined => None
      end
  | Binding s, OpExecute reply =>
      if Statement.bind_index s =? param_count s then
        match member_execute reply s with
        | Value (_, s') => Some ([EvSend; EvAffected], Binding s')
        | Throw _ => Some ([EvSend; EvRejected], Binding s)
        | Undefined => None
        end
      else Some ([], Binding s)
  | Binding s, OpQuery reply =>
      if Statement.bind_index s =? param_count s then
        match member_query reply s with
        | Value (r, srv, s') => Some ([EvSend; EvRows], Fetching s' srv r)
        | Throw _ => Some ([EvSend; EvRejected], Binding s)
        | Undefined => None
        end
      else Some ([], Binding s)
  | Fetching s srv r, OpFetch is_proc =>
      let '(b, srv', r') := engine_fetch is_proc srv r in
      Some ([if b then EvRow else EvEnd], Fetching s srv' r')
  | _, _ => None
  end.

(** A sequence of calls: the events of all of them, and the client at the
    end; [None] as soon as a call is outside the life cycle. *)
Fixpoint client_run (c : client S) (ops : list (op S)) : option (list event * client S) :=
  match ops with
  | [] => Some ([], c)
  | o :: ops' =>
      match client_step c o with
      | Some (evs, c1) =>
          match client_run c1 ops' with
          | Some (evs', c2) => Some (evs ++ evs', c2)
          | None => None
          end
      | None => None
      end
  end.

Context {L : EngineLaws S}.

(** The phase that a client is in.  A result with no row to come is in
    Row-Streaming until [fetch()] has returned [false]. *)
Inductive in_phase : phase -> client S -> Prop :=
| in_created : in_phase Created Unprepared
| in_prepared s :
    statement_ok s -> param_count s = count -> Statement.bind_index s = 0 ->
    in_phase Prepared (Binding s)
| in_params_bound s :
    statement_ok s -> param_count s = count -> 0 < Statement.bind_index s ->
    in_phase (ParamsBound (Statement.bind_index s)) (Binding s)
| in_row_streaming s srv r : in_phase RowStreaming (Fetching s srv r)
| in_exhausted s srv r : to_come srv = [] -> in_phase Exhausted (Fetching s srv r)
| in_closed : in_phase Closed Destroyed.

End Client.

(** ** What a caller relies on *)

(** Section 4.2 of the specification, for any members: [prepare] hands
    on the error of the server, and else makes a statement with the
    slots that the server reports, all free; a parameter takes the next
    slot, and one more than the statement declares is refused; [execute]
    and [query] refuse a set of parameters that is not complete, and else
    hand on what the server answers and free the slots; the result of
    [query] is a result on the handle of the statement, after [bind()]. *)
Class MemberLaws (S : Type) {E : Engine S} {M : Members S} {C : Connector} : Type := {
  connector_prepare_reply : forall reply self,
    match reply with
    | Value (handle, count) =>
        0 <= count ->
        exists s, connector_prepare reply self = Value s /\ statement_ok s /\
          param_count s = count /\ Statement.bind_index s = 0
    | Throw _ => exists e, connector_prepare reply self = Throw e
    | Undefined => connector_prepare reply self = Undefined
    end;
  member_param_spec : forall v s,
    statement_ok s ->
    (Statement.bind_index s < param_count s ->
     exists s', member_param v s = Value s' /\ statement_ok s' /\
       Statement.bind_index s' = Statement.bind_index s + 1 /\ param_count s' = param_count s) /\
    (Statement.bind_index s = param_count s -> exists e, member_param v s = Throw e);
  member_execute_reply : forall reply s,
    statement_ok s -> Statement.bind_index s = param_count s ->
    exists s', statement_ok s' /\ param_count s' = param_count s /\
      Statement.bind_index s' = 0 /\
      member_execute reply s = (rows <- reply ;; Value (rows, s'));
  member_query_reply : forall srv s,
    statement_ok s -> Statement.bind_index s = param_count s ->
    exists s' r0, statement_ok s' /\ param_count s' = param_count s /\
      Statement.bind_index s' = 0 /\ Result.stmt r0 = Statement.stmt s /\
      (let '(bound, r) := engine_bind srv r0 in
       if bound then member_query (Value srv) s = Value (r, srv, s')
       else exists e, member_query (Value srv) s = Throw e);
  member_incomplete : forall s,
    Statement.bind_index s <> param_count s ->
    (forall reply, exists e, member_execute reply s = Throw e) /\
    (forall reply, exists e, member_query reply s = Throw e)
}.

(** ** Runs of the machine *)

Section MachineProperties.

Variable count : Z.
Hypothesis count_nonneg : 0 <= count.

#[local] Abbreviation transition := (transition count).
#[local] Abbreviation run_from := (run_from count).
#[local] Abbreviation all_bound := (all_bound count).

Lemma run_one p e p' : transition p e p' -> run_from p [e] p'.
Proof. intros H. exact (run_snoc count p [] p e p' (run_nil count p) H). Qed.

Lemma run_app p evs p1 evs' p2 :
  run_from p evs p1 -> run_from p1 evs' p2 -> run_from p (evs ++ evs') p2.
Proof.
  intros H1 H2. induction H2 as [| evs' q e q' _ IH Ht]; [now rewrite app_nil_r |].
  rewrite app_assoc. exact (run_snoc count p _ q e q' IH Ht).
Qed.

Lemma run_two p e1 p1 e2 p2 :
  transition p e1 p1 -> transition p1 e2 p2 -> run_from p [e1; e2] p2.
Proof. intros H1 H2. exact (run_app p [e1] p1 [e2] p2 (run_one _ _ _ H1) (run_one _ _ _ H2)). Qed.

Lemma run_snoc_inv p0 evs e p' :
  run_from p0 (evs ++ [e]) p' -> exists p, run_from p0 evs p /\ transition p e p'.
Proof.
  intros H. inversion H as [E | evs0 p e0 q Hr Ht E]; subst.
  - now destruct evs.
  - apply app_inj_tail in E as [-> ->]. now exists p.
Qed.

Lemma all_bound_cases :
  count = 0 /\ all_bound = Prepared \/ 0 < count /\ all_bound = ParamsBound count.
Proof. unfold Lifecycle.all_bound. destruct (Z.eqb_spec count 0); [left | right]; split; auto; lia. Qed.

(** [j] executions that the server rejected. *)
Fixpoint rejected (j : nat) : list event :=
  match j with
  | O => []
  | S j' => rejected j' ++ [EvSend; EvRejected]
  end.

(** What the events of a run that ends in a phase are: since the
    statement was last Prepared, a bind cycle holds one [EvParam] per
    parameter bound, then, once all are bound, the executions that the
    server rejected; an execution is sent right after that. *)
Definition cycle_of (evs : list event) (p : phase) : Prop :=
  match p with
  | ParamsBound k =>
      0 < k <= count /\
      exists evs' j, evs = evs' ++ repeat EvParam (Z.to_nat k) ++ rejected j /\
                     (k < count -> j = O) /\ run_from Created evs' Prepared
  | Executing =>
      exists evs' j, evs = evs' ++ repeat EvParam (Z.to_nat count) ++ rejected j ++ [EvSend] /\
                     run_from Created evs' Prepared
  | _ => True
  end.

Lemma repeat_snoc {A} (x : A) n : repeat x n ++ [x] = repeat x (S n).
Proof. induction n as [|n IH]; cbn; [reflexivity | now rewrite IH]. Qed.

Lemma cycle_send evs :
  run_from Created evs all_bound -> cycle_of evs all_bound ->
  cycle_of (evs ++ [EvSend]) Executing.
Proof.
  intros Hr IH. destruct all_bound_cases as [[E0 Ea] | [E0 Ea]]; rewrite Ea in *.
  - exists evs, O. replace (Z.to_nat count) with O by lia. split; [reflexivity | exact Hr].
  - destruct IH as (_ & evs' & j & -> & _ & Hr'). exists evs', j.
    now rewrite <- !app_assoc.
Qed.

Lemma cycle_rejected evs :
  cycle_of evs Executing -> cycle_of (evs ++ [EvRejected]) all_bound.
Proof.
  intros (evs' & j & -> & Hr'). destruct all_bound_cases as [[E0 Ea] | [E0 Ea]]; rewrite Ea;
    [exact I |].
  split; [lia |]. exists evs', (S j). cbn [rejected]. rewrite <- !app_assoc.
  split; [reflexivity |]. split; [lia | exact Hr'].
Qed.

Lemma cycle_param evs k :
  0 < k < count -> cycle_of evs (ParamsBound k) -> cycle_of (evs ++ [EvParam]) (ParamsBound (k + 1)).
Proof.
  intros Hk (_ & evs' & j & -> & Hj & Hr'). rewrite (Hj ltac:(lia)). split; [lia |].
  exists evs', O. cbn [rejected]. rewrite !app_nil_r, <- app_assoc, repeat_snoc.
  replace (Z.to_nat (k + 1)) with (S (Z.to_nat k)) by lia. now repeat split.
Qed.

Lemma run_cycle evs p : run_from Created evs p -> cycle_of evs p.
Proof.
  induction 1 as [| evs p e p' Hr IH Ht]; [exact I |].
  destruct Ht; try exact I.
  - split; [lia |]. exists evs, O. now repeat split.
  - now apply cycle_param.
  - now apply cycle_send.
  - now apply cycle_rejected.
Qed.

(** In every run of the life cycle, an execution is sent to the
    server after exactly [count] parameters, bound since the statement was
    prepared or last executed, with nothing in between but executions that
    the server rejected. *)
Lemma send_after_all_params evs p :
  run_from Created (evs ++ [EvSend]) p ->
  p = Executing /\
  exists evs' j, evs = evs' ++ repeat EvParam (Z.to_nat count) ++ rejected j /\
                 run_from Created evs' Prepared.
Proof.
  intros H. assert (E : p = Executing).
  { apply run_snoc_inv in H as (q & _ & Ht). inversion Ht; subst; congruence. }
  split; [exact E |]. subst p. destruct (run_cycle _ _ H) as (evs' & j & E & Hr).
  exists evs', j. split; [| exact Hr].
  rewrite !app_assoc in E. apply app_inj_tail in E as [-> _]. now rewrite <- app_assoc.
Qed.

(** Closed is terminal: no event follows the destruction. *)
Lemma closed_terminal evs p : run_from Closed evs p -> evs = [] /\ p = Closed.
Proof.
  induction 1 as [| evs p e p' _ [-> ->] Ht]; [now split |].
  exfalso. destruct all_bound_cases as [[_ Ea] | [_ Ea]]; inversion Ht; congruence.
Qed.

(** The rows of a result set: they arrive right after the result set, and
    once [fetch()] has returned [false] it only returns [false]. *)
Definition rows_of (evs : list event) (p : phase) : Prop :=
  match p with
  | RowStreaming => exists evs' n, evs = evs' ++ EvRows :: repeat EvRow n
  | Exhausted => exists evs' n m, evs = evs' ++ EvRows :: repeat EvRow n ++ repeat EvEnd (S m)
  | _ => True
  end.

Lemma run_rows evs p : run_from Created evs p -> rows_of evs p.
Proof.
  induction 1 as [| evs p e p' Hr IH Ht]; [exact I |].
  destruct Ht; try exact I; cbn [rows_of] in *.
  - destruct all_bound_cases as [[_ ->] | [_ ->]]; exact I.
  - exists evs, O. reflexivity.
  - destruct IH as (evs' & n & ->). exists evs', (S n).
    now rewrite <- app_assoc, <- app_comm_cons, repeat_snoc.
  - destruct IH as (evs' & n & ->). exists evs', n, O.
    now rewrite <- app_assoc, <- app_comm_cons.
  - destruct IH as (evs' & n & m & ->). exists evs', n, (S m).
    now rewrite <- app_assoc, <- app_comm_cons, <- app_assoc, repeat_snoc.
Qed.

(** A run to an event and beyond is a run to the event. *)
Lemma run_prefix p evs1 evs2 : forall p',
  run_from p (evs1 ++ evs2) p' -> exists q, run_from p evs1 q /\ run_from q evs2 p'.
Proof.
  induction evs2 as [| e evs2 IH] using rev_ind; intros p' H.
  - rewrite app_nil_r in H. exists p'. split; [exact H | constructor].
  - rewrite app_assoc in H. apply run_snoc_inv in H as (q' & Hr & Ht).
    destruct (IH _ Hr) as (q & H1 & H2). exists q.
    split; [exact H1 | exact (run_snoc count q _ q' e p' H2 Ht)].
Qed.

(** A row is delivered only after the result set and the rows before
    it. *)
Lemma row_after_rows evs p :
  run_from Created (evs ++ [EvRow]) p -> exists evs' n, evs = evs' ++ EvRows :: repeat EvRow n.
Proof.
  intros H. apply run_snoc_inv in H as (q & Hr & Ht).
  assert (q = RowStreaming)
    by (destruct all_bound_cases as [[_ Ea] | [_ Ea]]; inversion Ht; congruence).
  subst q. exact (run_rows _ _ Hr).
Qed.

(** ** The machine as a function *)

Lemma phase_step_sound p e p' : phase_step count p e = Some p' -> transition p e p'.
Proof.
  destruct all_bound_cases as [[E0 Ea] | [E0 Ea]];
    destruct e, p; cbn [phase_step]; try discriminate;
    repeat match goal with
           | |- context [if ?b then _ else _] => destruct b eqn:?
           end;
    intros [= <-]; try discriminate; try (constructor; lia || discriminate);
    try (rewrite <- Ea; constructor); try lia.
  replace k with count by lia. rewrite <- Ea. constructor.
Qed.

Lemma phase_step_complete p e p' : transition p e p' -> phase_step count p e = Some p'.
Proof.
  destruct all_bound_cases as [[E0 Ea] | [E0 Ea]];
    destruct 1; rewrite ?Ea; cbn [phase_step]; try reflexivity; try lia;
    try (now destruct p);
    repeat match goal with
           | |- context [if ?b then _ else _] => destruct b eqn:?
           end; try reflexivity; try lia; now rewrite Ea.
Qed.

(** The relation and the function are the same machine; so a phase and an
    event have at most one next phase. *)
Lemma phase_step_spec p e p' : transition p e p' <-> phase_step count p e = Some p'.
Proof. split; [apply phase_step_complete | apply phase_step_sound]. Qed.

Lemma transition_deterministic p e p1 p2 :
  transition p e p1 -> transition p e p2 -> p1 = p2.
Proof. rewrite !phase_step_spec. congruence. Qed.

Lemma phase_run_snoc evs : forall p e,
  phase_run count p (evs ++ [e])
  = match phase_run count p evs with
    | Some q => phase_step count q e
    | None => None
    end.
Proof.
  induction evs as [| e' evs IH]; intros p e; cbn [phase_run app].
  - now destruct (phase_step count p e).
  - destruct (phase_step count p e'); [apply IH | reflexivity].
Qed.

Lemma phase_run_spec p evs p' : run_from p evs p' <-> phase_run count p evs = Some p'.
Proof.
  split.
  - induction 1 as [| evs q e q' _ IH Ht]; [reflexivity |].
    rewrite phase_run_snoc, IH. now apply phase_step_spec.
  - revert p. induction evs as [| e evs IH]; intros p; cbn [phase_run].
    + intros [= <-]. constructor.
    + destruct (phase_step count p e) as [q |] eqn:E; [| discriminate]. intros H.
      apply phase_step_spec in E. exact (run_app p [e] q evs p' (run_one _ _ _ E) (IH q H)).
Qed.

End MachineProperties.

#[export] Hint Resolve run_one run_two : lifecycle.

(** ** The client follows the life cycle *)

Section ClientProperties.

Context {S : Type} {E : Engine S} {L : EngineLaws S}.
Context {M : Members S} {C : Connector} {ML : MemberLaws S}.
Variable count : Z.
Hypothesis count_nonneg : 0 <= count.
Variable self : connection.

#[local] Abbreviation transition := (transition count).
#[local] Abbreviation run_from := (run_from count).
#[local] Abbreviation in_phase := (in_phase count).
#[local] Abbreviation client_step := (client_step count self).
#[local] Abbreviation client_run := (client_run count self).

(** A client in a bind cycle with every parameter bound is in the phase
    from which an execution is sent. *)
Lemma in_phase_all_bound p s :
  in_phase p (Binding s) -> Statement.bind_index s = param_count s -> p = all_bound count.
Proof.
  intros H Ei. unfold all_bound. inversion H as [| ? Ok Ec E0 | ? Ok Ec E0 | | |]; subst.
  - rewrite E0 in Ei. now rewrite <- Ei.
  - rewrite Ei. destruct (Z.eqb_spec (param_count s) 0); [lia | reflexivity].
Qed.

Lemma in_phase_binding s :
  statement_ok s -> param_count s = count ->
  exists p, in_phase p (Binding s) /\
            (Statement.bind_index s = 0 -> p = Prepared) /\
            (0 < Statement.bind_index s -> p = ParamsBound (Statement.bind_index s)).
Proof.
  intros Ok Ec. destruct (Z.eq_dec (Statement.bind_index s) 0) as [E0 | N].
  - exists Prepared. split; [now constructor |]. split; [reflexivity | lia].
  - destruct Ok as [Hi Hl]. exists (ParamsBound (Statement.bind_index s)).
    split; [constructor; try assumption; try lia; now split |]. split; [lia | reflexivity].
Qed.

Lemma in_phase_ok p s : in_phase p (Binding s) -> statement_ok s /\ param_count s = count.
Proof. intros H. inversion H; now subst. Qed.

(** A call that changes nothing and sends nothing. *)
Lemma sim_refused p c : in_phase p c -> exists p', run_from p [] p' /\ in_phase p' c.
Proof. intros H. exists p. split; [constructor | exact H]. Qed.

(** An execution that the server rejects. *)
Lemma sim_rejected p s :
  in_phase p (Binding s) -> Statement.bind_index s = param_count s ->
  exists p', run_from p [EvSend; EvRejected] p' /\ in_phase p' (Binding s).
Proof.
  intros H Ei. exists p. split; [| exact H].
  rewrite (in_phase_all_bound p s H Ei). eauto with lifecycle.
Qed.

Lemma sim_prepare reply evs c' :
  client_step Unprepared (OpPrepare reply) = Some (evs, c') ->
  exists p', run_from Created evs p' /\ in_phase p' c'.
Proof.
  cbn [Lifecycle.client_step].
  pose proof (connector_prepare_reply (h <- reply ;; Value (h, count)) self) as P.
  destruct reply as [h | e |]; cbn [bind] in *.
  - destruct (P count_nonneg) as (s & -> & Ok & Ec & Ei). intros [= <- <-].
    exists Prepared. split; [eauto with lifecycle | now constructor].
  - destruct P as [e' ->]. intros [= <- <-]. now apply sim_refused, in_created.
  - now rewrite P.
Qed.

Lemma sim_param p s v evs c' :
  in_phase p (Binding s) -> client_step (Binding s) (OpParam v) = Some (evs, c') ->
  exists p', run_from p evs p' /\ in_phase p' c'.
Proof.
  intros H. destruct (in_phase_ok p s H) as [Ok Ec]. cbn [Lifecycle.client_step].
  destruct (Z_lt_le_dec (Statement.bind_index s) (param_count s)) as [Hlt | Hge].
  - destruct (proj1 (member_param_spec v s Ok) Hlt) as (s' & -> & Ok' & Ei & Ec').
    intros [= <- <-]. exists (ParamsBound (Statement.bind_index s')).
    split; [| constructor; [assumption | congruence | destruct Ok; lia]].
    apply run_one. rewrite Ei.
    inversion H as [| ? _ _ E0 | ? _ _ E0 | | |]; subst; [rewrite E0 |]; constructor; lia.
  - destruct (proj2 (member_param_spec v s Ok) ltac:(destruct Ok; lia)) as [e ->].
    intros [= <- <-]. now apply sim_refused.
Qed.

Lemma sim_execute p s reply evs c' :
  in_phase p (Binding s) -> client_step (Binding s) (OpExecute reply) = Some (evs, c') ->
  exists p', run_from p evs p' /\ in_phase p' c'.
Proof.
  intros H. destruct (in_phase_ok p s H) as [Ok Ec]. cbn [Lifecycle.client_step].
  destruct (Z.eqb_spec (Statement.bind_index s) (param_count s)) as [Ei | N];
    [| intros [= <- <-]; now apply sim_refused].
  destruct (member_execute_reply reply s Ok Ei) as (s' & Ok' & Ec' & Ei' & ->).
  destruct reply as [rows | e |]; cbn [bind]; intros [= <- <-];
    [| now apply sim_rejected].
  exists Prepared. rewrite (in_phase_all_bound p s H Ei). split; [eauto with lifecycle |].
  constructor; congruence.
Qed.

Lemma sim_query p s reply evs c' :
  in_phase p (Binding s) -> client_step (Binding s) (OpQuery reply) = Some (evs, c') ->
  exists p', run_from p evs p' /\ in_phase p' c'.
Proof.
  intros H. cbn [Lifecycle.client_step].
  destruct (Z.eqb_spec (Statement.bind_index s) (param_count s)) as [Ei | N];
    [| intros [= <- <-]; now apply sim_refused].
  destruct (member_query reply s) as [[[r srv] s'] | e |];
    intros [= <- <-]; [| now apply sim_rejected].
  exists RowStreaming. rewrite (in_phase_all_bound p s H Ei).
  split; [eauto with lifecycle | constructor].
Qed.

Lemma sim_fetch p s srv r is_proc evs c' :
  in_phase p (Fetching s srv r) ->
  client_step (Fetching s srv r) (OpFetch is_proc) = Some (evs, c') ->
  exists p', run_from p evs p' /\ in_phase p' c'.
Proof.
  intros H. cbn [Lifecycle.client_step]. destruct (to_come srv) as [| r0 rest] eqn:Er.
  - destruct (engine_fetch_end is_proc srv r Er) as (srv' & -> & E' & _). intros [= <- <-].
    exists Exhausted. split; [| now constructor].
    apply run_one. inversion H; subst; constructor.
  - destruct (engine_fetch_row is_proc srv r r0 rest Er) as (srv' & r' & -> & _).
    intros [= <- <-]. exists RowStreaming.
    split; [| constructor]. apply run_one. inversion H; subst; [constructor | congruence].
Qed.

Lemma sim_destroy p c evs c' :
  in_phase p c -> client_step c OpDestroy = Some (evs, c') ->
  exists p', run_from p evs p' /\ in_phase p' c'.
Proof.
  intros H Ed. exists Closed.
  destruct H; cbn in Ed; try discriminate; injection Ed as <- <-;
    (split; [apply run_one; constructor; discriminate | constructor]).
Qed.

(** Refinement, one call: whatever the member and whatever the server
    answers, the events of a call of the client are a run of the life
    cycle from the phase of the client to the phase of the client after
    the call. *)
Lemma client_step_simulation p c o evs c' :
  in_phase p c -> client_step c o = Some (evs, c') ->
  exists p', run_from p evs p' /\ in_phase p' c'.
Proof.
  intros H Es. destruct o; [| | | | | now apply (sim_destroy p c)];
    destruct c; try discriminate Es.
  - inversion H; subst. now apply (sim_prepare reply).
  - now apply (sim_param p s v).
  - now apply (sim_execute p s reply).
  - now apply (sim_query p s reply).
  - now apply (sim_fetch p s srv r is_proc).
Qed.

(** The events of a sequence of calls from any phase. *)
Lemma client_run_steps ops : forall p c evs c',
  in_phase p c -> client_run c ops = Some (evs, c') ->
  exists p', run_from p evs p' /\ in_phase p' c'.
Proof.
  induction ops as [| o ops IH]; intros p c evs c' H; cbn [Lifecycle.client_run].
  - intros [= <- <-]. exists p. split; [constructor | exact H].
  - destruct (client_step c o) as [[evs1 c1] |] eqn:E1; [| discriminate].
    destruct (client_run c1 ops) as [[evs2 c2] |] eqn:E2; [| discriminate].
    intros [= <- <-]. destruct (client_step_simulation p c o evs1 c1 H E1) as (p1 & R1 & H1).
    destruct (IH p1 c1 evs2 c2 H1 E2) as (p2 & R2 & H2). exists p2.
    split; [exact (run_app count p evs1 p1 evs2 p2 R1 R2) | exact H2].
Qed.

(** C12. Refinement: the members implement the life cycle.  Whatever the calls
    of a client that starts with a connection, and whatever the server
    answers, the events of the calls are a run of the machine of the
    specification from Created, and the client ends in the phase that
    the run reaches. *)
Theorem client_run_simulation ops evs c' :
  client_run Unprepared ops = Some (evs, c') ->
  exists p', run_from Created evs p' /\ in_phase p' c'.
Proof. apply client_run_steps. constructor. Qed.

(** A call of [execute()] or [query()] with a set of parameters that is
    not complete: the member throws, the statement is as it was, and
    nothing is sent. *)
Lemma incomplete_not_sent s :
  Statement.bind_index s <> param_count s ->
  (forall reply, (exists e, member_execute reply s = Throw e) /\
     client_step (Binding s) (OpExecute reply) = Some ([], Binding s)) /\
  (forall reply, (exists e, member_query reply s = Throw e) /\
     client_step (Binding s) (OpQuery reply) = Some ([], Binding s)).
Proof.
  intros N. destruct (member_incomplete s N) as [He Hq]. cbn [Lifecycle.client_step].
  replace (Statement.bind_index s =? param_count s) with false by lia.
  split; intros reply; (split; [| reflexivity]); [apply He | apply Hq].
Qed.

(** C14. A query and the loop of a caller: with every parameter bound, on a
    statement that has a result set, [query()] returns a result from
    which the loop reads every row that the client library holds, in
    order, and the slots of the statement are free again. *)
Theorem query_fetch_all s srv is_proc :
  statement_ok s -> Statement.bind_index s = param_count s ->
  engine_ready srv -> (forall r0, fst (engine_bind srv r0) = true) ->
  exists r s' srv' r',
    member_query (Value srv) s = Value (r, srv, s') /\ Statement.bind_index s' = 0 /\
    fetch_all (Datatypes.S (List.length (to_come srv))) is_proc srv r
    = Some (to_come srv, srv', r') /\
    to_come srv' = [].
Proof.
  intros Ok Ei R B. destruct (member_query_reply srv s Ok Ei) as (s' & r0 & _ & _ & Ei' & _ & Q).
  specialize (B r0). destruct (engine_bind srv r0) as [bound r] eqn:Eb.
  cbn [fst] in B. subst bound.
  destruct (engine_bind_fetch_all is_proc srv r0 r R Eb) as (srv' & r' & F & Ec & _).
  now exists r, s', srv', r'.
Qed.

End ClientProperties.

(** ** The members of the specification have the laws *)

Lemma spec_prepare_reply reply self :
  match reply with
  | Value (handle, count) =>
      0 <= count ->
      exists s, prepare reply self = Value s /\ statement_ok s /\
        param_count s = count /\ Statement.bind_index s = 0
  | Throw _ => exists e, prepare reply self = Throw e
  | Undefined => prepare reply self = Undefined
  end.
Proof.
  destruct reply as [[handle count] | e |]; [| now exists e | reflexivity].
  intros H. exists (statement_new handle count).
  split; [reflexivity |]. split; [now apply statement_new_ok | now split].
Qed.

Lemma spec_param_spec v s :
  statement_ok s ->
  (Statement.bind_index s < param_count s ->
   exists s', param v s = Value s' /\ statement_ok s' /\
     Statement.bind_index s' = Statement.bind_index s + 1 /\ param_count s' = param_count s) /\
  (Statement.bind_index s = param_count s -> exists e, param v s = Throw e).
Proof.
  intros Ok. destruct (param_spec v s Ok) as [Hv Ht]. split; intros H.
  - destruct (Hv H) as (s' & Ep & Ok' & Ei & Ec & _). now exists s'.
  - exists bind_error. now apply Ht.
Qed.

(** The statement after an execution that succeeded: the slots are free
    again. *)
Lemma reset_ok s :
  statement_ok s ->
  let s' := mk_statement (Statement.stmt s) (param_count s) 0 (Statement.binds s) (lengths s) in
  statement_ok s' /\ param_count s' = param_count s /\ Statement.bind_index s' = 0.
Proof.
  intros (Hi & Hb & Hl). unfold statement_ok.
  cbn [Statement.bind_index param_count Statement.binds lengths]. repeat split; lia || assumption.
Qed.

Lemma spec_execute_reply reply s :
  statement_ok s -> Statement.bind_index s = param_count s ->
  exists s', statement_ok s' /\ param_count s' = param_count s /\
    Statement.bind_index s' = 0 /\
    execute reply s = (rows <- reply ;; Value (rows, s')).
Proof.
  intros Ok Ei. destruct (reset_ok s Ok) as (Ok' & Ec' & Ei'). eexists.
  split; [exact Ok' |]. split; [exact Ec' |]. split; [exact Ei' |].
  exact (proj2 (execute_spec reply s) Ei).
Qed.

Lemma spec_query_reply srv s :
  statement_ok s -> Statement.bind_index s = param_count s ->
  exists s' r0, statement_ok s' /\ param_count s' = param_count s /\
    Statement.bind_index s' = 0 /\ Result.stmt r0 = Statement.stmt s /\
    (let '(bound, r) := result_bind srv r0 in
     if bound then query (Value srv) s = Value (r, srv, s')
     else exists e, query (Value srv) s = Throw e).
Proof.
  intros Ok Ei. destruct (reset_ok s Ok) as (Ok' & Ec' & Ei').
  eexists. exists (result_new (Statement.stmt s)).
  split; [exact Ok' |]. split; [exact Ec' |]. split; [exact Ei' |]. split; [reflexivity |].
  unfold query. rewrite Ei, Z.eqb_refl. cbn [negb throw_if bind].
  destruct (result_bind srv (result_new (Statement.stmt s))) as [[] r]; cbn [negb throw_if bind];
    [reflexivity | now exists no_result_set].
Qed.

Lemma spec_incomplete s :
  Statement.bind_index s <> param_count s ->
  (forall reply, exists e, execute reply s = Throw e) /\
  (forall reply : outcome exception server, exists e, query reply s = Throw e).
Proof.
  intros N. split; intros reply; exists bind_error.
  - exact (proj1 (execute_spec reply s) N).
  - unfold query. now replace (Statement.bind_index s =? param_count s) with false by lia.
Qed.

#[export] Instance spec_member_laws : MemberLaws server :=
  {| connector_prepare_reply := spec_prepare_reply;
     member_param_spec := spec_param_spec;
     member_execute_reply := spec_execute_reply;
     member_query_reply := spec_query_reply;
     member_incomplete := spec_incomplete |}.

(** ** Concrete inputs *)

(** The second scenario of the specification as calls of a client: the
    statement is prepared with one placeholder, the parameter is bound,
    the query gives one row, which is fetched; the second [fetch()]
    returns [false]; the objects are destroyed. *)
Definition select_ops : list (op server) :=
  [OpPrepare (Value 7); OpParam (PInt 5); OpQuery (Value select_server);
   OpFetch false; OpFetch false; OpDestroy].

Definition a_connection : connection := mk_connection 1 (mk_tm 0 0 0 1 0 70 4 0 0) false.

Example select_events :
  option_map fst (client_run 1 a_connection Unprepared select_ops)
  = Some [EvPrepare; EvParam; EvSend; EvRows; EvRow; EvEnd; EvClose] /\
  client_run 1 a_connection Unprepared (select_ops ++ [OpFetch false]) = None.
Proof. split; reflexivity. Qed.

(** The machine accepts the events of the scenario, and no row after the
    end. *)
Example select_accepted :
  phase_run 1 Created [EvPrepare; EvParam; EvSend; EvRows; EvRow; EvEnd; EvClose] = Some Closed /\
  phase_run 1 Created [EvPrepare; EvParam; EvSend; EvRows; EvRow; EvEnd; EvRow] = None /\
  phase_run 1 Created [EvPrepare; EvSend] = None.
Proof. now vm_compute. Qed.

Example client_run_simulation_witness :
  exists p', run_from 1 Created [EvPrepare; EvParam; EvSend; EvRows; EvRow; EvEnd; EvClose] p' /\
             in_phase 1 p' (Destroyed : client server).
Proof.
  exact (client_run_simulation 1 ltac:(lia) a_connection select_ops _ _ eq_refl).
Defined.

Example query_fetch_all_witness :
  exists r s' srv' r',
    query (Value select_server) (mk_statement 7 1 1 [Some (PInt 5)] [0])
    = Value (r, select_server, s') /\ Statement.bind_index s' = 0 /\
    fetch_all 2 false select_server r = Some ([select_row], srv', r') /\
    pending_rows srv' = [].
Proof.
  exact (query_fetch_all (mk_statement 7 1 1 [Some (PInt 5)] [0]) select_server false
           ltac:(by_eval) eq_refl ltac:(repeat constructor) (fun r0 => eq_refl)).
Defined.

